(* ===== verification/_CoqProject ===== *)
-Q . S2P
Prelude.v
Floats.v
Binary64.v
Doubles.v
Arrays.v
Units.v
Hydro.v
MakeMap.v
MakeMapFloat.v
SamplesFloat.v
Stars.v
Pyplot.v
PyplotSpec.v
PlotHydro.v
PlotHydroFloat.v
Binary64Hardware.v
Raster.v
Session.v
EndToEnd.v
LogScale.v
