(* ===== verification/Prelude.v ===== *)
(** * Verification of [plotting_class.py]: density maps of an SPH code with a star overlay

    ** The program

    [src/plotting_class.py] holds two functions.

    - [make_map(sph, N, L, offset_x, offset_y)], the grid sampler: it builds
      the [(N+1) x (N+1)] index grids of [numpy.indices], flattens them, maps
      an index [i] to the coordinate [L*(i - N/2.)/N], fills [z] and the three
      velocities with zeros computed as [x*0.], attaches units ([parsec],
      [kms]), adds the optional offsets, asks the hydrodynamics code for the
      state at the sample points and reshapes the density to [(N+1, N+1)].
    - [plot_hydro_and_stars(time, sph, stars, L, filename, offset_x,
      offset_y, title)], the scene composer: it opens a figure and one
      subplot, samples the density with [N = 200], transposes it, computes the
      extent of the image from [L] and the offsets, shows
      [log10(1e-5 + rho)] with [origin = "lower"], scatters the stars with
      sizes [3.0*mass/mean(mass)], inverts the x axis, labels the axes, sets
      the title and calls [pyplot.show()].

    The collaborators are not part of the repository: the hydrodynamics code
    ([get_hydro_state_at_point]), the AMUSE quantity system ([units.parsec],
    [value_in], [as_string_in], quantity addition), the particle set
    ([is_empty], [mass], [x], [y]), numpy and matplotlib's [pyplot].

    ** The files

    - [Prelude] (this file): Python exceptions as values ([exn], [result]
      with stdpp's monad notation), the setoid of rationals as stdpp's
      [≡], the hint databases and tactics of the development, lemmas on
      lists that several components use ([tabulate2], the row-major grid).
    - [Floats]: the numeric domain. A Python float is an [fval]: a rational
      or one of [PInf], [NInf], [NaN]. The operations [fadd], [fsub], [fmul],
      [fdiv], [fneg] follow IEEE 754 on the special values (division by zero
      gives an infinity or [NaN], [inf*0] is [NaN]); [flog10] returns a
      [logval], the logarithm of a positive rational kept symbolically.
      Equivalence [≡] on [fval] is [Qeq] on finite values; every operation
      is [Proper] for it.
    - [Binary64]: IEEE 754 binary64 on top of [Floats]. [round64] is the
      double nearest to a rational, ties to even, with subnormal numbers
      and overflow to an infinity; [fadd64], [fsub64], [fmul64], [fdiv64]
      are the exact operations followed by it.
    - [Doubles]: [is_double], the rationals [round64] leaves as they are
      (closed under negation and, in the normal range, under halving; the
      results of every rounding), and the error of two roundings in a row.
    - [Arrays]: [Module numpy]. A 2-d array is a record of a shape and a
      row-major buffer, as in numpy; [indices], [flatten], [reshape],
      [transpose], [log10], [mean] and the broadcasting of scalar operations
      (class [Broadcast] with its laws).
    - [Units]: [Module units]. Dimensions, units, quantities, [value_in],
      quantity addition with conversion, [as_string_in]; modelled from the
      specification of the quantity system. The text of a printed float is
      a parameter (class [FloatFormat]).
    - [Hydro]: the interface of the hydrodynamics code as a class
      ([FieldEvaluator], the method [get_hydro_state_at_point] of line 31)
      with the laws the sampler relies on ([HydroLaws]), and the evaluators
      used as instances (a field given point by point, a uniform field, a
      failing code, a code that answers with the wrong length).
    - [MakeMap]: [make_map] (lines 10-34). [grid_coord] is the formula of
      lines 13-14, [sample_points] the body down to the call (lines 12-29),
      [make_map] the call and the reshape. [grid_x], [grid_y], [shift] and
      [sample_point] are closed forms of what [sample_points] computes.
    - [MakeMapFloat]: [grid_coord64], the formula of line 13 with every
      operation rounded to a double, and its relation to [grid_coord].
    - [SamplesFloat]: [sample_points64], the body of [make_map] down to the
      call (lines 12-29) in doubles: the coordinates, [z] and the velocities
      as the products [x*0.] and [0.*x], the offsets (in parsec) added by
      [shift64].
    - [Binary64Hardware]: [round64], [grid_coord64] and the arithmetic of
      the composer evaluated beside the binary64 numbers of the machine the
      kernel computes with: the same results on ties, subnormal numbers,
      underflow, overflow, on every coordinate of the grid of the plot, and
      on the limits, the argument of the logarithm and the marker sizes.
    - [Stars]: [Module particles]. The four attributes the composer reads
      (class [StarCollection], lines 76-81), their laws, a particle set.
    - [Pyplot]: [Module pyplot]. The state of the rendering backend: the
      open figures (a [gmap] from the figure number), the current figure,
      each figure's axes with what was drawn on them, the figures displayed;
      and the calls of the composer as computations [py] that run from a
      backend to a result and a backend: the state survives an exception,
      as Python's does. [single] is the backend after the composer opened
      its figure; each call on the current axes is shown to reach it.
    - [PyplotSpec]: the invariant [backend_ok] of the backend (figures
      numbered from 1 without gaps, the current figure open, only open
      figures displayed), the specification of each call as a triple
      [triple P m Q E] (from [P] the call returns in [Q] or raises in [E]),
      the calls as data ([call], [exec], [exec_all]) and the backend as a
      transition system ([step], [steps]) in which a call on the current
      axes is a step only when a current figure with an axes exists.
      [backend_check] is the invariant in a form that computes, which makes
      [backend_ok] decidable.
    - [PlotHydro]: [plot_hydro_and_stars] (lines 37-94), call by call in the
      order of the source. [extent] (lines 53-62), [log_density] (line 64),
      [marker_sizes] (line 78), [star_xy] (lines 80-82) and [plot_title]
      (lines 87-90) are the expressions of its body; [density_image] and
      [star_markers] compose them as values; [scene] is the specification:
      the axes the call leaves and the exception it ends with.
    - [PlotHydroFloat]: what the composer computes itself, in doubles:
      [limits64] ([-L/2], [L/2] and the offsets added, lines 53-62),
      [log_arg64] ([1.e-5 + rho], line 64) and [marker_size64]
      ([3.0*mass/mean], line 78). The numbers the libraries hand over (an
      offset or a density as a number of a unit, the mean) are arguments.
    - [Raster]: the geometry of the renderer, from its specification:
      [pixel_under] is the entry of the array [imshow] draws over a point
      of the axes (the [extent] divided evenly among the columns and the
      rows, row 0 at the bottom for [origin = "lower"]), [marker_at] where
      [scatter] puts a marker, [image_at] the value of the image at a
      point, [screen] the direction in which an axis with given limits
      runs.
    - [Session]: [plot_calls], the body of the composer (lines 48-94) as the
      list of the backend calls it makes; sessions of a driver ([event],
      [perform], [reachable]): calls on the backend and calls of the composer
      in any order, each from the state the one before left.
    - [EndToEnd]: the components together: a call of the composer, from any
      state a session reaches, read through the renderer ([current_axes],
      the axes of the current figure).
    - [LogScale]: the meaning of a [logval] as a real number
      ([ln q / ln 10] over the Standard Library's reals, the only file that
      relies on their axioms) and the bounds the floor [1.e-5] gives, for
      the exact argument and for the argument computed in doubles.

    ** What is proved

    The theorems come in two layers. Those of [MakeMap] and [PlotHydro]
    are about structure: shapes, the order of samples and calls, which
    entry holds which sample, units, error paths, what is drawn where.
    Their numbers are exact rationals, so what they say of a number (an
    end point that is [-L/2], a size that is 3, a z that is 0) is said of
    the value before rounding. What the running program computes is the
    subject of the layer in doubles ([MakeMapFloat], [SamplesFloat],
    [PlotHydroFloat]), where the same facts are stated as they hold of
    binary64: with an error bound, under a bound that excludes overflow,
    or for the sides for which they are exact.

    - Grid sampler: the shape of the result; the value of every entry for a
      field given point by point (x from the row index, y from the column
      index) and for a uniform field; the order of the samples and of the
      answer; the grid is
      symmetric about its centre for every [N >= 1], its end points are
      [-L/2] and [L/2], its spacing is [L/N] and it is increasing; an offset
      shifts x and leaves the rest alone; z and the velocities are zero for
      [N >= 1] and [NaN] for [N = 0]; the function returns exactly when
      [N >= -1] and the offsets are lengths; its outcome with a lawful code
      in full ([ValueError] for [N < -1] whatever the offsets,
      [IncompatibleUnitsException] for an offset that is not a length, both
      before the code is asked), and the error paths of a code that fails
      or answers with the wrong number of values.
    - Scene composer: the function refines [scene] from every state of the
      backend (everything is drawn on the one axes of the new figure, the
      figures open before are left as they were); with lawful collaborators
      it returns; pixel [(r, c)] is [log10(1e-5 + rho)] at [(x_c, y_r)]; the
      transposition loses nothing; the extent is the span of the samples,
      so pixel centres are up to half a pixel away from the samples they
      show; the logarithm is defined for every density [>= 0]; the markers
      are at the positions of the stars, a star of mean mass has size 3,
      the sizes add up to [3 n], a zero mean gives no finite size; the
      reversed x axis and how an offset moves the limits; the title, given
      or made from the time; what is left behind when the sampler or the
      conversion of the time raises; [show] displays every open figure, a
      figure left by an earlier call that raised among them.
    - The grid in doubles: for fewer than [2^53] steps the half-integer
      [i - N/2] is computed without error; the computed grid is symmetric
      about zero for every [N] and every side; it keeps the order of the
      indices; its relative error is at most [2 u + u^2] with [u = 2^-53];
      for an integer side (the defaults) it is the exact grid rounded once.
      The rounding itself is odd, monotone, idempotent, exact on doubles
      and within [u] in the normal range.
      The grid spans [[-y, y]] for the last coordinate [y], which is
      within [(2 u + u^2) L/2] of [L/2] and need not be [L/2].
    - The samples in doubles: z and the velocities are zero exactly at the
      samples where the product [L*(i - N/2.)] does not overflow, and
      [nan] at the others, for every finite side. For [|L| N <= 2^1023]
      and offsets of at most [2^1022] parsec nothing overflows: every x and y handed to the code
      is a finite double, z and the velocities are zero. Beyond that the
      product [L*(i - N/2.)] overflows before the division: for
      [L = 2^1020] the first coordinate is [-inf] although [-L/2] is a
      double, and z there is [NaN]. With an offset the coordinates keep the
      order of the indices, and the error against the exact [c + d] is at
      most [u |c + d| + (1 + u)(2 u + u^2) |c|]: relative to the
      coordinate before the offset, not to the sum.
    - The composer in doubles: [-L/2] and [L/2] are exact for a side of
      the normal range, so the limits are the exact ones, rounded once when
      an offset is added; the argument of the logarithm is never below the
      double nearest to [1.e-5], which is above [10^-5], so every pixel of
      a density [>= 0] is defined and above [-5]; a density of at most
      [2^-71] in size is absorbed by the floor; a marker size is within
      [2 u + u^2] of the exact one, and the star of the mean mass has a
      size within [2^-51] of 3, the distance to the doubles next to 3,
      and 3 when three times its mass is a double. For an integer side, as the
      default 10, the limits of the image are the first and the last
      sample coordinate, offsets included; for other sides they can differ
      in the last place.
    - Orientation: on the axes the composer leaves, the marker of a star
      within the limits is at the position of the star, and the entry of
      the image drawn under it is the density sampled within one pixel
      ([L/201] along x and along y) of the star. The transposition of the
      map, [origin = "lower"] and the two negations of x are what keeps
      stars and gas registered; the reversed x limits mirror both alike:
      east is left, for the image as for the markers. A star outside the
      limits is scattered all the same, with no entry of the image under
      it.
    - Calls and sessions: the composer is the replay of the list of its
      calls, and the list is a path of the transition system of the backend
      (no call relies on a figure or an axes the backend would make by
      itself); the invariant of the backend holds in every state of every
      session; a call of the composer opens one figure and the model has
      no call that closes one, so
      the figures of a session add up; a lawful call returns with every
      open figure displayed. The invariant can be run as a check on a
      concrete backend. The state after calls of the composer in a row is
      made of their scenes: one figure per call with the axes of its
      scene, the last one current, and displayed are the figures that were
      open when the last call that returned ended.
    - End to end: after any session, a call of the composer makes a new
      figure current, numbered one more than the figures open, keeps the
      invariant, and on the current axes each star within the limits is
      drawn over the entry of the image that shows the density within one
      pixel of it, also when the call raises on the time after drawing; the
      argument [filename] changes nothing.
    - Pixel values as real numbers: at least [-5] for every density
      [>= 0], and not decreasing with the density.
    - Arrays, units, backend: the lemmas the above rest on ([reshape] and
      [flatten], [transpose] as an involution that exchanges indices,
      well-formedness, conversion between compatible units, fresh figure
      numbers).

    ** Bounds and abstractions

    A finite float is an exact rational. The grid, the samples, the
    limits, the argument of the logarithm and the marker sizes are verified
    twice: as exact values ([MakeMap], [PlotHydro]) and as doubles
    ([MakeMapFloat], [SamplesFloat], [PlotHydroFloat]); what the libraries compute on the way is verified
    as exact values, and the sign of zero is not modelled. The theorems on
    the grid in doubles ask for [N < 2^53], so that indices and
    half-integers are doubles; the error bounds ask for a result of at
    least twice the smallest normal double in size, below which the error
    is absolute, not relative; the limits are exact for a side of at least
    that size. The bounds of the theorem on overflow are those of the
    intermediate results: [|i - N/2| <= N/2], so the product is at most
    [|L| N / 2 <= 2^1022] and stays so when divided by [N >= 1], and a sum
    of two numbers of at most [2^1022] is at most [2^1023], below the
    largest double. The geometry of the renderer is on rationals: the pixel
    under a point is found by a floor, and the upper end of the extent
    belongs to the last pixel. Every division of the program divides
    by a non-negative number ([N], [2], the count of stars) or by the mean
    mass, so the sign of an infinity produced by a division by zero is that of
    the numerator, as modelled. Python is Python 3: [/] is true division.
    [N] is an integer ([Z]), [L] any float. No definition uses fuel: every
    function is structurally recursive or a composition of list operations,
    so the results are total functions of their inputs. The composer fixes
    [N = 200]: its theorems are proved for that grid without evaluating it.

    ** Not modelled

    Of the rendering only the geometry is modelled: colours, the colour
    map, interpolation, the shape of a marker, the window and the blocking
    of [pyplot.show()] are not. Nor are the text of a float printed by
    Python (a parameter of the model, class [FloatFormat]), the internals
    of the hydrodynamics code, and saving to [filename] (commented out in
    the source). In doubles the model stops where the libraries begin: how
    the quantity system converts an offset or a density to a number, how
    the array library sums for [mean] and rounds [log10] is theirs and not
    this program's, so those numbers are arguments of [PlotHydroFloat] and [SamplesFloat].
    The layer in doubles takes the offsets as numbers of parsec: the
    attachment of units and the exception for an offset that is not a
    length are in [MakeMap.make_map] alone, where no number rounds. The
    geometry of the renderer is given for an extent that runs upwards
    ([L > 0]); a reversed extent is not modelled. The backend has no call
    that closes a figure, because the program makes none (line 95 is a
    comment): that figures are never closed is a fact of the model, not a
    theorem about matplotlib.
    The simulation driver that calls the composer is modelled only as the
    sessions it can put the backend through. The lines of the source the
    development does not map are the docstring, the imports, blank lines
    and the comment of line 95: everything that executes is modelled.
*)

From Stdlib Require Export QArith Lqa Lia ZArith.
From stdpp Require Export base tactics option list strings.

#[global] Open Scope Q_scope.
#[global] Open Scope list_scope.
#[global] Open Scope general_if_scope.

(** ** Python exceptions as values *)

(** The exceptions the two functions can raise or let through. *)
Inductive exn : Type :=
| ValueError
| IncompatibleUnitsException
| CodeException (msg : string).

#[export] Instance exn_eq_dec : EqDecision exn.
Proof. solve_decision. Defined.

(** A computation that returns a value or raises. *)
Inductive result (A : Type) : Type :=
| Ok (a : A)
| Raise (e : exn).
Arguments Ok {A} a.
Arguments Raise {A} e.

#[export] Instance result_ret : MRet result := fun A a => Ok a.
#[export] Instance result_bind : MBind result := fun A B f m =>
  match m with Ok a => f a | Raise e => Raise e end.
#[export] Instance result_fmap : FMap result := fun A B f m =>
  match m with Ok a => Ok (f a) | Raise e => Raise e end.

Definition is_Ok {A} (m : result A) : Prop := exists a, m = Ok a.
Definition raises {A} (m : result A) (e : exn) : Prop := m = Raise e.

(** Equivalence of results: the same exception, or equivalent values. *)
Inductive result_equiv `{Equiv A} : Equiv (result A) :=
| Ok_equiv a b : a ≡ b -> Ok a ≡ Ok b
| Raise_equiv e : Raise e ≡ Raise e.
#[export] Existing Instance result_equiv.

(** ** The rationals as a setoid of stdpp *)

#[export] Instance Q_equiv : Equiv Q := Qeq.
#[export] Instance Q_equivalence : Equivalence (≡@{Q}).
Proof. exact Q_Setoid. Qed.
#[export] Instance Q_equiv_dec : RelDecision (≡@{Q}) := Qeq_dec.

(** ** Hint databases and tactics *)

Create HintDb pyfloat discriminated.
Create HintDb pyarr discriminated.
Create Rewrite HintDb pyarr_rw.
Create Rewrite HintDb pyfloat_rw.
Create Rewrite HintDb result_rw.

(** Split a goal or hypothesis on the [result] it matches on. *)
Ltac case_result :=
  match goal with
  | |- context [ match ?m with Ok _ => _ | Raise _ => _ end ] =>
      let E := fresh "E" in destruct m eqn:E
  | H : context [ match ?m with Ok _ => _ | Raise _ => _ end ] |- _ =>
      let E := fresh "E" in destruct m eqn:E
  end.

(** Unfold the monad operations of [result]. *)
Ltac unfold_result :=
  unfold mbind, mret, fmap, result_bind, result_ret, result_fmap in *.

(** Turn [≡] on rationals into [==] and call the linear solver. *)
Ltac qlra := unfold equiv, Q_equiv in *; lra.

(** ** Lemmas on results *)

Section result_facts.
Context {A B : Type}.
Implicit Types (m : result A) (f : A -> result B).

Lemma bind_Ok m f b :
  m ≫= f = Ok b <-> exists a, m = Ok a /\ f a = Ok b.
Proof.
  destruct m; unfold_result; split.
  - eauto.
  - intros (? & [= ->] & ?); done.
  - done.
  - intros (? & ? & ?); done.
Qed.

Lemma bind_Raise m f e :
  m ≫= f = Raise e <-> m = Raise e \/ exists a, m = Ok a /\ f a = Raise e.
Proof.
  destruct m as [a|e']; unfold_result; split.
  - eauto.
  - intros [? | (? & [= ->] & ?)]; done.
  - intros [= ->]; eauto.
  - intros [[= ->] | (? & ? & ?)]; done.
Qed.

Lemma fmap_Ok (g : A -> B) m b :
  g <$> m = Ok b <-> exists a, m = Ok a /\ b = g a.
Proof.
  destruct m; unfold_result; split.
  - intros [= <-]; eauto.
  - intros (? & [= ->] & ->); done.
  - done.
  - intros (? & ? & ?); done.
Qed.

Lemma bind_Ok_l (a : A) f : Ok a ≫= f = f a.
Proof. done. Qed.

Lemma bind_Raise_l e f : Raise e ≫= f = Raise e.
Proof. done. Qed.

Lemma fmap_Ok_l (g : A -> B) (a : A) : g <$> Ok a = Ok (g a).
Proof. done. Qed.

Lemma fmap_Raise_l (g : A -> B) e : g <$> Raise e = Raise e.
Proof. done. Qed.

Lemma is_Ok_Ok (a : A) : is_Ok (Ok a).
Proof. by exists a. Qed.

Lemma not_is_Ok_Raise e : ~ is_Ok (@Raise A e).
Proof. by intros [? ?]. Qed.

End result_facts.

#[export] Hint Resolve is_Ok_Ok : pyarr.
#[export] Hint Rewrite @bind_Ok_l @bind_Raise_l @fmap_Ok_l @fmap_Raise_l : result_rw.

(** Run the binds whose left side is a known result. *)
Ltac result_simpl := autorewrite with result_rw.

#[export] Instance result_equivalence `{Equiv A} :
  Equivalence (≡@{A}) -> Equivalence (≡@{result A}).
Proof.
  intros HA; split.
  - intros [a|e]; by constructor.
  - intros ? ? [a b Hab|e]; by constructor.
  - intros ? ? ? [a b Hab|e]; inversion 1; subst; constructor; by etrans.
Qed.

#[export] Instance Ok_proper `{Equiv A} : Proper ((≡) ==> (≡)) (@Ok A).
Proof. by constructor. Qed.

Lemma Ok_equiv_inv `{Equiv A} (a b : A) : Ok a ≡ Ok b -> a ≡ b.
Proof. by inversion 1. Qed.

(** ** Lemmas on integers and rationals *)

Lemma inject_Z_of_nat_lt (n m : nat) :
  (n < m)%nat -> inject_Z (Z.of_nat n) < inject_Z (Z.of_nat m).
Proof. intros. rewrite <- Zlt_Qlt. lia. Qed.

Lemma inject_Z_of_nat_nonneg (n : nat) : 0 <= inject_Z (Z.of_nat n).
Proof. change 0 with (inject_Z 0). rewrite <- Zle_Qle. lia. Qed.

Lemma inject_Z_pos (z : Z) : (0 < z)%Z -> 0 < inject_Z z.
Proof. intros. change 0 with (inject_Z 0). by rewrite <- Zlt_Qlt. Qed.

Lemma inject_Z_nonzero (z : Z) : z <> 0%Z -> ~ inject_Z z == 0.
Proof.
  intros Hz Heq. apply Hz. by apply (proj1 (inject_Z_injective z 0)).
Qed.

(** ** Lemmas on lists *)

(** A row-major position [i * m + j] with [j < m] determines [i] and [j]. *)
Lemma divmod_rowmajor (m i j : nat) :
  (j < m)%nat -> ((i * m + j) / m = i /\ (i * m + j) mod m = j)%nat.
Proof.
  intros Hj. split.
  - rewrite Nat.div_add_l by lia. rewrite Nat.div_small by lia. lia.
  - rewrite Nat.add_comm, Nat.Div0.mod_add. by apply Nat.mod_small.
Qed.

Lemma rowmajor_lt (n m i j : nat) :
  (i < n)%nat -> (j < m)%nat -> (i * m + j < n * m)%nat.
Proof. nia. Qed.

(** Every position below [n * m] is a row-major position. *)
Lemma rowmajor_split (n m k : nat) :
  (k < n * m)%nat ->
  (k = (k / m) * m + k mod m /\ k / m < n /\ k mod m < m)%nat.
Proof.
  intros Hk. assert (m <> 0)%nat by lia.
  pose proof (Nat.div_mod_eq k m). pose proof (Nat.mod_upper_bound k m).
  repeat split; [lia| |lia].
  apply Nat.Div0.div_lt_upper_bound. lia.
Qed.

(** The list [f i j] for [i < n], [j < m] in row-major order. *)
Definition tabulate2 {A} (n m : nat) (f : nat -> nat -> A) : list A :=
  i ← seq 0 n; (f i <$> seq 0 m).

Section tabulate2_facts.
Context {A : Type}.
Implicit Types (f : nat -> nat -> A).

Lemma tabulate2_S n m f :
  tabulate2 (S n) m f = (f 0%nat <$> seq 0 m) ++ tabulate2 n m (fun i => f (S i)).
Proof.
  unfold tabulate2. simpl. f_equal.
  by rewrite <- fmap_S_seq, list_fmap_bind.
Qed.

Lemma tabulate2_length n m f : length (tabulate2 n m f) = (n * m)%nat.
Proof.
  revert f. induction n as [|n IH]; intros f; [done|].
  rewrite tabulate2_S, length_app, length_fmap, length_seq, IH. lia.
Qed.

Lemma tabulate2_lookup n m f i j :
  (i < n)%nat -> (j < m)%nat -> tabulate2 n m f !! (i * m + j)%nat = Some (f i j).
Proof.
  revert f i. induction n as [|n IH]; intros f i Hi Hj; [lia|].
  rewrite tabulate2_S. destruct i as [|i].
  - rewrite lookup_app_l by (rewrite length_fmap, length_seq; lia).
    simpl. rewrite list_lookup_fmap, lookup_seq_lt by lia. done.
  - rewrite lookup_app_r by (rewrite length_fmap, length_seq; lia).
    rewrite length_fmap, length_seq.
    replace (S i * m + j - m)%nat with (i * m + j)%nat by lia.
    apply (IH (fun i => f (S i))); lia.
Qed.

Lemma tabulate2_lookup_flat n m f k :
  (k < n * m)%nat -> tabulate2 n m f !! k = Some (f (k / m) (k mod m))%nat.
Proof.
  intros Hk. destruct (rowmajor_split n m k Hk) as (Heq & ? & ?).
  rewrite Heq at 1. by apply tabulate2_lookup.
Qed.

Lemma tabulate2_ext n m f g :
  (forall i j, (i < n)%nat -> (j < m)%nat -> f i j = g i j) ->
  tabulate2 n m f = tabulate2 n m g.
Proof.
  intros Hfg. apply list_eq; intros k.
  destruct (decide (k < n * m)%nat) as [Hk|Hk].
  - rewrite !tabulate2_lookup_flat by done.
    destruct (rowmajor_split n m k Hk) as (_ & ? & ?). f_equal. by apply Hfg.
  - rewrite !lookup_ge_None_2; [done| |]; rewrite tabulate2_length; lia.
Qed.

Lemma tabulate2_Forall (P : A -> Prop) n m f :
  (forall i j, (i < n)%nat -> (j < m)%nat -> P (f i j)) ->
  Forall P (tabulate2 n m f).
Proof.
  intros HP. apply Forall_lookup. intros k x Hk.
  assert (k < n * m)%nat as Hlt.
  { apply lookup_lt_Some in Hk. by rewrite tabulate2_length in Hk. }
  rewrite tabulate2_lookup_flat in Hk by done. injection Hk as <-.
  destruct (rowmajor_split n m k Hlt) as (_ & ? & ?). by apply HP.
Qed.

End tabulate2_facts.

Lemma tabulate2_fmap {A B} n m (f : nat -> nat -> A) (g : A -> B) :
  g <$> tabulate2 n m f = tabulate2 n m (fun i j => g (f i j)).
Proof.
  apply list_eq; intros k. rewrite list_lookup_fmap.
  destruct (decide (k < n * m)%nat) as [Hk|Hk].
  - by rewrite !tabulate2_lookup_flat.
  - rewrite !lookup_ge_None_2; [done| |]; rewrite tabulate2_length; lia.
Qed.

#[export] Hint Rewrite @tabulate2_length : pyarr_rw.
