(* ===== verification/Floats.v ===== *)
(** * Floats: the values and arithmetic of Python floats

    A float is a rational or one of the three special values of IEEE 754.
    The operations are the exact ones on finite values and follow IEEE 754
    on the special values. Rounding, overflow and the sign of zero are left
    out (a zero divisor is [+0.0]). [flog10] keeps the logarithm of a
    positive rational as a [logval], which [LogScale] reads as a real. *)

From S2P Require Import Prelude.

(** ** Values *)

Inductive fval : Type :=
| Fin (q : Q)
| PInf
| NInf
| NaN.

(** The float of a Python [int]. *)
Definition of_int (z : Z) : fval := Fin (inject_Z z).

Definition is_finite (v : fval) : bool :=
  match v with Fin _ => true | _ => false end.

Definition is_nan (v : fval) : bool :=
  match v with NaN => true | _ => false end.

(** Equivalence: [Qeq] on finite values, identity on the special ones. *)
Definition feq (a b : fval) : Prop :=
  match a, b with
  | Fin p, Fin q => p == q
  | PInf, PInf | NInf, NInf | NaN, NaN => True
  | _, _ => False
  end.

#[export] Instance fval_equiv : Equiv fval := feq.

(** ** Arithmetic *)

Definition fneg (v : fval) : fval :=
  match v with
  | Fin q => Fin (- q)
  | PInf => NInf
  | NInf => PInf
  | NaN => NaN
  end.

Definition fadd (a b : fval) : fval :=
  match a, b with
  | NaN, _ | _, NaN => NaN
  | Fin p, Fin q => Fin (p + q)
  | PInf, NInf | NInf, PInf => NaN
  | PInf, _ | _, PInf => PInf
  | NInf, _ | _, NInf => NInf
  end.

Definition fsub (a b : fval) : fval := fadd a (fneg b).

(** An infinity times or over a finite value: the sign of the finite value
    decides; [zero] is the result for a zero. *)
Definition signed (inf : fval) (q : Q) (zero : fval) : fval :=
  match q ?= 0 with
  | Gt => inf
  | Lt => fneg inf
  | Eq => zero
  end.

Definition fmul (a b : fval) : fval :=
  match a, b with
  | NaN, _ | _, NaN => NaN
  | Fin p, Fin q => Fin (p * q)
  | Fin p, PInf | PInf, Fin p => signed PInf p NaN
  | Fin p, NInf | NInf, Fin p => signed NInf p NaN
  | PInf, PInf | NInf, NInf => PInf
  | PInf, NInf | NInf, PInf => NInf
  end.

Definition fdiv (a b : fval) : fval :=
  match a, b with
  | NaN, _ | _, NaN => NaN
  | Fin p, Fin q =>
      match q ?= 0 with
      | Eq => signed PInf p NaN
      | _ => Fin (p / q)
      end
  | Fin _, (PInf | NInf) => Fin 0
  | PInf, Fin q => signed PInf q PInf
  | NInf, Fin q => signed NInf q NInf
  | (PInf | NInf), (PInf | NInf) => NaN
  end.

(** Simplify an operation only when its operands are known values. *)
Arguments fneg !v /.
Arguments fadd !a !b /.
Arguments fsub !a !b /.
Arguments fmul !a !b /.
Arguments fdiv !a !b /.

(** Left-to-right sum, from [0.0]. *)
Definition fsum (l : list fval) : fval := foldl fadd (Fin 0) l.

(** ** Order *)

(** [a <= b] on floats; false when either side is [NaN]. *)
Definition fle (a b : fval) : Prop :=
  match a, b with
  | NaN, _ | _, NaN => False
  | NInf, _ | _, PInf => True
  | Fin p, Fin q => p <= q
  | _, _ => False
  end.

(** ** Logarithms *)

(** The result of [log10]: the logarithm of a positive rational, kept as
    its argument, or a special value. *)
Inductive logval : Type :=
| LogOf (q : Q)
| LNInf
| LPInf
| LNaN.

Definition leq (a b : logval) : Prop :=
  match a, b with
  | LogOf p, LogOf q => p == q
  | LNInf, LNInf | LPInf, LPInf | LNaN, LNaN => True
  | _, _ => False
  end.

#[export] Instance logval_equiv : Equiv logval := leq.

(** [numpy.log10] on one float: [-inf] at zero, [nan] below. *)
Definition flog10 (v : fval) : logval :=
  match v with
  | Fin q =>
      match q ?= 0 with
      | Gt => LogOf q
      | Eq => LNInf
      | Lt => LNaN
      end
  | PInf => LPInf
  | NInf | NaN => LNaN
  end.

(** A logarithm that is a number: neither infinite nor [nan]. *)
Definition log_defined (l : logval) : bool :=
  match l with LogOf _ => true | _ => false end.

(** ** The setoid of floats *)

#[export] Instance fval_equivalence : Equivalence (≡@{fval}).
Proof.
  split; repeat intros [?| | |]; unfold equiv, fval_equiv, feq; simpl;
    eauto using Qeq_refl, Qeq_sym, Qeq_trans; tauto.
Qed.

#[export] Instance fval_equiv_dec : RelDecision (≡@{fval}).
Proof.
  intros [p| | |] [q| | |]; unfold equiv, fval_equiv; simpl;
    try (left; exact I); try (right; exact (fun H => H)).
  apply Qeq_dec.
Defined.

#[export] Instance logval_equivalence : Equivalence (≡@{logval}).
Proof.
  split; repeat intros [?| | |]; unfold equiv, logval_equiv, leq; simpl;
    eauto using Qeq_refl, Qeq_sym, Qeq_trans; tauto.
Qed.

#[export] Instance logval_equiv_dec : RelDecision (≡@{logval}).
Proof.
  intros [p| | |] [q| | |]; unfold equiv, logval_equiv; simpl;
    try (left; exact I); try (right; exact (fun H => H)).
  apply Qeq_dec.
Defined.

Lemma Fin_equiv (p q : Q) : Fin p ≡ Fin q <-> p == q.
Proof. done. Qed.

Lemma equiv_Fin_l (v : fval) (q : Q) : v ≡ Fin q -> exists p, v = Fin p /\ p == q.
Proof. destruct v; try done. eauto. Qed.

Lemma equiv_NaN (v : fval) : v ≡ NaN <-> v = NaN.
Proof. destruct v; done. Qed.

Lemma equiv_PInf (v : fval) : v ≡ PInf <-> v = PInf.
Proof. destruct v; done. Qed.

Lemma equiv_NInf (v : fval) : v ≡ NInf <-> v = NInf.
Proof. destruct v; done. Qed.

#[export] Instance Fin_proper : Proper ((≡) ==> (≡)) Fin.
Proof. intros p q H. exact H. Qed.

#[export] Instance Fin_proper_Qeq : Proper (Qeq ==> (≡)) Fin.
Proof. intros p q H. exact H. Qed.

#[export] Instance LogOf_proper_Qeq : Proper (Qeq ==> (≡)) LogOf.
Proof. intros p q H. exact H. Qed.

(** Case analysis on every float of the context; the hypotheses on finite
    values become equations of rationals, and the goals that hold by
    computation are closed. *)
Ltac fval_cases :=
  repeat match goal with
    | v : fval |- _ => destruct v
    end;
  unfold equiv, fval_equiv, logval_equiv, feq, leq in * |-; simpl in * |-;
  try done; simpl; try reflexivity.

(** Close an equivalence of finite values by linear arithmetic. *)
Ltac fin_lra :=
  unfold equiv, fval_equiv, logval_equiv, feq, leq; simpl; lra.

Lemma signed_proper inf p q z : p == q -> signed inf p z = signed inf q z.
Proof. intros H. unfold signed. by rewrite H. Qed.

#[export] Instance is_finite_proper : Proper ((≡) ==> (=)) is_finite.
Proof. intros a b H. fval_cases. Qed.

#[export] Instance is_nan_proper : Proper ((≡) ==> (=)) is_nan.
Proof. intros a b H. fval_cases. Qed.

#[export] Instance fneg_proper : Proper ((≡) ==> (≡)) fneg.
Proof. intros a b H. fval_cases. by rewrite H. Qed.

#[export] Instance fadd_proper : Proper ((≡) ==> (≡) ==> (≡)) fadd.
Proof. intros a b H c d H'. fval_cases. by rewrite H, H'. Qed.

#[export] Instance fsub_proper : Proper ((≡) ==> (≡) ==> (≡)) fsub.
Proof. intros a b H c d H'. unfold fsub. by rewrite H, H'. Qed.

#[export] Instance fmul_proper : Proper ((≡) ==> (≡) ==> (≡)) fmul.
Proof.
  intros a b H c d H'. fval_cases;
    rewrite ?(signed_proper _ _ _ _ H), ?(signed_proper _ _ _ _ H');
    try reflexivity.
  by rewrite H, H'.
Qed.

#[export] Instance fdiv_proper : Proper ((≡) ==> (≡) ==> (≡)) fdiv.
Proof.
  intros a b H c d H'. fval_cases;
    rewrite ?(signed_proper _ _ _ _ H), ?(signed_proper _ _ _ _ H');
    try reflexivity.
  rewrite (Qcompare_comp _ _ H' 0 0 (Qeq_refl 0)).
  destruct (_ ?= 0); try reflexivity; by rewrite H, H'.
Qed.

#[export] Instance flog10_proper : Proper ((≡) ==> (≡)) flog10.
Proof.
  intros a b H. fval_cases.
  rewrite (Qcompare_comp _ _ H 0 0 (Qeq_refl 0)).
  destruct (_ ?= 0); try reflexivity. by rewrite H.
Qed.

#[export] Instance fle_proper : Proper ((≡) ==> (≡) ==> iff) fle.
Proof. intros a b H c d H'. fval_cases. by rewrite H, H'. Qed.

#[export] Instance log_defined_proper : Proper ((≡) ==> (=)) log_defined.
Proof. intros [| | |] [| | |] H; done. Qed.

(** ** Arithmetic on finite values *)

Lemma fdiv_Fin (p q : Q) : ~ q == 0 -> fdiv (Fin p) (Fin q) = Fin (p / q).
Proof.
  intros Hq. simpl. destruct (Qcompare_spec q 0); done.
Qed.

Lemma fdiv_by_zero (p : Q) : fdiv (Fin p) (Fin 0) = signed PInf p NaN.
Proof. done. Qed.

(** A finite number over zero is an infinity or not a number. *)
Lemma fdiv_zero_not_finite (p q : Q) :
  q == 0 -> is_finite (fdiv (Fin p) (Fin q)) = false.
Proof.
  intros Hq. simpl. rewrite (proj1 (Qeq_alt _ _) Hq).
  unfold signed. by destruct (p ?= 0).
Qed.

Lemma fdiv_of_int (p : Q) (z : Z) :
  z <> 0%Z -> fdiv (Fin p) (of_int z) = Fin (p / inject_Z z).
Proof. intros. by apply fdiv_Fin, inject_Z_nonzero. Qed.

Lemma signed_pos inf q z : 0 < q -> signed inf q z = inf.
Proof. intros H. unfold signed. by rewrite (proj1 (Qgt_alt _ _) H). Qed.

Lemma signed_neg inf q z : q < 0 -> signed inf q z = fneg inf.
Proof. intros H. unfold signed. by rewrite (proj1 (Qlt_alt _ _) H). Qed.

Lemma signed_zero inf q z : q == 0 -> signed inf q z = z.
Proof. intros H. unfold signed. by rewrite (proj1 (Qeq_alt _ _) H). Qed.

(** Negation is exact, so negating twice gives the value back. *)
Lemma fneg_involutive (v : fval) : fneg (fneg v) = v.
Proof.
  destruct v as [[n d]| | |]; simpl; try done.
  unfold Qopp; simpl. by rewrite Z.opp_involutive.
Qed.

Lemma fadd_comm (a b : fval) : fadd a b ≡ fadd b a.
Proof. fval_cases; fin_lra. Qed.

Lemma fadd_assoc (a b c : fval) : fadd a (fadd b c) ≡ fadd (fadd a b) c.
Proof. fval_cases; fin_lra. Qed.

Lemma fadd_0_l (a : fval) : fadd (Fin 0) a ≡ a.
Proof. fval_cases; fin_lra. Qed.

Lemma fadd_0_r (a : fval) : fadd a (Fin 0) ≡ a.
Proof. fval_cases; fin_lra. Qed.

Lemma fmul_comm (a b : fval) : fmul a b ≡ fmul b a.
Proof. fval_cases; fin_lra. Qed.

(** [x*0.]: zero for a finite [x], [nan] otherwise. *)
Lemma fmul_0_r (a : fval) :
  fmul a (Fin 0) ≡ if is_finite a then Fin 0 else NaN.
Proof. fval_cases; fin_lra. Qed.

Lemma fmul_0_l (a : fval) :
  fmul (Fin 0) a ≡ if is_finite a then Fin 0 else NaN.
Proof. fval_cases; fin_lra. Qed.

Lemma fsub_Fin (p q : Q) : fsub (Fin p) (Fin q) ≡ Fin (p - q).
Proof. fin_lra. Qed.

Lemma fsub_diag (a : fval) :
  fsub a a ≡ if is_finite a then Fin 0 else NaN.
Proof. fval_cases; fin_lra. Qed.

Lemma fneg_fadd (a b : fval) : fneg (fadd a b) ≡ fadd (fneg a) (fneg b).
Proof. fval_cases; fin_lra. Qed.

(** ** Signs *)

(** The sign of the negated value is the other one. *)
Lemma signed_opp inf q : signed inf (- q) NaN = fneg (signed inf q NaN).
Proof.
  unfold signed.
  destruct (Qcompare_spec (- q) 0), (Qcompare_spec q 0);
    try done; try lra. by rewrite fneg_involutive.
Qed.

Lemma signed_fneg inf q : signed (fneg inf) q NaN = fneg (signed inf q NaN).
Proof. unfold signed. by destruct (q ?= 0). Qed.

Lemma fmul_fneg_r (a b : fval) : fmul a (fneg b) ≡ fneg (fmul a b).
Proof.
  destruct a as [p| | |], b as [q| | |]; cbn [fmul fneg]; try done;
    rewrite ?signed_opp; try done;
    try (by rewrite <- signed_fneg).
  apply Fin_equiv. ring.
Qed.

Lemma fdiv_fneg_l (a b : fval) : fdiv (fneg a) b ≡ fneg (fdiv a b).
Proof.
  destruct a as [p| | |], b as [q| | |]; cbn [fdiv fneg]; try done;
    try (unfold signed; by destruct (q ?= 0));
    try (apply Fin_equiv; ring).
  destruct (q ?= 0); rewrite ?signed_opp; try done;
    apply Fin_equiv; unfold Qdiv; ring.
Qed.

Lemma fsub_swap (p q : Q) : fsub (Fin q) (Fin p) ≡ fneg (fsub (Fin p) (Fin q)).
Proof. apply Fin_equiv. ring. Qed.

(** ** The order *)

Lemma fle_Fin (p q : Q) : fle (Fin p) (Fin q) <-> p <= q.
Proof. done. Qed.

Lemma fle_refl (v : fval) : is_nan v = false -> fle v v.
Proof. destruct v; try done. intros _. apply Qle_refl. Qed.

Lemma fle_trans (a b c : fval) : fle a b -> fle b c -> fle a c.
Proof. destruct a, b, c; try done. apply Qle_trans. Qed.

(** Adding a number keeps the order. *)
Lemma fadd_mono_l (a b : fval) (d : Q) :
  fle a b -> fle (fadd a (Fin d)) (fadd b (Fin d)).
Proof. destruct a, b; cbn [fadd fle]; try done. intros. lra. Qed.

Lemma fle_antisym (a b : fval) : fle a b -> fle b a -> a ≡ b.
Proof. destruct a, b; try done. cbn [fle]. intros. by apply Fin_equiv, Qle_antisym. Qed.

(** Dividing by a positive number keeps the order. *)
Lemma fdiv_mono_pos (a b : fval) (n : Q) :
  0 < n -> fle a b -> fle (fdiv a (Fin n)) (fdiv b (Fin n)).
Proof.
  intros Hn. assert (~ n == 0) as Hn0 by lra.
  destruct a as [p| | |], b as [q| | |]; try done;
    rewrite ?fdiv_Fin by done; cbn [fdiv]; rewrite ?signed_pos by done; try done.
  cbn [fle]. intros Hpq. apply Qmult_le_compat_r; [done|].
  apply Qlt_le_weak, Qinv_lt_0_compat, Hn.
Qed.

(** ** Sums *)

Lemma fsum_nil : fsum [] = Fin 0.
Proof. done. Qed.

Lemma foldl_fadd_proper (a b : fval) (l : list fval) :
  a ≡ b -> foldl fadd a l ≡ foldl fadd b l.
Proof.
  revert a b. induction l as [|x l IH]; intros a b H; simpl; [done|].
  apply IH. by rewrite H.
Qed.

Lemma foldl_fadd_shift (a x : fval) (l : list fval) :
  foldl fadd (fadd a x) l ≡ fadd a (foldl fadd x l).
Proof.
  revert a x. induction l as [|y l IH]; intros a x; simpl; [done|].
  rewrite <- IH. apply foldl_fadd_proper. by rewrite fadd_assoc.
Qed.

Lemma fsum_cons (x : fval) (l : list fval) : fsum (x :: l) ≡ fadd x (fsum l).
Proof.
  unfold fsum.
  change (foldl fadd (Fin 0) (x :: l)) with (foldl fadd (fadd (Fin 0) x) l).
  rewrite <- foldl_fadd_shift. apply foldl_fadd_proper, fadd_comm.
Qed.

Lemma fsum_app (l k : list fval) : fsum (l ++ k) ≡ fadd (fsum l) (fsum k).
Proof.
  induction l as [|x l IH].
  - change (fsum ([] ++ k)) with (fsum k). by rewrite fsum_nil, fadd_0_l.
  - change ((x :: l) ++ k) with (x :: (l ++ k)).
    by rewrite !fsum_cons, IH, fadd_assoc.
Qed.

(** The sum of finite values is the finite sum. *)
Fixpoint Qsum (l : list Q) : Q :=
  match l with
  | [] => 0
  | q :: l => q + Qsum l
  end.

Lemma Qsum_scale (c : Q) (l : list Q) :
  Qsum ((fun q => c * q) <$> l) == c * Qsum l.
Proof. induction l as [|q l IH]; simpl; [|rewrite IH]; ring. Qed.

Lemma Qsum_ext (f g : Q -> Q) (l : list Q) :
  (forall q, f q == g q) -> Qsum (f <$> l) == Qsum (g <$> l).
Proof. intros Hfg. induction l as [|q l IH]; simpl; [|rewrite IH, Hfg]; reflexivity. Qed.

Lemma fsum_Fin (l : list Q) : fsum (Fin <$> l) ≡ Fin (Qsum l).
Proof.
  induction l as [|q l IH]; [done|].
  rewrite fmap_cons, fsum_cons, IH. simpl. reflexivity.
Qed.

#[export] Instance fsum_proper : Proper ((≡) ==> (≡)) fsum.
Proof.
  intros l k H. induction H as [|x y l k Hxy _ IH]; [done|].
  by rewrite !fsum_cons, Hxy, IH.
Qed.

(** ** Logarithms of shifted densities *)

Lemma flog10_pos (q : Q) : 0 < q -> flog10 (Fin q) = LogOf q.
Proof. intros H. simpl. by rewrite (proj1 (Qgt_alt _ _) H). Qed.

Lemma flog10_zero (q : Q) : q == 0 -> flog10 (Fin q) = LNInf.
Proof. intros H. simpl. by rewrite (proj1 (Qeq_alt _ _) H). Qed.

Lemma flog10_neg (q : Q) : q < 0 -> flog10 (Fin q) = LNaN.
Proof. intros H. simpl. by rewrite (proj1 (Qlt_alt _ _) H). Qed.

Lemma log_defined_iff (v : fval) :
  log_defined (flog10 v) = true <-> exists q, v = Fin q /\ 0 < q.
Proof.
  split.
  - destruct v as [q| | |]; simpl; try done.
    destruct (Qcompare_spec q 0); try done. eauto.
  - intros (q & -> & Hq). by rewrite flog10_pos.
Qed.

#[export] Hint Rewrite fneg_involutive : pyfloat_rw.
#[export] Hint Resolve fadd_comm fmul_comm fadd_0_l fadd_0_r : pyfloat.
