(* ===== verification/Binary64.v ===== *)
(** * Binary64: rounding to the nearest double

    numpy computes in IEEE 754 binary64. A double is an integer of at most
    53 bits times a power of two, the exponent of the last place between
    [-1074] and [970]. [round64 q] is the double nearest to the rational
    [q], the one with the even last bit when [q] is half way between two,
    and an infinity when the nearest number of 53 bits is [2^1024] or
    beyond. The operations [fadd64], [fsub64], [fmul64] and [fdiv64] are the
    exact operations of [Floats] followed by this rounding, as the standard
    requires of them.

    Proved here: the rounding is odd, monotone and idempotent, it leaves
    doubles as they are, and in the normal range its error is at most
    [u64 = 2^-53] times the number rounded. The sign of zero is not kept. *)

From Stdlib Require Import Qabs Qround Qpower.
From S2P Require Import Prelude Floats.

Lemma inject_Z_succ z : inject_Z (z + 1) == inject_Z z + 1.
Proof. by rewrite inject_Z_plus. Qed.

Lemma inject_Z_pred z : inject_Z (z - 1) == inject_Z z - 1.
Proof. unfold Z.sub. by rewrite inject_Z_plus. Qed.

(** ** Powers of two *)

Definition pow2 (e : Z) : Q := 2 ^ e.

Lemma pow2_pos e : 0 < pow2 e.
Proof. by apply Qpower_0_lt. Qed.

Lemma pow2_nonzero e : ~ pow2 e == 0.
Proof. pose proof (pow2_pos e). lra. Qed.

Lemma pow2_add a b : pow2 (a + b) == pow2 a * pow2 b.
Proof. by apply Qpower_plus. Qed.

Lemma pow2_sub a b : pow2 (a - b) == pow2 a / pow2 b.
Proof. by apply Qpower_minus. Qed.

Lemma pow2_le a b : (a <= b)%Z -> pow2 a <= pow2 b.
Proof. intros. by apply Qpower_le_compat_l. Qed.

Lemma pow2_lt a b : (a < b)%Z -> pow2 a < pow2 b.
Proof. intros. by apply Qpower_lt_compat_l. Qed.

Lemma pow2_lt_inv a b : pow2 a < pow2 b -> (a < b)%Z.
Proof. intros. by apply (Qpower_lt_compat_l_inv 2). Qed.

Lemma pow2_Z a : (0 <= a)%Z -> pow2 a == inject_Z (2 ^ a).
Proof. intros. symmetry. by apply Zpower_Qpower. Qed.

Lemma pow2_succ a : pow2 (a + 1) == 2 * pow2 a.
Proof. rewrite pow2_add. unfold pow2 at 2. rewrite Qpower_1_r. lra. Qed.

(** ** The binade of a positive rational *)

(** [mag q] is the exponent [e] with [2^e <= q < 2^(e+1)], for [q > 0]. *)
Definition mag (q : Q) : Z :=
  let e := (Z.log2 (Qnum q) - Z.log2 (Z.pos (Qden q)))%Z in
  if Qle_bool (pow2 e) q then e else (e - 1)%Z.

Lemma Z_log2_Q (a : Z) :
  (0 < a)%Z -> pow2 (Z.log2 a) <= inject_Z a < pow2 (Z.log2 a + 1).
Proof.
  intros Ha. destruct (Z.log2_spec a Ha) as [Hlo Hhi].
  pose proof (Z.log2_nonneg a).
  rewrite !pow2_Z by lia. rewrite <- Zle_Qle, <- Zlt_Qlt.
  split; [done|]. by rewrite <- Z.add_1_r in Hhi.
Qed.

Lemma mag_spec q : 0 < q -> pow2 (mag q) <= q < pow2 (mag q + 1).
Proof.
  intros Hq. destruct q as [a b]. unfold mag; cbn [Qnum Qden].
  assert (0 < a)%Z as Ha by (unfold Qlt in Hq; cbn in Hq; lia).
  destruct (Z_log2_Q a Ha) as [Hal Hah].
  destruct (Z_log2_Q (Z.pos b) eq_refl) as [Hbl Hbh].
  set (la := Z.log2 a) in *. set (lb := Z.log2 (Z.pos b)) in *.
  assert (a # b == inject_Z a / inject_Z (Z.pos b)) as Hab by apply Qmake_Qdiv.
  assert (0 < inject_Z (Z.pos b)) as Hb by (by apply inject_Z_pos).
  set (x := inject_Z a) in *. set (y := inject_Z (Z.pos b)) in *.
  assert ((a # b) * y == x) as Hxy by (rewrite Hab; field; lra).
  pose proof (pow2_pos (la - lb)) as Hp.
  assert (pow2 la == pow2 (la - lb) * pow2 lb) as Hla.
  { rewrite <- pow2_add. by replace (la - lb + lb)%Z with la by lia. }
  assert (pow2 (la + 1) == 2 * pow2 (la - lb) * pow2 lb) as Hla1.
  { rewrite pow2_succ, Hla. lra. }
  rewrite pow2_succ in Hbh.
  destruct (Qle_bool (pow2 (la - lb)) (a # b)) eqn:Hle.
  - apply Qle_bool_iff in Hle. split; [done|]. rewrite pow2_succ. nra.
  - assert (a # b < pow2 (la - lb)) as Hlt.
    { apply Qnot_le_lt. intros H. apply Qle_bool_iff in H. congruence. }
    replace (la - lb - 1 + 1)%Z with (la - lb)%Z by lia. split; [|done].
    assert (pow2 (la - lb) == 2 * pow2 (la - lb - 1)) as Hp1.
    { rewrite <- pow2_succ. by replace (la - lb - 1 + 1)%Z with (la - lb)%Z by lia. }
    pose proof (pow2_pos (la - lb - 1)). nra.
Qed.

(** The binade is the only exponent with this property. *)
Lemma mag_unique q e : pow2 e <= q < pow2 (e + 1) -> mag q = e.
Proof.
  intros [Hlo Hhi]. pose proof (pow2_pos e).
  destruct (mag_spec q) as [Hml Hmh]; [lra|].
  assert (mag q < e + 1)%Z by (apply pow2_lt_inv; lra).
  assert (e < mag q + 1)%Z by (apply pow2_lt_inv; lra). lia.
Qed.

Lemma mag_proper p q : 0 < p -> p == q -> mag p = mag q.
Proof. intros Hp Hpq. apply mag_unique. rewrite Hpq. apply mag_spec. lra. Qed.

Lemma mag_mono p q : 0 < p -> p <= q -> (mag p <= mag q)%Z.
Proof.
  intros Hp Hpq. destruct (mag_spec p Hp) as [Hpl _].
  destruct (mag_spec q) as [_ Hqh]; [lra|].
  assert (mag p < mag q + 1)%Z by (apply pow2_lt_inv; lra). lia.
Qed.

Lemma mag_pow2_le q e : 0 < q -> pow2 e <= q -> (e <= mag q)%Z.
Proof.
  intros Hq He. destruct (mag_spec q Hq) as [_ Hh].
  assert (e < mag q + 1)%Z by (apply pow2_lt_inv; lra). lia.
Qed.

Lemma mag_pow2_lt q e : 0 < q -> q < pow2 e -> (mag q < e)%Z.
Proof.
  intros Hq He. destruct (mag_spec q Hq) as [Hl _]. apply pow2_lt_inv. lra.
Qed.

(** ** Rounding a rational to the nearest integer, ties to even *)

Definition rne (q : Q) : Z :=
  let f := Qfloor q in
  match (q - inject_Z f ?= 1 # 2)%Q with
  | Lt => f
  | Gt => (f + 1)%Z
  | Eq => if Z.even f then f else (f + 1)%Z
  end.

Lemma Qfloor_bounds q : inject_Z (Qfloor q) <= q < inject_Z (Qfloor q) + 1.
Proof.
  split; [apply Qfloor_le|]. pose proof (Qlt_floor q) as H.
  by rewrite inject_Z_plus in H.
Qed.

(** The cases of [rne]: below the half, above it, and the tie. *)
Lemma rne_cases q :
  let f := Qfloor q in
  (q - inject_Z f < 1 # 2 /\ rne q = f) \/
  (1 # 2 < q - inject_Z f /\ rne q = (f + 1)%Z) \/
  (q - inject_Z f == 1 # 2 /\ rne q = if Z.even f then f else (f + 1)%Z).
Proof.
  intros f. unfold rne. fold f.
  destruct (q - inject_Z f ?= 1 # 2) eqn:Hc.
  - apply Qeq_alt in Hc. auto.
  - apply Qlt_alt in Hc. auto.
  - apply Qgt_alt in Hc. auto.
Qed.

Lemma rne_error q : Qabs (inject_Z (rne q) - q) <= 1 # 2.
Proof.
  pose proof (Qfloor_bounds q) as [Hl Hh]. apply Qabs_Qle_condition.
  destruct (rne_cases q) as [[Hc ->]|[[Hc ->]|[Hc ->]]];
    [| |destruct (Z.even _)]; rewrite ?inject_Z_plus; change (inject_Z 1) with 1; lra.
Qed.

Lemma rne_Z z : rne (inject_Z z) = z.
Proof.
  pose proof (Qfloor_Z z) as Hf.
  destruct (rne_cases (inject_Z z)) as [[Hc ->]|[[Hc ->]|[Hc ->]]];
    rewrite Hf in *; [done|lra|lra].
Qed.

#[export] Instance rne_proper : Proper (Qeq ==> eq) rne.
Proof.
  intros p q Hpq. unfold rne. rewrite (Qfloor_comp _ _ Hpq).
  assert (p - inject_Z (Qfloor q) == q - inject_Z (Qfloor q)) as H by lra.
  by rewrite (Qcompare_comp _ _ H _ _ (Qeq_refl (1 # 2))).
Qed.

(** Between two integers the rounding stays: [rne] is monotone on the
    integers. *)
Lemma rne_ge q z : inject_Z z <= q -> (z <= rne q)%Z.
Proof.
  intros Hz. pose proof (Qfloor_bounds q) as [Hl Hh].
  assert (z < Qfloor q + 1)%Z.
  { rewrite Zlt_Qlt, inject_Z_succ. lra. }
  destruct (rne_cases q) as [[Hc ->]|[[Hc ->]|[Hc ->]]];
    [| |destruct (Z.even _)]; lia.
Qed.

Lemma rne_le q z : q <= inject_Z z -> (rne q <= z)%Z.
Proof.
  intros Hz. pose proof (Qfloor_bounds q) as [Hl Hh].
  assert (Qfloor q <= z)%Z by (rewrite Zle_Qle; lra).
  destruct (Z.eq_dec (Qfloor q) z) as [<-|Hne].
  { assert (q == inject_Z (Qfloor q)) as Hq by lra.
    rewrite (rne_proper _ _ Hq), rne_Z. lia. }
  destruct (rne_cases q) as [[Hc ->]|[[Hc ->]|[Hc ->]]];
    [| |destruct (Z.even _)]; lia.
Qed.

Lemma Qfloor_eq z q : inject_Z z <= q < inject_Z z + 1 -> Qfloor q = z.
Proof.
  intros [Hl Hh]. pose proof (Qfloor_bounds q) as [Hfl Hfh].
  assert (z < Qfloor q + 1)%Z.
  { rewrite Zlt_Qlt, inject_Z_succ. lra. }
  assert (Qfloor q < z + 1)%Z.
  { rewrite Zlt_Qlt, inject_Z_succ. lra. }
  lia.
Qed.

Lemma rne_mono p q : p <= q -> (rne p <= rne q)%Z.
Proof.
  intros Hpq. pose proof (Qfloor_bounds p) as [Hpl Hph].
  pose proof (Qfloor_bounds q) as [Hql Hqh].
  destruct (Z.lt_ge_cases (Qfloor p) (Qfloor q)) as [Hlt|Hge].
  - transitivity (Qfloor p + 1)%Z.
    + apply rne_le. rewrite inject_Z_succ. lra.
    + transitivity (Qfloor q); [lia|by apply rne_ge].
  - assert (Qfloor p = Qfloor q) as Hf.
    { apply Z.le_antisymm; [|done]. by apply Qfloor_resp_le. }
    destruct (rne_cases p) as [[Hp ->]|[[Hp ->]|[Hp ->]]],
             (rne_cases q) as [[Hq ->]|[[Hq ->]|[Hq ->]]];
      rewrite Hf in *; try destruct (Z.even _); first [lia|lra].
Qed.

Lemma rne_opp q : rne (- q) = (- rne q)%Z.
Proof.
  pose proof (Qfloor_bounds q) as [Hl Hh]. set (f := Qfloor q) in *.
  destruct (Qeq_dec q (inject_Z f)) as [Hq|Hq].
  { assert (- q == inject_Z (- f)) as Hn by (rewrite inject_Z_opp; lra).
    by rewrite (rne_proper _ _ Hn), (rne_proper _ _ Hq), !rne_Z. }
  assert (inject_Z f < q) as Hlt.
  { destruct (Qle_lt_or_eq _ _ Hl) as [?|He]; [done|]. by destruct Hq. }
  assert (Qfloor (- q) = (- f - 1)%Z) as Hf.
  { apply Qfloor_eq. rewrite inject_Z_pred, inject_Z_opp. lra. }
  assert (inject_Z (- f - 1) == - inject_Z f - 1) as Hi.
  { by rewrite inject_Z_pred, inject_Z_opp. }
  assert (Z.even (- f - 1) = negb (Z.even f)) as He.
  { by rewrite Z.even_sub, Z.even_opp; destruct (Z.even f). }
  destruct (rne_cases (- q)) as [[Hn ->]|[[Hn ->]|[Hn ->]]],
           (rne_cases q) as [[Hp ->]|[[Hp ->]|[Hp ->]]];
    fold f in Hp |- *; rewrite Hf, ?Hi, ?He in *;
    try destruct (Z.even f); cbn [negb]; first [lia|lra].
Qed.

Lemma rne_nonneg q : 0 <= q -> (0 <= rne q)%Z.
Proof. intros. by apply rne_ge. Qed.

(** ** Rounding to a double *)

(** The doubles have 53 bits; the last place of the smallest ones is
    [2^-1074]; the doubles are below [2^1024]. *)
Definition emin : Z := -1074.
Definition emax : Z := 1024.

(** The exponent of the last place of the doubles of the binade of [q]. *)
Definition ulp_exp (q : Q) : Z := Z.max (mag (Qabs q) - 52) emin.

(** The multiple of the last place nearest to [q], the even one of two. *)
Definition rnd (q : Q) : Q :=
  let e := ulp_exp q in
  inject_Z (rne (q / pow2 e)) * pow2 e.

(** The double nearest to [q]: an infinity from [2^1024] on. *)
Definition round64 (q : Q) : fval :=
  let r := rnd q in
  if Qle_bool (pow2 emax) (Qabs r)
  then (if Qle_bool 0 r then PInf else NInf)
  else Fin r.

(** The rounding of a float that is the exact result of an operation. *)
Definition fl (v : fval) : fval :=
  match v with
  | Fin q => round64 q
  | _ => v
  end.

Lemma fl_Fin q : fl (Fin q) = round64 q.
Proof. reflexivity. Qed.

Lemma Qabs_pos_iff q : ~ q == 0 <-> 0 < Qabs q.
Proof.
  split.
  - intros Hq. destruct (Qle_lt_or_eq _ _ (Qabs_nonneg q)) as [?|He]; [done|].
    destruct Hq. revert He. apply Qabs_case; intros; lra.
  - intros Hq H0. rewrite H0 in Hq. by apply Qlt_irrefl in Hq.
Qed.

Lemma ulp_exp_proper p q : ~ p == 0 -> p == q -> ulp_exp p = ulp_exp q.
Proof.
  intros Hp Hpq. unfold ulp_exp. f_equal. f_equal.
  apply mag_proper; [by apply Qabs_pos_iff|by rewrite Hpq].
Qed.

Lemma ulp_exp_opp q : ulp_exp (- q) = ulp_exp q.
Proof.
  unfold ulp_exp. destruct q as [a b]. unfold Qabs, Qopp; cbn [Qnum Qden].
  by rewrite Z.abs_opp.
Qed.

Lemma rnd_zero q : q == 0 -> rnd q == 0.
Proof.
  intros Hq. unfold rnd.
  assert (forall x, q / x == inject_Z 0) as H by (intros x; rewrite Hq; apply Qmult_0_l).
  rewrite (rne_proper _ _ (H _)), rne_Z. apply Qmult_0_l.
Qed.

#[export] Instance rnd_proper : Proper (Qeq ==> Qeq) rnd.
Proof.
  intros p q Hpq. destruct (Qeq_dec p 0) as [Hp|Hp].
  { rewrite (rnd_zero p Hp), (rnd_zero q); [done|by rewrite <- Hpq]. }
  unfold rnd. rewrite <- (ulp_exp_proper p q Hp Hpq).
  assert (forall x, p / x == q / x) as H by (intros x; by rewrite Hpq).
  by rewrite (rne_proper _ _ (H _)).
Qed.

Lemma rnd_opp q : rnd (- q) == - rnd q.
Proof.
  unfold rnd. rewrite ulp_exp_opp. set (e := ulp_exp q).
  assert (- q / pow2 e == - (q / pow2 e)) as H.
  { field. apply pow2_nonzero. }
  rewrite (rne_proper _ _ H), rne_opp, inject_Z_opp. ring.
Qed.

(** The error of a rounding is at most half a last place. *)
Lemma rnd_half_ulp q : Qabs (rnd q - q) <= (1 # 2) * pow2 (ulp_exp q).
Proof.
  unfold rnd. set (e := ulp_exp q). pose proof (pow2_pos e) as He.
  pose proof (rne_error (q / pow2 e)) as Hr.
  assert (inject_Z (rne (q / pow2 e)) * pow2 e - q ==
          (inject_Z (rne (q / pow2 e)) - q / pow2 e) * pow2 e) as -> by (field; lra).
  rewrite Qabs_Qmult, (Qabs_pos (pow2 e)) by lra.
  set (d := Qabs _) in *. assert (0 <= d) by apply Qabs_nonneg.
  clearbody d. nra.
Qed.

(** The unit roundoff of the doubles. *)
Definition u64 : Q := pow2 (-53).

(** The smallest normal double. *)
Definition min_normal : Q := pow2 (-1022).

(** In the normal range the error of a rounding is at most [u64] times the
    number rounded. *)
Lemma rnd_error q : min_normal <= Qabs q -> Qabs (rnd q - q) <= u64 * Qabs q.
Proof.
  intros Hq. pose proof (pow2_pos (-1022)) as Hm. unfold min_normal in Hq.
  assert (0 < Qabs q) as Hpos by lra.
  pose proof (mag_pow2_le _ _ Hpos Hq) as Hmag.
  destruct (mag_spec _ Hpos) as [Hlo _].
  pose proof (rnd_half_ulp q) as Hr. unfold ulp_exp, emin in Hr.
  rewrite Z.max_l in Hr by lia.
  replace (mag (Qabs q) - 52)%Z with (mag (Qabs q) + -52)%Z in Hr by lia.
  rewrite pow2_add in Hr.
  assert ((1 # 2) * pow2 (-52) == u64) as Hu by reflexivity.
  pose proof (pow2_pos (-53)) as Hu0. fold u64 in Hu0.
  set (m := pow2 (mag (Qabs q))) in *. set (a := Qabs q) in *.
  set (d := Qabs (rnd q - q)) in *. set (p := pow2 (-52)) in *.
  clearbody m a d p. nra.
Qed.

Lemma Qabs_inject_Z z : Qabs (inject_Z z) = inject_Z (Z.abs z).
Proof. reflexivity. Qed.

(** A number of at most 53 bits times a power of two from [2^-1074] on is a
    double: rounding leaves it as it is. *)
Lemma rnd_exact z k :
  (Z.abs z < 2 ^ 53)%Z -> (emin <= k)%Z ->
  rnd (inject_Z z * pow2 k) == inject_Z z * pow2 k.
Proof.
  intros Hz Hk. destruct (Z.eq_dec z 0%Z) as [->|Hz0].
  { rewrite rnd_zero; [|apply Qmult_0_l]. by rewrite Qmult_0_l. }
  set (q := inject_Z z * pow2 k). pose proof (pow2_pos k) as Hpk.
  assert (Qabs q == inject_Z (Z.abs z) * pow2 k) as Habs.
  { unfold q. by rewrite Qabs_Qmult, Qabs_inject_Z, (Qabs_pos (pow2 k)) by lra. }
  assert (0 < inject_Z (Z.abs z)) as Hzp by (apply inject_Z_pos; lia).
  assert (inject_Z (Z.abs z) < pow2 53) as Hzh.
  { rewrite pow2_Z by lia. by rewrite <- Zlt_Qlt. }
  assert (0 < Qabs q) as Hpos by (rewrite Habs; nra).
  assert (mag (Qabs q) < 53 + k)%Z as Hmag.
  { apply mag_pow2_lt; [done|]. rewrite Habs, pow2_add. nra. }
  assert (ulp_exp q <= k)%Z as He by (unfold ulp_exp; lia).
  unfold rnd. set (e := ulp_exp q) in *.
  assert (pow2 k == inject_Z (2 ^ (k - e)) * pow2 e) as Hke.
  { rewrite <- pow2_Z, <- pow2_add by lia. by replace (k - e + e)%Z with k by lia. }
  assert (q / pow2 e == inject_Z (z * 2 ^ (k - e))) as Hm.
  { unfold q. rewrite Hke, inject_Z_mult. field. apply pow2_nonzero. }
  rewrite (rne_proper _ _ Hm), rne_Z, inject_Z_mult. unfold q. rewrite Hke. ring.
Qed.

(** ** Rounding keeps the order *)

Lemma ulp_exp_pos q : 0 < q -> ulp_exp q = Z.max (mag q - 52) emin.
Proof.
  intros Hq. unfold ulp_exp. f_equal. f_equal.
  apply mag_proper; [|apply Qabs_pos; lra]. rewrite Qabs_pos; lra.
Qed.

Lemma ulp_exp_ge q : (emin <= ulp_exp q)%Z.
Proof. unfold ulp_exp. lia. Qed.

(** Rounding does not cross a power of two that is a double of the binade
    or above it. *)
Lemma rnd_le_pow2 q g : q <= pow2 g -> (ulp_exp q <= g)%Z -> rnd q <= pow2 g.
Proof.
  intros Hq Hg. unfold rnd. set (e := ulp_exp q) in *.
  pose proof (pow2_pos e) as He.
  assert (pow2 g == inject_Z (2 ^ (g - e)) * pow2 e) as Hge.
  { rewrite <- pow2_Z, <- pow2_add by lia. by replace (g - e + e)%Z with g by lia. }
  assert (rne (q / pow2 e) <= 2 ^ (g - e))%Z as Hr.
  { apply rne_le. apply Qle_shift_div_r; [done|]. by rewrite <- Hge. }
  rewrite Zle_Qle in Hr. rewrite Hge.
  set (a := inject_Z (rne _)) in *. set (b := inject_Z (2 ^ _)) in *.
  set (p := pow2 e) in *. clearbody a b p. nra.
Qed.

Lemma rnd_ge_pow2 q g : pow2 g <= q -> (ulp_exp q <= g)%Z -> pow2 g <= rnd q.
Proof.
  intros Hq Hg. unfold rnd. set (e := ulp_exp q) in *.
  pose proof (pow2_pos e) as He.
  assert (pow2 g == inject_Z (2 ^ (g - e)) * pow2 e) as Hge.
  { rewrite <- pow2_Z, <- pow2_add by lia. by replace (g - e + e)%Z with g by lia. }
  assert (2 ^ (g - e) <= rne (q / pow2 e))%Z as Hr.
  { apply rne_ge. apply Qle_shift_div_l; [done|]. by rewrite <- Hge. }
  rewrite Zle_Qle in Hr. rewrite Hge.
  set (a := inject_Z (rne _)) in *. set (b := inject_Z (2 ^ _)) in *.
  set (p := pow2 e) in *. clearbody a b p. nra.
Qed.

Lemma rnd_nonneg q : 0 <= q -> 0 <= rnd q.
Proof.
  intros Hq. unfold rnd. pose proof (pow2_pos (ulp_exp q)) as He.
  assert (0 <= rne (q / pow2 (ulp_exp q)))%Z as Hr.
  { apply rne_nonneg, Qle_shift_div_l; [done|]. lra. }
  rewrite Zle_Qle in Hr. change (inject_Z 0) with 0 in Hr.
  set (a := inject_Z _) in *. set (p := pow2 _) in *. clearbody a p. nra.
Qed.

Lemma rnd_nonpos q : q <= 0 -> rnd q <= 0.
Proof.
  intros Hq. assert (q == - - q) as -> by ring. rewrite rnd_opp.
  assert (0 <= rnd (- q)) by (apply rnd_nonneg; lra). lra.
Qed.

Lemma rnd_mono_pos x y : 0 < x -> x <= y -> rnd x <= rnd y.
Proof.
  intros Hx Hxy. assert (0 < y) as Hy by lra.
  pose proof (mag_mono x y Hx Hxy) as Hmag.
  pose proof (ulp_exp_pos x Hx) as Hex. pose proof (ulp_exp_pos y Hy) as Hey.
  destruct (Z.eq_dec (ulp_exp x) (ulp_exp y)) as [He|He].
  - unfold rnd. rewrite <- He. set (e := ulp_exp x). pose proof (pow2_pos e) as Hp.
    assert (rne (x / pow2 e) <= rne (y / pow2 e))%Z as Hr.
    { apply rne_mono. apply Qle_shift_div_l; [done|].
      assert (x / pow2 e * pow2 e == x) as -> by (field; lra). done. }
    rewrite Zle_Qle in Hr.
    set (a := inject_Z (rne (x / _))) in *. set (b := inject_Z (rne (y / _))) in *.
    set (p := pow2 e) in *. clearbody a b p. nra.
  - destruct (mag_spec x Hx) as [_ Hxh]. destruct (mag_spec y Hy) as [Hyl _].
    apply Qle_trans with (pow2 (mag y)).
    + apply rnd_le_pow2; [|lia].
      assert (pow2 (mag x + 1) <= pow2 (mag y)) by (apply pow2_le; lia). lra.
    + apply rnd_ge_pow2; [done|lia].
Qed.

Lemma rnd_mono x y : x <= y -> rnd x <= rnd y.
Proof.
  intros Hxy. destruct (Qlt_le_dec 0 x) as [Hx|Hx]; [by apply rnd_mono_pos|].
  destruct (Qlt_le_dec y 0) as [Hy|Hy].
  - assert (rnd (- y) <= rnd (- x)) as H by (apply rnd_mono_pos; lra).
    rewrite !rnd_opp in H. lra.
  - pose proof (rnd_nonpos x Hx). pose proof (rnd_nonneg y Hy). lra.
Qed.

(** ** The result of a rounding is a double *)

Lemma rne_abs_le q z : Qabs q <= inject_Z z -> (Z.abs (rne q) <= z)%Z.
Proof.
  intros Hq. apply Qabs_Qle_condition in Hq as [Hl Hh].
  rewrite <- inject_Z_opp in Hl. apply rne_ge in Hl. apply rne_le in Hh. lia.
Qed.

(** The integer a rounding multiplies the last place with has at most 53
    bits, or is [2^53]. *)
Lemma rne_mantissa q : (Z.abs (rne (q / pow2 (ulp_exp q))) <= 2 ^ 53)%Z.
Proof.
  apply rne_abs_le. set (e := ulp_exp q). pose proof (pow2_pos e) as He.
  unfold Qdiv. rewrite Qabs_Qmult, (Qabs_pos (/ pow2 e))
    by (apply Qlt_le_weak, Qinv_lt_0_compat, He).
  apply Qle_shift_div_r; [done|]. rewrite <- pow2_Z, <- pow2_add by lia.
  destruct (Qeq_dec q 0) as [Hq|Hq].
  { rewrite Hq. apply Qlt_le_weak, pow2_pos. }
  apply Qabs_pos_iff in Hq. destruct (mag_spec _ Hq) as [_ Hh].
  assert (pow2 (mag (Qabs q) + 1) <= pow2 (53 + e)); [|lra].
  apply pow2_le. unfold e, ulp_exp. lia.
Qed.

(** The result of a rounding is given by 53 bits and an exponent, the one
    of the last place of the binade or the next. *)
Lemma rnd_repr q :
  exists z k, (Z.abs z < 2 ^ 53)%Z /\ (ulp_exp q <= k <= ulp_exp q + 1)%Z /\
    rnd q == inject_Z z * pow2 k.
Proof.
  pose proof (rne_mantissa q) as Hn. unfold rnd.
  set (e := ulp_exp q) in *. set (n := rne (q / pow2 e)) in *. clearbody n e.
  change (2 ^ 53)%Z with 9007199254740992%Z in *.
  destruct (Z.eq_dec (Z.abs n) 9007199254740992%Z) as [Hmax|Hlt];
    [|exists n, e; split; [lia|]; split; [lia|done]].
  assert (n = 9007199254740992 \/ n = -9007199254740992)%Z as [-> | ->] by lia;
    [exists 4503599627370496%Z, (e + 1)%Z|exists (-4503599627370496)%Z, (e + 1)%Z];
    (split; [done|]); (split; [lia|]); rewrite pow2_succ; unfold inject_Z; lra.
Qed.

Lemma rnd_idempotent q : rnd (rnd q) == rnd q.
Proof.
  destruct (rnd_repr q) as (z & k & Hz & Hk & ->). pose proof (ulp_exp_ge q).
  apply rnd_exact; [done|lia].
Qed.

(** ** The double nearest to a rational *)

Lemma Qle_bool_proper p p' q q' : p == p' -> q == q' -> Qle_bool p q = Qle_bool p' q'.
Proof.
  intros Hp Hq. destruct (Qle_bool p q) eqn:H1, (Qle_bool p' q') eqn:H2; try done.
  - apply Qle_bool_iff in H1. rewrite Hp, Hq in H1. apply Qle_bool_iff in H1. congruence.
  - apply Qle_bool_iff in H2. rewrite <- Hp, <- Hq in H2. apply Qle_bool_iff in H2.
    congruence.
Qed.

Lemma round64_finite q : Qabs (rnd q) < pow2 emax -> round64 q = Fin (rnd q).
Proof.
  intros Hq. unfold round64.
  destruct (Qle_bool (pow2 emax) (Qabs (rnd q))) eqn:Hle; [|done].
  apply Qle_bool_iff in Hle. lra.
Qed.

Lemma round64_overflow q :
  pow2 emax <= Qabs (rnd q) -> round64 q = if Qle_bool 0 (rnd q) then PInf else NInf.
Proof. intros Hq. unfold round64. apply Qle_bool_iff in Hq. by rewrite Hq. Qed.

Lemma round64_Fin_inv q r : round64 q = Fin r -> r = rnd q /\ Qabs r < pow2 emax.
Proof.
  unfold round64. destruct (Qle_bool (pow2 emax) (Qabs (rnd q))) eqn:Hle.
  { by destruct (Qle_bool 0 (rnd q)). }
  intros [= <-]. split; [done|]. apply Qnot_le_lt. intros H.
  apply Qle_bool_iff in H. congruence.
Qed.

#[export] Instance round64_proper : Proper (Qeq ==> (≡)) round64.
Proof.
  intros p q Hpq. pose proof (rnd_proper p q Hpq) as Hr. unfold round64.
  rewrite (Qle_bool_proper _ _ _ _ (Qeq_refl _) (Qabs_wd _ _ Hr)).
  rewrite (Qle_bool_proper _ _ _ _ (Qeq_refl 0) Hr).
  destruct (Qle_bool (pow2 emax) _); [by destruct (Qle_bool 0 _)|by apply Fin_equiv].
Qed.

Lemma round64_opp q : round64 (- q) ≡ fneg (round64 q).
Proof.
  pose proof (rnd_opp q) as Hr. pose proof (pow2_pos emax) as Hp.
  assert (Qabs (rnd (- q)) == Qabs (rnd q)) as Ha by (by rewrite Hr, Qabs_opp).
  destruct (Qlt_le_dec (Qabs (rnd q)) (pow2 emax)) as [Hlt|Hge].
  - rewrite !round64_finite by lra. by apply Fin_equiv.
  - rewrite !round64_overflow by lra.
    rewrite (Qle_bool_proper _ _ _ _ (Qeq_refl 0) Hr).
    destruct (Qle_bool 0 (rnd q)) eqn:H1, (Qle_bool 0 (- rnd q)) eqn:H2; try done.
    + apply Qle_bool_iff in H1, H2. rewrite Qabs_pos in Hge; lra.
    + assert (rnd q < 0).
      { apply Qnot_le_lt. intros H. apply Qle_bool_iff in H. congruence. }
      assert (- rnd q < 0); [|lra].
      apply Qnot_le_lt. intros H'. apply Qle_bool_iff in H'. congruence.
Qed.

(** A double that is given by its 53 bits and its exponent is left as it
    is. *)
Lemma round64_exact z k :
  (Z.abs z < 2 ^ 53)%Z -> (emin <= k <= emax - 53)%Z ->
  round64 (inject_Z z * pow2 k) ≡ Fin (inject_Z z * pow2 k).
Proof.
  intros Hz [Hk Hk']. pose proof (rnd_exact z k Hz Hk) as Hr.
  pose proof (pow2_pos k) as Hp.
  assert (Qabs (rnd (inject_Z z * pow2 k)) < pow2 emax) as Hlt.
  { rewrite Hr, Qabs_Qmult, Qabs_inject_Z, (Qabs_pos (pow2 k)) by lra.
    assert (inject_Z (Z.abs z) < pow2 53) as Hzh.
    { rewrite pow2_Z by lia. by rewrite <- Zlt_Qlt. }
    assert (pow2 (53 + k) <= pow2 emax) as Hle by (apply pow2_le; lia).
    rewrite pow2_add in Hle. nra. }
  rewrite round64_finite by done. by apply Fin_equiv.
Qed.

(** The integers of at most 53 bits are doubles. *)
Lemma round64_int z : (Z.abs z < 2 ^ 53)%Z -> round64 (inject_Z z) ≡ of_int z.
Proof.
  intros Hz. pose proof (round64_exact z 0 Hz) as H.
  assert (inject_Z z * pow2 0 == inject_Z z) as Hq by (unfold pow2; cbn; ring).
  rewrite Hq in H. apply H. unfold emin, emax. lia.
Qed.

(** The halves of the integers of at most 53 bits are doubles. *)
Lemma round64_half z : (Z.abs z < 2 ^ 53)%Z -> round64 (inject_Z z / 2) ≡ Fin (inject_Z z / 2).
Proof.
  intros Hz. pose proof (round64_exact z (-1) Hz) as H.
  assert (inject_Z z * pow2 (-1) == inject_Z z / 2) as Hq by (unfold pow2; cbn; field).
  rewrite Hq in H. apply H. unfold emin, emax. lia.
Qed.

#[export] Instance fl_proper : Proper ((≡) ==> (≡)) fl.
Proof.
  intros [p| | |] [q| | |] Hpq; try done. cbn [fl]. apply round64_proper.
  by apply Fin_equiv.
Qed.

Lemma fl_fneg v : fl (fneg v) ≡ fneg (fl v).
Proof. destruct v as [q| | |]; try done. apply round64_opp. Qed.

(** ** The operations of the doubles *)

(** Each operation is the exact one, rounded. *)
Definition fadd64 (a b : fval) : fval := fl (fadd a b).
Definition fsub64 (a b : fval) : fval := fl (fsub a b).
Definition fmul64 (a b : fval) : fval := fl (fmul a b).
Definition fdiv64 (a b : fval) : fval := fl (fdiv a b).

(** The double of an integer. *)
Definition of_int64 (z : Z) : fval := round64 (inject_Z z).

#[export] Instance fadd64_proper : Proper ((≡) ==> (≡) ==> (≡)) fadd64.
Proof. intros a a' Ha b b' Hb. unfold fadd64. by rewrite Ha, Hb. Qed.
#[export] Instance fsub64_proper : Proper ((≡) ==> (≡) ==> (≡)) fsub64.
Proof. intros a a' Ha b b' Hb. unfold fsub64. by rewrite Ha, Hb. Qed.
#[export] Instance fmul64_proper : Proper ((≡) ==> (≡) ==> (≡)) fmul64.
Proof. intros a a' Ha b b' Hb. unfold fmul64. by rewrite Ha, Hb. Qed.
#[export] Instance fdiv64_proper : Proper ((≡) ==> (≡) ==> (≡)) fdiv64.
Proof. intros a a' Ha b b' Hb. unfold fdiv64. by rewrite Ha, Hb. Qed.

(** ** Order *)

(** The three cases of a rounding: a double, or an infinity from [2^1024]
    on. *)
Lemma round64_cases q :
  (Qabs (rnd q) < pow2 emax /\ round64 q = Fin (rnd q)) \/
  (pow2 emax <= rnd q /\ round64 q = PInf) \/
  (rnd q <= - pow2 emax /\ round64 q = NInf).
Proof.
  pose proof (pow2_pos emax) as Hp.
  destruct (Qlt_le_dec (Qabs (rnd q)) (pow2 emax)) as [Hlt|Hge].
  { left. by rewrite round64_finite. }
  right. rewrite (round64_overflow q Hge). revert Hge.
  destruct (Qle_bool 0 (rnd q)) eqn:Hs.
  - apply Qle_bool_iff in Hs. rewrite Qabs_pos by done. auto.
  - assert (rnd q < 0) as Hneg.
    { apply Qnot_le_lt. intros H. apply Qle_bool_iff in H. congruence. }
    rewrite Qabs_neg by lra. right. split; [lra|done].
Qed.

Lemma round64_mono x y : x <= y -> fle (round64 x) (round64 y).
Proof.
  intros Hxy%rnd_mono. pose proof (pow2_pos emax) as Hp.
  destruct (round64_cases x) as [[Hx ->]|[[Hx ->]|[Hx ->]]],
           (round64_cases y) as [[Hy ->]|[[Hy ->]|[Hy ->]]]; cbn [fle]; try done;
    try apply Qabs_Qlt_condition in Hx; try apply Qabs_Qlt_condition in Hy; lra.
Qed.

Lemma fl_mono a b : fle a b -> fle (fl a) (fl b).
Proof.
  destruct a as [p| | |], b as [q| | |]; cbn [fl fle]; try done.
  - apply round64_mono.
  - intros _. by destruct (round64_cases p) as [[_ ->]|[[_ ->]|[_ ->]]].
  - intros _. by destruct (round64_cases q) as [[_ ->]|[[_ ->]|[_ ->]]].
Qed.
