(* ===== verification/Doubles.v ===== *)
(** * Doubles: the numbers rounding leaves alone

    A rational is a double when [round64] returns it. The set is closed
    under negation and, in the normal range, under halving; it holds the
    results of every rounding and the integers of at most 53 bits. An
    operation whose exact result is a double does not round, which is what
    makes [-L/2] and [L/2] of the composer exact and the grid of [make_map]
    symmetric. *)

From Stdlib Require Import Qabs.
From S2P Require Import Prelude Floats Binary64.

(** [q] is a double. *)
Definition is_double (q : Q) : Prop := round64 q ≡ Fin q.

#[export] Instance is_double_dec (q : Q) : Decision (is_double q).
Proof. unfold is_double. apply _. Defined.

#[export] Instance is_double_proper : Proper (Qeq ==> iff) is_double.
Proof. intros p q Hpq. unfold is_double. by rewrite Hpq. Qed.

(** A double is a fixed point of [rnd] below [2^1024]. *)
Lemma is_double_rnd (q : Q) : is_double q <-> rnd q == q /\ Qabs q < pow2 emax.
Proof.
  unfold is_double. split.
  - destruct (round64_cases q) as [[Hlt ->]|[[_ ->]|[_ ->]]]; [|done..].
    intros H. pose proof (proj1 (Fin_equiv _ _) H) as Hq.
    split; [done|]. by rewrite <- Hq.
  - intros [Hq Hlt]. rewrite round64_finite by (by rewrite Hq). by apply Fin_equiv.
Qed.

(** What a rounding returns is a double. *)
Lemma round64_is_double (q y : Q) : round64 q ≡ Fin y -> is_double y.
Proof.
  destruct (round64_cases q) as [[Hlt ->]|[[_ ->]|[_ ->]]]; [|done..].
  intros H. pose proof (proj1 (Fin_equiv _ _) H) as Hy.
  rewrite <- Hy. apply is_double_rnd.
  split; [apply rnd_idempotent|done].
Qed.

(** Rounding twice is rounding once. *)
Lemma round64_idempotent (q : Q) : fl (round64 q) ≡ round64 q.
Proof.
  destruct (round64 q) as [y| | |] eqn:Hq; [|done..].
  apply (round64_is_double q). by rewrite Hq.
Qed.

Lemma fl_idempotent (v : fval) : fl (fl v) ≡ fl v.
Proof. destruct v; [apply round64_idempotent|done..]. Qed.

Lemma is_double_opp (q : Q) : is_double q -> is_double (- q).
Proof. unfold is_double. intros Hq. by rewrite round64_opp, Hq. Qed.

Lemma is_double_int (z : Z) : (Z.abs z < 2 ^ 53)%Z -> is_double (inject_Z z).
Proof. apply round64_int. Qed.

(** A double is given by 53 bits and an exponent. *)
Lemma is_double_repr (q : Q) :
  is_double q ->
  exists z k, (Z.abs z < 2 ^ 53)%Z /\ (ulp_exp q <= k)%Z /\ q == inject_Z z * pow2 k.
Proof.
  intros [Hq _]%is_double_rnd.
  destruct (rnd_repr q) as (z & k & Hz & Hk & Hr).
  exists z, k. split; [done|]. split; [lia|]. by rewrite <- Hq.
Qed.

(** In the normal range the last place is above the smallest one. *)
Lemma ulp_exp_normal (q : Q) : 2 * min_normal <= Qabs q -> (emin < ulp_exp q)%Z.
Proof.
  intros Hq. assert (pow2 (-1021) <= Qabs q) as Hp.
  { by rewrite (pow2_succ (-1022)). }
  assert (0 < Qabs q) as H0 by (pose proof (pow2_pos (-1021)); lra).
  pose proof (mag_pow2_le _ _ H0 Hp). unfold ulp_exp, emin. lia.
Qed.

(** The half of a double of the normal range is a double: dividing by two
    does not round. *)
Lemma is_double_half (q : Q) :
  is_double q -> 2 * min_normal <= Qabs q -> is_double (q / 2).
Proof.
  intros Hq Hn. destruct (is_double_repr q Hq) as (z & k & Hz & Hk & Hzk).
  pose proof (ulp_exp_normal q Hn) as He.
  apply is_double_rnd in Hq as [_ Hlt].
  assert (q / 2 == inject_Z z * pow2 (k - 1)) as Hh.
  { rewrite Hzk. replace k with (k - 1 + 1)%Z at 1 by lia. rewrite pow2_succ. field. }
  apply is_double_rnd. split.
  - rewrite Hh. apply rnd_exact; [done|lia].
  - assert (Qabs (q / 2) == Qabs q * (1 # 2)) as ->.
    { unfold Qdiv. by rewrite Qabs_Qmult. }
    pose proof (Qabs_nonneg q). lra.
Qed.

(** [q / 2.] in doubles. *)
Lemma fdiv64_half (q : Q) :
  is_double q -> 2 * min_normal <= Qabs q -> fdiv64 (Fin q) (Fin 2) ≡ Fin (q / 2).
Proof.
  intros Hq Hn. unfold fdiv64. rewrite fdiv_Fin by done.
  by apply is_double_half.
Qed.

(** An operation with a double as its exact result does not round. *)
Lemma fl_exact (v : fval) (q : Q) : v ≡ Fin q -> is_double q -> fl v ≡ Fin q.
Proof. intros -> Hq. exact Hq. Qed.

(** ** No overflow *)

(** Rounding does not leave an interval that ends at powers of two. *)
Lemma rnd_pow2 (g : Z) : (emin <= g)%Z -> rnd (pow2 g) == pow2 g.
Proof.
  intros Hg. pose proof (rnd_exact 1 g ltac:(done) Hg) as H.
  assert (inject_Z 1 * pow2 g == pow2 g) as Hq by (change (inject_Z 1) with 1; ring).
  by rewrite Hq in H.
Qed.

Lemma rnd_abs_le_pow2 (q : Q) (g : Z) :
  (emin <= g)%Z -> Qabs q <= pow2 g -> Qabs (rnd q) <= pow2 g.
Proof.
  intros Hg [Hlo Hhi]%Qabs_Qle_condition. apply Qabs_Qle_condition.
  pose proof (rnd_mono _ _ Hlo) as Hl. pose proof (rnd_mono _ _ Hhi) as Hh.
  rewrite rnd_opp in Hl. rewrite rnd_pow2 in Hl, Hh by done. by split.
Qed.

(** A number of at most [2^g] in size, [g] below 1024, is rounded to a
    double of at most that size: no overflow. *)
Lemma round64_bounded (q : Q) (g : Z) :
  (emin <= g < emax)%Z -> Qabs q <= pow2 g ->
  exists y, round64 q = Fin y /\ Qabs y <= pow2 g.
Proof.
  intros [Hg Hg'] Hq. pose proof (rnd_abs_le_pow2 q g Hg Hq) as Hr.
  exists (rnd q). split; [|done]. apply round64_finite.
  pose proof (pow2_lt g emax Hg'). lra.
Qed.

(** Rounding does not leave an interval that ends at a double and its
    negation either. *)
Lemma rnd_abs_le (q r : Q) : rnd r == r -> Qabs q <= Qabs r -> Qabs (rnd q) <= Qabs r.
Proof.
  intros Hr [Hlo Hhi]%Qabs_Qle_condition. apply Qabs_Qle_condition.
  assert (rnd (Qabs r) == Qabs r) as Ha.
  { apply Qabs_case; intros _; [done|]. by rewrite rnd_opp, Hr. }
  pose proof (rnd_mono _ _ Hlo) as Hl. pose proof (rnd_mono _ _ Hhi) as Hh.
  rewrite rnd_opp in Hl. rewrite Ha in Hl, Hh. by split.
Qed.

Lemma round64_equiv_Fin (q y : Q) : round64 q ≡ Fin y -> y == rnd q.
Proof.
  destruct (round64_cases q) as [[_ ->]|[[_ ->]|[_ ->]]]; [|done..].
  intros H. symmetry. by apply Fin_equiv.
Qed.

(** A rounded number divided by [n > 0] in doubles: the second rounding is
    reached only when the first gave a double. *)
Lemma quotient64_Fin_inv (a n y : Q) :
  0 < n -> fl (fdiv (round64 a) (Fin n)) ≡ Fin y -> y == rnd (rnd a / n).
Proof.
  intros Hn Hy.
  destruct (round64_cases a) as [[_ Hr]|[[_ Hr]|[_ Hr]]]; rewrite Hr in Hy.
  - rewrite fdiv_Fin, fl_Fin in Hy by lra. exact (round64_equiv_Fin _ _ Hy).
  - cbn [fdiv] in Hy. by rewrite signed_pos in Hy.
  - cbn [fdiv] in Hy. by rewrite signed_pos in Hy.
Qed.

(** ** The error of two roundings *)

(** The error bound of two roundings in a row. *)
Definition two_roundings : Q := u64 * (2 + u64).

Lemma u64_small : 0 < u64 /\ u64 <= 1 # 2.
Proof. split; [apply pow2_pos|by vm_compute]. Qed.

Lemma min_normal_pos : 0 < min_normal.
Proof. apply pow2_pos. Qed.

Lemma Qabs_div_pos (p n : Q) : 0 < n -> Qabs (p / n) == Qabs p / n.
Proof.
  intros Hn. unfold Qdiv. rewrite Qabs_Qmult, (Qabs_pos (/ n)); [done|].
  by apply Qlt_le_weak, Qinv_lt_0_compat.
Qed.

Lemma Qabs_div_le (p n : Q) : 1 <= n -> Qabs (p / n) <= Qabs p.
Proof.
  intros Hn. rewrite Qabs_div_pos by lra. apply Qle_shift_div_r; [lra|].
  pose proof (Qabs_nonneg p). set (t := Qabs p) in *. clearbody t. nra.
Qed.

(** A double divided by [n >= 1] does not overflow. *)
Lemma quotient64_finite (p n : Q) :
  1 <= n -> is_finite (round64 p) = true ->
  is_finite (fl (fdiv (round64 p) (Fin n))) = true.
Proof.
  intros Hn. destruct (round64_cases p) as [[Hlt ->]|[[_ ->]|[_ ->]]]; [|done..].
  intros _. rewrite fdiv_Fin, fl_Fin by lra.
  rewrite round64_finite; [done|].
  apply Qle_lt_trans with (Qabs (rnd p)); [|done].
  apply rnd_abs_le; [apply rnd_idempotent|by apply Qabs_div_le].
Qed.

(** An infinity divided by [n > 0] stays one. *)
Lemma quotient64_infinite (p n : Q) :
  0 < n -> is_finite (round64 p) = false ->
  is_finite (fl (fdiv (round64 p) (Fin n))) = false.
Proof.
  intros Hn. destruct (round64_cases p) as [[_ ->]|[[_ ->]|[_ ->]]]; [done|..];
    intros _; cbn [fdiv]; by rewrite signed_pos.
Qed.

(** A product or a sum [a] is rounded, divided by [n > 0], and the quotient
    is rounded: the result against the exact quotient [a / n], for [a] and
    the quotient in the normal range. *)
Section two_roundings.
Context (a n : Q) (Hn : 0 < n).
Context (Ha : min_normal <= Qabs a) (Hx : 2 * min_normal <= Qabs (a / n)).

#[local] Abbreviation x := (a / n).
#[local] Abbreviation b := (rnd a / n).

Lemma first_rounding : Qabs (b - x) <= u64 * Qabs x.
Proof using Hn Ha.
  assert (rnd a / n - a / n == (rnd a - a) / n) as -> by (field; lra).
  rewrite !Qabs_div_pos by done.
  pose proof (rnd_error a Ha) as He.
  unfold Qdiv. rewrite Qmult_assoc. apply Qmult_le_compat_r; [done|].
  by apply Qlt_le_weak, Qinv_lt_0_compat.
Qed.

Lemma second_rounding : Qabs (rnd b - x) <= two_roundings * Qabs x.
Proof using Hn Ha Hx.
  pose proof first_rounding as H1. pose proof u64_small as [Hu Hu'].
  pose proof min_normal_pos as Hm.
  pose proof (Qabs_triangle (b - x) x) as Hb.
  assert (b - x + x == b) as Hbx by ring. rewrite Hbx in Hb.
  pose proof (Qabs_triangle (x - b) b) as Hxt.
  assert (x - b + b == x) as Hxb by ring. rewrite Hxb in Hxt.
  assert (Qabs (x - b) == Qabs (b - x)) as Hsym.
  { assert (x - b == - (b - x)) as -> by ring. apply Qabs_opp. }
  rewrite Hsym in Hxt.
  assert (min_normal <= Qabs b) as Hnorm.
  { set (t := Qabs x) in *. set (s := Qabs b) in *.
    set (d := Qabs (b - x)) in *. clearbody t s d. nra. }
  pose proof (rnd_error b Hnorm) as H2.
  pose proof (Qabs_triangle (rnd b - b) (b - x)) as Ht.
  assert (rnd b - b + (b - x) == rnd b - x) as Hsum by ring. rewrite Hsum in Ht.
  unfold two_roundings.
  set (t := Qabs x) in *. set (s := Qabs b) in *. set (d := Qabs (b - x)) in *.
  set (r := Qabs (rnd b - b)) in *. set (g := Qabs (rnd b - x)) in *.
  clearbody t s d r g. nra.
Qed.

End two_roundings.
