(* ===== verification/Arrays.v ===== *)
(** * Arrays: the numpy operations the program calls

    A 1-d array is a list. A 2-d array is a shape and a row-major buffer,
    as numpy stores it, so that [flatten] and [reshape] are what they are in
    numpy: a view of the same buffer under another shape. [Module numpy]
    holds [indices], [flatten], [reshape], [transpose], [mean], [log10] and
    the broadcasting of a scalar operation over an array. *)

From S2P Require Import Prelude Floats.

Module numpy.

(** ** 2-d arrays *)

Record array2 (A : Type) : Type := Array2 {
  shape : nat * nat;
  data : list A;
}.
Arguments Array2 {A} shape data.
Arguments shape {A} a.
Arguments data {A} a.

Definition nrows {A} (a : array2 A) : nat := fst (shape a).
Definition ncols {A} (a : array2 A) : nat := snd (shape a).

(** The buffer holds one value per position. *)
Definition wf {A} (a : array2 A) : Prop :=
  length (data a) = (nrows a * ncols a)%nat.

#[global] Instance wf_dec {A} (a : array2 A) : Decision (wf a).
Proof. unfold wf. apply _. Defined.

(** [a[i, j]] for indices within the shape. *)
Definition get {A} (a : array2 A) (i j : nat) : option A :=
  if decide (i < nrows a /\ j < ncols a)%nat
  then data a !! (i * ncols a + j)%nat
  else None.

(** A shape given as Python integers: negative dimensions are refused. *)
Definition shape_of (dims : Z * Z) : result (nat * nat) :=
  if decide (0 <= dims.1 /\ 0 <= dims.2)%Z
  then Ok (Z.to_nat dims.1, Z.to_nat dims.2)
  else Raise ValueError.

(** [numpy.indices(dims)]: the grid of row indices and the grid of column
    indices, [x[i, j] = i] and [y[i, j] = j]. *)
Definition indices (dims : Z * Z) : result (array2 Z * array2 Z) :=
  '(n, m) ← shape_of dims;
  Ok (Array2 (n, m) (tabulate2 n m (fun i _ => Z.of_nat i)),
      Array2 (n, m) (tabulate2 n m (fun _ j => Z.of_nat j))).

(** [a.flatten()]: the buffer, in row-major order. *)
Definition flatten {A} (a : array2 A) : list A := data a.

(** [l.reshape(dims)]: the same buffer under the shape [dims]. One dimension
    may be [-1]: it is then the quotient of the size by the other one. *)
Definition reshape {A} (l : list A) (dims : Z * Z) : result (array2 A) :=
  let size := Z.of_nat (length l) in
  let '(n, m) := dims in
  if decide (0 <= n /\ 0 <= m)%Z then
    if decide (n * m = size)%Z
    then Ok (Array2 (Z.to_nat n, Z.to_nat m) l)
    else Raise ValueError
  else if decide (n = -1 /\ 0 < m /\ size mod m = 0)%Z then
    Ok (Array2 (Z.to_nat (size / m), Z.to_nat m) l)
  else if decide (m = -1 /\ 0 < n /\ size mod n = 0)%Z then
    Ok (Array2 (Z.to_nat n, Z.to_nat (size / n)) l)
  else Raise ValueError.

(** [a.transpose()]: [t[j, i] = a[i, j]]. *)
Definition transpose {A} (a : array2 A) : array2 A :=
  let n := nrows a in
  let m := ncols a in
  Array2 (m, n)
    (omap id (tabulate2 m n (fun j i => data a !! (i * m + j)%nat))).

(** An operation applied to every element. *)
Definition amap {A B} (f : A -> B) (a : array2 A) : array2 B :=
  Array2 (shape a) (f <$> data a).

(** [numpy.log10(a)], element by element. *)
Definition log10 (a : array2 fval) : array2 logval := amap flog10 a.

(** [a.mean()]: the sum over the count; [nan] for an empty array. *)
Definition mean (l : list fval) : fval :=
  fdiv (fsum l) (of_int (Z.of_nat (length l))).

(** ** Broadcasting *)

(** numpy applies an operation between an array and a scalar to every
    element; a scalar is its own single element. *)
Class Broadcast (T : Type) := bmap : (fval -> fval) -> T -> T.

#[global] Instance broadcast_scalar : Broadcast fval := fun f v => f v.
#[global] Instance broadcast_list : Broadcast (list fval) := fun f l => f <$> l.
#[global] Instance broadcast_array2 : Broadcast (array2 fval) := fun f a => amap f a.

(** ** Equivalence of arrays *)

#[global] Instance array2_equiv `{Equiv A} : Equiv (array2 A) := fun a b =>
  shape a = shape b /\ data a ≡ data b.

#[global] Instance array2_equivalence `{Equiv A} :
  Equivalence (≡@{A}) -> Equivalence (≡@{array2 A}).
Proof.
  intros HA; split.
  - intros a; split; reflexivity.
  - intros a b [? ?]; split; by symmetry.
  - intros a b c [? ?] [? ?]; split; by etrans.
Qed.

#[global] Instance data_proper `{Equiv A} : Proper ((≡) ==> (≡)) (@data A).
Proof. by intros a b [? ?]. Qed.

#[global] Instance shape_proper `{Equiv A} : Proper ((≡) ==> (=)) (@shape A).
Proof. by intros a b [? ?]. Qed.

#[global] Instance get_proper `{Equiv A} :
  Proper ((≡) ==> (=) ==> (=) ==> (≡)) (@get A).
Proof.
  intros a b [Hs Hd] i ? <- j ? <-. unfold get, nrows, ncols. rewrite Hs.
  case_decide; [by f_equiv|constructor].
Qed.

(** ** Shapes *)

Lemma shape_of_Ok (dims : Z * Z) (s : nat * nat) :
  shape_of dims = Ok s <->
  (0 <= dims.1 /\ 0 <= dims.2)%Z /\ s = (Z.to_nat dims.1, Z.to_nat dims.2).
Proof.
  unfold shape_of. case_decide; split.
  - by intros [= <-].
  - by intros [_ ->].
  - done.
  - by intros [? _].
Qed.

Lemma shape_of_nonneg (n m : Z) :
  (0 <= n)%Z -> (0 <= m)%Z -> shape_of (n, m) = Ok (Z.to_nat n, Z.to_nat m).
Proof. intros. apply shape_of_Ok. done. Qed.

Lemma shape_of_negative (dims : Z * Z) :
  (dims.1 < 0 \/ dims.2 < 0)%Z -> shape_of dims = Raise ValueError.
Proof. intros. unfold shape_of. case_decide; [lia|done]. Qed.

(** ** [indices] *)

Section indices_facts.
Context (n m : nat).
Let dims : Z * Z := (Z.of_nat n, Z.of_nat m).

Lemma indices_Ok :
  indices dims =
    Ok (Array2 (n, m) (tabulate2 n m (fun i _ => Z.of_nat i)),
        Array2 (n, m) (tabulate2 n m (fun _ j => Z.of_nat j))).
Proof.
  unfold indices, dims. rewrite shape_of_nonneg by lia.
  unfold_result. by rewrite !Nat2Z.id.
Qed.

Lemma indices_wf x y : indices dims = Ok (x, y) -> wf x /\ wf y.
Proof.
  rewrite indices_Ok. intros [= <- <-].
  unfold wf, nrows, ncols; simpl. by rewrite !tabulate2_length.
Qed.

Lemma indices_shape x y :
  indices dims = Ok (x, y) -> shape x = (n, m) /\ shape y = (n, m).
Proof. rewrite indices_Ok. by intros [= <- <-]. Qed.

Lemma indices_get x y i j :
  indices dims = Ok (x, y) -> (i < n)%nat -> (j < m)%nat ->
  get x i j = Some (Z.of_nat i) /\ get y i j = Some (Z.of_nat j).
Proof.
  rewrite indices_Ok. intros [= <- <-] Hi Hj.
  unfold get, nrows, ncols; simpl.
  rewrite !decide_True by done. by rewrite !tabulate2_lookup.
Qed.

(** The index grids of [indices((n, m))], flattened, are row-major:
    position [k] of the first holds the row [k / m], position [k] of the
    second the column [k mod m]. *)
Lemma flatten_indices x y k :
  indices dims = Ok (x, y) -> (k < n * m)%nat ->
  flatten x !! k = Some (Z.of_nat (k / m)) /\
  flatten y !! k = Some (Z.of_nat (k mod m)).
Proof.
  rewrite indices_Ok. intros [= <- <-] Hk.
  unfold flatten; simpl. by rewrite !tabulate2_lookup_flat.
Qed.

Lemma flatten_indices_length x y :
  indices dims = Ok (x, y) ->
  length (flatten x) = (n * m)%nat /\ length (flatten y) = (n * m)%nat.
Proof.
  rewrite indices_Ok. intros [= <- <-].
  unfold flatten; simpl. by rewrite !tabulate2_length.
Qed.

End indices_facts.

Example flatten_indices_2_3 :
  flatten (Array2 (2, 3)%nat [0; 0; 0; 1; 1; 1]%Z) !! 4%nat = Some (Z.of_nat (4 / 3)) /\
  flatten (Array2 (2, 3)%nat [0; 1; 2; 0; 1; 2]%Z) !! 4%nat = Some (Z.of_nat (4 mod 3)).
Proof. apply (flatten_indices 2 3 _ _ 4); [reflexivity|lia]. Qed.

Lemma indices_negative (dims : Z * Z) :
  (dims.1 < 0 \/ dims.2 < 0)%Z -> indices dims = Raise ValueError.
Proof. intros. unfold indices. by rewrite shape_of_negative. Qed.

Lemma indices_is_Ok (dims : Z * Z) :
  is_Ok (indices dims) <-> (0 <= dims.1 /\ 0 <= dims.2)%Z.
Proof.
  destruct dims as [n m]; simpl. split.
  - intros [xy H]. destruct (decide (0 <= n /\ 0 <= m)%Z); [done|].
    rewrite indices_negative in H by (simpl; lia). done.
  - intros [? ?]. unfold indices. rewrite shape_of_nonneg by done.
    eexists. reflexivity.
Qed.

(** ** [reshape] and [flatten] *)

Section reshape_facts.
Context {A : Type}.
Implicit Types (l : list A) (a : array2 A).

Lemma reshape_nonneg l (n m : nat) :
  length l = (n * m)%nat ->
  reshape l (Z.of_nat n, Z.of_nat m) = Ok (Array2 (n, m) l).
Proof.
  intros Hl. unfold reshape.
  rewrite decide_True by lia. rewrite decide_True by lia.
  by rewrite !Nat2Z.id.
Qed.

Lemma reshape_size_mismatch l (n m : Z) :
  (0 <= n)%Z -> (0 <= m)%Z -> (n * m <> Z.of_nat (length l))%Z ->
  reshape l (n, m) = Raise ValueError.
Proof.
  intros. unfold reshape. rewrite decide_True by lia.
  by rewrite decide_False by lia.
Qed.

(** Two negative dimensions are refused, also two [-1]. *)
Lemma reshape_both_negative l (n m : Z) :
  (n < 0)%Z -> (m < 0)%Z -> reshape l (n, m) = Raise ValueError.
Proof.
  intros. unfold reshape. by rewrite !decide_False by lia.
Qed.

Lemma reshape_Ok_data l dims a : reshape l dims = Ok a -> flatten a = l.
Proof.
  destruct dims as [n m]. unfold reshape.
  repeat case_decide; by intros [= <-].
Qed.

Lemma reshape_Ok_wf l dims a : reshape l dims = Ok a -> wf a.
Proof.
  destruct dims as [n m]. unfold reshape, wf, nrows, ncols.
  repeat case_decide; intros [= <-]; simpl; try done.
  - lia.
  - destruct_and!. apply Nat2Z.inj. rewrite Nat2Z.inj_mul, !Z2Nat.id.
    + apply Z.div_exact in H3; lia.
    + lia.
    + apply Z.div_pos; lia.
  - destruct_and!. apply Nat2Z.inj. rewrite Nat2Z.inj_mul, !Z2Nat.id.
    + apply Z.div_exact in H4; lia.
    + apply Z.div_pos; lia.
    + lia.
Qed.

Lemma reshape_Ok_shape l (n m : Z) a :
  (0 <= n)%Z -> (0 <= m)%Z -> reshape l (n, m) = Ok a ->
  shape a = (Z.to_nat n, Z.to_nat m) /\ (n * m = Z.of_nat (length l))%Z.
Proof.
  intros ? ?. unfold reshape. rewrite decide_True by lia.
  case_decide; [|done]. by intros [= <-].
Qed.

(** Round trip of [flatten] and [reshape]: reshaping the buffer of a
    well-formed array to the shape of the array gives the array back. *)
Lemma reshape_flatten a :
  wf a -> reshape (flatten a) (Z.of_nat (nrows a), Z.of_nat (ncols a)) = Ok a.
Proof.
  intros Hwf. unfold flatten. rewrite reshape_nonneg by done.
  destruct a as [[n m] d]; done.
Qed.

End reshape_facts.

Example reshape_flatten_2_3 :
  reshape (flatten (Array2 (2, 3)%nat [1; 2; 3; 4; 5; 6]%Z)) (2, 3)%Z =
    Ok (Array2 (2, 3)%nat [1; 2; 3; 4; 5; 6]%Z).
Proof. apply (reshape_flatten (Array2 (2, 3)%nat [1; 2; 3; 4; 5; 6]%Z)). reflexivity. Qed.

(** ** [transpose] *)

Section transpose_facts.
Context {A : Type}.
Implicit Types (a : array2 A).

Lemma omap_id_Some_lookup (l : list (option A)) (k : nat) :
  Forall is_Some l -> omap id l !! k = l !! k ≫= id.
Proof.
  intros Hl. revert k. induction Hl as [|x l [y ->] _ IH]; intros k; [done|].
  destruct k as [|k]; simpl; [done|]. apply IH.
Qed.

Lemma omap_id_Some_length (l : list (option A)) :
  Forall is_Some l -> length (omap id l) = length l.
Proof.
  induction 1 as [|x l [y ->] _ IH]; simpl; [done|]. f_equal. apply IH.
Qed.

Lemma transpose_cells_Some a :
  wf a ->
  Forall is_Some
    (tabulate2 (ncols a) (nrows a)
       (fun j i => data a !! (i * ncols a + j)%nat)).
Proof.
  intros Hwf. apply Forall_lookup. intros k x Hk.
  assert (k < ncols a * nrows a)%nat as Hlt.
  { apply lookup_lt_Some in Hk. by rewrite tabulate2_length in Hk. }
  rewrite tabulate2_lookup_flat in Hk by done. injection Hk as <-.
  destruct (rowmajor_split _ _ _ Hlt) as (_ & ? & ?).
  apply lookup_lt_is_Some. rewrite Hwf. by apply rowmajor_lt.
Qed.

Lemma transpose_shape a : shape (transpose a) = (ncols a, nrows a).
Proof. done. Qed.

Lemma transpose_wf a : wf a -> wf (transpose a).
Proof.
  intros Hwf. unfold wf, transpose, nrows, ncols; simpl.
  rewrite omap_id_Some_length by by apply transpose_cells_Some.
  by rewrite tabulate2_length.
Qed.

Lemma transpose_data_lookup a i j :
  wf a -> (i < nrows a)%nat -> (j < ncols a)%nat ->
  data (transpose a) !! (j * nrows a + i)%nat = data a !! (i * ncols a + j)%nat.
Proof.
  intros Hwf Hi Hj. unfold transpose; simpl.
  rewrite omap_id_Some_lookup by by apply transpose_cells_Some.
  by rewrite tabulate2_lookup.
Qed.

Lemma transpose_nrows a : nrows (transpose a) = ncols a.
Proof. done. Qed.

Lemma transpose_ncols a : ncols (transpose a) = nrows a.
Proof. done. Qed.

(** [t[j, i] = a[i, j]]. *)
Lemma transpose_get a i j :
  wf a -> get (transpose a) j i = get a i j.
Proof.
  intros Hwf. unfold get. rewrite transpose_nrows, transpose_ncols.
  destruct (decide (i < nrows a /\ j < ncols a)%nat) as [[Hi Hj]|Hn].
  - rewrite decide_True by done. by apply transpose_data_lookup.
  - by rewrite decide_False by lia.
Qed.

(** Two well-formed arrays of one shape with the same cells are equal. *)
Lemma array2_eq a b :
  wf a -> wf b -> shape a = shape b ->
  (forall i j, (i < nrows a)%nat -> (j < ncols a)%nat -> get a i j = get b i j) ->
  a = b.
Proof.
  destruct a as [[n m] da], b as [[n' m'] db].
  unfold wf, nrows, ncols, get; simpl. intros Ha Hb [= <- <-] Hget.
  f_equal. apply list_eq; intros k.
  destruct (decide (k < n * m)%nat) as [Hk|Hk].
  - destruct (rowmajor_split n m k Hk) as (Heq & Hi & Hj).
    specialize (Hget _ _ Hi Hj). rewrite !decide_True in Hget by done.
    by rewrite Heq.
  - by rewrite !lookup_ge_None_2 by lia.
Qed.

(** [transpose] is an involution on well-formed arrays: transposing twice
    gives the array back. *)
Lemma transpose_involutive a : wf a -> transpose (transpose a) = a.
Proof.
  intros Hwf. apply array2_eq.
  - by apply transpose_wf, transpose_wf.
  - done.
  - by destruct a as [[n m] d].
  - intros i j _ _. by rewrite !transpose_get by by try apply transpose_wf.
Qed.

End transpose_facts.

Example transpose_2_3 :
  transpose (Array2 (2, 3)%nat [1; 2; 3; 4; 5; 6]%Z) =
    Array2 (3, 2)%nat [1; 4; 2; 5; 3; 6]%Z.
Proof. reflexivity. Qed.

(** ** [amap] *)

Section amap_facts.
Context {A B : Type} (f : A -> B).
Implicit Types (a : array2 A).

Lemma amap_shape a : shape (amap f a) = shape a.
Proof. done. Qed.

Lemma amap_wf a : wf a -> wf (amap f a).
Proof. unfold wf, amap, nrows, ncols; simpl. by rewrite length_fmap. Qed.

Lemma amap_get a i j : get (amap f a) i j = f <$> get a i j.
Proof.
  unfold get, amap, nrows, ncols; simpl.
  case_decide; [|done]. by rewrite list_lookup_fmap.
Qed.

Lemma amap_transpose a : wf a -> amap f (transpose a) = transpose (amap f a).
Proof.
  intros Hwf. apply array2_eq.
  - by apply amap_wf, transpose_wf.
  - by apply transpose_wf, amap_wf.
  - done.
  - intros i j _ _.
    rewrite amap_get, !transpose_get, amap_get by by try apply amap_wf.
    done.
Qed.

End amap_facts.

(** ** Laws of broadcasting *)

(** What the quantity system relies on: an operation that is the identity
    up to [≡] leaves the array as it is, two operations in sequence are
    their composition, and equivalent operations give equivalent arrays. *)
Class BroadcastLaws (T : Type) `{Broadcast T, Equiv T} : Prop := {
  bmap_equivalence :: Equivalence (≡@{T});
  bmap_ext (f g : fval -> fval) (x y : T) :
    (forall v w, v ≡ w -> f v ≡ g w) -> x ≡ y -> bmap f x ≡ bmap g y;
  bmap_id (f : fval -> fval) (x : T) :
    (forall v, f v ≡ v) -> bmap f x ≡ x;
  bmap_compose (f g : fval -> fval) (x : T) :
    bmap f (bmap g x) = bmap (f ∘ g) x;
}.
#[global] Existing Instance bmap_equivalence.

#[global] Instance broadcast_scalar_laws : BroadcastLaws fval.
Proof.
  split; try apply _; unfold bmap, broadcast_scalar; auto.
Qed.

#[global] Instance broadcast_list_laws : BroadcastLaws (list fval).
Proof.
  split; try apply _; unfold bmap, broadcast_list.
  - intros f g x y Hfg Hxy. induction Hxy; constructor; auto.
  - intros f x Hf. induction x; constructor; auto.
  - intros f g x. by rewrite <- list_fmap_compose.
Qed.

#[global] Instance broadcast_array2_laws : BroadcastLaws (array2 fval).
Proof.
  split; try apply _; unfold bmap, broadcast_array2, amap.
  - intros f g x y Hfg [Hs Hd]. split; simpl; [done|].
    exact (bmap_ext (T := list fval) f g _ _ Hfg Hd).
  - intros f x Hf. split; simpl; [done|].
    exact (bmap_id (T := list fval) f _ Hf).
  - intros f g x. simpl. by rewrite <- list_fmap_compose.
Qed.

(** ** [mean] *)

#[global] Instance mean_proper : Proper ((≡) ==> (≡)) mean.
Proof.
  intros l k H. unfold mean.
  by rewrite H.
Qed.

Lemma mean_nil : mean [] = NaN.
Proof. done. Qed.

(** The mean of finite values is their sum over their count. *)
Lemma mean_Fin (l : list Q) :
  l <> [] ->
  mean (Fin <$> l) ≡ Fin (Qsum l / inject_Z (Z.of_nat (length l))).
Proof.
  intros Hl. unfold mean. rewrite fsum_Fin, length_fmap.
  rewrite fdiv_of_int; [done|]. destruct l; [done|simpl; lia].
Qed.

End numpy.

#[export] Hint Resolve numpy.transpose_wf numpy.amap_wf numpy.reshape_Ok_wf : pyarr.
#[export] Hint Rewrite @numpy.transpose_shape @numpy.amap_shape : pyarr_rw.
