(* ===== verification/Units.v ===== *)
(** * Units: the quantity system the program uses

    The quantity system is not part of the repository; this file models what
    the program asks of it: a unit has a dimension and a value in SI base
    units, a quantity is a number (a float, a list or a 2-d array of floats)
    with a unit, [value_in] converts the number to another unit of the same
    dimension and raises [IncompatibleUnitsException] otherwise, adding a
    scalar quantity to a quantity converts the scalar to the unit of the
    left operand, [as_string_in] prints the converted number and the unit. *)

From stdpp Require Import pretty.
From S2P Require Import Prelude Floats Arrays.

(** The text Python prints for a float; not modelled, a parameter. *)
Class FloatFormat := float_str : fval -> string.

(** A printer that writes a finite number as a fraction in lowest terms. *)
Definition fraction_str : FloatFormat := fun v =>
  match v with
  | Fin q => pretty (Qnum (Qred q)) +:+ "/" +:+ pretty (Zpos (Qden (Qred q)))
  | PInf => "inf"
  | NInf => "-inf"
  | NaN => "nan"
  end.

Module units.

(** ** Dimensions and units *)

(** Exponents of length, mass and time. *)
Record dimension : Type := Dim {
  d_length : Z;
  d_mass : Z;
  d_time : Z;
}.

#[global] Instance dimension_eq_dec : EqDecision dimension.
Proof. solve_decision. Defined.

(** A unit: its symbol, its dimension, its value in SI base units. *)
Record unit : Type := Unit {
  u_symbol : string;
  u_dim : dimension;
  u_factor : Q;
}.

(** Units are positive multiples of the base units. *)
Definition unit_ok (u : unit) : Prop := 0 < u_factor u.

Definition length_dim : dimension := Dim 1 0 0.
Definition mass_dim : dimension := Dim 0 1 0.
Definition time_dim : dimension := Dim 0 0 1.
Definition speed_dim : dimension := Dim 1 0 (-1).
Definition density_dim : dimension := Dim (-3) 1 0.

Definition udiv (u v : unit) : unit :=
  Unit (u_symbol u +:+ " / " +:+ u_symbol v)
       (Dim (d_length (u_dim u) - d_length (u_dim v))
            (d_mass (u_dim u) - d_mass (u_dim v))
            (d_time (u_dim u) - d_time (u_dim v)))
       (u_factor u / u_factor v).

Definition upow (u : unit) (n : positive) : unit :=
  Unit (u_symbol u +:+ "**" +:+ pretty (Zpos n))
       (Dim (d_length (u_dim u) * Zpos n)
            (d_mass (u_dim u) * Zpos n)
            (d_time (u_dim u) * Zpos n))
       (u_factor u ^ Zpos n).

(** The units the program names, and two more for the examples. *)
Definition m : unit := Unit "m" length_dim 1.
Definition cm : unit := Unit "cm" length_dim 0.01.
Definition AU : unit := Unit "AU" length_dim 149597870700.
Definition parsec : unit := Unit "parsec" length_dim 30856775814913673.
Definition kms : unit := Unit "kms" speed_dim 1000.
Definition amu : unit := Unit "amu" mass_dim (166053906660 # 100000000000000000000000000000000000000).
Definition MSun : unit := Unit "MSun" mass_dim 1988920000000000000000000000000.
Definition Myr : unit := Unit "Myr" time_dim 31556925993600.
Definition amu_per_cm3 : unit := udiv amu (upow cm 3).

(** ** Quantities *)

Record quantity (T : Type) : Type := Quantity {
  number : T;
  unit_of : unit;
}.
Arguments Quantity {T} number unit_of.
Arguments number {T} q.
Arguments unit_of {T} q.

(** [u(x)]: the number [x] in the unit [u]. *)
Definition new_quantity {T} (u : unit) (x : T) : quantity T := Quantity x u.

(** The value of one [from] in the unit [to]. *)
Definition conversion_factor (from to : unit) : result Q :=
  if decide (u_dim from = u_dim to)
  then Ok (u_factor from / u_factor to)
  else Raise IncompatibleUnitsException.

Section operations.
Context {T : Type} `{numpy.Broadcast T}.

(** [q.value_in(u)]. *)
Definition value_in (q : quantity T) (u : unit) : result T :=
  f ← conversion_factor (unit_of q) u;
  Ok (numpy.bmap (fun v => fmul v (Fin f)) (number q)).

(** [q + o] for a scalar [o]: in the unit of [q]. *)
Definition add (q : quantity T) (o : quantity fval) : result (quantity T) :=
  f ← conversion_factor (unit_of o) (unit_of q);
  Ok (Quantity
        (numpy.bmap (fun v => fadd v (fmul (Fin f) (number o))) (number q))
        (unit_of q)).

End operations.

(** [q.reshape(dims)] and [q.transpose()]: the array operation on the
    number, the unit kept. *)
Definition reshape {A} (q : quantity (list A)) (dims : Z * Z) :
    result (quantity (numpy.array2 A)) :=
  a ← numpy.reshape (number q) dims;
  Ok (Quantity a (unit_of q)).

Definition transpose {A} (q : quantity (numpy.array2 A)) :
    quantity (numpy.array2 A) :=
  Quantity (numpy.transpose (number q)) (unit_of q).

(** [q.as_string_in(u)]: the converted number and the symbol of [u]. *)
Definition as_string_in `{FloatFormat} (q : quantity fval) (u : unit) : result string :=
  v ← value_in q u;
  Ok (float_str v +:+ " " +:+ u_symbol u).

(** ** Equivalence of quantities *)

#[global] Instance quantity_equiv `{Equiv T} : Equiv (quantity T) := fun p q =>
  unit_of p = unit_of q /\ number p ≡ number q.

#[global] Instance quantity_equivalence `{Equiv T} :
  Equivalence (≡@{T}) -> Equivalence (≡@{quantity T}).
Proof.
  intros HT; split.
  - intros q; split; reflexivity.
  - intros p q [? ?]; split; by symmetry.
  - intros p q r [? ?] [? ?]; split; by etrans.
Qed.

#[global] Instance number_proper `{Equiv T} : Proper ((≡) ==> (≡)) (@number T).
Proof. by intros p q [? ?]. Qed.

#[global] Instance unit_of_proper `{Equiv T} : Proper ((≡) ==> (=)) (@unit_of T).
Proof. by intros p q [? ?]. Qed.

(** ** Conversion factors *)

Lemma conversion_factor_Ok (from to : unit) (f : Q) :
  conversion_factor from to = Ok f <->
  u_dim from = u_dim to /\ f = u_factor from / u_factor to.
Proof.
  unfold conversion_factor. case_decide; split.
  - by intros [= <-].
  - by intros [_ ->].
  - done.
  - by intros [? _].
Qed.

Lemma conversion_factor_Raise (from to : unit) (e : exn) :
  conversion_factor from to = Raise e <->
  u_dim from <> u_dim to /\ e = IncompatibleUnitsException.
Proof.
  unfold conversion_factor. case_decide; split.
  - done.
  - by intros [? _].
  - by intros [= <-].
  - by intros [_ ->].
Qed.

Lemma conversion_factor_self (u : unit) :
  unit_ok u -> exists f, conversion_factor u u = Ok f /\ f == 1.
Proof.
  intros Hu. exists (u_factor u / u_factor u). split.
  - by apply conversion_factor_Ok.
  - unfold unit_ok in Hu. field. lra.
Qed.

Lemma conversion_factor_pos (from to : unit) (f : Q) :
  unit_ok from -> unit_ok to -> conversion_factor from to = Ok f -> 0 < f.
Proof.
  unfold unit_ok. intros Hf Ht [_ ->]%conversion_factor_Ok.
  apply Qlt_shift_div_l; lra.
Qed.

(** Conversion is defined one way exactly when it is the other way. *)
Lemma conversion_factor_sym (u v : unit) :
  is_Ok (conversion_factor u v) <-> is_Ok (conversion_factor v u).
Proof.
  unfold conversion_factor.
  repeat case_decide; split; intros [? ?]; try done; try (by eexists);
    congruence.
Qed.

(** ** [value_in] and [add] *)

Section operation_facts.
Context {T : Type} `{numpy.BroadcastLaws T}.
Implicit Types (q : quantity T) (o : quantity fval) (u : unit).

Lemma value_in_is_Ok q u : is_Ok (value_in q u) <-> u_dim (unit_of q) = u_dim u.
Proof.
  unfold value_in, conversion_factor. case_decide; unfold_result; split;
    try done; [by eexists|by intros [? ?]].
Qed.

Lemma value_in_incompatible q u :
  u_dim (unit_of q) <> u_dim u -> value_in q u = Raise IncompatibleUnitsException.
Proof.
  intros. unfold value_in, conversion_factor. by rewrite decide_False.
Qed.

(** The value of a quantity in its own unit is its number. *)
Lemma value_in_own_unit q :
  unit_ok (unit_of q) -> value_in q (unit_of q) ≡ Ok (number q).
Proof.
  intros Hu. destruct (conversion_factor_self _ Hu) as (f & Hf & Hf1).
  unfold value_in. rewrite Hf. unfold_result. constructor.
  apply numpy.bmap_id. intros v. rewrite Hf1.
  destruct v; try done. fin_lra.
Qed.

Lemma add_is_Ok q o :
  is_Ok (add q o) <-> u_dim (unit_of o) = u_dim (unit_of q).
Proof.
  unfold add, conversion_factor. case_decide; unfold_result; split;
    try done; [by eexists|by intros [? ?]].
Qed.

Lemma add_incompatible q o :
  u_dim (unit_of o) <> u_dim (unit_of q) ->
  add q o = Raise IncompatibleUnitsException.
Proof. intros. unfold add, conversion_factor. by rewrite decide_False. Qed.

Lemma add_unit q o r : add q o = Ok r -> unit_of r = unit_of q.
Proof.
  unfold add. destruct (conversion_factor _ _); unfold_result; [|done].
  by intros [= <-].
Qed.

(** Adding a scalar quantity adds its value in the unit of the left
    operand to every element: [x += o] and [x + o.value_in(x.unit)] agree. *)
Lemma add_number q o r v :
  add q o = Ok r -> value_in o (unit_of q) = Ok v ->
  number r ≡ numpy.bmap (fun w => fadd w v) (number q).
Proof.
  unfold add, value_in.
  destruct (conversion_factor _ _) as [f|]; unfold_result; [|done].
  intros [= <-] [= <-]; cbn [number].
  apply numpy.bmap_ext; [|reflexivity].
  intros a b Hab. unfold numpy.bmap, numpy.broadcast_scalar.
  by rewrite Hab, (fmul_comm (Fin f)).
Qed.

End operation_facts.

(** Adding succeeds exactly when the right operand converts. *)
Lemma add_Ok_iff_value_in {T} `{numpy.BroadcastLaws T}
    (q : quantity T) (o : quantity fval) :
  is_Ok (add q o) <-> is_Ok (value_in o (unit_of q)).
Proof. by rewrite add_is_Ok, value_in_is_Ok. Qed.

Lemma unit_ok_parsec : unit_ok parsec.
Proof. done. Qed.

Lemma unit_ok_kms : unit_ok kms.
Proof. done. Qed.

Lemma unit_ok_amu_per_cm3 : unit_ok amu_per_cm3.
Proof. done. Qed.

Lemma unit_ok_Myr : unit_ok Myr.
Proof. done. Qed.

End units.

#[export] Hint Resolve units.unit_ok_parsec units.unit_ok_kms
  units.unit_ok_amu_per_cm3 units.unit_ok_Myr : pyarr.
