(* ===== verification/Hydro.v ===== *)
(** * Hydro: the interface of the hydrodynamics code

    [make_map] asks one thing of the code it is given:
    [get_hydro_state_at_point(x, y, z, vx, vy, vz)], six arrays of equal
    length in, five arrays of that length out (density, three momentum
    densities, energy density). The interface is the class
    [FieldEvaluator]; [HydroLaws] states what a code must do for the
    sampler to succeed. The instances are a field given point by point,
    which satisfies the laws, and two codes that do not: one that raises and
    one that answers with one value too few. *)

From S2P Require Import Prelude Floats Arrays Units.

(** A vector quantity: an array of floats with one unit. *)
Abbreviation vq := (units.quantity (list fval)).
(** A scalar quantity. *)
Abbreviation sq := (units.quantity fval).

(** ** The interface *)

(** What the code returns, in the order of the call's result. *)
Record hydro_state : Type := HydroState {
  rho : vq;
  rhovx : vq;
  rhovy : vq;
  rhovz : vq;
  rhoe : vq;
}.

Class FieldEvaluator (S : Type) : Type :=
  get_hydro_state_at_point : S -> vq -> vq -> vq -> vq -> vq -> vq -> result hydro_state.

(** Sample points a code accepts: six arrays of one length, positions with
    the dimension of a length and velocities with that of a speed. *)
Record sample_ok (x y z vx vy vz : vq) : Prop := {
  ok_len_y : length (units.number y) = length (units.number x);
  ok_len_z : length (units.number z) = length (units.number x);
  ok_len_vx : length (units.number vx) = length (units.number x);
  ok_len_vy : length (units.number vy) = length (units.number x);
  ok_len_vz : length (units.number vz) = length (units.number x);
  ok_dim_x : units.u_dim (units.unit_of x) = units.length_dim;
  ok_dim_y : units.u_dim (units.unit_of y) = units.length_dim;
  ok_dim_z : units.u_dim (units.unit_of z) = units.length_dim;
  ok_dim_vx : units.u_dim (units.unit_of vx) = units.speed_dim;
  ok_dim_vy : units.u_dim (units.unit_of vy) = units.speed_dim;
  ok_dim_vz : units.u_dim (units.unit_of vz) = units.speed_dim;
}.

(** A code the sampler can rely on: it answers every acceptable call, with
    one density per point, in a unit of density. *)
Class HydroLaws {S : Type} `{FieldEvaluator S} (sph : S) : Prop := {
  eval_total x y z vx vy vz :
    sample_ok x y z vx vy vz ->
    is_Ok (get_hydro_state_at_point sph x y z vx vy vz);
  eval_length x y z vx vy vz st :
    get_hydro_state_at_point sph x y z vx vy vz = Ok st ->
    length (units.number (rho st)) = length (units.number x);
  eval_density_dim x y z vx vy vz st :
    get_hydro_state_at_point sph x y z vx vy vz = Ok st ->
    units.u_dim (units.unit_of (rho st)) = units.density_dim;
}.

(** ** Sample points *)

(** One sample point: a position and a velocity. *)
Record point : Type := Point {
  p_x : sq;
  p_y : sq;
  p_z : sq;
  p_vx : sq;
  p_vy : sq;
  p_vz : sq;
}.

(** Two points are equivalent when their six quantities are. *)
#[export] Instance point_equiv : Equiv point := fun p q =>
  p_x p ≡ p_x q /\ p_y p ≡ p_y q /\ p_z p ≡ p_z q /\
  p_vx p ≡ p_vx q /\ p_vy p ≡ p_vy q /\ p_vz p ≡ p_vz q.

#[export] Instance point_equivalence : Equivalence (≡@{point}).
Proof.
  split.
  - intros p. hnf. split_and!; reflexivity.
  - intros p q (? & ? & ? & ? & ? & ?). hnf. split_and!; by symmetry.
  - intros p q r (? & ? & ? & ? & ? & ?) (? & ? & ? & ? & ? & ?).
    hnf. split_and!; by etrans.
Qed.

(** Element [k] of a vector quantity, as a scalar quantity. *)
Definition elements (q : vq) : list sq :=
  (fun v => units.Quantity v (units.unit_of q)) <$> units.number q.

(** A list of functions applied to a list of arguments, position by
    position. *)
Definition ap_zip {A B} (fs : list (A -> B)) (l : list A) : list B :=
  zip_with (fun f a => f a) fs l.

(** The sample points of six arrays. *)
Definition points (x y z vx vy vz : vq) : list point :=
  ap_zip (ap_zip (ap_zip (ap_zip (ap_zip (Point <$> elements x)
    (elements y)) (elements z)) (elements vx)) (elements vy)) (elements vz).

(** Whether the six arrays have one length, as the codes check. *)
Definition same_length (x y z vx vy vz : vq) : bool :=
  let n := length (units.number x) in
  forallb (fun q : vq => Nat.eqb (length (units.number q)) n) [y; z; vx; vy; vz].

(** ** A field given point by point *)

(** A static field: the density at every point, in the unit [f_unit]. The
    momentum and energy densities it reports are zero. *)
Record field : Type := Field {
  density_at : point -> fval;
  f_unit : units.unit;
}.

Definition momentum_unit (u : units.unit) : units.unit :=
  units.Unit (units.u_symbol u +:+ " * kms")
    (units.Dim (units.d_length (units.u_dim u) + 1)
               (units.d_mass (units.u_dim u))
               (units.d_time (units.u_dim u) - 1))
    (units.u_factor u * 1000).

Definition energy_unit (u : units.unit) : units.unit :=
  momentum_unit (momentum_unit u).

Definition field_state (f : field) (ps : list point) : hydro_state :=
  let zeros := (fun _ => Fin 0) <$> ps in
  HydroState (units.Quantity (density_at f <$> ps) (f_unit f))
             (units.Quantity zeros (momentum_unit (f_unit f)))
             (units.Quantity zeros (momentum_unit (f_unit f)))
             (units.Quantity zeros (momentum_unit (f_unit f)))
             (units.Quantity zeros (energy_unit (f_unit f))).

#[export] Instance field_evaluator : FieldEvaluator field := fun f x y z vx vy vz =>
  if same_length x y z vx vy vz
  then Ok (field_state f (points x y z vx vy vz))
  else Raise (CodeException "arrays of different lengths").

(** The field of one density everywhere. *)
Definition uniform (d : fval) (u : units.unit) : field := Field (fun _ => d) u.

(** ** Codes that break the laws *)

(** A code that raises at every call. *)
Inductive failing_code : Type := FailingCode (msg : string).

#[export] Instance failing_evaluator : FieldEvaluator failing_code :=
  fun c _ _ _ _ _ _ => let 'FailingCode msg := c in Raise (CodeException msg).

(** A code that answers with one value too few. *)
Inductive short_code : Type := ShortCode (f : field).

Definition drop_last (q : vq) : vq :=
  units.Quantity (removelast (units.number q)) (units.unit_of q).

#[export] Instance short_evaluator : FieldEvaluator short_code := fun c x y z vx vy vz =>
  let 'ShortCode f := c in
  st ← get_hydro_state_at_point f x y z vx vy vz;
  Ok (HydroState (drop_last (rho st)) (drop_last (rhovx st))
        (drop_last (rhovy st)) (drop_last (rhovz st)) (drop_last (rhoe st))).

(** ** Sample points, position by position *)

Lemma elements_length (q : vq) : length (elements q) = length (units.number q).
Proof. unfold elements. by rewrite length_fmap. Qed.

Lemma elements_lookup (q : vq) (k : nat) :
  elements q !! k =
    (fun v => units.Quantity v (units.unit_of q)) <$> units.number q !! k.
Proof. unfold elements. by rewrite list_lookup_fmap. Qed.

Lemma ap_zip_length {A B} (fs : list (A -> B)) (l : list A) :
  length (ap_zip fs l) = (length fs `min` length l)%nat.
Proof. unfold ap_zip. by rewrite length_zip_with. Qed.

Lemma ap_zip_lookup {A B} (fs : list (A -> B)) (l : list A) (k : nat) :
  ap_zip fs l !! k = (f ← fs !! k; a ← l !! k; Some (f a)).
Proof. unfold ap_zip. by rewrite lookup_zip_with. Qed.

Lemma same_length_spec (x y z vx vy vz : vq) :
  same_length x y z vx vy vz = true <->
  length (units.number y) = length (units.number x) /\
  length (units.number z) = length (units.number x) /\
  length (units.number vx) = length (units.number x) /\
  length (units.number vy) = length (units.number x) /\
  length (units.number vz) = length (units.number x).
Proof.
  unfold same_length; simpl.
  rewrite !andb_true_iff, !Nat.eqb_eq. tauto.
Qed.

Section points_facts.
Context (x y z vx vy vz : vq).
Context (Hlen : same_length x y z vx vy vz = true).

Lemma points_length : length (points x y z vx vy vz) = length (units.number x).
Proof.
  apply same_length_spec in Hlen as (? & ? & ? & ? & ?).
  unfold points.
  rewrite !ap_zip_length, length_fmap, !elements_length. lia.
Qed.

(** Point [k] is made of the [k]-th element of each array. *)
Lemma points_lookup k a b c va vb vc :
  units.number x !! k = Some a -> units.number y !! k = Some b ->
  units.number z !! k = Some c -> units.number vx !! k = Some va ->
  units.number vy !! k = Some vb -> units.number vz !! k = Some vc ->
  points x y z vx vy vz !! k =
    Some (Point (units.Quantity a (units.unit_of x))
                (units.Quantity b (units.unit_of y))
                (units.Quantity c (units.unit_of z))
                (units.Quantity va (units.unit_of vx))
                (units.Quantity vb (units.unit_of vy))
                (units.Quantity vc (units.unit_of vz))).
Proof.
  intros Ha Hb Hc Hva Hvb Hvc. unfold points.
  rewrite !ap_zip_lookup, list_lookup_fmap, !elements_lookup.
  by rewrite Ha, Hb, Hc, Hva, Hvb, Hvc.
Qed.

End points_facts.

(** ** The laws of a field *)

Lemma field_evaluator_Ok (f : field) (x y z vx vy vz : vq) :
  same_length x y z vx vy vz = true ->
  get_hydro_state_at_point f x y z vx vy vz =
    Ok (field_state f (points x y z vx vy vz)).
Proof.
  intros Hlen. unfold get_hydro_state_at_point, field_evaluator.
  by rewrite Hlen.
Qed.

Lemma field_evaluator_inv (f : field) (x y z vx vy vz : vq) st :
  get_hydro_state_at_point f x y z vx vy vz = Ok st ->
  same_length x y z vx vy vz = true /\
  st = field_state f (points x y z vx vy vz).
Proof.
  unfold get_hydro_state_at_point, field_evaluator.
  destruct (same_length _ _ _ _ _ _); [|done]. by intros [= <-].
Qed.

(** A field whose unit is a unit of density satisfies the laws. *)
Lemma field_laws (f : field) :
  units.u_dim (f_unit f) = units.density_dim -> HydroLaws f.
Proof.
  intros Hdim. split.
  - intros x y z vx vy vz [? ? ? ? ? _ _ _ _ _ _].
    rewrite field_evaluator_Ok; [by eexists|].
    by apply same_length_spec.
  - intros x y z vx vy vz st (Hlen & ->)%field_evaluator_inv; simpl.
    by rewrite length_fmap, points_length.
  - by intros x y z vx vy vz st (Hlen & ->)%field_evaluator_inv.
Qed.

#[export] Instance uniform_laws (d : fval) : HydroLaws (uniform d units.amu_per_cm3).
Proof. by apply field_laws. Qed.

(** ** The codes that break them *)

Lemma failing_evaluator_Raise msg (x y z vx vy vz : vq) :
  get_hydro_state_at_point (FailingCode msg) x y z vx vy vz =
    Raise (CodeException msg).
Proof. done. Qed.

Lemma removelast_length {A} (l : list A) : length (removelast l) = pred (length l).
Proof.
  induction l as [|a [|b l] IH]; [done..|].
  change (length (removelast (a :: b :: l))) with (S (length (removelast (b :: l)))).
  by rewrite IH.
Qed.

Lemma short_evaluator_length (f : field) (x y z vx vy vz : vq) st :
  get_hydro_state_at_point (ShortCode f) x y z vx vy vz = Ok st ->
  length (units.number (rho st)) = pred (length (units.number x)).
Proof.
  unfold get_hydro_state_at_point at 1, short_evaluator.
  intros (st' & (Hlen & ->)%field_evaluator_inv & [= <-])%bind_Ok; simpl.
  by rewrite removelast_length, length_fmap, points_length.
Qed.
