(* ===== verification/MakeMap.v ===== *)
(** * MakeMap: the grid sampler [make_map]

    [grid_coord] is the coordinate of one index, [sample_points] the six
    arrays handed to the hydrodynamics code, [make_map] the whole function.
    The theorems give the geometry of the grid, the shape and the entries of
    the result, and every way the function raises. *)

From S2P Require Import Prelude Floats Arrays Units Hydro.

(** ** The function *)

(** The defaults of the signature. *)
Definition default_N : Z := 100.
Definition default_L : fval := of_int 1.

(** [L*(i - N/2.)/N]: the coordinate of the index [i]. *)
Definition grid_coord (N : Z) (L : fval) (i : Z) : fval :=
  fdiv (fmul L (fsub (of_int i) (fdiv (of_int N) (Fin 2)))) (of_int N).

(** [x*0.] and [0.*x]. *)
Definition times_zero (v : fval) : fval := fmul v (Fin 0).
Definition zero_times (v : fval) : fval := fmul (Fin 0) v.

(** [if offset is not None: x += offset]. *)
Definition with_offset (x : vq) (offset : option sq) : result vq :=
  match offset with
  | Some o => units.add x o
  | None => Ok x
  end.

(** The six arrays of the call to the code. *)
Record samples : Type := Samples {
  s_x : vq;
  s_y : vq;
  s_z : vq;
  s_vx : vq;
  s_vy : vq;
  s_vz : vq;
}.

(** The sample points: the body of [make_map] down to the call. *)
Definition sample_points (N : Z) (L : fval) (offset_x offset_y : option sq) :
    result samples :=
  '(x, y) ← numpy.indices (N + 1, N + 1)%Z;
  let x := grid_coord N L <$> numpy.flatten x in
  let y := grid_coord N L <$> numpy.flatten y in
  let z := times_zero <$> x in
  let vx := zero_times <$> x in
  let vy := zero_times <$> x in
  let vz := zero_times <$> x in
  let x := units.new_quantity units.parsec x in
  x ← with_offset x offset_x;
  let y := units.new_quantity units.parsec y in
  y ← with_offset y offset_y;
  let z := units.new_quantity units.parsec z in
  let vx := units.new_quantity units.kms vx in
  let vy := units.new_quantity units.kms vy in
  let vz := units.new_quantity units.kms vz in
  Ok (Samples x y z vx vy vz).

(** [make_map(sph, N, L, offset_x, offset_y)]. *)
Definition make_map {S} `{FieldEvaluator S} (sph : S) (N : Z) (L : fval)
    (offset_x offset_y : option sq) : result (units.quantity (numpy.array2 fval)) :=
  s ← sample_points N L offset_x offset_y;
  st ← get_hydro_state_at_point sph (s_x s) (s_y s) (s_z s) (s_vx s) (s_vy s) (s_vz s);
  rho ← units.reshape (rho st) (N + 1, N + 1)%Z;
  Ok rho.

(** ** What the theorems say of the samples *)

(** The value of an offset in parsec, zero for no offset. *)
Definition offset_pc (offset : option sq) : result fval :=
  match offset with
  | Some o => units.value_in o units.parsec
  | None => Ok (Fin 0)
  end.

(** An offset the sampler accepts: none, or a length. *)
Definition offset_ok (offset : option sq) : Prop :=
  match offset with
  | Some o => units.u_dim (units.unit_of o) = units.length_dim
  | None => True
  end.

#[export] Instance offset_ok_dec offset : Decision (offset_ok offset).
Proof. destruct offset; apply _. Defined.

(** ** The geometry of the grid *)

Section grid.
Context (N : Z) (l : Q).
Context (HN : (0 < N)%Z).
Implicit Types (i j : Z).

Lemma inject_N_pos : 0 < inject_Z N.
Proof using HN. by apply inject_Z_pos. Qed.

(** On a grid with at least two points every coordinate is finite. *)
Lemma grid_coord_Fin i :
  grid_coord N (Fin l) i ≡
    Fin (l * (inject_Z i - inject_Z N / 2) / inject_Z N).
Proof using HN.
  unfold grid_coord, of_int. rewrite (fdiv_Fin _ 2) by done.
  cbn [fsub fadd fneg fmul]. rewrite fdiv_Fin by (pose proof inject_N_pos; lra).
  apply Fin_equiv. pose proof inject_N_pos. field. lra.
Qed.

Lemma grid_coord_symmetric_Q i :
  l * (inject_Z i - inject_Z N / 2) / inject_Z N +
  l * (inject_Z (N - i) - inject_Z N / 2) / inject_Z N == 0.
Proof using HN.
  pose proof inject_N_pos. unfold Z.sub.
  rewrite inject_Z_plus, inject_Z_opp. field. lra.
Qed.

Lemma grid_coord_first : grid_coord N (Fin l) 0 ≡ Fin (- l / 2).
Proof using HN.
  rewrite grid_coord_Fin. apply Fin_equiv.
  pose proof inject_N_pos. change (inject_Z 0) with 0. field. lra.
Qed.

Lemma grid_coord_last : grid_coord N (Fin l) N ≡ Fin (l / 2).
Proof using HN.
  rewrite grid_coord_Fin. apply Fin_equiv.
  pose proof inject_N_pos. field. lra.
Qed.

Lemma grid_coord_step i :
  fsub (grid_coord N (Fin l) (i + 1)) (grid_coord N (Fin l) i) ≡
    Fin (l / inject_Z N).
Proof using HN.
  rewrite !grid_coord_Fin, fsub_Fin. apply Fin_equiv.
  pose proof inject_N_pos. rewrite inject_Z_plus.
  change (inject_Z 1) with 1. field. lra.
Qed.

Lemma grid_coord_mono i j :
  0 < l -> (i <= j)%Z ->
  fle (grid_coord N (Fin l) i) (grid_coord N (Fin l) j).
Proof using HN.
  intros Hl Hij. rewrite !grid_coord_Fin. simpl.
  pose proof inject_N_pos as HNq.
  apply Qmult_le_r; [by apply Qinv_lt_0_compat|].
  apply Qmult_le_l; [done|].
  rewrite Zle_Qle in Hij. lra.
Qed.

End grid.

(** With [N = 0] the one coordinate is [0/0]. *)
Lemma grid_coord_N0 (L : fval) : grid_coord 0 L 0 = NaN.
Proof.
  destruct L as [q| | |]; try done.
  unfold grid_coord, of_int. rewrite (fdiv_Fin _ 2) by done.
  cbn [fsub fadd fneg fmul]. change (inject_Z 0) with 0.
  rewrite fdiv_by_zero. apply signed_zero. field.
Qed.

(** ** The sample points *)

(** The number of points along one axis. *)
Definition grid_size (N : Z) : nat := Z.to_nat (N + 1).

(** The coordinates before the offsets, in the order of the flattened
    index grids: x follows the row index, y the column index. *)
Definition grid_x (N : Z) (L : fval) : list fval :=
  tabulate2 (grid_size N) (grid_size N) (fun i _ => grid_coord N L (Z.of_nat i)).
Definition grid_y (N : Z) (L : fval) : list fval :=
  tabulate2 (grid_size N) (grid_size N) (fun _ j => grid_coord N L (Z.of_nat j)).

(** The numbers of [x + offset], in parsec. *)
Definition shift (offset : option sq) (l : list fval) : list fval :=
  match offset with
  | Some o =>
      let f := units.u_factor (units.unit_of o) / units.u_factor units.parsec in
      (fun v => fadd v (fmul (Fin f) (units.number o))) <$> l
  | None => l
  end.

Lemma grid_x_length N L : length (grid_x N L) = (grid_size N * grid_size N)%nat.
Proof. apply tabulate2_length. Qed.

Lemma grid_y_length N L : length (grid_y N L) = (grid_size N * grid_size N)%nat.
Proof. apply tabulate2_length. Qed.

Lemma shift_length offset l : length (shift offset l) = length l.
Proof. destruct offset; simpl; [by rewrite length_fmap|done]. Qed.

Lemma offset_pc_Ok offset :
  offset_ok offset -> exists d, offset_pc offset = Ok d.
Proof.
  destruct offset as [o|]; simpl; [|by eexists].
  intros Ho. by apply units.value_in_is_Ok.
Qed.

Lemma with_offset_Ok (l : list fval) offset :
  offset_ok offset ->
  with_offset (units.new_quantity units.parsec l) offset =
    Ok (units.Quantity (shift offset l) units.parsec).
Proof.
  destruct offset as [o|]; simpl; [|done]. intros Ho.
  unfold units.add, units.conversion_factor; simpl.
  by rewrite decide_True.
Qed.

Lemma with_offset_Raise (x : vq) (o : sq) :
  units.u_dim (units.unit_of o) <> units.u_dim (units.unit_of x) ->
  with_offset x (Some o) = Raise IncompatibleUnitsException.
Proof. intros. by apply units.add_incompatible. Qed.

(** Every element of the shifted array is the element plus the value of
    the offset in parsec. *)
Lemma shift_lookup offset l d k :
  offset_pc offset = Ok d ->
  shift offset l !! k ≡ (fun v => fadd v d) <$> l !! k.
Proof.
  destruct offset as [o|]; simpl.
  - unfold units.value_in.
    destruct (units.conversion_factor _ _) as [f|] eqn:Hf; [|done].
    apply units.conversion_factor_Ok in Hf as [_ ->].
    rewrite bind_Ok_l. intros [= <-]. rewrite list_lookup_fmap.
    destruct (l !! k) as [v|]; constructor.
    unfold numpy.bmap, numpy.broadcast_scalar.
    by rewrite (fmul_comm (units.number o)).
  - intros [= <-]. destruct (l !! k) as [v|]; constructor.
    by rewrite fadd_0_r.
Qed.

Section sampling.
Context (N : Z) (L : fval) (offset_x offset_y : option sq).
Context (HN : (-1 <= N)%Z).
Context (Hox : offset_ok offset_x) (Hoy : offset_ok offset_y).

Lemma grid_size_Z : (N + 1)%Z = Z.of_nat (grid_size N).
Proof using HN. unfold grid_size. lia. Qed.

(** The six arrays, in closed form. *)
Lemma sample_points_Ok :
  sample_points N L offset_x offset_y =
    Ok (Samples
          (units.Quantity (shift offset_x (grid_x N L)) units.parsec)
          (units.Quantity (shift offset_y (grid_y N L)) units.parsec)
          (units.Quantity (times_zero <$> grid_x N L) units.parsec)
          (units.Quantity (zero_times <$> grid_x N L) units.kms)
          (units.Quantity (zero_times <$> grid_x N L) units.kms)
          (units.Quantity (zero_times <$> grid_x N L) units.kms)).
Proof using HN Hox Hoy.
  unfold sample_points. rewrite grid_size_Z, numpy.indices_Ok.
  rewrite bind_Ok_l. unfold numpy.flatten, grid_x, grid_y; cbn [numpy.data].
  rewrite !tabulate2_fmap, !with_offset_Ok by done.
  by rewrite !bind_Ok_l.
Qed.

Lemma sample_points_same_length s :
  sample_points N L offset_x offset_y = Ok s ->
  same_length (s_x s) (s_y s) (s_z s) (s_vx s) (s_vy s) (s_vz s) = true /\
  length (units.number (s_x s)) = (grid_size N * grid_size N)%nat.
Proof using HN Hox Hoy.
  rewrite sample_points_Ok. intros [= <-]. split.
  - apply same_length_spec; cbn [s_x s_y s_z s_vx s_vy s_vz units.number].
    by rewrite !shift_length, !length_fmap, !grid_x_length, !grid_y_length.
  - cbn [s_x units.number]. by rewrite shift_length, grid_x_length.
Qed.

(** The code is called with arrays it accepts. *)
Lemma sample_points_sample_ok s :
  sample_points N L offset_x offset_y = Ok s ->
  sample_ok (s_x s) (s_y s) (s_z s) (s_vx s) (s_vy s) (s_vz s).
Proof using HN Hox Hoy.
  intros Hs. destruct (sample_points_same_length s Hs) as [Hlen _].
  apply same_length_spec in Hlen as (? & ? & ? & ? & ?).
  rewrite sample_points_Ok in Hs. injection Hs as <-.
  by split.
Qed.

End sampling.

(** A negative number of points is refused by [numpy.indices]. *)
Lemma sample_points_negative N L offset_x offset_y :
  (N < -1)%Z -> sample_points N L offset_x offset_y = Raise ValueError.
Proof.
  intros. unfold sample_points.
  by rewrite numpy.indices_negative by (simpl; lia).
Qed.

(** ** The result of [make_map] *)

(** [make_map] in terms of its three steps. *)
Lemma make_map_unfold {S} `{FieldEvaluator S} (sph : S) N L offset_x offset_y :
  make_map sph N L offset_x offset_y =
    (s ← sample_points N L offset_x offset_y;
     st ← get_hydro_state_at_point sph (s_x s) (s_y s) (s_z s) (s_vx s) (s_vy s) (s_vz s);
     units.reshape (rho st) (N + 1, N + 1)%Z).
Proof.
  unfold make_map. destruct (sample_points _ _ _ _) as [s|]; [|done].
  rewrite !bind_Ok_l. destruct (get_hydro_state_at_point _ _ _ _ _ _ _); [|done].
  rewrite !bind_Ok_l. by destruct (units.reshape _ _).
Qed.

Lemma reshape_grid {A} (q : units.quantity (list A)) (N : Z) :
  (-1 <= N)%Z ->
  length (units.number q) = (grid_size N * grid_size N)%nat ->
  units.reshape q (N + 1, N + 1)%Z =
    Ok (units.Quantity
          (numpy.Array2 (grid_size N, grid_size N) (units.number q))
          (units.unit_of q)).
Proof.
  intros HN Hlen. unfold units.reshape.
  rewrite (grid_size_Z N HN), numpy.reshape_nonneg by done.
  by rewrite bind_Ok_l.
Qed.

Lemma reshape_grid_mismatch {A} (q : units.quantity (list A)) (N : Z) :
  (-1 <= N)%Z ->
  length (units.number q) <> (grid_size N * grid_size N)%nat ->
  units.reshape q (N + 1, N + 1)%Z = Raise ValueError.
Proof.
  intros HN Hlen. unfold units.reshape.
  rewrite numpy.reshape_size_mismatch; [done|lia|lia|].
  rewrite (grid_size_Z N HN). lia.
Qed.

Section make_map_steps.
Context {S : Type} `{FieldEvaluator S} (sph : S).
Context (N : Z) (L : fval) (offset_x offset_y : option sq).
Context (HN : (-1 <= N)%Z).
Context (Hox : offset_ok offset_x) (Hoy : offset_ok offset_y).
Context (s : samples) (Hs : sample_points N L offset_x offset_y = Ok s).

(** The failure of the code is the failure of [make_map]. *)
Lemma make_map_code_raises e :
  get_hydro_state_at_point sph (s_x s) (s_y s) (s_z s) (s_vx s) (s_vy s) (s_vz s)
    = Raise e ->
  make_map sph N L offset_x offset_y = Raise e.
Proof using Hs.
  intros He. by rewrite make_map_unfold, Hs, bind_Ok_l, He.
Qed.

Section answered.
Context (st : hydro_state).
Context (Hst :
  get_hydro_state_at_point sph (s_x s) (s_y s) (s_z s) (s_vx s) (s_vy s) (s_vz s)
    = Ok st).

(** An answer of the right length is reshaped to the grid. *)
Lemma make_map_answered :
  length (units.number (rho st)) = (grid_size N * grid_size N)%nat ->
  make_map sph N L offset_x offset_y =
    Ok (units.Quantity
          (numpy.Array2 (grid_size N, grid_size N) (units.number (rho st)))
          (units.unit_of (rho st))).
Proof using HN Hs Hst.
  intros Hlen. rewrite make_map_unfold, Hs, bind_Ok_l, Hst, bind_Ok_l.
  by apply reshape_grid.
Qed.

(** An answer of another length makes [reshape] raise. *)
Lemma make_map_wrong_length :
  length (units.number (rho st)) <> (grid_size N * grid_size N)%nat ->
  make_map sph N L offset_x offset_y = Raise ValueError.
Proof using HN Hs Hst.
  intros Hlen. rewrite make_map_unfold, Hs, bind_Ok_l, Hst, bind_Ok_l.
  by apply reshape_grid_mismatch.
Qed.

End answered.
End make_map_steps.

(** The offsets are checked in the order of the code: x, then y. *)
Lemma sample_points_bad_offset_x N L (o : sq) offset_y :
  (-1 <= N)%Z ->
  units.u_dim (units.unit_of o) <> units.length_dim ->
  sample_points N L (Some o) offset_y = Raise IncompatibleUnitsException.
Proof.
  intros HN Ho. unfold sample_points.
  rewrite (grid_size_Z N HN), numpy.indices_Ok, bind_Ok_l.
  by rewrite with_offset_Raise.
Qed.

Lemma sample_points_bad_offset_y N L offset_x (o : sq) :
  (-1 <= N)%Z -> offset_ok offset_x ->
  units.u_dim (units.unit_of o) <> units.length_dim ->
  sample_points N L offset_x (Some o) = Raise IncompatibleUnitsException.
Proof.
  intros HN Hox Ho. unfold sample_points.
  rewrite (grid_size_Z N HN), numpy.indices_Ok, bind_Ok_l.
  unfold numpy.flatten; cbn [numpy.data].
  rewrite (with_offset_Ok _ offset_x), bind_Ok_l by done.
  by rewrite with_offset_Raise.
Qed.

(** The sample points exist exactly for [N >= -1] and offsets that are
    lengths. *)
Lemma sample_points_is_Ok N L offset_x offset_y :
  is_Ok (sample_points N L offset_x offset_y) <->
  (-1 <= N)%Z /\ offset_ok offset_x /\ offset_ok offset_y.
Proof.
  split.
  - intros [s Hs]. destruct (decide (-1 <= N)%Z) as [HN|HN].
    2: { rewrite sample_points_negative in Hs by lia. done. }
    destruct (decide (offset_ok offset_x)) as [Hox|Hox].
    2: { destruct offset_x as [o|]; [|done].
         rewrite sample_points_bad_offset_x in Hs by done. done. }
    destruct (decide (offset_ok offset_y)) as [Hoy|Hoy]; [done|].
    destruct offset_y as [o|]; [|done].
    rewrite sample_points_bad_offset_y in Hs by done. done.
  - intros (HN & Hox & Hoy). rewrite sample_points_Ok by done. by eexists.
Qed.

(** ** The entries of the map of a field *)

(** The sample point of the grid position [(i, j)]: x from [i], y from
    [j], each with its offset in parsec; z and the velocities from the x
    coordinate before the offset. *)
Definition sample_point (N : Z) (L dx dy : fval) (i j : nat) : point :=
  let x := grid_coord N L (Z.of_nat i) in
  let y := grid_coord N L (Z.of_nat j) in
  Point (units.Quantity (fadd x dx) units.parsec)
        (units.Quantity (fadd y dy) units.parsec)
        (units.Quantity (times_zero x) units.parsec)
        (units.Quantity (zero_times x) units.kms)
        (units.Quantity (zero_times x) units.kms)
        (units.Quantity (zero_times x) units.kms).

Lemma offset_pc_Ok_inv offset d : offset_pc offset = Ok d -> offset_ok offset.
Proof.
  destruct offset as [o|]; simpl; [|done]. intros Hd.
  by apply (units.value_in_is_Ok o units.parsec); eexists.
Qed.

Lemma shift_lookup_Some offset l d k v :
  offset_pc offset = Ok d -> l !! k = Some v ->
  exists a, shift offset l !! k = Some a /\ a ≡ fadd v d.
Proof.
  intros Hd Hv. pose proof (shift_lookup offset l d k Hd) as Hk.
  rewrite Hv in Hk. inversion Hk as [a b Hab Ha|]; subst. eauto.
Qed.

Section entries.
Context (N : Z) (L : fval) (i j : nat).
Context (Hi : (i < grid_size N)%nat) (Hj : (j < grid_size N)%nat).
Let k := (i * grid_size N + j)%nat.

Lemma grid_x_lookup : grid_x N L !! k = Some (grid_coord N L (Z.of_nat i)).
Proof using Hi Hj. unfold grid_x, k. by rewrite tabulate2_lookup. Qed.

Lemma grid_y_lookup : grid_y N L !! k = Some (grid_coord N L (Z.of_nat j)).
Proof using Hi Hj. unfold grid_y, k. by rewrite tabulate2_lookup. Qed.

(** The point handed to the code at the flat position of [(i, j)]. *)
Lemma sample_points_lookup offset_x offset_y dx dy s :
  offset_pc offset_x = Ok dx -> offset_pc offset_y = Ok dy ->
  sample_points N L offset_x offset_y = Ok s ->
  exists p,
    points (s_x s) (s_y s) (s_z s) (s_vx s) (s_vy s) (s_vz s) !! k = Some p /\
    p ≡ sample_point N L dx dy i j.
Proof using Hi Hj.
  intros Hdx Hdy Hs.
  assert (-1 <= N)%Z as HN.
  { eapply proj1, sample_points_is_Ok. by eexists. }
  pose proof (offset_pc_Ok_inv _ _ Hdx) as Hox.
  pose proof (offset_pc_Ok_inv _ _ Hdy) as Hoy.
  destruct (sample_points_same_length N L _ _ HN Hox Hoy s Hs) as [Hlen _].
  rewrite sample_points_Ok in Hs by done. injection Hs as <-.
  destruct (shift_lookup_Some _ _ _ k _ Hdx grid_x_lookup) as (a & Ha & Hax).
  destruct (shift_lookup_Some _ _ _ k _ Hdy grid_y_lookup) as (b & Hb & Hby).
  eexists. split.
  - apply points_lookup; cbn [s_x s_y s_z s_vx s_vy s_vz units.number];
      rewrite ?list_lookup_fmap, ?grid_x_lookup; done.
  - by repeat split.
Qed.

End entries.

(** The map of a field, in closed form. *)
Lemma make_map_field (f : field) N L offset_x offset_y s :
  sample_points N L offset_x offset_y = Ok s ->
  make_map f N L offset_x offset_y =
    Ok (units.Quantity
          (numpy.Array2 (grid_size N, grid_size N)
             (density_at f <$>
                points (s_x s) (s_y s) (s_z s) (s_vx s) (s_vy s) (s_vz s)))
          (f_unit f)).
Proof.
  intros Hs.
  destruct (proj1 (sample_points_is_Ok _ _ _ _) (ex_intro _ s Hs))
    as (HN & Hox & Hoy).
  destruct (sample_points_same_length _ _ _ _ HN Hox Hoy s Hs) as [Hlen Hn].
  rewrite (make_map_answered f N L _ _ HN s Hs _ (field_evaluator_Ok f _ _ _ _ _ _ Hlen));
    [done|].
  cbn [field_state rho units.number]. by rewrite length_fmap, points_length.
Qed.

(** ** The map of a code that keeps its contract *)

Section lawful.
Context {S : Type} `{FieldEvaluator S} (sph : S) `{!HydroLaws sph}.
Context (N : Z) (L : fval) (offset_x offset_y : option sq).

(** The code answers the samples, and its answer is reshaped. *)
Lemma make_map_lawful :
  (-1 <= N)%Z -> offset_ok offset_x -> offset_ok offset_y ->
  exists s st,
    sample_points N L offset_x offset_y = Ok s /\
    get_hydro_state_at_point sph (s_x s) (s_y s) (s_z s) (s_vx s) (s_vy s) (s_vz s)
      = Ok st /\
    units.u_dim (units.unit_of (rho st)) = units.density_dim /\
    make_map sph N L offset_x offset_y =
      Ok (units.Quantity
            (numpy.Array2 (grid_size N, grid_size N) (units.number (rho st)))
            (units.unit_of (rho st))) /\
    length (units.number (rho st)) = (grid_size N * grid_size N)%nat.
Proof using HydroLaws0.
  intros HN Hox Hoy.
  destruct (proj2 (sample_points_is_Ok N L offset_x offset_y)) as [s Hs]; [done|].
  pose proof (sample_points_sample_ok _ _ _ _ HN Hox Hoy s Hs) as Hok.
  destruct (eval_total _ _ _ _ _ _ Hok) as [st Hst].
  destruct (sample_points_same_length _ _ _ _ HN Hox Hoy s Hs) as [_ Hn].
  pose proof (eval_length _ _ _ _ _ _ _ Hst) as Hlen. rewrite Hn in Hlen.
  exists s, st. split_and!; try done.
  - by apply (eval_density_dim _ _ _ _ _ _ _ Hst).
  - by apply (make_map_answered sph N L _ _ HN s Hs st Hst).
Qed.

(** [make_map] returns exactly when the sample points exist. *)
Lemma make_map_lawful_is_Ok :
  is_Ok (make_map sph N L offset_x offset_y) <->
  (-1 <= N)%Z /\ offset_ok offset_x /\ offset_ok offset_y.
Proof using HydroLaws0.
  split.
  - intros [rho Hrho].
    apply (proj1 (sample_points_is_Ok N L offset_x offset_y)).
    rewrite make_map_unfold in Hrho.
    destruct (sample_points N L offset_x offset_y) as [s|e]; [by eexists|done].
  - intros (HN & Hox & Hoy).
    destruct (make_map_lawful HN Hox Hoy) as (s & st & _ & _ & _ & -> & _).
    by eexists.
Qed.

End lawful.

(** ** The theorems of the grid sampler *)

(** C1. For every resolution [N >= -1], offsets that are lengths (or
    absent) and a hydrodynamics code that keeps its contract, [make_map]
    returns a well-formed array of shape [(N+1, N+1)] in a unit of density. *)
Theorem make_map_shape {S} `{FieldEvaluator S} (sph : S) `{!HydroLaws sph}
    (N : Z) (L : fval) (offset_x offset_y : option sq) :
  (-1 <= N)%Z -> offset_ok offset_x -> offset_ok offset_y ->
  exists rho,
    make_map sph N L offset_x offset_y = Ok rho /\
    numpy.shape (units.number rho) = (Z.to_nat (N + 1), Z.to_nat (N + 1)) /\
    numpy.wf (units.number rho) /\
    units.u_dim (units.unit_of rho) = units.density_dim.
Proof.
  intros HN Hox Hoy.
  destruct (make_map_lawful sph N L _ _ HN Hox Hoy)
    as (s & st & _ & _ & Hdim & -> & Hlen).
  eexists. split; [done|]. by split_and!.
Qed.

Lemma make_map_shape_witness :
  (-1 <= 2)%Z /\ offset_ok None /\ offset_ok None /\
  exists rho,
    make_map (uniform (Fin 1) units.amu_per_cm3) 2 (Fin 2) None None = Ok rho /\
    numpy.shape (units.number rho) = (Z.to_nat (2 + 1), Z.to_nat (2 + 1)) /\
    numpy.wf (units.number rho) /\
    units.u_dim (units.unit_of rho) = units.density_dim.
Proof.
  split_and!; [lia|exact I|exact I|].
  apply (make_map_shape (uniform (Fin 1) units.amu_per_cm3) 2 (Fin 2) None None);
    [lia|exact I|exact I].
Defined.

(** The entry [(i, j)] of the reshaped answer of a field. *)
Lemma make_map_field_get (f : field) (N : Z) (L dx dy : fval)
    (offset_x offset_y : option sq) (s : samples) (i j : nat) :
  offset_pc offset_x = Ok dx -> offset_pc offset_y = Ok dy ->
  sample_points N L offset_x offset_y = Ok s ->
  (i < grid_size N)%nat -> (j < grid_size N)%nat ->
  exists p,
    numpy.get
      (numpy.Array2 (grid_size N, grid_size N)
         (density_at f <$>
            points (s_x s) (s_y s) (s_z s) (s_vx s) (s_vy s) (s_vz s))) i j
      = Some (density_at f p) /\
    p ≡ sample_point N L dx dy i j.
Proof.
  intros Hdx Hdy Hs Hi Hj.
  destruct (sample_points_lookup N L i j Hi Hj _ _ _ _ s Hdx Hdy Hs) as (p & Hp & Hpe).
  exists p. split; [|done].
  unfold numpy.get, numpy.nrows, numpy.ncols; cbn [numpy.shape numpy.data fst snd].
  rewrite decide_True by done. by rewrite list_lookup_fmap, Hp.
Qed.

(** C2. For a field given point by point, the entry [(i, j)] of the map is
    the density at the sample point of [(i, j)]: x is the coordinate of the
    row index [i] plus the x offset, y that of the column index [j] plus the
    y offset, z and the velocities are the x coordinate times zero. *)
Theorem make_map_entries (f : field) (N : Z) (L dx dy : fval)
    (offset_x offset_y : option sq) (i j : nat) :
  (-1 <= N)%Z ->
  offset_pc offset_x = Ok dx -> offset_pc offset_y = Ok dy ->
  (i < grid_size N)%nat -> (j < grid_size N)%nat ->
  exists rho p,
    make_map f N L offset_x offset_y = Ok rho /\
    numpy.get (units.number rho) i j = Some (density_at f p) /\
    p ≡ sample_point N L dx dy i j.
Proof.
  intros HN Hdx Hdy Hi Hj.
  pose proof (offset_pc_Ok_inv _ _ Hdx) as Hox.
  pose proof (offset_pc_Ok_inv _ _ Hdy) as Hoy.
  destruct (proj2 (sample_points_is_Ok N L offset_x offset_y)) as [s Hs]; [done|].
  destruct (make_map_field_get f N L _ _ _ _ s i j Hdx Hdy Hs) as (p & Hp & Hpe);
    try done.
  eexists _, p. rewrite (make_map_field f N L _ _ s Hs). by split_and!.
Qed.

Lemma make_map_entries_witness :
  (-1 <= 2)%Z /\ offset_pc None = Ok (Fin 0) /\ offset_pc None = Ok (Fin 0) /\
  (0 < grid_size 2)%nat /\ (2 < grid_size 2)%nat /\
  exists rho p,
    make_map (uniform (Fin 1) units.amu_per_cm3) 2 (Fin 2) None None = Ok rho /\
    numpy.get (units.number rho) 0 2 =
      Some (density_at (uniform (Fin 1) units.amu_per_cm3) p) /\
    p ≡ sample_point 2 (Fin 2) (Fin 0) (Fin 0) 0 2.
Proof.
  split_and!; [lia|reflexivity|reflexivity|vm_compute; lia|vm_compute; lia|].
  apply (make_map_entries (uniform (Fin 1) units.amu_per_cm3) 2 (Fin 2)
           (Fin 0) (Fin 0) None None 0 2);
    [lia|reflexivity|reflexivity|vm_compute; lia|vm_compute; lia].
Defined.

(** C6. The grid is symmetric about its centre for every [N >= 1], odd or
    even: the coordinates of the indices [i] and [N - i] add up to zero,
    because the code divides by the float [2.]. *)
Theorem grid_symmetric (N : Z) (l : Q) (i : Z) :
  (0 < N)%Z ->
  fadd (grid_coord N (Fin l) i) (grid_coord N (Fin l) (N - i)) ≡ Fin 0.
Proof.
  intros HN. rewrite !grid_coord_Fin by done.
  apply Fin_equiv. by apply grid_coord_symmetric_Q.
Qed.

Lemma grid_symmetric_witness :
  (0 < 3)%Z /\
  fadd (grid_coord 3 (Fin 2) 1) (grid_coord 3 (Fin 2) (3 - 1)) ≡ Fin 0.
Proof. split; [lia|apply (grid_symmetric 3 2 1); lia]. Defined.

(** Without rounding, for [N >= 1] the first coordinate is [-L/2] and the
    last is [L/2]: the [N+1] samples span exactly [L], whatever [N]. In
    doubles the ends are within [2 u + u^2] of these
    ([MakeMapFloat.grid64_span]). *)
Theorem grid_span (N : Z) (l : Q) :
  (0 < N)%Z ->
  grid_coord N (Fin l) 0 ≡ Fin (- l / 2) /\
  grid_coord N (Fin l) N ≡ Fin (l / 2) /\
  fsub (grid_coord N (Fin l) N) (grid_coord N (Fin l) 0) ≡ Fin l.
Proof.
  intros HN.
  pose proof (grid_coord_first N l HN) as H0.
  pose proof (grid_coord_last N l HN) as H1.
  split_and!; [done|done|]. rewrite H0, H1, fsub_Fin.
  apply Fin_equiv. field.
Qed.

Lemma grid_span_witness :
  (0 < 200)%Z /\
  grid_coord 200 (Fin 10) 0 ≡ Fin (- 10 / 2) /\
  grid_coord 200 (Fin 10) 200 ≡ Fin (10 / 2) /\
  fsub (grid_coord 200 (Fin 10) 200) (grid_coord 200 (Fin 10) 0) ≡ Fin 10.
Proof. split; [lia|apply (grid_span 200 10); lia]. Defined.

(** With a code that keeps its contract, [make_map] returns exactly
    when [N >= -1] and both offsets are lengths or absent; in every other
    case it raises. *)
Theorem make_map_returns_iff {S} `{FieldEvaluator S} (sph : S) `{!HydroLaws sph}
    (N : Z) (L : fval) (offset_x offset_y : option sq) :
  is_Ok (make_map sph N L offset_x offset_y) <->
  (-1 <= N)%Z /\ offset_ok offset_x /\ offset_ok offset_y.
Proof. by apply make_map_lawful_is_Ok. Qed.

Lemma make_map_returns_iff_witness :
  is_Ok (make_map (uniform (Fin 1) units.amu_per_cm3) 2 (Fin 2)
           (Some (units.Quantity (Fin 1) units.kms)) None) <->
  (-1 <= 2)%Z /\ offset_ok (Some (units.Quantity (Fin 1) units.kms)) /\ offset_ok None.
Proof.
  apply (make_map_returns_iff (uniform (Fin 1) units.amu_per_cm3) 2 (Fin 2)
           (Some (units.Quantity (Fin 1) units.kms)) None).
Defined.

Lemma shift_equiv (o : sq) (d : fval) (l : list fval) :
  units.value_in o units.parsec = Ok d ->
  shift (Some o) l ≡ (fun v => fadd v d) <$> l.
Proof.
  intros Hd. apply list_equiv_lookup. intros k.
  rewrite (shift_lookup (Some o) l d k Hd). by rewrite list_lookup_fmap.
Qed.

(** C15. An x offset adds its value in parsec to every sampled x
    coordinate and leaves y, z and the velocities as they are without it. *)
Theorem offset_shifts_x_only (N : Z) (L : fval) (o : sq) (d : fval)
    (offset_y : option sq) :
  (-1 <= N)%Z -> offset_ok offset_y ->
  units.value_in o units.parsec = Ok d ->
  exists s s0,
    sample_points N L (Some o) offset_y = Ok s /\
    sample_points N L None offset_y = Ok s0 /\
    units.number (s_x s) ≡ (fun v => fadd v d) <$> units.number (s_x s0) /\
    s_y s = s_y s0 /\ s_z s = s_z s0 /\
    s_vx s = s_vx s0 /\ s_vy s = s_vy s0 /\ s_vz s = s_vz s0.
Proof.
  intros HN Hoy Hd.
  pose proof (offset_pc_Ok_inv (Some o) d Hd) as Hox.
  eexists _, _. rewrite !sample_points_Ok by done.
  split_and!; try done. cbn [s_x units.number]. by apply shift_equiv.
Qed.

Lemma offset_shifts_x_only_witness :
  (-1 <= 2)%Z /\ offset_ok None /\
  units.value_in (units.Quantity (Fin 3) units.parsec) units.parsec
    = Ok (Fin (3 * (30856775814913673 / 30856775814913673))) /\
  exists s s0,
    sample_points 2 (Fin 2) (Some (units.Quantity (Fin 3) units.parsec)) None = Ok s /\
    sample_points 2 (Fin 2) None None = Ok s0 /\
    units.number (s_x s) ≡
      (fun v => fadd v (Fin (3 * (30856775814913673 / 30856775814913673))))
        <$> units.number (s_x s0) /\
    s_y s = s_y s0 /\ s_z s = s_z s0 /\
    s_vx s = s_vx s0 /\ s_vy s = s_vy s0 /\ s_vz s = s_vz s0.
Proof.
  split_and!; [lia|exact I|reflexivity|].
  apply (offset_shifts_x_only 2 (Fin 2) (units.Quantity (Fin 3) units.parsec)
           (Fin (3 * (30856775814913673 / 30856775814913673))) None);
    [lia|exact I|reflexivity].
Defined.

(** For [N >= 1] neighbouring samples are [L/N] apart. *)
Theorem grid_spacing (N : Z) (l : Q) (i : Z) :
  (0 < N)%Z ->
  fsub (grid_coord N (Fin l) (i + 1)) (grid_coord N (Fin l) i) ≡
    Fin (l / inject_Z N).
Proof. intros HN. by apply grid_coord_step. Qed.

Lemma grid_spacing_witness :
  (0 < 200)%Z /\
  fsub (grid_coord 200 (Fin 10) (7 + 1)) (grid_coord 200 (Fin 10) 7) ≡
    Fin (10 / inject_Z 200).
Proof. split; [lia|apply (grid_spacing 200 10 7); lia]. Defined.

Lemma times_zero_finite (v : fval) (q : Q) : v ≡ Fin q -> times_zero v ≡ Fin 0.
Proof. intros Hv. unfold times_zero. rewrite Hv. fin_lra. Qed.

Lemma zero_times_finite (v : fval) (q : Q) : v ≡ Fin q -> zero_times v ≡ Fin 0.
Proof. intros Hv. unfold zero_times. rewrite Hv. fin_lra. Qed.

Lemma grid_x_zeros (N : Z) (l : Q) (g : fval -> fval) :
  (0 < N)%Z -> (forall v q, v ≡ Fin q -> g v ≡ Fin 0) ->
  Forall (fun v => v ≡ Fin 0) (g <$> grid_x N (Fin l)).
Proof.
  intros HN Hg. unfold grid_x. rewrite tabulate2_fmap.
  apply tabulate2_Forall. intros i j _ _.
  eapply Hg. by apply grid_coord_Fin.
Qed.

(** Without rounding, for [N >= 1] and a finite [L] the sampled plane is
    [z = 0] and the three velocities are zero at every point, in parsec and
    in km/s. In doubles they are zero while [L*(i - N/2.)] does not
    overflow and [nan] beyond ([SamplesFloat.rest64_zero_or_nan]). *)
Theorem samples_at_rest (N : Z) (l : Q) (offset_x offset_y : option sq) :
  (0 < N)%Z -> offset_ok offset_x -> offset_ok offset_y ->
  exists s,
    sample_points N (Fin l) offset_x offset_y = Ok s /\
    Forall (fun v => v ≡ Fin 0) (units.number (s_z s)) /\
    Forall (fun v => v ≡ Fin 0) (units.number (s_vx s)) /\
    Forall (fun v => v ≡ Fin 0) (units.number (s_vy s)) /\
    Forall (fun v => v ≡ Fin 0) (units.number (s_vz s)) /\
    units.unit_of (s_z s) = units.parsec /\
    units.unit_of (s_vx s) = units.kms /\
    units.unit_of (s_vy s) = units.kms /\
    units.unit_of (s_vz s) = units.kms.
Proof.
  intros HN Hox Hoy. eexists. rewrite sample_points_Ok by (done || lia).
  split_and!; try done; cbn [s_z s_vx s_vy s_vz units.number];
    apply grid_x_zeros; eauto using times_zero_finite, zero_times_finite.
Qed.

Lemma samples_at_rest_witness :
  (0 < 2)%Z /\ offset_ok None /\ offset_ok None /\
  exists s,
    sample_points 2 (Fin 2) None None = Ok s /\
    Forall (fun v => v ≡ Fin 0) (units.number (s_z s)) /\
    Forall (fun v => v ≡ Fin 0) (units.number (s_vx s)) /\
    Forall (fun v => v ≡ Fin 0) (units.number (s_vy s)) /\
    Forall (fun v => v ≡ Fin 0) (units.number (s_vz s)) /\
    units.unit_of (s_z s) = units.parsec /\
    units.unit_of (s_vx s) = units.kms /\
    units.unit_of (s_vy s) = units.kms /\
    units.unit_of (s_vz s) = units.kms.
Proof.
  split_and!; [lia|exact I|exact I|].
  apply (samples_at_rest 2 2 None None); [lia|exact I|exact I].
Defined.

(** C18. With [N = 0] the single sample is [0/0]: every coordinate and
    every velocity handed to the code is [nan], whatever [L]. *)
Theorem single_sample_is_nan (L : fval) :
  sample_points 0 L None None =
    Ok (Samples (units.Quantity [NaN] units.parsec)
                (units.Quantity [NaN] units.parsec)
                (units.Quantity [NaN] units.parsec)
                (units.Quantity [NaN] units.kms)
                (units.Quantity [NaN] units.kms)
                (units.Quantity [NaN] units.kms)).
Proof.
  rewrite sample_points_Ok by (done || lia).
  assert (grid_x 0 L = [NaN]) as ->.
  { unfold grid_x, tabulate2. change (grid_size 0) with 1%nat.
    cbn -[grid_coord]. by rewrite grid_coord_N0. }
  assert (grid_y 0 L = [NaN]) as ->.
  { unfold grid_y, tabulate2. change (grid_size 0) with 1%nat.
    cbn -[grid_coord]. by rewrite grid_coord_N0. }
  done.
Qed.

(** The map keeps the order of the answer: flattened, it is the array
    of densities the code returned, and its unit is the unit of that
    array. Reshaping moves no value. *)
Theorem make_map_keeps_order {S} `{FieldEvaluator S} (sph : S) (N : Z) (L : fval)
    (offset_x offset_y : option sq) (s : samples) (st : hydro_state) :
  sample_points N L offset_x offset_y = Ok s ->
  get_hydro_state_at_point sph (s_x s) (s_y s) (s_z s) (s_vx s) (s_vy s) (s_vz s)
    = Ok st ->
  length (units.number (rho st)) = (grid_size N * grid_size N)%nat ->
  exists r,
    make_map sph N L offset_x offset_y = Ok r /\
    numpy.flatten (units.number r) = units.number (rho st) /\
    units.unit_of r = units.unit_of (rho st).
Proof.
  intros Hs Hst Hlen.
  assert (-1 <= N)%Z as HN by (eapply proj1, sample_points_is_Ok; by eexists).
  eexists. split; [by eapply make_map_answered|done].
Qed.

Lemma make_map_keeps_order_witness :
  exists s st r,
    sample_points 2 (Fin 2) None None = Ok s /\
    get_hydro_state_at_point (uniform (Fin 1) units.amu_per_cm3)
      (s_x s) (s_y s) (s_z s) (s_vx s) (s_vy s) (s_vz s) = Ok st /\
    make_map (uniform (Fin 1) units.amu_per_cm3) 2 (Fin 2) None None = Ok r /\
    numpy.flatten (units.number r) = units.number (rho st) /\
    units.unit_of r = units.unit_of (rho st).
Proof.
  edestruct (make_map_keeps_order (uniform (Fin 1) units.amu_per_cm3) 2 (Fin 2)
               None None) as (r & Hr & Hf & Hu); [reflexivity..|].
  eexists _, _, r. split_and!; [reflexivity|reflexivity|exact Hr|exact Hf|exact Hu].
Defined.

(** The samples are handed to the code in row-major order with x the
    slow index: without offsets, sample [k] has the x coordinate of the
    index [k / (N+1)] and the y coordinate of the index [k mod (N+1)]. *)
Theorem samples_row_major (N : Z) (L : fval) (k : nat) :
  (-1 <= N)%Z -> (k < grid_size N * grid_size N)%nat ->
  exists s,
    sample_points N L None None = Ok s /\
    units.number (s_x s) !! k = Some (grid_coord N L (Z.of_nat (k / grid_size N))) /\
    units.number (s_y s) !! k = Some (grid_coord N L (Z.of_nat (k mod grid_size N))).
Proof.
  intros HN Hk. eexists. split; [by apply sample_points_Ok|].
  cbn [s_x s_y units.number shift]. unfold grid_x, grid_y.
  by rewrite !tabulate2_lookup_flat.
Qed.

Lemma samples_row_major_witness :
  exists s,
    sample_points 2 (Fin 2) None None = Ok s /\
    units.number (s_x s) !! 5%nat =
      Some (grid_coord 2 (Fin 2) (Z.of_nat (5 / grid_size 2))) /\
    units.number (s_y s) !! 5%nat =
      Some (grid_coord 2 (Fin 2) (Z.of_nat (5 mod grid_size 2))).
Proof. apply (samples_row_major 2 (Fin 2) 5); [lia|vm_compute; lia]. Defined.

(** The map of a uniform field is uniform: for a field of density
    [d] everywhere, [make_map] without offsets returns the array of shape
    [(N+1, N+1)] that holds [d] at every entry, in the unit of the field. *)
Theorem make_map_uniform (d : fval) (u : units.unit) (N : Z) (L : fval) :
  (-1 <= N)%Z ->
  make_map (uniform d u) N L None None =
    Ok (units.Quantity
          (numpy.Array2 (grid_size N, grid_size N)
             (replicate (grid_size N * grid_size N) d)) u).
Proof.
  intros HN.
  destruct (proj2 (sample_points_is_Ok N L None None)) as [s Hs]; [done|].
  destruct (sample_points_same_length N L None None HN I I s Hs) as [Hsame Hlen].
  rewrite (make_map_field _ N L None None s Hs). do 3 f_equal.
  rewrite <- Hlen, <- (points_length _ _ _ _ _ _ Hsame). by apply const_fmap.
Qed.

Lemma make_map_uniform_witness :
  make_map (uniform (Fin 1) units.amu_per_cm3) 2 (Fin 2) None None =
    Ok (units.Quantity
          (numpy.Array2 (3, 3)%nat
             [Fin 1; Fin 1; Fin 1; Fin 1; Fin 1; Fin 1; Fin 1; Fin 1; Fin 1])
          units.amu_per_cm3).
Proof. apply (make_map_uniform (Fin 1) units.amu_per_cm3 2 (Fin 2)). lia. Defined.

(** A resolution below [-1] is refused before the code is asked:
    [numpy.indices] raises [ValueError]. *)
Theorem make_map_negative_resolution {S} `{FieldEvaluator S} (sph : S)
    (N : Z) (L : fval) (offset_x offset_y : option sq) :
  (N < -1)%Z -> make_map sph N L offset_x offset_y = Raise ValueError.
Proof.
  intros HN. by rewrite make_map_unfold, sample_points_negative.
Qed.

Lemma make_map_negative_resolution_witness :
  (-2 < -1)%Z /\
  make_map (uniform (Fin 1) units.amu_per_cm3) (-2) (Fin 1) None None
    = Raise ValueError.
Proof.
  split; [lia|].
  apply (make_map_negative_resolution (uniform (Fin 1) units.amu_per_cm3) (-2)
           (Fin 1) None None); lia.
Defined.

(** An exception of the code comes out of [make_map] unchanged. *)
Theorem make_map_propagates {S} `{FieldEvaluator S} (sph : S)
    (N : Z) (L : fval) (offset_x offset_y : option sq) (s : samples) (e : exn) :
  sample_points N L offset_x offset_y = Ok s ->
  get_hydro_state_at_point sph (s_x s) (s_y s) (s_z s) (s_vx s) (s_vy s) (s_vz s)
    = Raise e ->
  make_map sph N L offset_x offset_y = Raise e.
Proof. intros Hs He. by apply (make_map_code_raises sph N L _ _ s Hs). Qed.

Lemma make_map_propagates_witness :
  make_map (FailingCode "out of memory") 2 (Fin 2) None None
    = Raise (CodeException "out of memory").
Proof.
  eapply (make_map_propagates (FailingCode "out of memory") 2 (Fin 2) None None);
    reflexivity.
Defined.

(** A code that answers with another number of densities than there
    are sample points makes [reshape] raise [ValueError]. *)
Theorem make_map_wrong_answer_length {S} `{FieldEvaluator S} (sph : S)
    (N : Z) (L : fval) (offset_x offset_y : option sq) (s : samples)
    (st : hydro_state) :
  (-1 <= N)%Z ->
  sample_points N L offset_x offset_y = Ok s ->
  get_hydro_state_at_point sph (s_x s) (s_y s) (s_z s) (s_vx s) (s_vy s) (s_vz s)
    = Ok st ->
  length (units.number (rho st)) <> (grid_size N * grid_size N)%nat ->
  make_map sph N L offset_x offset_y = Raise ValueError.
Proof.
  intros HN Hs Hst Hlen.
  by apply (make_map_wrong_length sph N L _ _ HN s Hs st Hst).
Qed.

Lemma make_map_wrong_answer_length_witness :
  make_map (ShortCode (uniform (Fin 1) units.amu_per_cm3)) 2 (Fin 2) None None
    = Raise ValueError.
Proof.
  eapply (make_map_wrong_answer_length
            (ShortCode (uniform (Fin 1) units.amu_per_cm3)) 2 (Fin 2) None None);
    [lia|reflexivity|reflexivity|vm_compute; lia].
Defined.

(** An offset that is not a length makes the addition raise
    [IncompatibleUnitsException], whatever the code would answer. *)
Theorem make_map_bad_offset {S} `{FieldEvaluator S} (sph : S)
    (N : Z) (L : fval) (offset_x offset_y : option sq) :
  (-1 <= N)%Z -> ~ (offset_ok offset_x /\ offset_ok offset_y) ->
  make_map sph N L offset_x offset_y = Raise IncompatibleUnitsException.
Proof.
  intros HN Hbad. rewrite make_map_unfold.
  destruct (decide (offset_ok offset_x)) as [Hox|Hox].
  - destruct offset_y as [o|]; [|by destruct Hbad].
    rewrite sample_points_bad_offset_y; [done..|]. intros Ho. by apply Hbad.
  - destruct offset_x as [o|]; [|by destruct Hox].
    by rewrite sample_points_bad_offset_x.
Qed.

Lemma make_map_bad_offset_witness :
  (-1 <= 2)%Z /\
  ~ (offset_ok (Some (units.Quantity (Fin 1) units.kms)) /\ offset_ok None) /\
  make_map (uniform (Fin 1) units.amu_per_cm3) 2 (Fin 2)
    (Some (units.Quantity (Fin 1) units.kms)) None
    = Raise IncompatibleUnitsException.
Proof.
  assert (~ (offset_ok (Some (units.Quantity (Fin 1) units.kms)) /\ offset_ok None))
    as Hbad by (intros [Hx _]; discriminate Hx).
  split_and!; [lia|exact Hbad|].
  apply (make_map_bad_offset (uniform (Fin 1) units.amu_per_cm3) 2 (Fin 2)
           (Some (units.Quantity (Fin 1) units.kms)) None); [lia|exact Hbad].
Defined.

(** C11. The outcome of [make_map] with a code that keeps its contract, in
    full. It returns only for [N >= -1] and offsets that are lengths or
    absent; otherwise it raises before the code is asked: [ValueError] for
    [N < -1], whatever the offsets are, since the index grids are made
    first, and [IncompatibleUnitsException] for an offset that is not a
    length. *)
Theorem make_map_outcome {S} `{FieldEvaluator S} (sph : S) `{!HydroLaws sph}
    (N : Z) (L : fval) (offset_x offset_y : option sq) :
  match make_map sph N L offset_x offset_y with
  | Ok rho => (-1 <= N)%Z /\ offset_ok offset_x /\ offset_ok offset_y
  | Raise e =>
      if decide (N < -1)%Z then e = ValueError
      else e = IncompatibleUnitsException /\
           ~ (offset_ok offset_x /\ offset_ok offset_y)
  end.
Proof.
  destruct (make_map sph N L offset_x offset_y) as [rho|e] eqn:Hm.
  { apply (proj1 (make_map_lawful_is_Ok sph N L offset_x offset_y)). by eexists. }
  destruct (decide (N < -1)%Z) as [HN|HN].
  { rewrite make_map_negative_resolution in Hm by done. congruence. }
  destruct (decide (offset_ok offset_x /\ offset_ok offset_y)) as [[Hox Hoy]|Hbad].
  - destruct (proj2 (make_map_lawful_is_Ok sph N L offset_x offset_y)) as [r Hr];
      [split; [lia|done]|congruence].
  - rewrite make_map_bad_offset in Hm by (done || lia). split; [congruence|done].
Qed.

Lemma make_map_outcome_witness :
  match make_map (uniform (Fin 1) units.amu_per_cm3) (-2) (Fin 2)
          (Some (units.Quantity (Fin 1) units.kms)) None with
  | Ok rho => (-1 <= -2)%Z /\ offset_ok (Some (units.Quantity (Fin 1) units.kms)) /\
              offset_ok None
  | Raise e =>
      if decide (-2 < -1)%Z then e = ValueError
      else e = IncompatibleUnitsException /\
           ~ (offset_ok (Some (units.Quantity (Fin 1) units.kms)) /\ offset_ok None)
  end.
Proof.
  apply (make_map_outcome (uniform (Fin 1) units.amu_per_cm3) (-2) (Fin 2)
           (Some (units.Quantity (Fin 1) units.kms)) None).
Defined.

(** For [N >= 1] and [L > 0] the coordinate grows with the index. *)
Theorem grid_increasing (N : Z) (l : Q) (i j : Z) :
  (0 < N)%Z -> 0 < l -> (i <= j)%Z ->
  fle (grid_coord N (Fin l) i) (grid_coord N (Fin l) j).
Proof. intros HN Hl Hij. by apply grid_coord_mono. Qed.

Lemma grid_increasing_witness :
  (0 < 200)%Z /\ 0 < 10 /\ (3 <= 4)%Z /\
  fle (grid_coord 200 (Fin 10) 3) (grid_coord 200 (Fin 10) 4).
Proof.
  split_and!; [lia|reflexivity|lia|].
  apply (grid_increasing 200 10 3 4); [lia|reflexivity|lia].
Defined.
