(* ===== verification/MakeMapFloat.v ===== *)
(** * MakeMapFloat: the grid of [make_map] in doubles

    [grid_coord64] is the coordinate formula of line 13,
    [L*(x.flatten()-N/2.)/N], with every operation rounded to a double as
    numpy does it: the index and [N] become doubles, [N/2.] is a division,
    then a subtraction, a multiplication and a division. [MakeMap.grid_coord]
    is the same formula without rounding.

    For a grid of fewer than [2^53] steps the half-integer [i - N/2] is
    computed without error, so only the multiplication and the last division
    round. It follows that the computed grid is symmetric about zero as the
    exact one is, that it keeps the order of the indices, that its relative
    error is at most [2 u + u^2], and that for an integer side [L] (the
    default of both functions) each coordinate is the exact one rounded
    once, and the ends are [-L/2] and [L/2] exactly. For other sides the
    ends are opposite doubles within [2 u + u^2] of [-L/2] and [L/2], with
    every coordinate between them. *)

From Stdlib Require Import Qabs.
From S2P Require Import Prelude Floats Binary64 Doubles MakeMap.

(** [L*(i - N/2.)/N] in doubles. *)
Definition grid_coord64 (N : Z) (L : fval) (i : Z) : fval :=
  fdiv64 (fmul64 L (fsub64 (of_int64 i) (fdiv64 (of_int64 N) (Fin 2))))
         (of_int64 N).

(** The half-integer [i - N/2]. *)
Definition half_index (N i : Z) : Q := inject_Z (2 * i - N) / 2.

#[export] Instance grid_coord64_proper N :
  Proper ((≡) ==> (=) ==> (≡)) (grid_coord64 N).
Proof. intros L L' HL i ? <-. unfold grid_coord64. by rewrite HL. Qed.

Lemma half_index_opp N i : half_index N (N - i) == - half_index N i.
Proof.
  unfold half_index. replace (2 * (N - i) - N)%Z with (- (2 * i - N))%Z by lia.
  rewrite inject_Z_opp. field.
Qed.

Lemma half_index_mono N i j : (i <= j)%Z -> half_index N i <= half_index N j.
Proof.
  intros Hij. unfold half_index.
  assert (inject_Z (2 * i - N) <= inject_Z (2 * j - N)) by (rewrite <- Zle_Qle; lia).
  by apply Qmult_le_compat_r.
Qed.

Lemma half_index_exact N i : half_index N i == inject_Z i - inject_Z N / 2.
Proof.
  unfold half_index, Z.sub. rewrite inject_Z_plus, inject_Z_mult, inject_Z_opp.
  change (inject_Z 2) with 2. field.
Qed.

(** ** What rounds and what does not *)

Section grid64.
Context (N : Z) (HN : (0 < N < 2 ^ 53)%Z).
Context (i : Z) (Hi : (0 <= i <= N)%Z).

Lemma inject_N_pos64 : 0 < inject_Z N.
Proof using HN. apply inject_Z_pos. lia. Qed.

(** The index, [N], [N/2.] and their difference are doubles. *)
Lemma half_index64 :
  fsub64 (of_int64 i) (fdiv64 (of_int64 N) (Fin 2)) ≡ Fin (half_index N i).
Proof using HN Hi.
  unfold fsub64, fdiv64, of_int64.
  rewrite (round64_int i), (round64_int N) by lia. unfold of_int.
  rewrite (fdiv_Fin _ 2) by done. cbn [fl].
  rewrite (round64_half N) by lia. rewrite fsub_Fin. cbn [fl].
  rewrite <- half_index_exact. apply round64_half. lia.
Qed.

(** The coordinate: a multiplication and a division, both rounded. *)
Lemma grid_coord64_unfold L :
  grid_coord64 N L i ≡ fdiv64 (fmul64 L (Fin (half_index N i))) (of_int N).
Proof using HN Hi.
  unfold grid_coord64. rewrite half_index64.
  unfold of_int64. by rewrite (round64_int N) by lia.
Qed.

(** The coordinate without rounding, in the same form. *)
Lemma grid_coord_half l :
  grid_coord N (Fin l) i ≡ Fin (l * half_index N i / inject_Z N).
Proof using HN.
  rewrite grid_coord_Fin by lia. apply Fin_equiv.
  rewrite half_index_exact. reflexivity.
Qed.

Lemma grid_coord64_Fin l :
  grid_coord64 N (Fin l) i ≡
    fl (fdiv (round64 (l * half_index N i)) (Fin (inject_Z N))).
Proof using HN Hi. by rewrite grid_coord64_unfold. Qed.

End grid64.

(** ** The theorems of the grid in doubles *)

(** The second rounding is reached only when the first gave a double. *)
Lemma grid_coord64_Fin_inv (N : Z) (l : Q) (i : Z) (y : Q) :
  (0 < N < 2 ^ 53)%Z -> (0 <= i <= N)%Z ->
  grid_coord64 N (Fin l) i ≡ Fin y ->
  y == rnd (rnd (l * half_index N i) / inject_Z N).
Proof.
  intros HN Hi Hy. rewrite (grid_coord64_Fin N HN i Hi) in Hy.
  exact (quotient64_Fin_inv _ _ _ (inject_N_pos64 N HN) Hy).
Qed.

(** The coordinate of the index [N - i] is the negation of that of [i]:
    every operation rounds a number and its negation alike. *)
Lemma grid_coord64_symmetric (N : Z) (L : fval) (i : Z) :
  (0 < N < 2 ^ 53)%Z -> (0 <= i <= N)%Z ->
  grid_coord64 N L (N - i) ≡ fneg (grid_coord64 N L i).
Proof.
  intros HN Hi.
  rewrite (grid_coord64_unfold N HN i Hi), (grid_coord64_unfold N HN (N - i)) by lia.
  rewrite half_index_opp. change (Fin (- half_index N i)) with (fneg (Fin (half_index N i))).
  unfold fdiv64, fmul64. by rewrite fmul_fneg_r, fl_fneg, fdiv_fneg_l, fl_fneg.
Qed.

(** C20. In doubles the grid is symmetric about zero as the exact grid is:
    for every grid of fewer than [2^53] steps and every side [L], finite or
    not, the coordinate numpy computes for the index [N - i] is the negation
    of the one it computes for [i]. No rounding breaks the symmetry, for odd
    [N] as for even. *)
Theorem grid64_symmetric (N : Z) (L : fval) (i : Z) :
  (0 < N < 2 ^ 53)%Z -> (0 <= i <= N)%Z ->
  grid_coord64 N L (N - i) ≡ fneg (grid_coord64 N L i).
Proof. apply grid_coord64_symmetric. Qed.

Lemma grid64_symmetric_witness :
  grid_coord64 201 (Fin (1 # 10)) (201 - 7) ≡ fneg (grid_coord64 201 (Fin (1 # 10)) 7).
Proof. apply (grid64_symmetric 201 (Fin (1 # 10)) 7); [done|lia]. Defined.

(** The two roundings of a coordinate, against the exact one. *)
Lemma grid_coord64_error (N : Z) (l : Q) (i : Z) (x y : Q) :
  (0 < N < 2 ^ 53)%Z -> (0 <= i <= N)%Z ->
  grid_coord N (Fin l) i ≡ Fin x -> grid_coord64 N (Fin l) i ≡ Fin y ->
  2 * min_normal <= Qabs x ->
  Qabs (y - x) <= two_roundings * Qabs x.
Proof.
  intros HN Hi Hx Hy Hnorm.
  rewrite (grid_coord_half N HN i) in Hx.
  change (l * half_index N i / inject_Z N == x) in Hx.
  apply (grid_coord64_Fin_inv N l i y HN Hi) in Hy.
  assert (1 <= inject_Z N) as Hn by (rewrite <- (Zle_Qle 1); lia).
  rewrite Hy, <- Hx. rewrite <- Hx in Hnorm.
  apply second_rounding; [lra| |done].
  pose proof (Qabs_div_le (l * half_index N i) _ Hn) as Hle.
  pose proof min_normal_pos. lra.
Qed.

(** C36. The error of the grid in doubles: for a grid of fewer than [2^53]
    steps and a finite side, a coordinate that numpy computes as a double
    differs from the exact coordinate [x] by at most [(2 u + u^2) |x|] with
    [u = 2^-53], when [x] is at least twice the smallest normal double in
    size: the multiplication and the division round once each, and the
    half-integer [i - N/2] is computed without error. *)
Theorem grid64_error (N : Z) (l : Q) (i : Z) (x y : Q) :
  (0 < N < 2 ^ 53)%Z -> (0 <= i <= N)%Z ->
  grid_coord N (Fin l) i ≡ Fin x -> grid_coord64 N (Fin l) i ≡ Fin y ->
  2 * min_normal <= Qabs x ->
  Qabs (y - x) <= two_roundings * Qabs x.
Proof. apply grid_coord64_error. Qed.

Lemma grid64_error_witness :
  Qabs ((-6989586621679009 # 144115188075855872) - (-97 # 2000)) <=
    two_roundings * Qabs (-97 # 2000).
Proof.
  apply (grid64_error 200 (1 # 10) 3); [done|lia|by vm_compute|by vm_compute|].
  apply Qle_bool_iff. by vm_compute.
Defined.

(** With an integer side [k], [|k| N < 2^53], the product [L (i - N/2)] is
    a double: only the division rounds. *)
Lemma grid_coord64_integer_side (N k i : Z) :
  (0 < N < 2 ^ 53)%Z -> (Z.abs k * N < 2 ^ 53)%Z -> (0 <= i <= N)%Z ->
  grid_coord64 N (of_int64 k) i ≡ fl (grid_coord N (of_int k) i).
Proof.
  intros HN Hk Hi. pose proof (inject_N_pos64 N HN) as Hn.
  assert (Z.abs k < 2 ^ 53)%Z as Hk' by nia.
  unfold of_int64. rewrite (round64_int k Hk'). unfold of_int at 1 2.
  rewrite (grid_coord64_Fin N HN i Hi), (grid_coord_half N HN i).
  assert (inject_Z k * half_index N i == inject_Z (k * (2 * i - N)) / 2) as Hq.
  { unfold half_index. rewrite inject_Z_mult. field. }
  rewrite Hq, round64_half by nia. rewrite fdiv_Fin by lra. by rewrite <- Hq.
Qed.

(** C37. With an integer side the grid in doubles is the exact grid rounded
    once: when [L] is an integer [k] with [|k| N < 2^53], as for the
    defaults [L = 1] of [make_map] and [L = 10] of [plot_hydro_and_stars],
    the product [L (i - N/2)] is a double, and the coordinate numpy computes
    is the double nearest to the exact coordinate. *)
Theorem grid64_integer_side (N k i : Z) :
  (0 < N < 2 ^ 53)%Z -> (Z.abs k * N < 2 ^ 53)%Z -> (0 <= i <= N)%Z ->
  grid_coord64 N (of_int64 k) i ≡ fl (grid_coord N (of_int k) i).
Proof. apply grid_coord64_integer_side. Qed.

Lemma grid64_integer_side_witness :
  grid_coord64 200 (of_int64 10) 3 ≡ fl (grid_coord 200 (of_int 10) 3).
Proof. apply (grid64_integer_side 200 10 3); [done|done|lia]. Defined.

(** The grid in doubles keeps the order of the indices: for a side
    [L >= 0] and a grid of fewer than [2^53] steps, the coordinate computed
    for a larger index is not smaller. Rounding can make neighbours equal
    but never exchanges them. *)
Theorem grid64_monotone (N : Z) (l : Q) (i j : Z) :
  (0 < N < 2 ^ 53)%Z -> 0 <= l -> (0 <= i <= j)%Z -> (j <= N)%Z ->
  fle (grid_coord64 N (Fin l) i) (grid_coord64 N (Fin l) j).
Proof.
  intros HN Hl Hij Hj. pose proof (inject_N_pos64 N HN) as Hn.
  apply (fle_proper _ _ (grid_coord64_Fin N HN i ltac:(lia) l)
                    _ _ (grid_coord64_Fin N HN j ltac:(lia) l)).
  apply fl_mono, fdiv_mono_pos, round64_mono; [done|].
  pose proof (half_index_mono N i j (proj2 Hij)).
  set (a := half_index N i) in *. set (b := half_index N j) in *. clearbody a b. nra.
Qed.

Lemma grid64_monotone_witness :
  fle (grid_coord64 200 (Fin (1 # 3)) 3) (grid_coord64 200 (Fin (1 # 3)) 4).
Proof. apply (grid64_monotone 200 (1 # 3) 3 4); [done|done|lia|lia]. Defined.

(** ** The span *)

Lemma half_index_abs (N i : Z) :
  (0 <= i <= N)%Z -> Qabs (half_index N i) <= inject_Z N * (1 # 2).
Proof.
  intros Hi. unfold half_index, Qdiv. change (/ 2) with (1 # 2).
  assert (- inject_Z N <= inject_Z (2 * i - N) <= inject_Z N) as [Hl Hh].
  { rewrite <- inject_Z_opp, <- !Zle_Qle. lia. }
  apply Qabs_Qle_condition. split; lra.
Qed.

(** While [|L| N <= 2^(g+1)] the product [L*(i - N/2.)] and the coordinate
    stay within [2^g]: no overflow for [g] below 1024. *)
Lemma grid_coord64_bounded (N i : Z) (l : Q) (g : Z) :
  (0 < N < 2 ^ 53)%Z -> (0 <= i <= N)%Z -> (emin <= g < emax)%Z ->
  Qabs l * inject_Z N <= pow2 (g + 1) ->
  exists y, grid_coord64 N (Fin l) i ≡ Fin y /\ Qabs y <= pow2 g.
Proof.
  intros HN Hi Hg Hl. pose proof (inject_N_pos64 N HN) as Hn.
  assert (1 <= inject_Z N) as Hn1 by (rewrite <- (Zle_Qle 1); lia).
  assert (Qabs (l * half_index N i) <= pow2 g) as Ha.
  { rewrite Qabs_Qmult. pose proof (half_index_abs N i Hi) as Hh.
    pose proof (Qabs_nonneg l) as Hl0. pose proof (Qabs_nonneg (half_index N i)) as Hh0.
    rewrite pow2_succ in Hl.
    set (a := Qabs l) in *. set (h := Qabs (half_index N i)) in *.
    set (n := inject_Z N) in *. set (p := pow2 g) in *. clearbody a h n p. nra. }
  destruct (round64_bounded _ g Hg Ha) as (r & Hr & Hrb).
  destruct (round64_bounded (r / inject_Z N) g Hg) as (y & Hy & Hyb).
  { apply Qle_trans with (Qabs r); [by apply Qabs_div_le|done]. }
  exists y. split; [|done].
  rewrite (grid_coord64_Fin N HN i Hi l), Hr, fdiv_Fin, fl_Fin, Hy by lra. done.
Qed.

Lemma half_side_abs (l : Q) : 0 <= l -> Qabs (l / 2) == l / 2.
Proof. intros Hl. apply Qabs_pos, Qle_shift_div_l; lra. Qed.

(** C7. The span of the grid in doubles. For a side [L >= 0] with
    [L N <= 2^1024] and a grid of fewer than [2^53] steps, the last
    coordinate numpy computes is a double [y], the first is [-y], and every
    coordinate lies between the two. [y] is within [(2 u + u^2) L/2] of
    [L/2] when [L/2] is of the normal range; it need not be [L/2]. *)
Theorem grid64_span (N : Z) (l : Q) (i : Z) :
  (0 < N < 2 ^ 53)%Z -> 0 <= l -> l * inject_Z N <= pow2 1024 -> (0 <= i <= N)%Z ->
  exists y,
    grid_coord64 N (Fin l) N ≡ Fin y /\ grid_coord64 N (Fin l) 0 ≡ Fin (- y) /\
    fle (Fin (- y)) (grid_coord64 N (Fin l) i) /\
    fle (grid_coord64 N (Fin l) i) (Fin y) /\
    (2 * min_normal <= l / 2 -> Qabs (y - l / 2) <= two_roundings * (l / 2)).
Proof.
  intros HN Hl Hb Hi. rewrite <- (Qabs_pos l Hl) in Hb.
  destruct (grid_coord64_bounded N N l 1023 HN ltac:(lia) ltac:(done) Hb) as (y & Hy & _).
  assert (grid_coord64 N (Fin l) 0 ≡ Fin (- y)) as H0.
  { replace 0%Z with (N - N)%Z by lia. by rewrite grid_coord64_symmetric, Hy by lia. }
  pose proof (grid64_monotone N l 0 i HN Hl ltac:(lia) ltac:(lia)) as Hlo.
  pose proof (grid64_monotone N l i N HN Hl ltac:(lia) ltac:(lia)) as Hhi.
  exists y. split; [exact Hy|]. split; [exact H0|].
  split; [exact (proj1 (fle_proper _ _ H0 _ _ (reflexivity _)) Hlo)|].
  split; [exact (proj1 (fle_proper _ _ (reflexivity _) _ _ Hy) Hhi)|].
  intros Hn. rewrite <- (half_side_abs l Hl) at 2.
  apply (grid_coord64_error N l N); [done|lia|apply grid_coord_last; lia|done|].
  by rewrite half_side_abs.
Qed.

Lemma grid64_span_witness :
  exists y,
    grid_coord64 200 (Fin (7 # 1000)) 200 ≡ Fin y /\
    grid_coord64 200 (Fin (7 # 1000)) 0 ≡ Fin (- y) /\
    fle (Fin (- y)) (grid_coord64 200 (Fin (7 # 1000)) 3) /\
    fle (grid_coord64 200 (Fin (7 # 1000)) 3) (Fin y) /\
    (2 * min_normal <= (7 # 1000) / 2 ->
     Qabs (y - (7 # 1000) / 2) <= two_roundings * ((7 # 1000) / 2)).
Proof.
  apply (grid64_span 200 (7 # 1000) 3); [done|done| |lia].
  apply Qle_bool_iff. by vm_compute.
Defined.

(** With an integer side the ends of the grid are [-L/2] and [L/2]
    exactly. *)
Lemma grid_coord64_ends (N k : Z) :
  (0 < N < 2 ^ 53)%Z -> (Z.abs k * N < 2 ^ 53)%Z ->
  grid_coord64 N (of_int64 k) 0 ≡ Fin (inject_Z (- k) / 2) /\
  grid_coord64 N (of_int64 k) N ≡ Fin (inject_Z k / 2).
Proof.
  intros HN Hk. assert (Z.abs k < 2 ^ 53)%Z as Hk' by nia.
  rewrite !grid_coord64_integer_side by (done || lia). unfold of_int.
  rewrite grid_coord_first, grid_coord_last by lia. cbn [fl].
  rewrite <- (round64_half k), <- (round64_half (- k)) by lia.
  split; [|done]. f_equiv. rewrite inject_Z_opp. field.
Qed.

(** ** The zeros *)

(** [x*0.] and [0.*x] (lines 15-18) do not round: z and the velocities are
    in doubles what they are exactly. *)
Lemma fmul64_zero_r (v : fval) : fmul64 v (Fin 0) ≡ times_zero v.
Proof.
  unfold fmul64, times_zero. destruct v as [q| | |]; try done. cbn [fmul fl].
  assert (q * 0 == inject_Z 0) as Hq by (change (inject_Z 0) with 0; ring).
  by rewrite Hq, round64_int.
Qed.

Lemma fmul64_zero_l (v : fval) : fmul64 (Fin 0) v ≡ zero_times v.
Proof.
  unfold fmul64, zero_times. rewrite (fmul_comm (Fin 0) v). apply fmul64_zero_r.
Qed.
