(* ===== verification/SamplesFloat.v ===== *)
(** * SamplesFloat: the sample points of [make_map] in doubles

    [sample_points64] is the body of [make_map] down to the call of the code
    (lines 12-29) with every operation on the arrays rounded to a double as
    numpy does it: the coordinates of line 13, the zeros [x*0.] and [0.*x]
    of lines 15-18, and the additions [x += offset_x] and [y += offset_y]
    of lines 20-25. The offsets are given as their values in parsec, which
    the quantity system computes; attaching a unit does not change a
    number.

    The results: no operation overflows while [|L| N <= 2^1023] and the
    offsets are at most [2^1022] in size, and then z and the velocities are
    zero as they are without rounding; beyond that the product
    [L*(i - N/2.)] can overflow although the coordinate itself is a double,
    and z and the velocities are [nan] there and zero everywhere else;
    an offset keeps the order of the
    samples; the error of a shifted coordinate is relative to the
    coordinate before the shift, not to the sum. *)

From Stdlib Require Import Qabs.
From S2P Require Import Prelude Floats Binary64 Doubles Arrays MakeMap MakeMapFloat.

(** ** The operations *)

(** [x*0.] and [0.*x]. *)
Definition times_zero64 (v : fval) : fval := fmul64 v (Fin 0).
Definition zero_times64 (v : fval) : fval := fmul64 (Fin 0) v.

(** [x += offset] under [if offset is not None], one sample: [d] is the
    offset in parsec. *)
Definition shift64 (d : option fval) (x : fval) : fval :=
  match d with
  | Some d => fadd64 x d
  | None => x
  end.

(** The numbers of the six arrays handed to the code. *)
Record samples64 : Type := Samples64 {
  x64 : list fval;
  y64 : list fval;
  z64 : list fval;
  vx64 : list fval;
  vy64 : list fval;
  vz64 : list fval;
}.

(** The body of [make_map] down to the call of the code. *)
Definition sample_points64 (N : Z) (L : fval) (dx dy : option fval) :
    result samples64 :=
  '(x, y) ← numpy.indices (N + 1, N + 1)%Z;
  let x := grid_coord64 N L <$> numpy.flatten x in
  let y := grid_coord64 N L <$> numpy.flatten y in
  let z := times_zero64 <$> x in
  let vx := zero_times64 <$> x in
  let vy := zero_times64 <$> x in
  let vz := zero_times64 <$> x in
  let x := shift64 dx <$> x in
  let y := shift64 dy <$> y in
  Ok (Samples64 x y z vx vy vz).

(** The coordinates before the offsets, in closed form. *)
Definition grid_x64 (N : Z) (L : fval) : list fval :=
  tabulate2 (grid_size N) (grid_size N) (fun i _ => grid_coord64 N L (Z.of_nat i)).
Definition grid_y64 (N : Z) (L : fval) : list fval :=
  tabulate2 (grid_size N) (grid_size N) (fun _ j => grid_coord64 N L (Z.of_nat j)).

(** An offset, if there is one, of at most [2^g] in size. *)
Definition offset_within (g : Z) (d : option Q) : Prop :=
  from_option (fun d => Qabs d <= pow2 g) True d.

(** The error of a shifted coordinate: a rounding of the sum and the two
    roundings of the coordinate [c]. *)
Definition shifted_error (x c : Q) : Q :=
  u64 * Qabs x + (1 + u64) * two_roundings * Qabs c.

(** ** The arrays in closed form *)

Lemma sample_points64_Ok (N : Z) (L : fval) (dx dy : option fval) :
  (-1 <= N)%Z ->
  sample_points64 N L dx dy =
    Ok (Samples64 (shift64 dx <$> grid_x64 N L) (shift64 dy <$> grid_y64 N L)
          (times_zero64 <$> grid_x64 N L) (zero_times64 <$> grid_x64 N L)
          (zero_times64 <$> grid_x64 N L) (zero_times64 <$> grid_x64 N L)).
Proof.
  intros HN. unfold sample_points64.
  rewrite (grid_size_Z N HN), numpy.indices_Ok, bind_Ok_l.
  unfold numpy.flatten, grid_x64, grid_y64; cbn [numpy.data].
  by rewrite !tabulate2_fmap.
Qed.

Lemma sample_points64_negative (N : Z) (L : fval) (dx dy : option fval) :
  (N < -1)%Z -> sample_points64 N L dx dy = Raise ValueError.
Proof.
  intros HN. unfold sample_points64.
  rewrite numpy.indices_negative by (simpl; lia). done.
Qed.

Section entries64.
Context (N : Z) (L : fval) (dx dy : option fval) (i j : nat).
Context (Hi : (i < grid_size N)%nat) (Hj : (j < grid_size N)%nat).
#[local] Abbreviation k := (i * grid_size N + j)%nat.
#[local] Abbreviation xi := (grid_coord64 N L (Z.of_nat i)).
#[local] Abbreviation yj := (grid_coord64 N L (Z.of_nat j)).

(** The sample at the flat position of [(i, j)]: x follows the row index,
    y the column index, z and the velocities are made of the x before its
    offset. *)
Lemma sample_points64_lookup (s : samples64) :
  sample_points64 N L dx dy = Ok s ->
  x64 s !! k = Some (shift64 dx xi) /\ y64 s !! k = Some (shift64 dy yj) /\
  z64 s !! k = Some (times_zero64 xi) /\ vx64 s !! k = Some (zero_times64 xi) /\
  vy64 s !! k = Some (zero_times64 xi) /\ vz64 s !! k = Some (zero_times64 xi).
Proof using Hi Hj.
  assert (-1 <= N)%Z as HN by (unfold grid_size in Hi; lia).
  rewrite sample_points64_Ok by done. intros [= <-].
  cbn [x64 y64 z64 vx64 vy64 vz64]. unfold grid_x64, grid_y64.
  by rewrite !list_lookup_fmap, !tabulate2_lookup.
Qed.

End entries64.

(** ** No overflow *)

Section bounded.
Context (N : Z) (HN : (0 < N < 2 ^ 53)%Z) (i : Z) (Hi : (0 <= i <= N)%Z).
Context (l : Q) (g : Z) (Hg : (emin <= g < emax)%Z).
Context (Hl : Qabs l * inject_Z N <= pow2 (g + 1)).

(** The zeros are zeros. *)
Lemma zeros64 :
  times_zero64 (grid_coord64 N (Fin l) i) ≡ Fin 0 /\
  zero_times64 (grid_coord64 N (Fin l) i) ≡ Fin 0.
Proof using HN Hi Hg Hl.
  destruct (grid_coord64_bounded N i l g HN Hi Hg Hl) as (y & Hy & _).
  unfold times_zero64, zero_times64.
  rewrite fmul64_zero_r, fmul64_zero_l.
  split; [by apply (times_zero_finite _ y)|by apply (zero_times_finite _ y)].
Qed.

(** With an offset within [2^g] the shifted coordinate is a double, for
    [g] below 1023. *)
Lemma shift64_bounded (d : option Q) :
  (g + 1 < emax)%Z -> offset_within g d ->
  exists x, shift64 (Fin <$> d) (grid_coord64 N (Fin l) i) ≡ Fin x.
Proof using HN Hi Hg Hl.
  intros Hg1 Hd. destruct (grid_coord64_bounded N i l g HN Hi Hg Hl) as (y & Hy & Hyb).
  destruct d as [d|]; cbn [fmap option_fmap option_map shift64]; [|by exists y].
  cbn [offset_within from_option] in Hd.
  destruct (round64_bounded (y + d) (g + 1)) as (x & Hx & _); [lia| |].
  { pose proof (Qabs_triangle y d). rewrite pow2_succ. lra. }
  exists x. unfold fadd64. rewrite Hy. cbn [fadd fl]. by rewrite Hx.
Qed.

End bounded.

(** ** Order *)

Lemma shift64_mono (d : option Q) (a b : fval) :
  fle a b -> fle (shift64 (Fin <$> d) a) (shift64 (Fin <$> d) b).
Proof.
  intros Hab. destruct d as [d|]; cbn [fmap option_fmap option_map shift64]; [|done].
  by apply fl_mono, fadd_mono_l.
Qed.

(** ** The error of a shifted coordinate *)

Section shifted.
Context (c y d : Q) (Hc : Qabs (y - c) <= two_roundings * Qabs c).
Context (Hn : min_normal <= Qabs (y + d)).

(** [c] is a coordinate, [y] what is computed for it, [d] the offset: the
    sum is rounded once more. *)
Lemma shifted_rounding : Qabs (rnd (y + d) - (c + d)) <= shifted_error (c + d) c.
Proof using Hc Hn.
  pose proof (rnd_error (y + d) Hn) as Hr. pose proof u64_small as [Hu _].
  pose proof (Qabs_triangle (rnd (y + d) - (y + d)) (y - c)) as Ht.
  assert (rnd (y + d) - (y + d) + (y - c) == rnd (y + d) - (c + d)) as E by ring.
  rewrite E in Ht.
  pose proof (Qabs_triangle (c + d) (y - c)) as Hs.
  assert (c + d + (y - c) == y + d) as E' by ring. rewrite E' in Hs.
  unfold shifted_error.
  set (t := Qabs (rnd (y + d) - (c + d))) in *. set (r := Qabs (rnd (y + d) - (y + d))) in *.
  set (e := Qabs (y - c)) in *. set (s := Qabs (y + d)) in *.
  set (x := Qabs (c + d)) in *. set (a := Qabs c) in *.
  set (w := two_roundings) in *. clearbody t r e s x a w. nra.
Qed.

End shifted.

(** ** The theorems of the samples in doubles *)

(** Every coordinate of the grid is that of an index from 0 to [N]. *)
Lemma grid64_Forall (P : fval -> Prop) (N : Z) (L : fval) (f : fval -> fval) :
  (forall i, (0 <= i <= N)%Z -> P (f (grid_coord64 N L i))) ->
  Forall P (f <$> grid_x64 N L) /\ Forall P (f <$> grid_y64 N L).
Proof.
  intros HP. unfold grid_x64, grid_y64. rewrite !tabulate2_fmap.
  split; apply tabulate2_Forall; intros i j Hi Hj; apply HP;
    unfold grid_size in Hi, Hj; lia.
Qed.

(** C22. No overflow in the sampler. For a grid of fewer than [2^53] steps,
    a side with [|L| N <= 2^1023] and offsets of at most [2^1022] parsec in
    size, the six arrays [make_map] hands to the code are made without
    overflow in doubles: every x and every y is a double, and z and the
    three velocities are zero at every sample, as they are without
    rounding. *)
Theorem sample_points64_finite (N : Z) (l : Q) (dx dy : option Q) :
  (0 < N < 2 ^ 53)%Z -> Qabs l * inject_Z N <= pow2 1023 ->
  offset_within 1022 dx -> offset_within 1022 dy ->
  exists s,
    sample_points64 N (Fin l) (Fin <$> dx) (Fin <$> dy) = Ok s /\
    Forall (fun v => is_finite v = true) (x64 s ++ y64 s) /\
    Forall (fun v => v ≡ Fin 0) (z64 s ++ vx64 s ++ vy64 s ++ vz64 s).
Proof.
  intros HN Hl Hdx Hdy. rewrite sample_points64_Ok by lia.
  eexists. split; [done|]. cbn [x64 y64 z64 vx64 vy64 vz64].
  assert (forall d, offset_within 1022 d -> forall i, (0 <= i <= N)%Z ->
    is_finite (shift64 (Fin <$> d) (grid_coord64 N (Fin l) i)) = true) as Hfin.
  { intros d Hd i Hi.
    by destruct (shift64_bounded N HN i Hi l 1022 ltac:(done) Hl d ltac:(done) Hd)
      as (x & -> ). }
  pose proof (fun i Hi => zeros64 N HN i Hi l 1022 ltac:(done) Hl) as Hzero.
  rewrite !Forall_app. split_and!.
  - apply (grid64_Forall _ N (Fin l) (shift64 (Fin <$> dx))), Hfin, Hdx.
  - apply (grid64_Forall _ N (Fin l) (shift64 (Fin <$> dy))), Hfin, Hdy.
  - apply (grid64_Forall _ N (Fin l) times_zero64). intros i Hi. exact (proj1 (Hzero i Hi)).
  - apply (grid64_Forall _ N (Fin l) zero_times64). intros i Hi. exact (proj2 (Hzero i Hi)).
  - apply (grid64_Forall _ N (Fin l) zero_times64). intros i Hi. exact (proj2 (Hzero i Hi)).
  - apply (grid64_Forall _ N (Fin l) zero_times64). intros i Hi. exact (proj2 (Hzero i Hi)).
Qed.

Lemma sample_points64_finite_witness :
  exists s,
    sample_points64 200 (Fin 10) (Fin <$> Some (5 # 2)) (Fin <$> None) = Ok s /\
    Forall (fun v => is_finite v = true) (x64 s ++ y64 s) /\
    Forall (fun v => v ≡ Fin 0) (z64 s ++ vx64 s ++ vy64 s ++ vz64 s).
Proof.
  apply (sample_points64_finite 200 10 (Some (5 # 2)) None); [done| |simpl|done];
    apply Qle_bool_iff; by vm_compute.
Defined.

(** Beyond the bound the product [L*(i - N/2.)] of line 13 can overflow
    although the coordinate itself is a double: for the side [2^1020] and
    [N = 200] the first coordinate is [-2^1019], numpy computes [-inf], and
    z there is [nan]. *)
Example intermediate_overflow :
  grid_coord 200 (Fin (pow2 1020)) 0 ≡ Fin (- pow2 1019) /\
  is_double (- pow2 1019) /\
  grid_coord64 200 (Fin (pow2 1020)) 0 ≡ NInf /\
  times_zero64 (grid_coord64 200 (Fin (pow2 1020)) 0) ≡ NaN.
Proof. split_and!; by vm_compute. Qed.

(** ** The zeros *)

(** [x*0.] and [0.*x]: zero for a double, [nan] for an infinity or a
    [nan]. *)
Definition rest_of (finite : bool) : fval := if finite then Fin 0 else NaN.

Lemma times_zero64_rest (v : fval) :
  times_zero64 v ≡ rest_of (is_finite v) /\ zero_times64 v ≡ rest_of (is_finite v).
Proof.
  unfold times_zero64, zero_times64. rewrite fmul64_zero_r, fmul64_zero_l.
  destruct v as [q| | |]; [|done..].
  split; [by apply (times_zero_finite _ q)|by apply (zero_times_finite _ q)].
Qed.

(** A coordinate is a double exactly when the product [L*(i - N/2.)] is:
    the division by [N] cannot overflow and cannot bring an infinity
    back. *)
Lemma grid_coord64_finite (N i : Z) (l : Q) :
  (0 < N < 2 ^ 53)%Z -> (0 <= i <= N)%Z ->
  is_finite (grid_coord64 N (Fin l) i) = is_finite (round64 (l * half_index N i)).
Proof.
  intros HN Hi. rewrite (grid_coord64_Fin N HN i Hi l).
  pose proof (inject_N_pos64 N HN) as Hn.
  assert (1 <= inject_Z N) as Hn1 by (rewrite <- (Zle_Qle 1); lia).
  destruct (is_finite (round64 _)) eqn:Hp;
    [by apply quotient64_finite|by apply quotient64_infinite].
Qed.

(** C17. z and the velocities in doubles, for every finite side. For a grid
    of fewer than [2^53] steps, the arrays z, vx, vy and vz that [make_map]
    hands to the code hold, at the sample of row [i] and column [j], zero
    when the product [L*(i - N/2.)] of line 13 is a double and [nan] when
    it overflows: they are made of x as [x*0.] and [0.*x], and x is an
    infinity exactly when the product is. The offsets play no part: they
    are added after. *)
Theorem rest64_zero_or_nan (N : Z) (l : Q) (dx dy : option fval) (i j : nat) :
  (0 < N < 2 ^ 53)%Z -> (i < grid_size N)%nat -> (j < grid_size N)%nat ->
  let rest := rest_of (is_finite (round64 (l * half_index N (Z.of_nat i)))) in
  exists s,
    sample_points64 N (Fin l) dx dy = Ok s /\
    Forall (fun a => exists v, a !! (i * grid_size N + j)%nat = Some v /\ v ≡ rest)
           [z64 s; vx64 s; vy64 s; vz64 s].
Proof.
  intros HN Hi Hj rest. subst rest.
  assert (0 <= Z.of_nat i <= N)%Z as Hi' by (unfold grid_size in Hi; lia).
  rewrite <- (grid_coord64_finite N _ l HN Hi').
  destruct (times_zero64_rest (grid_coord64 N (Fin l) (Z.of_nat i))) as [Hz Hv].
  eexists. split; [apply sample_points64_Ok; lia|].
  destruct (sample_points64_lookup N (Fin l) dx dy i j Hi Hj _
              (sample_points64_Ok N (Fin l) dx dy ltac:(lia)))
    as (_ & _ & Ez & Evx & Evy & Evz).
  apply Forall_cons_2; [exact (ex_intro _ _ (conj Ez Hz))|].
  apply Forall_cons_2; [exact (ex_intro _ _ (conj Evx Hv))|].
  apply Forall_cons_2; [exact (ex_intro _ _ (conj Evy Hv))|].
  apply Forall_cons_2; [exact (ex_intro _ _ (conj Evz Hv))|apply Forall_nil_2].
Qed.

Lemma rest64_zero_or_nan_witness :
  let rest := rest_of (is_finite (round64 (pow2 1020 * half_index 200 (Z.of_nat 0)))) in
  exists s,
    sample_points64 200 (Fin (pow2 1020)) None None = Ok s /\
    Forall (fun a => exists v, a !! (0 * grid_size 200 + 7)%nat = Some v /\ v ≡ rest)
           [z64 s; vx64 s; vy64 s; vz64 s].
Proof.
  apply (rest64_zero_or_nan 200 (pow2 1020) None None 0 7); [done|..];
    unfold grid_size; simpl; lia.
Defined.

(** There the product overflows: the four entries are [nan]. *)
Example rest64_overflow :
  rest_of (is_finite (round64 (pow2 1020 * half_index 200 0))) = NaN.
Proof. by vm_compute. Qed.

(** C39. An offset keeps the order of the samples. For a side [L >= 0], a
    grid of fewer than [2^53] steps and any offset, the coordinate computed
    in doubles for a larger index, with the offset added, is not smaller:
    the three roundings may make neighbours equal but never exchange
    them. *)
Theorem sample64_monotone (N : Z) (l : Q) (d : option Q) (i j : Z) :
  (0 < N < 2 ^ 53)%Z -> 0 <= l -> (0 <= i <= j)%Z -> (j <= N)%Z ->
  fle (shift64 (Fin <$> d) (grid_coord64 N (Fin l) i))
      (shift64 (Fin <$> d) (grid_coord64 N (Fin l) j)).
Proof. intros HN Hl Hij Hj. by apply shift64_mono, grid64_monotone. Qed.

Lemma sample64_monotone_witness :
  fle (shift64 (Fin <$> Some (1 # 7)) (grid_coord64 200 (Fin (1 # 3)) 3))
      (shift64 (Fin <$> Some (1 # 7)) (grid_coord64 200 (Fin (1 # 3)) 4)).
Proof. apply (sample64_monotone 200 (1 # 3) (Some (1 # 7)) 3 4); [done|done|lia|lia]. Defined.

(** C32. The error of a sample with an offset. For a grid of fewer than
    [2^53] steps, a coordinate [c] of the normal range and an offset of [d]
    parsec, the x that numpy computes, when it is a double, differs from
    [c + d] by at most [u |c + d| + (1 + u)(2 u + u^2) |c|], when the sum
    stays clear of cancellation and of the subnormal range
    ([min_normal + (2 u + u^2) |c| <= |c + d|]): the error of the
    coordinate is carried into the sum, so the result is accurate to the
    size of [c], not only to its own size. *)
Theorem sample64_error (N : Z) (l d : Q) (i : Z) (c x : Q) :
  (0 < N < 2 ^ 53)%Z -> (0 <= i <= N)%Z ->
  grid_coord N (Fin l) i ≡ Fin c -> 2 * min_normal <= Qabs c ->
  min_normal + two_roundings * Qabs c <= Qabs (c + d) ->
  shift64 (Some (Fin d)) (grid_coord64 N (Fin l) i) ≡ Fin x ->
  Qabs (x - (c + d)) <= shifted_error (c + d) c.
Proof.
  intros HN Hi Hc Hnorm Hsum Hx. cbn [shift64] in Hx. unfold fadd64 in Hx.
  destruct (grid_coord64 N (Fin l) i) as [y| | |] eqn:Hy; try done.
  assert (grid_coord64 N (Fin l) i ≡ Fin y) as Hy' by (by rewrite Hy).
  pose proof (grid_coord64_error N l i c y HN Hi Hc Hy' Hnorm) as He.
  cbn [fadd fl] in Hx. rewrite (round64_equiv_Fin _ _ Hx).
  apply shifted_rounding; [done|].
  pose proof (Qabs_triangle (y + d) (c - y)) as Ht.
  assert (y + d + (c - y) == c + d) as E by ring. rewrite E in Ht.
  assert (Qabs (c - y) == Qabs (y - c)) as Es.
  { assert (c - y == - (y - c)) as -> by ring. apply Qabs_opp. }
  rewrite Es in Ht. lra.
Qed.

Lemma sample64_error_witness :
  Qabs ((4285175045443027 # 4503599627370496) - ((-97 # 2000) + 1)) <=
    shifted_error ((-97 # 2000) + 1) (-97 # 2000).
Proof.
  apply (sample64_error 200 (1 # 10) 1 3); [done|lia|by vm_compute| | |by vm_compute];
    apply Qle_bool_iff; by vm_compute.
Defined.
