(* ===== verification/Stars.v ===== *)
(** * Stars: the particle set interface

    [plot_hydro_and_stars] asks four things of the star collection:
    [is_empty()], [mass], [x] and [y], the last three as vector quantities
    aligned by index. [Module particles] holds the interface (class
    [StarCollection]), the laws the composer relies on, and a concrete
    particle set that satisfies them. *)

From S2P Require Import Prelude Floats Arrays Units Hydro.

Module particles.

(** ** The interface *)

Class StarCollection (T : Type) : Type := {
  is_empty : T -> bool;
  mass : T -> vq;
  x : T -> vq;
  y : T -> vq;
}.

(** A collection the composer can draw: the three attributes have one
    length, which is zero exactly when the collection is empty; masses are
    masses and positions are lengths. *)
Class StarLaws {T : Type} `{StarCollection T} (stars : T) : Prop := {
  is_empty_length :
    is_empty stars = true <-> length (units.number (mass stars)) = 0%nat;
  x_length : length (units.number (x stars)) = length (units.number (mass stars));
  y_length : length (units.number (y stars)) = length (units.number (mass stars));
  mass_dim : units.u_dim (units.unit_of (mass stars)) = units.mass_dim;
  x_dim : units.u_dim (units.unit_of (x stars)) = units.length_dim;
  y_dim : units.u_dim (units.unit_of (y stars)) = units.length_dim;
}.

(** ** A particle set *)

(** One star: its mass and its position in the plane, as numbers in the
    units of the set. *)
Record particle : Type := Particle {
  p_mass : fval;
  p_pos_x : fval;
  p_pos_y : fval;
}.

Record particle_set : Type := ParticleSet {
  members : list particle;
  mass_unit : units.unit;
  length_unit : units.unit;
}.

#[global] Instance particle_set_collection : StarCollection particle_set := {
  is_empty s := bool_decide (members s = []);
  mass s := units.Quantity (p_mass <$> members s) (mass_unit s);
  x s := units.Quantity (p_pos_x <$> members s) (length_unit s);
  y s := units.Quantity (p_pos_y <$> members s) (length_unit s);
}.

(** A particle set in units of mass and length keeps the laws. *)
Lemma particle_set_laws (s : particle_set) :
  units.u_dim (mass_unit s) = units.mass_dim ->
  units.u_dim (length_unit s) = units.length_dim ->
  StarLaws s.
Proof.
  intros Hm Hl. split; simpl; rewrite ?length_fmap; try done.
  rewrite bool_decide_eq_true. by destruct (members s).
Qed.

(** Stars with masses in solar masses and positions in parsec. *)
Definition in_MSun_parsec (l : list particle) : particle_set :=
  ParticleSet l units.MSun units.parsec.

#[global] Instance in_MSun_parsec_laws (l : list particle) :
  StarLaws (in_MSun_parsec l).
Proof. by apply particle_set_laws. Qed.

(** Two stars, of one and of three solar masses. *)
Definition binary : particle_set :=
  in_MSun_parsec [Particle (Fin 1) (Fin 2) (Fin 3); Particle (Fin 3) (Fin (-1)) (Fin 0)].

End particles.
