(* ===== verification/Pyplot.v ===== *)
(** * Pyplot: the state of the rendering backend

    matplotlib's [pyplot] keeps the open figures by number and a current
    figure; a figure keeps its axes, the last one added being current.
    [fig.add_subplot] and [ax.imshow] act on the object they are called on,
    the functions of the module ([scatter], [xlim], [title], ...) on the
    current axes of the current figure, which they create when there is
    none. The backend is not part of the repository: this file models what
    the composer calls, from the specification of the rendering backend.

    A call ([py]) runs from a backend to a result and a backend: the state
    survives an exception, as Python's does. *)

From stdpp Require Import gmap.
From S2P Require Import Prelude Floats Arrays.

Module pyplot.

(** ** What is drawn *)

(** The image [imshow] shows: the data, the extent
    [(left, right, bottom, top)] and the origin. *)
Record image : Type := Image {
  im_data : numpy.array2 logval;
  im_extent : fval * fval * fval * fval;
  im_origin : string;
}.

(** The markers one call of [scatter] draws. *)
Record collection : Type := Collection {
  sc_x : list fval;
  sc_y : list fval;
  sc_s : list fval;
  sc_c : string;
  sc_lw : fval;
}.

Record axes : Type := Axes {
  ax_images : list image;
  ax_collections : list collection;
  ax_xlim : option (fval * fval);
  ax_ylim : option (fval * fval);
  ax_xlabel : string;
  ax_ylabel : string;
  ax_title : string;
}.

Definition empty_axes : axes := Axes [] [] None None "" "" "".

Record fig_state : Type := Figure {
  fig_size : fval * fval;
  fig_axes : list axes;
}.

(** The open figures, the number of the current one, the figures a call of
    [show] has displayed. *)
Record backend : Type := Backend {
  figs : gmap nat fig_state;
  current : option nat;
  shown : gset nat;
}.

Definition initial : backend := Backend ∅ None ∅.

(** An axes object: the number of its figure and its position there. *)
Definition handle : Type := nat * nat.

(** ** Calls *)

Record py (A : Type) : Type := Py {
  run : backend -> result A * backend;
}.
Arguments Py {A} run.
Arguments run {A} p b.

#[global] Instance py_ret : MRet py := fun A a => Py (fun b => (Ok a, b)).
#[global] Instance py_bind : MBind py := fun A B f m => Py (fun b =>
  match run m b with
  | (Ok a, b') => run (f a) b'
  | (Raise e, b') => (Raise e, b')
  end).

(** A computation that does not touch the backend. *)
Definition lift {A} (r : result A) : py A := Py (fun b => (r, b)).

(** ** Setters *)

Definition add_image (im : image) (a : axes) : axes :=
  Axes (ax_images a ++ [im]) (ax_collections a) (ax_xlim a) (ax_ylim a)
       (ax_xlabel a) (ax_ylabel a) (ax_title a).
Definition add_collection (c : collection) (a : axes) : axes :=
  Axes (ax_images a) (ax_collections a ++ [c]) (ax_xlim a) (ax_ylim a)
       (ax_xlabel a) (ax_ylabel a) (ax_title a).
Definition set_xlim (l : fval * fval) (a : axes) : axes :=
  Axes (ax_images a) (ax_collections a) (Some l) (ax_ylim a)
       (ax_xlabel a) (ax_ylabel a) (ax_title a).
Definition set_ylim (l : fval * fval) (a : axes) : axes :=
  Axes (ax_images a) (ax_collections a) (ax_xlim a) (Some l)
       (ax_xlabel a) (ax_ylabel a) (ax_title a).
Definition set_xlabel (s : string) (a : axes) : axes :=
  Axes (ax_images a) (ax_collections a) (ax_xlim a) (ax_ylim a)
       s (ax_ylabel a) (ax_title a).
Definition set_ylabel (s : string) (a : axes) : axes :=
  Axes (ax_images a) (ax_collections a) (ax_xlim a) (ax_ylim a)
       (ax_xlabel a) s (ax_title a).
Definition set_title (s : string) (a : axes) : axes :=
  Axes (ax_images a) (ax_collections a) (ax_xlim a) (ax_ylim a)
       (ax_xlabel a) (ax_ylabel a) s.

(** ** Figures and axes *)

(** The number of the next figure: one more than the largest open one. *)
Definition next_num (b : backend) : nat :=
  S (max_list (elements (dom (figs b)))).

(** The size of a figure made without [figsize]. *)
Definition default_figsize : fval * fval := (Fin 6.4, Fin 4.8).

(** [pyplot.figure(figsize=...)]: a new figure, which becomes current. *)
Definition figure (figsize : fval * fval) : py nat := Py (fun b =>
  let num := next_num b in
  (Ok num, Backend (<[num := Figure figsize []]> (figs b)) (Some num) (shown b))).

(** [fig.add_subplot(1, 1, 1)]: a new axes of the figure [fig], which
    becomes the figure's current axes. *)
Definition add_subplot (fig : nat) : py handle := Py (fun b =>
  match figs b !! fig with
  | Some f =>
      (Ok (fig, length (fig_axes f)),
       Backend (<[fig := Figure (fig_size f) (fig_axes f ++ [empty_axes])]> (figs b))
               (current b) (shown b))
  | None => (Raise (CodeException "the figure is closed"), b)
  end).

(** A change of the axes [h]. *)
Definition on_axes (h : handle) (g : axes -> axes) : py unit := Py (fun b =>
  match figs b !! h.1 with
  | Some f =>
      match fig_axes f !! h.2 with
      | Some a =>
          (Ok tt,
           Backend (<[h.1 := Figure (fig_size f) (<[h.2 := g a]> (fig_axes f))]> (figs b))
                   (current b) (shown b))
      | None => (Raise (CodeException "no such axes"), b)
      end
  | None => (Raise (CodeException "the figure is closed"), b)
  end).

(** [pyplot.gcf()]: the current figure, made if there is none. *)
Definition gcf : py nat := Py (fun b =>
  match current b with
  | Some num => (Ok num, b)
  | None => run (figure default_figsize) b
  end).

(** [pyplot.gca()]: the current axes of the current figure, made if the
    figure has none. *)
Definition gca : py handle :=
  num ← gcf;
  Py (fun b =>
    match figs b !! num with
    | Some f =>
        match fig_axes f with
        | [] => run (add_subplot num) b
        | _ => (Ok (num, pred (length (fig_axes f))), b)
        end
    | None => (Raise (CodeException "the figure is closed"), b)
    end).

(** ** Drawing *)

(** [ax.imshow(data, extent=..., origin=...)]. *)
Definition imshow (ax : handle) (data : numpy.array2 logval)
    (extent : fval * fval * fval * fval) (origin : string) : py unit :=
  on_axes ax (add_image (Image data extent origin)).

(** [pyplot.scatter(x, y, s=..., c=..., lw=...)]. *)
Definition scatter (x y s : list fval) (c : string) (lw : fval) : py unit :=
  ax ← gca; on_axes ax (add_collection (Collection x y s c lw)).

Definition xlim (left right : fval) : py unit :=
  ax ← gca; on_axes ax (set_xlim (left, right)).
Definition ylim (bottom top : fval) : py unit :=
  ax ← gca; on_axes ax (set_ylim (bottom, top)).
Definition xlabel (s : string) : py unit :=
  ax ← gca; on_axes ax (set_xlabel s).
Definition ylabel (s : string) : py unit :=
  ax ← gca; on_axes ax (set_ylabel s).
Definition title (s : string) : py unit :=
  ax ← gca; on_axes ax (set_title s).

(** [pyplot.show()]: every open figure is displayed. *)
Definition show : py unit := Py (fun b =>
  (Ok tt, Backend (figs b) (current b) (shown b ∪ dom (figs b)))).

(** ** Running calls *)

Lemma run_bind_Ok {A B} (m : py A) (f : A -> py B) b a b' :
  run m b = (Ok a, b') -> run (m ≫= f) b = run (f a) b'.
Proof. intros Hm. unfold mbind, py_bind; cbn [run]. by rewrite Hm. Qed.

Lemma run_bind_Raise {A B} (m : py A) (f : A -> py B) b e b' :
  run m b = (Raise e, b') -> run (m ≫= f) b = (Raise e, b').
Proof. intros Hm. unfold mbind, py_bind; cbn [run]. by rewrite Hm. Qed.

Lemma run_bind_lift_Ok {A B} (a : A) (f : A -> py B) b :
  run (lift (Ok a) ≫= f) b = run (f a) b.
Proof. done. Qed.

Lemma run_bind_lift_Raise {A B} e (f : A -> py B) b :
  run (lift (Raise e) ≫= f) b = (Raise e, b).
Proof. done. Qed.

Lemma run_ret {A} (a : A) b : run (mret a) b = (Ok a, b).
Proof. done. Qed.

(** ** Fresh figure numbers *)

Lemma max_list_ge (l : list nat) (n : nat) : n ∈ l -> (n <= max_list l)%nat.
Proof.
  induction 1 as [n l|n m l _ IH]; simpl; lia.
Qed.

Lemma next_num_fresh (b : backend) : figs b !! next_num b = None.
Proof.
  apply not_elem_of_dom. intros Hin.
  apply elem_of_elements, max_list_ge in Hin. unfold next_num in Hin. lia.
Qed.

Lemma next_num_initial : next_num initial = 1%nat.
Proof. done. Qed.

(** ** A fresh figure with one axes *)

(** The backend [b0] after a figure was opened and given one axes [a]. *)
Definition single (sz : fval * fval) (a : axes) (b0 : backend) : backend :=
  Backend (<[next_num b0 := Figure sz [a]]> (figs b0))
          (Some (next_num b0)) (shown b0).

(** The backend [b0] after a figure was opened: it has no axes yet. *)
Definition opened (sz : fval * fval) (b0 : backend) : backend :=
  Backend (<[next_num b0 := Figure sz []]> (figs b0))
          (Some (next_num b0)) (shown b0).

(** The backend [b] after [show]. *)
Definition displayed (b : backend) : backend :=
  Backend (figs b) (current b) (shown b ∪ dom (figs b)).

Section single.
Context (sz : fval * fval) (b0 : backend).
Implicit Types (a : axes) (g : axes -> axes).

Lemma figure_opened : run (figure sz) b0 = (Ok (next_num b0), opened sz b0).
Proof. done. Qed.

Lemma add_subplot_opened :
  run (add_subplot (next_num b0)) (opened sz b0) =
    (Ok (next_num b0, 0%nat), single sz empty_axes b0).
Proof.
  unfold add_subplot, opened; cbn [run figs current shown].
  rewrite lookup_insert_eq; cbn [fig_axes fig_size app length].
  by rewrite insert_insert_eq.
Qed.

Lemma figure_add_subplot :
  run (figure sz ≫= add_subplot) b0 =
    (Ok (next_num b0, 0%nat), single sz empty_axes b0).
Proof. rewrite (run_bind_Ok _ _ _ _ _ figure_opened). apply add_subplot_opened. Qed.

Lemma on_axes_single a g :
  run (on_axes (next_num b0, 0%nat) g) (single sz a b0) =
    (Ok tt, single sz (g a) b0).
Proof.
  unfold on_axes, single; cbn [run figs current shown fst snd].
  rewrite lookup_insert_eq; cbn [fig_axes fig_size lookup list_lookup].
  by rewrite insert_insert_eq.
Qed.

Lemma gca_single a :
  run gca (single sz a b0) = (Ok (next_num b0, 0%nat), single sz a b0).
Proof.
  unfold gca, mbind, py_bind, gcf, single; cbn [run figs current shown].
  by rewrite lookup_insert_eq.
Qed.

(** A call on the current axes changes the one axes of the new figure. *)
Lemma gca_on_axes_single a g :
  run (gca ≫= fun ax => on_axes ax g) (single sz a b0) =
    (Ok tt, single sz (g a) b0).
Proof. by rewrite (run_bind_Ok _ _ _ _ _ (gca_single a)), on_axes_single. Qed.

(** Each drawing call changes the one axes of the new figure: the calls on
    the current axes reach the axes [add_subplot] returned. *)
Lemma imshow_single a data extent origin :
  run (imshow (next_num b0, 0%nat) data extent origin) (single sz a b0) =
    (Ok tt, single sz (add_image (Image data extent origin) a) b0).
Proof. apply on_axes_single. Qed.

Lemma scatter_single a x y s c lw :
  run (scatter x y s c lw) (single sz a b0) =
    (Ok tt, single sz (add_collection (Collection x y s c lw) a) b0).
Proof. apply gca_on_axes_single. Qed.

Lemma xlim_single a l r :
  run (xlim l r) (single sz a b0) = (Ok tt, single sz (set_xlim (l, r) a) b0).
Proof. apply gca_on_axes_single. Qed.

Lemma ylim_single a l r :
  run (ylim l r) (single sz a b0) = (Ok tt, single sz (set_ylim (l, r) a) b0).
Proof. apply gca_on_axes_single. Qed.

Lemma xlabel_single a s :
  run (xlabel s) (single sz a b0) = (Ok tt, single sz (set_xlabel s a) b0).
Proof. apply gca_on_axes_single. Qed.

Lemma ylabel_single a s :
  run (ylabel s) (single sz a b0) = (Ok tt, single sz (set_ylabel s a) b0).
Proof. apply gca_on_axes_single. Qed.

Lemma title_single a s :
  run (title s) (single sz a b0) = (Ok tt, single sz (set_title s a) b0).
Proof. apply gca_on_axes_single. Qed.

Lemma show_displayed b : run show b = (Ok tt, displayed b).
Proof. done. Qed.

(** After [show] the new figure and every figure that was open are shown. *)
Lemma shown_displayed_single a :
  shown (displayed (single sz a b0)) =
    shown b0 ∪ dom (figs b0) ∪ {[next_num b0]}.
Proof.
  unfold displayed, single; cbn [figs current shown].
  rewrite dom_insert_L. set_solver.
Qed.

(** The figures that were open before are as they were. *)
Lemma single_frame a num :
  is_Some (figs b0 !! num) -> figs (single sz a b0) !! num = figs b0 !! num.
Proof.
  intros Hnum. unfold single; cbn [figs]. apply lookup_insert_ne.
  intros <-. rewrite next_num_fresh in Hnum. by destruct Hnum.
Qed.

Lemma single_lookup a :
  figs (single sz a b0) !! next_num b0 = Some (Figure sz [a]).
Proof. unfold single; cbn [figs]. apply lookup_insert_eq. Qed.

End single.

(** The figures of the backend do not change when they are displayed. *)
Lemma figs_displayed b : figs (displayed b) = figs b.
Proof. done. Qed.

End pyplot.

Create HintDb pyplot.
#[export] Hint Resolve pyplot.figure_opened pyplot.add_subplot_opened
  pyplot.imshow_single pyplot.scatter_single pyplot.xlim_single
  pyplot.ylim_single pyplot.xlabel_single pyplot.ylabel_single
  pyplot.title_single pyplot.show_displayed pyplot.run_ret : pyplot.

(** [py_run] runs the calls of a sequence one after the other, each by the
    lemma of the database [pyplot] that gives its result. *)
Ltac py_run :=
  repeat first
    [ rewrite pyplot.run_bind_lift_Ok
    | rewrite pyplot.run_bind_lift_Raise
    | erewrite pyplot.run_bind_Ok by eauto with pyplot ];
  eauto with pyplot.
