(* ===== verification/PyplotSpec.v ===== *)
(** * PyplotSpec: the invariant of the backend and the specification of its calls

    [triple P m Q E] says of a call [m] what it does from a backend in [P]:
    it returns a value [a] and leaves a backend in [Q a], or it raises [e]
    and leaves a backend in [E e]. The rules compose the triples of calls
    that are run in sequence. [backend_ok] is the invariant of the backend:
    the figures are numbered from one without a gap, the current figure is
    open, what was displayed is open. Every call of the backend keeps it,
    and from a backend that has it no call on the current axes raises. *)

From stdpp Require Import gmap.
From S2P Require Import Prelude Floats Arrays Pyplot.

(** ** Triples *)

Definition triple {A} (P : pyplot.backend -> Prop) (m : pyplot.py A)
    (Q : A -> pyplot.backend -> Prop) (E : exn -> pyplot.backend -> Prop) : Prop :=
  forall b, P b ->
    match pyplot.run m b with
    | (Ok a, b') => Q a b'
    | (Raise e, b') => E e b'
    end.

(** A call keeps [I] whether it returns or raises. *)
Definition preserves {A} (I : pyplot.backend -> Prop) (m : pyplot.py A) : Prop :=
  triple I m (fun _ => I) (fun _ => I).

(** A call from [P] returns, and keeps [I]. *)
Definition returns {A} (P I : pyplot.backend -> Prop) (m : pyplot.py A) : Prop :=
  triple P m (fun _ => I) (fun _ _ => False).

Section rules.
Context {A B : Type}.
Implicit Types (P : pyplot.backend -> Prop) (E : exn -> pyplot.backend -> Prop).

Lemma triple_ret P (Q : A -> pyplot.backend -> Prop) E (a : A) :
  (forall b, P b -> Q a b) -> triple P (mret a) Q E.
Proof. intros H b Hb. by apply H. Qed.

Lemma triple_lift P (Q : A -> pyplot.backend -> Prop) E (r : result A) :
  (forall b, P b -> match r with Ok a => Q a b | Raise e => E e b end) ->
  triple P (pyplot.lift r) Q E.
Proof. intros H b Hb. specialize (H b Hb). by destruct r. Qed.

Lemma triple_bind P (R : A -> pyplot.backend -> Prop)
    (Q : B -> pyplot.backend -> Prop) E (m : pyplot.py A) (f : A -> pyplot.py B) :
  triple P m R E -> (forall a, triple (R a) (f a) Q E) -> triple P (m ≫= f) Q E.
Proof.
  intros Hm Hf b Hb. specialize (Hm b Hb).
  destruct (pyplot.run m b) as [[a|e] b'] eqn:Hrun.
  - rewrite (pyplot.run_bind_Ok _ _ _ _ _ Hrun). by apply Hf.
  - by rewrite (pyplot.run_bind_Raise _ _ _ _ _ Hrun).
Qed.

Lemma triple_consequence P P' (Q Q' : A -> pyplot.backend -> Prop) E E'
    (m : pyplot.py A) :
  triple P' m Q' E' ->
  (forall b, P b -> P' b) -> (forall a b, Q' a b -> Q a b) ->
  (forall e b, E' e b -> E e b) ->
  triple P m Q E.
Proof.
  intros Hm HP HQ HE b Hb. specialize (Hm b (HP b Hb)).
  destruct (pyplot.run m b) as [[a|e] b']; auto.
Qed.

End rules.

Lemma triple_total {A} P (m : pyplot.py A) Q E :
  triple P m Q (fun _ _ => False) -> triple P m Q E.
Proof. intros H. eapply triple_consequence; [exact H|auto..]. done. Qed.

Lemma preserves_bind {A B} I (m : pyplot.py A) (f : A -> pyplot.py B) :
  preserves I m -> (forall a, preserves I (f a)) -> preserves I (m ≫= f).
Proof. intros Hm Hf. by eapply triple_bind. Qed.

Lemma preserves_ret {A} I (a : A) : preserves I (mret a).
Proof. by apply triple_ret. Qed.

Lemma preserves_lift {A} I (r : result A) : preserves I (pyplot.lift r).
Proof. apply triple_lift. intros b Hb. by destruct r. Qed.

Lemma returns_preserves {A} I (m : pyplot.py A) : returns I I m -> preserves I m.
Proof. intros Hm. eapply triple_consequence; [exact Hm|done..]. Qed.

(** ** The invariant *)

Record backend_ok (b : pyplot.backend) : Prop := BackendOk {
  ok_numbers : forall k,
    is_Some (pyplot.figs b !! k) <-> (1 <= k <= size (pyplot.figs b))%nat;
  ok_current : forall n,
    pyplot.current b = Some n -> is_Some (pyplot.figs b !! n);
  ok_shown : pyplot.shown b ⊆ dom (pyplot.figs b);
}.

(** An axes object of the backend. *)
Definition valid (h : pyplot.handle) (b : pyplot.backend) : Prop :=
  exists f, pyplot.figs b !! h.1 = Some f /\ is_Some (pyplot.fig_axes f !! h.2).

Lemma backend_ok_initial : backend_ok pyplot.initial.
Proof.
  split; cbn.
  - intros k. rewrite lookup_empty, map_size_empty. split; [by intros [? ?]|lia].
  - done.
  - set_solver.
Qed.

Lemma max_list_le (l : list nat) (n : nat) :
  Forall (fun k => k <= n)%nat l -> (max_list l <= n)%nat.
Proof. induction 1; simpl; lia. Qed.

(** In a backend that keeps the invariant the next figure has the number
    of open figures plus one. *)
Lemma next_num_size b : backend_ok b -> pyplot.next_num b = S (size (pyplot.figs b)).
Proof.
  intros Hb. unfold pyplot.next_num. f_equal. apply Nat.le_antisymm.
  - apply max_list_le, Forall_forall. intros k Hk.
    apply elem_of_elements, elem_of_dom, (ok_numbers b Hb) in Hk. lia.
  - destruct (size (pyplot.figs b)) as [|n] eqn:Hn; [lia|].
    apply pyplot.max_list_ge, elem_of_elements, elem_of_dom, (ok_numbers b Hb). lia.
Qed.

(** The two ways a call changes the figures. *)
Lemma backend_ok_update b n f :
  backend_ok b -> is_Some (pyplot.figs b !! n) ->
  backend_ok (pyplot.Backend (<[n := f]> (pyplot.figs b)) (pyplot.current b)
                (pyplot.shown b)).
Proof.
  intros [Hnum Hcur Hshown] [f0 Hn].
  assert (forall k, is_Some (<[n := f]> (pyplot.figs b) !! k) <->
                    is_Some (pyplot.figs b !! k)) as Hsome.
  { intros k. rewrite lookup_insert_is_Some. split.
    - intros [<-|[_ ?]]; [by eexists|done].
    - destruct (decide (n = k)); auto. }
  split; cbn.
  - intros k. rewrite Hsome, map_size_insert_Some by done. apply Hnum.
  - intros k Hk. by apply Hsome, Hcur.
  - rewrite dom_insert_L. set_solver.
Qed.

Lemma backend_ok_opened sz b : backend_ok b -> backend_ok (pyplot.opened sz b).
Proof.
  intros Hb. pose proof (next_num_size b Hb) as Hnext. destruct Hb as [Hnum Hcur Hshown].
  split; cbn.
  - intros k. rewrite lookup_insert_is_Some, Hnum, Hnext.
    rewrite map_size_insert_None by (rewrite <- Hnext; apply pyplot.next_num_fresh).
    lia.
  - intros n [= <-]. rewrite lookup_insert_eq. by eexists.
  - rewrite dom_insert_L. set_solver.
Qed.

Lemma backend_ok_displayed b : backend_ok b -> backend_ok (pyplot.displayed b).
Proof. intros [Hnum Hcur Hshown]. split; cbn; [done..|set_solver]. Qed.

(** ** The invariant as a check *)

(** The invariant in a form that computes: the open figures are the
    numbers from 1 to their count, the current figure is one of them, and
    so is every figure displayed. *)
Definition backend_check (b : pyplot.backend) : Prop :=
  dom (pyplot.figs b) = set_seq 1 (size (pyplot.figs b)) /\
  from_option (fun n => n ∈ dom (pyplot.figs b)) True (pyplot.current b) /\
  pyplot.shown b ⊆ dom (pyplot.figs b).

#[export] Instance backend_check_dec (b : pyplot.backend) : Decision (backend_check b).
Proof. unfold backend_check. destruct (pyplot.current b); simpl; apply _. Defined.

Lemma backend_ok_check (b : pyplot.backend) : backend_ok b <-> backend_check b.
Proof.
  unfold backend_check. split.
  - intros [Hnum Hcur Hshown]. split_and!; [|by destruct (pyplot.current b) as [n|];
      [apply elem_of_dom, Hcur|]|done].
    apply set_eq. intros k. rewrite elem_of_dom, Hnum, elem_of_set_seq. lia.
  - intros (Hnum & Hcur & Hshown). split; [|by intros n Hn; rewrite Hn in Hcur;
      apply elem_of_dom|done].
    intros k. rewrite <- elem_of_dom, Hnum, elem_of_set_seq. lia.
Qed.

#[export] Instance backend_ok_dec (b : pyplot.backend) : Decision (backend_ok b).
Proof. refine (cast_if (decide (backend_check b))); by rewrite backend_ok_check. Defined.

(** ** The calls of the backend *)

Lemma figure_spec sz :
  triple backend_ok (pyplot.figure sz)
    (fun n b => backend_ok b /\ pyplot.current b = Some n) (fun _ _ => False).
Proof.
  intros b Hb. rewrite pyplot.figure_opened. split; [by apply backend_ok_opened|done].
Qed.

Lemma add_subplot_spec n :
  triple backend_ok (pyplot.add_subplot n)
    (fun h b => backend_ok b /\ valid h b /\ h.1 = n) (fun _ => backend_ok).
Proof.
  intros b Hb. unfold pyplot.add_subplot; cbn [pyplot.run].
  destruct (pyplot.figs b !! n) as [f|] eqn:Hn; [|done].
  split_and!; [by apply backend_ok_update| |done].
  eexists. cbn. rewrite lookup_insert_eq. split; [done|].
  cbn. apply lookup_lt_is_Some. rewrite length_app. cbn. lia.
Qed.

(** A figure that is open gets its axes. *)
Lemma add_subplot_open n :
  triple (fun b => backend_ok b /\ is_Some (pyplot.figs b !! n)) (pyplot.add_subplot n)
    (fun h b => backend_ok b /\ valid h b) (fun _ _ => False).
Proof.
  intros b [Hb [f Hn]]. pose proof (add_subplot_spec n b Hb) as H.
  unfold pyplot.add_subplot in *; cbn [pyplot.run] in *. rewrite Hn in *. tauto.
Qed.

Lemma on_axes_preserves h g : preserves backend_ok (pyplot.on_axes h g).
Proof.
  intros b Hb. unfold pyplot.on_axes; cbn [pyplot.run].
  destruct (pyplot.figs b !! h.1) as [f|] eqn:Hf; [|done].
  destruct (pyplot.fig_axes f !! h.2) as [a|]; [|done].
  by apply backend_ok_update.
Qed.

(** A change of an axes of the backend does not raise. *)
Lemma on_axes_valid h g :
  returns (fun b => backend_ok b /\ valid h b) backend_ok (pyplot.on_axes h g).
Proof.
  intros b [Hb (f & Hf & a & Ha)]. pose proof (on_axes_preserves h g b Hb) as H.
  unfold pyplot.on_axes in *; cbn [pyplot.run] in *. by rewrite Hf, Ha in *.
Qed.

Lemma gcf_spec :
  triple backend_ok pyplot.gcf
    (fun n b => backend_ok b /\ is_Some (pyplot.figs b !! n)) (fun _ _ => False).
Proof.
  intros b Hb. unfold pyplot.gcf; cbn [pyplot.run].
  destruct (pyplot.current b) as [n|] eqn:Hc.
  - split; [done|]. by apply (ok_current b Hb).
  - rewrite pyplot.figure_opened. split; [by apply backend_ok_opened|].
    cbn. rewrite lookup_insert_eq. by eexists.
Qed.

Lemma gca_spec :
  triple backend_ok pyplot.gca
    (fun h b => backend_ok b /\ valid h b) (fun _ _ => False).
Proof.
  unfold pyplot.gca. eapply triple_bind; [apply gcf_spec|]. intros n b [Hb [f Hn]].
  cbn [pyplot.run]. rewrite Hn.
  destruct (pyplot.fig_axes f) as [|a l] eqn:Hax.
  - apply (add_subplot_open n b). split; [done|by eexists].
  - split; [done|]. exists f. cbn. rewrite Hax. split; [done|].
    apply lookup_lt_is_Some. cbn. lia.
Qed.

(** A call on the current axes returns and keeps the invariant. *)
Lemma on_current_axes g :
  returns backend_ok backend_ok (pyplot.gca ≫= fun ax => pyplot.on_axes ax g).
Proof. eapply triple_bind; [apply gca_spec|]. intros h. apply on_axes_valid. Qed.

Lemma show_spec : returns backend_ok backend_ok pyplot.show.
Proof. intros b Hb. rewrite pyplot.show_displayed. by apply backend_ok_displayed. Qed.

(** ** Calls as data *)

(** The calls of the backend the program makes, with their arguments. *)
Inductive call : Type :=
  | Cfigure (figsize : fval * fval)
  | Cadd_subplot (fig : nat)
  | Cimshow (ax : pyplot.handle) (data : numpy.array2 logval)
      (extent : fval * fval * fval * fval) (origin : string)
  | Cscatter (x y s : list fval) (c : string) (lw : fval)
  | Cxlim (left right : fval)
  | Cylim (bottom top : fval)
  | Cxlabel (s : string)
  | Cylabel (s : string)
  | Ctitle (s : string)
  | Cshow.

(** What a call on the current axes does to them. *)
Definition change (c : call) : option (pyplot.axes -> pyplot.axes) :=
  match c with
  | Cscatter x y s c lw => Some (pyplot.add_collection (pyplot.Collection x y s c lw))
  | Cxlim l r => Some (pyplot.set_xlim (l, r))
  | Cylim b t => Some (pyplot.set_ylim (b, t))
  | Cxlabel s => Some (pyplot.set_xlabel s)
  | Cylabel s => Some (pyplot.set_ylabel s)
  | Ctitle s => Some (pyplot.set_title s)
  | _ => None
  end.

(** The call made. *)
Definition exec (c : call) : pyplot.py unit :=
  match c with
  | Cfigure sz => pyplot.figure sz;; mret tt
  | Cadd_subplot n => pyplot.add_subplot n;; mret tt
  | Cimshow ax d e o => pyplot.imshow ax d e o
  | Cscatter x y s c lw => pyplot.scatter x y s c lw
  | Cxlim l r => pyplot.xlim l r
  | Cylim b t => pyplot.ylim b t
  | Cxlabel s => pyplot.xlabel s
  | Cylabel s => pyplot.ylabel s
  | Ctitle s => pyplot.title s
  | Cshow => pyplot.show
  end.

(** The calls of a list made one after the other, up to the first that
    raises. *)
Definition exec_all (cs : list call) : pyplot.py unit :=
  foldr (fun c m => exec c;; m) (mret tt) cs.

Lemma exec_change c g :
  change c = Some g -> exec c = (pyplot.gca ≫= fun ax => pyplot.on_axes ax g).
Proof. destruct c; intros [= <-]; reflexivity. Qed.

(** Every call keeps the invariant, whether it returns or raises. *)
Lemma exec_preserves c : preserves backend_ok (exec c).
Proof.
  destruct (change c) as [g|] eqn:Hc.
  { rewrite (exec_change c g Hc). apply returns_preserves, on_current_axes. }
  destruct c; try done; cbn [exec].
  - eapply triple_bind; [apply triple_total, figure_spec|].
    intros n. apply triple_ret. tauto.
  - eapply triple_bind; [apply add_subplot_spec|]. intros h. apply triple_ret. tauto.
  - apply on_axes_preserves.
  - apply returns_preserves, show_spec.
Qed.

Lemma exec_all_preserves cs : preserves backend_ok (exec_all cs).
Proof.
  induction cs as [|c cs IH]; [apply preserves_ret|].
  apply preserves_bind; [apply exec_preserves|done].
Qed.

(** ** The backend as a transition system *)

(** The backend with the figure [n] replaced. *)
Definition with_figure (b : pyplot.backend) (n : nat) (f : pyplot.fig_state) :
    pyplot.backend :=
  pyplot.Backend (<[n := f]> (pyplot.figs b)) (pyplot.current b) (pyplot.shown b).

(** The figure [f] with the axes at position [i] changed by [g]. *)
Definition with_axes (f : pyplot.fig_state) (i : nat) (a : pyplot.axes) :
    pyplot.fig_state :=
  pyplot.Figure (pyplot.fig_size f) (<[i := a]> (pyplot.fig_axes f)).

(** [step b c b']: the call [c] takes the backend from [b] to [b'] and
    returns. A call on an axes object needs the object; a call on the
    current axes needs a current figure that has axes: the steps in which
    the backend would make a figure or an axes of its own are left out. *)
Inductive step : pyplot.backend -> call -> pyplot.backend -> Prop :=
  | step_figure b sz :
      step b (Cfigure sz) (pyplot.opened sz b)
  | step_add_subplot b n f :
      pyplot.figs b !! n = Some f ->
      step b (Cadd_subplot n)
        (with_figure b n
           (pyplot.Figure (pyplot.fig_size f) (pyplot.fig_axes f ++ [pyplot.empty_axes])))
  | step_imshow b h f a d e o :
      pyplot.figs b !! h.1 = Some f -> pyplot.fig_axes f !! h.2 = Some a ->
      step b (Cimshow h d e o)
        (with_figure b h.1 (with_axes f h.2 (pyplot.add_image (pyplot.Image d e o) a)))
  | step_current b c g n f a :
      change c = Some g ->
      pyplot.current b = Some n -> pyplot.figs b !! n = Some f ->
      last (pyplot.fig_axes f) = Some a ->
      step b c (with_figure b n (with_axes f (pred (length (pyplot.fig_axes f))) (g a)))
  | step_show b :
      step b Cshow (pyplot.displayed b).

(** A path of steps. *)
Inductive steps : pyplot.backend -> list call -> pyplot.backend -> Prop :=
  | steps_nil b : steps b [] b
  | steps_cons b c b' cs b'' : step b c b' -> steps b' cs b'' -> steps b (c :: cs) b''.

Lemma steps_app b cs b' cs' b'' :
  steps b cs b' -> steps b' cs' b'' -> steps b (cs ++ cs') b''.
Proof. induction 1; [done|]. intros. econstructor; eauto. Qed.

Lemma steps_one b c b' : step b c b' -> steps b [c] b'.
Proof. intros. econstructor; [done|constructor]. Qed.

(** The backend implements the transition system. *)
Lemma step_exec b c b' : step b c b' -> pyplot.run (exec c) b = (Ok tt, b').
Proof.
  destruct 1 as [b sz|b n f Hn|b h f a d e o Hf Ha|b c g n f a Hc Hcur Hf Ha|b].
  - done.
  - cbn. by rewrite Hn.
  - cbn. by rewrite Hf, Ha.
  - rewrite (exec_change c g Hc).
    assert (pyplot.run pyplot.gca b = (Ok (n, pred (length (pyplot.fig_axes f))), b))
      as Hgca.
    { unfold pyplot.gca, pyplot.gcf, mbind, pyplot.py_bind; cbn [pyplot.run].
      rewrite Hcur, Hf. by destruct (pyplot.fig_axes f). }
    rewrite (pyplot.run_bind_Ok _ _ _ _ _ Hgca). cbn.
    rewrite Hf. rewrite last_lookup in Ha. by rewrite Ha.
  - done.
Qed.

Lemma steps_exec_all b cs b' : steps b cs b' -> pyplot.run (exec_all cs) b = (Ok tt, b').
Proof.
  induction 1 as [|b c b' cs b'' Hstep _ IH]; [done|].
  cbn [exec_all foldr]. by rewrite (pyplot.run_bind_Ok _ _ _ _ _ (step_exec _ _ _ Hstep)).
Qed.

(** A step keeps the invariant. *)
Lemma step_ok b c b' : backend_ok b -> step b c b' -> backend_ok b'.
Proof.
  intros Hb Hstep%step_exec. pose proof (exec_preserves c b Hb) as H.
  by rewrite Hstep in H.
Qed.

Lemma steps_ok b cs b' : backend_ok b -> steps b cs b' -> backend_ok b'.
Proof. intros Hb. induction 1; eauto using step_ok. Qed.

(** ** Steps on a new figure with one axes *)

Section single_steps.
Context (sz : fval * fval) (b0 : pyplot.backend).
Implicit Types (a : pyplot.axes) (g : pyplot.axes -> pyplot.axes).

Lemma with_figure_single a a' :
  with_figure (pyplot.single sz a b0) (pyplot.next_num b0) (pyplot.Figure sz [a']) =
    pyplot.single sz a' b0.
Proof.
  unfold with_figure, pyplot.single; cbn [pyplot.figs pyplot.current pyplot.shown].
  f_equal. apply insert_insert_eq.
Qed.

Lemma with_figure_opened a :
  with_figure (pyplot.opened sz b0) (pyplot.next_num b0) (pyplot.Figure sz [a]) =
    pyplot.single sz a b0.
Proof.
  unfold with_figure, pyplot.single; cbn [pyplot.figs pyplot.current pyplot.shown].
  f_equal. apply insert_insert_eq.
Qed.

(** [figure] and [add_subplot] on the new figure. *)
Lemma steps_open :
  steps b0 [Cfigure sz; Cadd_subplot (pyplot.next_num b0)]
    (pyplot.single sz pyplot.empty_axes b0).
Proof.
  econstructor; [apply step_figure|]. apply steps_one.
  rewrite <- with_figure_opened.
  apply (step_add_subplot _ _ (pyplot.Figure sz [])), lookup_insert_eq.
Qed.

Lemma step_imshow_single a d e o :
  step (pyplot.single sz a b0) (Cimshow (pyplot.next_num b0, 0%nat) d e o)
    (pyplot.single sz (pyplot.add_image (pyplot.Image d e o) a) b0).
Proof.
  rewrite <- (with_figure_single a (pyplot.add_image _ a)).
  by refine (step_imshow _ (pyplot.next_num b0, 0%nat) (pyplot.Figure sz [a]) a
               d e o _ _); [apply lookup_insert_eq|].
Qed.

Lemma step_current_single c g a :
  change c = Some g -> step (pyplot.single sz a b0) c (pyplot.single sz (g a) b0).
Proof.
  intros Hc. rewrite <- (with_figure_single a (g a)).
  by refine (step_current _ c g (pyplot.next_num b0) (pyplot.Figure sz [a]) a
               Hc _ _ _); [|apply lookup_insert_eq|].
Qed.

Lemma steps_current_single c g a cs b' :
  change c = Some g ->
  steps (pyplot.single sz (g a) b0) cs b' -> steps (pyplot.single sz a b0) (c :: cs) b'.
Proof. intros Hc Hcs. econstructor; [by apply step_current_single|done]. Qed.

Lemma backend_ok_single a : backend_ok b0 -> backend_ok (pyplot.single sz a b0).
Proof.
  intros Hb. rewrite <- with_figure_opened.
  apply backend_ok_update; [by apply backend_ok_opened|].
  cbn. rewrite lookup_insert_eq. by eexists.
Qed.

End single_steps.

(** ** The check at work *)

(** Three calls from the initial backend leave a state that passes the
    check; a backend whose only figure has the number 2, or whose current
    figure was never opened, does not. *)
Example calls_pass_check :
  bool_decide
    (backend_ok
       (pyplot.run (exec_all [Cfigure (Fin 6, Fin 6); Cadd_subplot 1; Cshow])
          pyplot.initial).2) = true.
Proof. by vm_compute. Qed.

Example gap_fails_check :
  bool_decide
    (backend_ok (pyplot.Backend {[2%nat := pyplot.Figure (Fin 6, Fin 6) []]} (Some 2%nat) ∅))
    = false.
Proof. by vm_compute. Qed.

Example stale_current_fails_check :
  bool_decide (backend_ok (pyplot.Backend ∅ (Some 1%nat) ∅)) = false.
Proof. by vm_compute. Qed.
