(* ===== verification/PlotHydro.v ===== *)
(** * PlotHydro: the scene composer [plot_hydro_and_stars]

    The composer opens a figure with one axes, samples the density on a
    grid of 201 by 201 points, shows the decimal logarithm of the transposed
    map as an image, scatters the stars over it, sets limits, labels and
    title, and displays the figure. [extent], [log_density], [marker_sizes],
    [star_xy] and [plot_title] are the expressions of its body,
    [plot_hydro_and_stars] the whole function as a call of the backend.
    [scene] is what the function promises to have drawn; the theorems show
    that the function draws it, and what is left behind when it raises. *)

From stdpp Require Import gmap.
From S2P Require Import Prelude Floats Arrays Units Hydro MakeMap Stars Pyplot.

(** ** The function *)

(** The defaults of the signature and the constants of the body. *)
Definition default_plot_L : fval := of_int 10.
Definition figsize : fval * fval := (Fin 6, Fin 6).
Definition map_N : Z := 200.

(** [lo += offset.value_in(units.parsec); hi += offset.value_in(units.parsec)]
    under [if offset is not None]. *)
Definition shift_limits (offset : option sq) (lo hi : fval) : result (fval * fval) :=
  match offset with
  | Some o =>
      d ← units.value_in o units.parsec;
      let lo := fadd lo d in
      d ← units.value_in o units.parsec;
      let hi := fadd hi d in
      Ok (lo, hi)
  | None => Ok (lo, hi)
  end.

(** [[xmin, xmax, ymin, ymax]]: the limits of the image. *)
Definition extent (L : fval) (offset_x offset_y : option sq) :
    result (fval * fval * fval * fval) :=
  let xmin := fdiv (fneg L) (Fin 2) in
  let xmax := fdiv L (Fin 2) in
  let ymin := fdiv (fneg L) (Fin 2) in
  let ymax := fdiv L (Fin 2) in
  '(xmin, xmax) ← shift_limits offset_x xmin xmax;
  '(ymin, ymax) ← shift_limits offset_y ymin ymax;
  Ok (xmin, xmax, ymin, ymax).

(** [numpy.log10(1.e-5+rho.value_in(units.amu/units.cm**3))]. *)
Definition log_density (rho : units.quantity (numpy.array2 fval)) :
    result (numpy.array2 logval) :=
  v ← units.value_in rho (units.udiv units.amu (units.upow units.cm 3));
  Ok (numpy.log10 (numpy.bmap (fadd (Fin 0.00001)) v)).

(** [3.0*stars.mass/stars.mass.mean()]: both operands are in the unit of
    [stars.mass], the quotient is an array of plain numbers. *)
Definition marker_sizes (mass : vq) : list fval :=
  let mean := numpy.mean (units.number mass) in
  (fun m => fdiv (fmul (Fin 3) m) mean) <$> units.number mass.

(** The two position arrays handed to [scatter]: [x] is negated when it is
    read and again in the call. *)
Definition star_xy (sx sy : vq) : result (list fval * list fval) :=
  x ← units.value_in sx units.parsec;
  let x := fneg <$> (x : list fval) in
  y ← units.value_in sy units.parsec;
  Ok (fneg <$> x, y).

(** The argument of [pyplot.title]. *)
Definition plot_title `{FloatFormat} (time : sq) (title : string) : result string :=
  if bool_decide (title <> "")
  then Ok title
  else
    t ← units.as_string_in time units.Myr;
    Ok ("Molecular cloud at time=" +:+ t).

(** [if not stars.is_empty(): ...; pyplot.scatter(-x, y, s=m, c="white", lw=0)]. *)
Definition scatter_stars {T} `{particles.StarCollection T} (stars : T) :
    pyplot.py unit :=
  if particles.is_empty stars
  then mret tt
  else
    let m := marker_sizes (particles.mass stars) in
    '(x, y) ← pyplot.lift (star_xy (particles.x stars) (particles.y stars));
    pyplot.scatter x y m "white" (Fin 0).

(** [plot_hydro_and_stars(time, sph, stars, L, filename, offset_x, offset_y,
    title)]. The parameter [filename] is not used by the body. *)
Definition plot_hydro_and_stars {S T} `{FieldEvaluator S}
    `{particles.StarCollection T} `{FloatFormat}
    (time : sq) (sph : S) (stars : T) (L : fval) (filename : option string)
    (offset_x offset_y : option sq) (title : string) : pyplot.py unit :=
  fig ← pyplot.figure figsize;
  ax ← pyplot.add_subplot fig;
  rho ← pyplot.lift (units.transpose <$> make_map sph map_N L offset_x offset_y);
  '(xmin, xmax, ymin, ymax) ← pyplot.lift (extent L offset_x offset_y);
  img ← pyplot.lift (log_density rho);
  pyplot.imshow ax img (xmin, xmax, ymin, ymax) "lower";;
  scatter_stars stars;;
  pyplot.xlim xmax xmin;;
  pyplot.ylim ymin ymax;;
  pyplot.xlabel "x [pc]";;
  pyplot.ylabel "y [pc]";;
  t ← pyplot.lift (plot_title time title);
  pyplot.title t;;
  pyplot.show.

(** ** What the function promises *)

(** The value of a pixel: the logarithm of the density [v], given in a unit
    worth [k] amu per cubic centimetre, above the floor of [1.e-5]. *)
Definition log_pixel (k : Q) (v : fval) : logval :=
  flog10 (fadd (Fin 0.00001) (fmul v (Fin k))).

(** What one [u] is worth in amu per cubic centimetre. *)
Definition density_factor (u : units.unit) : Q :=
  units.u_factor u / units.u_factor units.amu_per_cm3.

(** Where the renderer puts the centre of the pixel column [c] of [n]
    columns drawn between [lo] and [hi]. *)
Definition pixel_centre (lo hi : fval) (n c : nat) : fval :=
  fadd lo (fmul (fadd (of_int (Z.of_nat c)) (Fin 0.5))
                (fdiv (fsub hi lo) (of_int (Z.of_nat n)))).

(** The image shown: the logarithm of the transposed map, between the limits
    [extent], the first row at the bottom. *)
Definition density_image {S} `{FieldEvaluator S} (sph : S) (L : fval)
    (offset_x offset_y : option sq) : result pyplot.image :=
  rho ← units.transpose <$> make_map sph map_N L offset_x offset_y;
  e ← extent L offset_x offset_y;
  img ← log_density rho;
  Ok (pyplot.Image img e "lower").

(** The markers drawn: none for an empty collection, one set otherwise. *)
Definition star_markers {T} `{particles.StarCollection T} (stars : T) :
    result (option pyplot.collection) :=
  if particles.is_empty stars
  then Ok None
  else
    '(x, y) ← star_xy (particles.x stars) (particles.y stars);
    Ok (Some (pyplot.Collection x y (marker_sizes (particles.mass stars))
                "white" (Fin 0))).

(** The axes with the image [im], the markers [c], limits and labels, and
    the title [t]: the x axis runs from [xmax] down to [xmin]. *)
Definition drawn (im : pyplot.image) (c : option pyplot.collection)
    (t : string) : pyplot.axes :=
  let '(xmin, xmax, ymin, ymax) := pyplot.im_extent im in
  pyplot.Axes [im] (option_list c) (Some (xmax, xmin)) (Some (ymin, ymax))
              "x [pc]" "y [pc]" t.

(** The axes with the image only. *)
Definition imaged (im : pyplot.image) : pyplot.axes :=
  pyplot.Axes [im] [] None None "" "" "".

(** The axes of the new figure when the function ends, and the exception it
    ends with, if any. *)
Definition scene {S T} `{FieldEvaluator S} `{particles.StarCollection T}
    `{FloatFormat} (time : sq) (sph : S) (stars : T) (L : fval)
    (offset_x offset_y : option sq) (title : string) : pyplot.axes * option exn :=
  match density_image sph L offset_x offset_y with
  | Raise e => (pyplot.empty_axes, Some e)
  | Ok im =>
      match star_markers stars with
      | Raise e => (imaged im, Some e)
      | Ok c =>
          match plot_title time title with
          | Raise e => (drawn im c "", Some e)
          | Ok t => (drawn im c t, None)
          end
      end
  end.

(** The backend after the function ran from [b0]. *)
Definition outcome (r : pyplot.axes * option exn) (b0 : pyplot.backend) :
    result unit * pyplot.backend :=
  match r.2 with
  | None => (Ok tt, pyplot.displayed (pyplot.single figsize r.1 b0))
  | Some e => (Raise e, pyplot.single figsize r.1 b0)
  end.

(** ** The function draws the scene *)

Section run.
Context {S T : Type} `{FieldEvaluator S} `{particles.StarCollection T} `{FloatFormat}.
Context (time : sq) (sph : S) (stars : T) (L : fval) (filename : option string).
Context (offset_x offset_y : option sq) (title : string) (b0 : pyplot.backend).

Lemma scatter_stars_single a :
  pyplot.run (scatter_stars stars) (pyplot.single figsize a b0) =
    match star_markers stars with
    | Ok c =>
        (Ok tt, pyplot.single figsize (from_option pyplot.add_collection id c a) b0)
    | Raise e => (Raise e, pyplot.single figsize a b0)
    end.
Proof.
  unfold scatter_stars, star_markers. destruct (particles.is_empty stars); [done|].
  destruct (star_xy _ _) as [[x y]|e]; py_run.
Qed.

(** The run of the function from any backend, in closed form. *)
Lemma plot_run :
  pyplot.run
    (plot_hydro_and_stars time sph stars L filename offset_x offset_y title) b0 =
  outcome (scene time sph stars L offset_x offset_y title) b0.
Proof.
  unfold plot_hydro_and_stars, scene, density_image, outcome.
  do 2 erewrite pyplot.run_bind_Ok by eauto with pyplot.
  destruct (make_map _ _ _ _ _) as [rho|e]; [|done].
  rewrite fmap_Ok_l, bind_Ok_l. py_run.
  destruct (extent _ _ _) as [[[[xmin xmax] ymin] ymax]|e]; [|done].
  rewrite bind_Ok_l. py_run.
  destruct (log_density _) as [img|e]; [|done].
  rewrite bind_Ok_l. py_run.
  pose proof (scatter_stars_single
    (pyplot.add_image (pyplot.Image img (xmin, xmax, ymin, ymax) "lower")
       pyplot.empty_axes)) as Hs.
  destruct (star_markers stars) as [c|e].
  - rewrite (pyplot.run_bind_Ok _ _ _ _ _ Hs). py_run.
    destruct (plot_title time title) as [t|e]; py_run; by destruct c.
  - by rewrite (pyplot.run_bind_Raise _ _ _ _ _ Hs).
Qed.

End run.

(** ** The limits of the image *)

Lemma shift_limits_Ok offset lo hi d :
  offset_pc offset = Ok d ->
  exists l h,
    shift_limits offset lo hi = Ok (l, h) /\ l ≡ fadd lo d /\ h ≡ fadd hi d.
Proof.
  destruct offset as [o|]; simpl; intros Hd.
  - rewrite Hd. simpl. by eexists _, _.
  - injection Hd as <-. eexists _, _. by rewrite !fadd_0_r.
Qed.

Lemma shift_limits_is_Ok offset lo hi :
  is_Ok (shift_limits offset lo hi) <-> offset_ok offset.
Proof.
  split.
  - destruct offset as [o|]; [|done]. intros [r Hr].
    apply (units.value_in_is_Ok o units.parsec).
    unfold shift_limits in Hr.
    destruct (units.value_in o units.parsec); [by eexists|done].
  - intros Ho. destruct (offset_pc_Ok _ Ho) as [d Hd].
    destruct (shift_limits_Ok _ lo hi _ Hd) as (l & h & -> & _). by eexists.
Qed.

Lemma extent_Ok L offset_x offset_y dx dy :
  offset_pc offset_x = Ok dx -> offset_pc offset_y = Ok dy ->
  exists e,
    extent L offset_x offset_y = Ok e /\
    e ≡ (fadd (fdiv (fneg L) (Fin 2)) dx, fadd (fdiv L (Fin 2)) dx,
         fadd (fdiv (fneg L) (Fin 2)) dy, fadd (fdiv L (Fin 2)) dy).
Proof.
  intros Hdx Hdy. unfold extent.
  destruct (shift_limits_Ok _ (fdiv (fneg L) (Fin 2)) (fdiv L (Fin 2)) _ Hdx)
    as (xmin & xmax & -> & Hxmin & Hxmax).
  destruct (shift_limits_Ok _ (fdiv (fneg L) (Fin 2)) (fdiv L (Fin 2)) _ Hdy)
    as (ymin & ymax & -> & Hymin & Hymax).
  eexists. split; [done|]. by repeat split.
Qed.

Lemma extent_is_Ok L offset_x offset_y :
  is_Ok (extent L offset_x offset_y) <-> offset_ok offset_x /\ offset_ok offset_y.
Proof.
  rewrite <- (shift_limits_is_Ok offset_x (fdiv (fneg L) (Fin 2)) (fdiv L (Fin 2))).
  rewrite <- (shift_limits_is_Ok offset_y (fdiv (fneg L) (Fin 2)) (fdiv L (Fin 2))).
  unfold extent, is_Ok.
  destruct (shift_limits offset_x _ _) as [[xmin xmax]|e]; simpl;
    destruct (shift_limits offset_y _ _) as [[ymin ymax]|e']; simpl;
    (split; [intros [r Hr]|intros [[r Hr] [r' Hr']]]); simplify_eq; eauto.
Qed.

(** ** The image *)

Lemma log_density_Ok (rho : units.quantity (numpy.array2 fval)) :
  units.u_dim (units.unit_of rho) = units.density_dim ->
  log_density rho =
    Ok (numpy.amap (log_pixel (density_factor (units.unit_of rho)))
          (units.number rho)).
Proof.
  intros Hdim. unfold log_density, units.value_in, units.conversion_factor.
  rewrite decide_True by done. simpl.
  unfold numpy.log10, numpy.bmap, numpy.broadcast_array2, numpy.amap; simpl.
  by rewrite <- !list_fmap_compose.
Qed.

Lemma log_density_Raise (rho : units.quantity (numpy.array2 fval)) :
  units.u_dim (units.unit_of rho) <> units.density_dim ->
  log_density rho = Raise IncompatibleUnitsException.
Proof.
  intros Hdim. unfold log_density. by rewrite units.value_in_incompatible.
Qed.

Lemma log_pixel_floor (k q : Q) :
  0 < k -> 0 <= q ->
  exists p, log_pixel k (Fin q) = LogOf p /\ 0.00001 <= p.
Proof.
  intros Hk Hq. unfold log_pixel. cbn [fmul fadd].
  exists (0.00001 + q * k). split; [|nra].
  apply flog10_pos. nra.
Qed.

Lemma density_image_Ok {S} `{FieldEvaluator S} (sph : S) L offset_x offset_y rho e :
  make_map sph map_N L offset_x offset_y = Ok rho ->
  extent L offset_x offset_y = Ok e ->
  units.u_dim (units.unit_of rho) = units.density_dim ->
  density_image sph L offset_x offset_y =
    Ok (pyplot.Image
          (numpy.amap (log_pixel (density_factor (units.unit_of rho)))
             (numpy.transpose (units.number rho)))
          e "lower").
Proof.
  intros Hm He Hd. unfold density_image. rewrite Hm, He. simpl.
  by rewrite log_density_Ok.
Qed.

Lemma density_image_Raise {S} `{FieldEvaluator S} (sph : S) L offset_x offset_y e :
  make_map sph map_N L offset_x offset_y = Raise e ->
  density_image sph L offset_x offset_y = Raise e.
Proof. intros Hm. unfold density_image. by rewrite Hm. Qed.

(** The pixel in row [r] and column [c] comes from the entry [(c, r)] of
    the map. *)
Lemma image_get (a : numpy.array2 fval) (k : Q) (r c : nat) :
  numpy.wf a ->
  numpy.get (numpy.amap (log_pixel k) (numpy.transpose a)) r c =
    log_pixel k <$> numpy.get a c r.
Proof. intros Hwf. by rewrite numpy.amap_get, numpy.transpose_get. Qed.

Section lawful.
Context {S : Type} `{FieldEvaluator S} (sph : S) `{!HydroLaws sph}.
Context (L : fval) (offset_x offset_y : option sq).
Context (Hox : offset_ok offset_x) (Hoy : offset_ok offset_y).

(** With a code that keeps the laws and offsets that are lengths the image
    is made: 201 by 201 pixels. *)
Lemma density_image_lawful :
  exists im,
    density_image sph L offset_x offset_y = Ok im /\
    numpy.shape (pyplot.im_data im) = (201, 201)%nat /\
    numpy.wf (pyplot.im_data im) /\
    extent L offset_x offset_y = Ok (pyplot.im_extent im) /\
    pyplot.im_origin im = "lower".
Proof using HydroLaws0 Hox Hoy.
  destruct (make_map_lawful sph map_N L offset_x offset_y)
    as (s & st & _ & _ & Hdim & Hmap & Hlen); [done..|].
  destruct (proj2 (extent_is_Ok L offset_x offset_y)) as [e He]; [done|].
  eexists. split; [by eapply density_image_Ok|].
  cbn [pyplot.im_data pyplot.im_origin pyplot.im_extent units.number].
  split_and!; [done| |done|done].
  apply numpy.amap_wf, numpy.transpose_wf. exact Hlen.
Qed.

End lawful.

(** ** The stars *)

(** The two negations of [x] cancel: the markers are at the positions of
    the stars. *)
Lemma star_xy_positions (sx sy : vq) :
  star_xy sx sy =
    (x ← units.value_in sx units.parsec;
     y ← units.value_in sy units.parsec;
     Ok (x, y)).
Proof.
  unfold star_xy. destruct (units.value_in sx units.parsec) as [x|e]; [|done].
  rewrite !bind_Ok_l. rewrite <- list_fmap_compose.
  rewrite (list_fmap_ext (fneg ∘ fneg) id x), list_fmap_id; [done|].
  intros i v _. apply fneg_involutive.
Qed.

Section stars.
Context {T : Type} `{particles.StarCollection T} (stars : T).

Lemma star_markers_empty :
  particles.is_empty stars = true -> star_markers stars = Ok None.
Proof. intros He. unfold star_markers. by rewrite He. Qed.

Lemma star_markers_Ok `{!particles.StarLaws stars} :
  particles.is_empty stars = false ->
  exists xs ys,
    units.value_in (particles.x stars) units.parsec = Ok xs /\
    units.value_in (particles.y stars) units.parsec = Ok ys /\
    star_markers stars =
      Ok (Some (pyplot.Collection xs ys (marker_sizes (particles.mass stars))
                  "white" (Fin 0))).
Proof.
  intros He. unfold star_markers. rewrite He, star_xy_positions.
  destruct (proj2 (units.value_in_is_Ok (particles.x stars) units.parsec))
    as [xs Hxs]; [apply particles.x_dim|].
  destruct (proj2 (units.value_in_is_Ok (particles.y stars) units.parsec))
    as [ys Hys]; [apply particles.y_dim|].
  exists xs, ys. by rewrite Hxs, Hys.
Qed.

Lemma star_markers_is_Ok `{!particles.StarLaws stars} : is_Ok (star_markers stars).
Proof.
  destruct (particles.is_empty stars) eqn:He.
  - rewrite star_markers_empty by done. by eexists.
  - destruct (star_markers_Ok He) as (xs & ys & _ & _ & ->). by eexists.
Qed.

End stars.

(** ** The sizes of the markers *)

Section sizes.
Context (qs : list Q) (u : units.unit).
Context (Hne : qs <> []) (Hsum : ~ Qsum qs == 0).
Let n : Q := inject_Z (Z.of_nat (length qs)).

Lemma inject_length_pos : 0 < n.
Proof using Hne.
  apply inject_Z_pos.
  destruct (length qs) eqn:E; [by apply nil_length_inv in E|lia].
Qed.

Lemma mean_nonzero : ~ Qsum qs / n == 0.
Proof using Hne Hsum.
  pose proof inject_length_pos. intros Hz. apply Hsum.
  assert (Qsum qs == (Qsum qs / n) * n) as -> by (field; lra).
  rewrite Hz. lra.
Qed.

(** Finite masses of non-zero sum: the size of a marker is three times the
    mass over the mean mass. *)
Lemma marker_sizes_Fin :
  marker_sizes (units.Quantity (Fin <$> qs) u) ≡
    (fun q => Fin (3 * q / (Qsum qs / n))) <$> qs.
Proof using Hne Hsum.
  unfold marker_sizes; cbn [units.number].
  rewrite <- list_fmap_compose. apply list_fmap_equiv_ext. intros i q _. simpl.
  rewrite numpy.mean_Fin by done. fold n.
  by rewrite fdiv_Fin by apply mean_nonzero.
Qed.

End sizes.

(** ** The title *)

Section title.
Context `{FloatFormat} (time : sq).

Lemma plot_title_given (title : string) :
  title <> "" -> plot_title time title = Ok title.
Proof. intros Ht. unfold plot_title. by rewrite bool_decide_eq_true_2. Qed.

Lemma plot_title_default (v : fval) :
  units.value_in time units.Myr = Ok v ->
  plot_title time "" = Ok ("Molecular cloud at time=" +:+ float_str v +:+ " Myr").
Proof. intros Hv. unfold plot_title, units.as_string_in. by rewrite Hv. Qed.

Lemma plot_title_bad_time :
  units.u_dim (units.unit_of time) <> units.time_dim ->
  plot_title time "" = Raise IncompatibleUnitsException.
Proof.
  intros Hd. unfold plot_title, units.as_string_in.
  by rewrite units.value_in_incompatible.
Qed.

Lemma plot_title_is_Ok (title : string) :
  title <> "" \/ units.u_dim (units.unit_of time) = units.time_dim ->
  is_Ok (plot_title time title).
Proof.
  intros [Ht|Hd]; [rewrite plot_title_given by done; by eexists|].
  destruct (decide (title = "")) as [->|Ht];
    [|rewrite plot_title_given by done; by eexists].
  destruct (proj2 (units.value_in_is_Ok time units.Myr) Hd) as [v Hv].
  rewrite (plot_title_default v Hv). by eexists.
Qed.

End title.

(** ** The runs of the function, case by case *)

Section returns.
Context {S T : Type} `{FieldEvaluator S} `{particles.StarCollection T} `{FloatFormat}.
Context (time : sq) (sph : S) (stars : T) (L : fval) (filename : option string).
Context (offset_x offset_y : option sq) (title : string) (b0 : pyplot.backend).

Lemma plot_run_Ok im c t :
  density_image sph L offset_x offset_y = Ok im ->
  star_markers stars = Ok c ->
  plot_title time title = Ok t ->
  pyplot.run
    (plot_hydro_and_stars time sph stars L filename offset_x offset_y title) b0 =
  (Ok tt, pyplot.displayed (pyplot.single figsize (drawn im c t) b0)).
Proof. intros Him Hc Ht. rewrite plot_run. unfold scene. by rewrite Him, Hc, Ht. Qed.

Lemma plot_run_no_image e :
  density_image sph L offset_x offset_y = Raise e ->
  pyplot.run
    (plot_hydro_and_stars time sph stars L filename offset_x offset_y title) b0 =
  (Raise e, pyplot.single figsize pyplot.empty_axes b0).
Proof. intros Him. rewrite plot_run. unfold scene. by rewrite Him. Qed.

Lemma plot_run_no_title im c e :
  density_image sph L offset_x offset_y = Ok im ->
  star_markers stars = Ok c ->
  plot_title time title = Raise e ->
  pyplot.run
    (plot_hydro_and_stars time sph stars L filename offset_x offset_y title) b0 =
  (Raise e, pyplot.single figsize (drawn im c "") b0).
Proof. intros Him Hc Ht. rewrite plot_run. unfold scene. by rewrite Him, Hc, Ht. Qed.

(** What the axes of the scene hold once the image and the markers are
    made, whatever becomes of the title. *)
Lemma scene_drawn im c :
  density_image sph L offset_x offset_y = Ok im ->
  star_markers stars = Ok c ->
  let a := (scene time sph stars L offset_x offset_y title).1 in
  pyplot.ax_images a = [im] /\ pyplot.ax_collections a = option_list c.
Proof.
  intros Him Hc. unfold scene. rewrite Him, Hc.
  destruct (plot_title time title); cbn [fst]; unfold drawn;
    by destruct (pyplot.im_extent im) as [[[? ?] ?] ?].
Qed.

(** A call that returns has displayed its figure. *)
Lemma plot_run_Ok_inv b :
  pyplot.run
    (plot_hydro_and_stars time sph stars L filename offset_x offset_y title) b0 =
    (Ok tt, b) ->
  exists a, b = pyplot.displayed (pyplot.single figsize a b0).
Proof.
  rewrite plot_run. unfold outcome.
  destruct (scene _ _ _ _ _ _ _) as [a [e|]]; [done|]. intros [= <-]. by exists a.
Qed.

End returns.

Section lawful_runs.
Context {S T : Type} `{FieldEvaluator S} `{particles.StarCollection T} `{FloatFormat}.
Context (time : sq) (sph : S) `{!HydroLaws sph} (stars : T) (L : fval).
Context (filename : option string) (offset_x offset_y : option sq) (title : string).
Context (b0 : pyplot.backend).
Context (Hox : offset_ok offset_x) (Hoy : offset_ok offset_y).

(** The runs in which the image is made and the markers are [c]. *)
Lemma plot_run_lawful c :
  star_markers stars = Ok c ->
  exists im,
    density_image sph L offset_x offset_y = Ok im /\
    extent L offset_x offset_y = Ok (pyplot.im_extent im) /\
    pyplot.run
      (plot_hydro_and_stars time sph stars L filename offset_x offset_y title) b0 =
    match plot_title time title with
    | Ok t => (Ok tt, pyplot.displayed (pyplot.single figsize (drawn im c t) b0))
    | Raise e => (Raise e, pyplot.single figsize (drawn im c "") b0)
    end.
Proof using All.
  intros Hc.
  destruct (density_image_lawful sph L _ _ Hox Hoy) as (im & Him & _ & _ & He & _).
  exists im. split_and!; [done..|].
  destruct (plot_title time title) as [t|e] eqn:Ht;
    [by apply plot_run_Ok|by apply plot_run_no_title].
Qed.

End lawful_runs.

(** ** Theorems on the whole function *)

(** C3. The function refines its scene: from any state of the backend the
    call ends as [scene] says, with the exception of the scene if it has one
    and with the figure displayed if it has none; the axes of the scene are
    the one axes of a new figure of six by six inches, which is the current
    figure afterwards; every figure that was open before is as it was. The
    calls on the current axes ([scatter], [xlim], [ylim], the labels and the
    title) reach the axes the image was drawn on. *)
Theorem plot_refines_scene {S T} `{FieldEvaluator S} `{particles.StarCollection T}
    `{FloatFormat} (time : sq) (sph : S) (stars : T) (L : fval)
    (filename : option string) (offset_x offset_y : option sq) (title : string)
    (b0 : pyplot.backend) :
  let r := pyplot.run
    (plot_hydro_and_stars time sph stars L filename offset_x offset_y title) b0 in
  let sc := scene time sph stars L offset_x offset_y title in
  r = outcome sc b0 /\
  pyplot.figs r.2 !! pyplot.next_num b0 = Some (pyplot.Figure figsize [sc.1]) /\
  pyplot.current r.2 = Some (pyplot.next_num b0) /\
  forall num, is_Some (pyplot.figs b0 !! num) ->
    pyplot.figs r.2 !! num = pyplot.figs b0 !! num.
Proof.
  intros r sc. subst r. rewrite plot_run. fold sc. unfold outcome.
  destruct (sc.2); cbn [snd pyplot.figs pyplot.displayed];
    (split_and!; [done|apply pyplot.single_lookup|done|apply pyplot.single_frame]).
Qed.

(** C5. With a code that keeps the laws of the interface, a star collection
    that keeps its laws, offsets that are lengths (or none) and a title or a
    time that is a time, the function returns: the new figure holds one axes
    with the image of 201 by 201 pixels, the markers, limits, labels and
    title, and it is displayed. *)
Theorem plot_returns {S T} `{FieldEvaluator S} `{particles.StarCollection T}
    `{FloatFormat} (time : sq) (sph : S) `{!HydroLaws sph} (stars : T)
    `{!particles.StarLaws stars} (L : fval) (filename : option string)
    (offset_x offset_y : option sq) (title : string) (b0 : pyplot.backend) :
  offset_ok offset_x -> offset_ok offset_y ->
  title <> "" \/ units.u_dim (units.unit_of time) = units.time_dim ->
  exists im c t,
    pyplot.run
      (plot_hydro_and_stars time sph stars L filename offset_x offset_y title) b0 =
      (Ok tt, pyplot.displayed (pyplot.single figsize (drawn im c t) b0)) /\
    density_image sph L offset_x offset_y = Ok im /\
    numpy.shape (pyplot.im_data im) = (201, 201)%nat /\
    star_markers stars = Ok c /\
    plot_title time title = Ok t.
Proof.
  intros Hox Hoy Ht.
  destruct (density_image_lawful sph L _ _ Hox Hoy) as (im & Him & Hshape & _).
  destruct (star_markers_is_Ok stars) as [c Hc].
  destruct (plot_title_is_Ok time title Ht) as [t Htt].
  exists im, c, t. split_and!; try done. by apply plot_run_Ok.
Qed.

Lemma plot_returns_witness :
  exists im c t,
    pyplot.run
      (plot_hydro_and_stars (H1 := fraction_str)
         (units.Quantity (Fin 1) units.Myr)
         (uniform (Fin 1) units.amu_per_cm3) particles.binary (Fin 10)
         None None None "")
      pyplot.initial =
      (Ok tt, pyplot.displayed (pyplot.single figsize (drawn im c t) pyplot.initial)) /\
    density_image (uniform (Fin 1) units.amu_per_cm3) (Fin 10) None None = Ok im /\
    numpy.shape (pyplot.im_data im) = (201, 201)%nat /\
    star_markers particles.binary = Ok c /\
    plot_title (H := fraction_str) (units.Quantity (Fin 1) units.Myr) "" = Ok t.
Proof.
  apply (plot_returns (H1 := fraction_str) (units.Quantity (Fin 1) units.Myr)
           (uniform (Fin 1) units.amu_per_cm3) particles.binary (Fin 10)
           None None None "" pyplot.initial); [exact I|exact I|by right].
Defined.

(** C13. When the sampler raises, the function raises the same exception
    after the figure was opened: the new figure stays open with its empty
    axes, it is the current figure, and nothing is displayed. The function
    does not close what it opened. *)
Theorem failure_leaves_figure {S T} `{FieldEvaluator S} `{particles.StarCollection T}
    `{FloatFormat} (time : sq) (sph : S) (stars : T) (L : fval)
    (filename : option string) (offset_x offset_y : option sq) (title : string)
    (e : exn) (b0 : pyplot.backend) :
  make_map sph map_N L offset_x offset_y = Raise e ->
  let r := pyplot.run
    (plot_hydro_and_stars time sph stars L filename offset_x offset_y title) b0 in
  r.1 = Raise e /\
  pyplot.figs r.2 !! pyplot.next_num b0 =
    Some (pyplot.Figure figsize [pyplot.empty_axes]) /\
  pyplot.current r.2 = Some (pyplot.next_num b0) /\
  pyplot.shown r.2 = pyplot.shown b0.
Proof.
  intros Hm r. subst r.
  rewrite (plot_run_no_image _ _ _ _ _ _ _ _ _ e) by by apply density_image_Raise.
  split_and!; try done. apply pyplot.single_lookup.
Qed.

Lemma failure_leaves_figure_witness :
  let r := pyplot.run
    (plot_hydro_and_stars (H1 := fraction_str) (units.Quantity (Fin 1) units.Myr)
       (uniform (Fin 1) units.amu_per_cm3) particles.binary (Fin 10) None
       (Some (units.Quantity (Fin 1) units.kms)) None "") pyplot.initial in
  r.1 = Raise IncompatibleUnitsException /\
  pyplot.figs r.2 !! pyplot.next_num pyplot.initial =
    Some (pyplot.Figure figsize [pyplot.empty_axes]) /\
  pyplot.current r.2 = Some (pyplot.next_num pyplot.initial) /\
  pyplot.shown r.2 = pyplot.shown pyplot.initial.
Proof.
  apply (failure_leaves_figure (H1 := fraction_str)).
  rewrite make_map_unfold, sample_points_bad_offset_x; done.
Defined.

(** C14. When the function returns, every figure that was open when it was
    called is displayed with the new one: [show] displays all open figures,
    a figure left behind by a call that raised among them. *)
Theorem show_displays_all {S T} `{FieldEvaluator S} `{particles.StarCollection T}
    `{FloatFormat} (time : sq) (sph : S) (stars : T) (L : fval)
    (filename : option string) (offset_x offset_y : option sq) (title : string)
    (b0 b : pyplot.backend) :
  pyplot.run
    (plot_hydro_and_stars time sph stars L filename offset_x offset_y title) b0 =
    (Ok tt, b) ->
  pyplot.shown b =
    pyplot.shown b0 ∪ dom (pyplot.figs b0) ∪ {[pyplot.next_num b0]}.
Proof.
  intros [a ->]%plot_run_Ok_inv. apply pyplot.shown_displayed_single.
Qed.

Lemma show_displays_all_witness :
  exists b,
    pyplot.run
      (plot_hydro_and_stars (H1 := fraction_str) (units.Quantity (Fin 1) units.Myr)
         (uniform (Fin 1) units.amu_per_cm3) particles.binary (Fin 10) None
         None None "A cloud") pyplot.initial = (Ok tt, b) /\
    pyplot.shown b =
      pyplot.shown pyplot.initial ∪ dom (pyplot.figs pyplot.initial)
        ∪ {[pyplot.next_num pyplot.initial]}.
Proof.
  destruct (star_markers_is_Ok particles.binary) as [c Hc].
  destruct (plot_run_lawful (H1 := fraction_str) (units.Quantity (Fin 1) units.Myr)
    (uniform (Fin 1) units.amu_per_cm3) particles.binary (Fin 10) None None None
    "A cloud" pyplot.initial I I c Hc) as (im & _ & _ & Hrun).
  eexists. split; [exact Hrun|].
  exact (show_displays_all _ _ _ _ _ _ _ _ _ _ Hrun).
Defined.

Section two_calls.
Context {S T : Type} `{FieldEvaluator S} `{particles.StarCollection T} `{FloatFormat}.
Context (time : sq) (stars : T) (filename : option string) (title : string).
Context (sph1 sph2 : S) (L1 L2 : fval) (ox1 oy1 ox2 oy2 : option sq).

(** Two calls in a row: when the first raises in the sampler and the
    second returns, the second displays the figure the first left behind,
    still with its empty axes, beside its own, which is the current one. *)
Theorem leftover_figure_shown (e : exn) (b0 b2 : pyplot.backend) :
  make_map sph1 map_N L1 ox1 oy1 = Raise e ->
  let b1 := (pyplot.run
    (plot_hydro_and_stars time sph1 stars L1 filename ox1 oy1 title) b0).2 in
  pyplot.run (plot_hydro_and_stars time sph2 stars L2 filename ox2 oy2 title) b1 =
    (Ok tt, b2) ->
  pyplot.next_num b0 ∈ pyplot.shown b2 /\
  pyplot.figs b2 !! pyplot.next_num b0 =
    Some (pyplot.Figure figsize [pyplot.empty_axes]) /\
  pyplot.current b2 = Some (pyplot.next_num b1).
Proof.
  intros Hm b1 Hrun. subst b1.
  rewrite (plot_run_no_image _ _ _ _ _ _ _ _ _ e) in Hrun |- *
    by by apply density_image_Raise.
  cbn [snd] in *. apply plot_run_Ok_inv in Hrun as [a ->].
  rewrite pyplot.shown_displayed_single, pyplot.figs_displayed.
  assert (pyplot.figs (pyplot.single figsize pyplot.empty_axes b0)
            !! pyplot.next_num b0 = Some (pyplot.Figure figsize [pyplot.empty_axes]))
    as Hfig by apply pyplot.single_lookup.
  split_and!; [|by rewrite pyplot.single_frame by by eexists|done].
  apply elem_of_union_l, elem_of_union_r, elem_of_dom. by eexists.
Qed.

End two_calls.

Lemma leftover_figure_shown_witness :
  let call ox :=
    plot_hydro_and_stars (H1 := fraction_str) (units.Quantity (Fin 1) units.Myr)
      (uniform (Fin 1) units.amu_per_cm3) particles.binary (Fin 10) None ox None
      "A cloud" in
  let b1 := (pyplot.run (call (Some (units.Quantity (Fin 1) units.kms)))
               pyplot.initial).2 in
  exists b2,
    pyplot.run (call None) b1 = (Ok tt, b2) /\
    pyplot.next_num pyplot.initial ∈ pyplot.shown b2 /\
    pyplot.figs b2 !! pyplot.next_num pyplot.initial =
      Some (pyplot.Figure figsize [pyplot.empty_axes]) /\
    pyplot.current b2 = Some (pyplot.next_num b1).
Proof.
  intros call b1.
  destruct (star_markers_is_Ok particles.binary) as [c Hc].
  destruct (plot_run_lawful (H1 := fraction_str) (units.Quantity (Fin 1) units.Myr)
    (uniform (Fin 1) units.amu_per_cm3) particles.binary (Fin 10) None None None
    "A cloud" b1 I I c Hc) as (im & _ & _ & Hrun).
  eexists. split; [exact Hrun|].
  apply (leftover_figure_shown (H1 := fraction_str) (units.Quantity (Fin 1) units.Myr)
    particles.binary None "A cloud" (uniform (Fin 1) units.amu_per_cm3)
    (uniform (Fin 1) units.amu_per_cm3) (Fin 10) (Fin 10)
    (Some (units.Quantity (Fin 1) units.kms)) None None None
    IncompatibleUnitsException pyplot.initial); [|exact Hrun].
  rewrite make_map_unfold, sample_points_bad_offset_x; done.
Defined.

(** With an explicit title, a side [l] and offsets [dx] and [dy] in
    parsec, the limits of the axes are those of the image with the x axis
    reversed: x runs from [l/2 + dx] on the left to [-l/2 + dx] on the
    right, y from [-l/2 + dy] at the bottom to [l/2 + dy] at the top. *)
Theorem x_axis_reversed {S T} `{FieldEvaluator S} `{particles.StarCollection T}
    `{FloatFormat} (time : sq) (sph : S) `{!HydroLaws sph} (stars : T)
    `{!particles.StarLaws stars} (l dx dy : Q) (filename : option string)
    (offset_x offset_y : option sq) (title : string) (b0 : pyplot.backend) :
  offset_pc offset_x = Ok (Fin dx) -> offset_pc offset_y = Ok (Fin dy) ->
  title <> "" ->
  exists a left right bottom top,
    pyplot.run
      (plot_hydro_and_stars time sph stars (Fin l) filename offset_x offset_y title)
      b0 = (Ok tt, pyplot.displayed (pyplot.single figsize a b0)) /\
    pyplot.ax_xlim a = Some (left, right) /\
    pyplot.ax_ylim a = Some (bottom, top) /\
    left ≡ Fin (l / 2 + dx) /\ right ≡ Fin (- l / 2 + dx) /\
    bottom ≡ Fin (- l / 2 + dy) /\ top ≡ Fin (l / 2 + dy).
Proof.
  intros Hdx Hdy Ht.
  destruct (star_markers_is_Ok stars) as [c Hc].
  destruct (plot_run_lawful time sph stars (Fin l) filename offset_x offset_y title b0
    (offset_pc_Ok_inv _ _ Hdx) (offset_pc_Ok_inv _ _ Hdy) c Hc) as (im & _ & He & Hrun).
  rewrite plot_title_given in Hrun by done.
  destruct (extent_Ok (Fin l) _ _ _ _ Hdx Hdy) as (e & He' & Hee).
  rewrite He in He'. injection He' as <-.
  unfold drawn in Hrun.
  destruct (pyplot.im_extent im) as [[[xmin xmax] ymin] ymax].
  destruct Hee as [[[Hxmin Hxmax] Hymin] Hymax].
  cbn [fst snd fneg] in Hxmin, Hxmax, Hymin, Hymax.
  rewrite !fdiv_Fin in Hxmin, Hxmax, Hymin, Hymax by done.
  eexists _, xmax, xmin, ymin, ymax. split; [exact Hrun|].
  by split_and!.
Qed.

Lemma x_axis_reversed_witness :
  exists a left right bottom top,
    pyplot.run
      (plot_hydro_and_stars (H1 := fraction_str) (units.Quantity (Fin 1) units.Myr)
         (uniform (Fin 1) units.amu_per_cm3) particles.binary (Fin 10) None
         None None "A cloud") pyplot.initial
      = (Ok tt, pyplot.displayed (pyplot.single figsize a pyplot.initial)) /\
    pyplot.ax_xlim a = Some (left, right) /\
    pyplot.ax_ylim a = Some (bottom, top) /\
    left ≡ Fin (10 / 2 + 0) /\ right ≡ Fin (- 10 / 2 + 0) /\
    bottom ≡ Fin (- 10 / 2 + 0) /\ top ≡ Fin (10 / 2 + 0).
Proof.
  apply (x_axis_reversed (H1 := fraction_str) (units.Quantity (Fin 1) units.Myr)
    (uniform (Fin 1) units.amu_per_cm3) particles.binary 10 0 0 None None None
    "A cloud" pyplot.initial); done.
Defined.

Section titles.
Context {S T : Type} `{FieldEvaluator S} `{particles.StarCollection T} `{FloatFormat}.
Context (time : sq) (sph : S) `{!HydroLaws sph} (stars : T) `{!particles.StarLaws stars}.
Context (L : fval) (filename : option string) (offset_x offset_y : option sq).
Context (b0 : pyplot.backend).

(** A title that is not empty is the title of the axes, and the time
    is not read: it may be in any unit. *)
Theorem explicit_title_used (title : string) :
  offset_ok offset_x -> offset_ok offset_y -> title <> "" ->
  exists im c,
    pyplot.run
      (plot_hydro_and_stars time sph stars L filename offset_x offset_y title) b0 =
    (Ok tt, pyplot.displayed (pyplot.single figsize (drawn im c title) b0)).
Proof using All.
  intros Hox Hoy Ht. destruct (star_markers_is_Ok stars) as [c Hc].
  destruct (plot_run_lawful time sph stars L filename _ _ title b0 Hox Hoy c Hc)
    as (im & _ & _ & Hrun).
  rewrite plot_title_given in Hrun by done. by exists im, c.
Qed.

(** C24. With the empty title the axes are titled
    ["Molecular cloud at time="] followed by the time in Myr, as the unit
    system prints it, and the symbol of the unit. *)
Theorem default_title_text (v : fval) :
  offset_ok offset_x -> offset_ok offset_y ->
  units.value_in time units.Myr = Ok v ->
  exists im c,
    pyplot.run
      (plot_hydro_and_stars time sph stars L filename offset_x offset_y "") b0 =
    (Ok tt,
     pyplot.displayed
       (pyplot.single figsize
          (drawn im c ("Molecular cloud at time=" +:+ float_str v +:+ " Myr")) b0)).
Proof using All.
  intros Hox Hoy Hv. destruct (star_markers_is_Ok stars) as [c Hc].
  destruct (plot_run_lawful time sph stars L filename _ _ "" b0 Hox Hoy c Hc)
    as (im & _ & _ & Hrun).
  rewrite (plot_title_default time v Hv) in Hrun. by exists im, c.
Qed.

(** C25. With the empty title and a time that is not a time the function
    raises [IncompatibleUnitsException] at the very end: the image, the
    markers, the limits and the labels are drawn, the title is not, and the
    figure is never displayed. *)
Theorem bad_time_raises_late :
  offset_ok offset_x -> offset_ok offset_y ->
  units.u_dim (units.unit_of time) <> units.time_dim ->
  exists im c b,
    pyplot.run
      (plot_hydro_and_stars time sph stars L filename offset_x offset_y "") b0 =
    (Raise IncompatibleUnitsException, b) /\
    b = pyplot.single figsize (drawn im c "") b0 /\
    pyplot.shown b = pyplot.shown b0.
Proof using All.
  intros Hox Hoy Hd. destruct (star_markers_is_Ok stars) as [c Hc].
  destruct (plot_run_lawful time sph stars L filename _ _ "" b0 Hox Hoy c Hc)
    as (im & _ & _ & Hrun).
  rewrite plot_title_bad_time in Hrun by done. by eexists im, c, _.
Qed.

End titles.

Lemma explicit_title_used_witness :
  exists im c,
    pyplot.run
      (plot_hydro_and_stars (H1 := fraction_str) (units.Quantity (Fin 1) units.parsec)
         (uniform (Fin 1) units.amu_per_cm3) particles.binary (Fin 10) None
         None None "A cloud") pyplot.initial =
    (Ok tt,
     pyplot.displayed (pyplot.single figsize (drawn im c "A cloud") pyplot.initial)).
Proof.
  apply (explicit_title_used (H1 := fraction_str) (units.Quantity (Fin 1) units.parsec)
    (uniform (Fin 1) units.amu_per_cm3) particles.binary (Fin 10) None None None
    pyplot.initial "A cloud"); done.
Defined.

Lemma default_title_text_witness :
  exists im c,
    pyplot.run
      (plot_hydro_and_stars (H1 := fraction_str) (units.Quantity (Fin 2) units.Myr)
         (uniform (Fin 1) units.amu_per_cm3) particles.binary (Fin 10) None
         None None "") pyplot.initial =
    (Ok tt,
     pyplot.displayed
       (pyplot.single figsize
          (drawn im c "Molecular cloud at time=2/1 Myr") pyplot.initial)).
Proof.
  apply (default_title_text (H1 := fraction_str) (units.Quantity (Fin 2) units.Myr)
    (uniform (Fin 1) units.amu_per_cm3) particles.binary (Fin 10) None None None
    pyplot.initial
    (fmul (Fin 2) (Fin (units.u_factor units.Myr / units.u_factor units.Myr))));
    [done|done|reflexivity].
Defined.

Lemma bad_time_raises_late_witness :
  exists im c b,
    pyplot.run
      (plot_hydro_and_stars (H1 := fraction_str) (units.Quantity (Fin 1) units.parsec)
         (uniform (Fin 1) units.amu_per_cm3) particles.binary (Fin 10) None
         None None "") pyplot.initial =
    (Raise IncompatibleUnitsException, b) /\
    b = pyplot.single figsize (drawn im c "") pyplot.initial /\
    pyplot.shown b = pyplot.shown pyplot.initial.
Proof.
  apply (bad_time_raises_late (H1 := fraction_str) (units.Quantity (Fin 1) units.parsec)
    (uniform (Fin 1) units.amu_per_cm3) particles.binary (Fin 10) None None None
    pyplot.initial); done.
Defined.

(** C26. For a collection that says it is empty no marker is drawn, and
    the masses and positions of the collection are not read: with a lawful
    code, offsets that are lengths and a title given, the function returns
    and the axes hold the image alone. *)
Theorem no_stars_no_markers {S T} `{FieldEvaluator S} `{particles.StarCollection T}
    `{FloatFormat} (time : sq) (sph : S) `{!HydroLaws sph} (stars : T) (L : fval)
    (filename : option string) (offset_x offset_y : option sq) (title : string)
    (b0 : pyplot.backend) :
  offset_ok offset_x -> offset_ok offset_y -> title <> "" ->
  particles.is_empty stars = true ->
  exists a,
    pyplot.run
      (plot_hydro_and_stars time sph stars L filename offset_x offset_y title) b0 =
    (Ok tt, pyplot.displayed (pyplot.single figsize a b0)) /\
    pyplot.ax_collections a = [] /\ length (pyplot.ax_images a) = 1%nat.
Proof.
  intros Hox Hoy Ht He.
  destruct (plot_run_lawful time sph stars L filename _ _ title b0 Hox Hoy None)
    as (im & _ & _ & Hrun); [by apply star_markers_empty|].
  rewrite plot_title_given in Hrun by done.
  eexists. split; [exact Hrun|]. unfold drawn.
  by destruct (pyplot.im_extent im) as [[[? ?] ?] ?].
Qed.

Lemma no_stars_no_markers_witness :
  exists a,
    pyplot.run
      (plot_hydro_and_stars (H1 := fraction_str) (units.Quantity (Fin 1) units.Myr)
         (uniform (Fin 1) units.amu_per_cm3) (particles.in_MSun_parsec [])
         (Fin 10) None None None "A cloud") pyplot.initial =
    (Ok tt, pyplot.displayed (pyplot.single figsize a pyplot.initial)) /\
    pyplot.ax_collections a = [] /\ length (pyplot.ax_images a) = 1%nat.
Proof.
  apply (no_stars_no_markers (H1 := fraction_str) (units.Quantity (Fin 1) units.Myr)
    (uniform (Fin 1) units.amu_per_cm3) (particles.in_MSun_parsec []) (Fin 10)
    None None None "A cloud" pyplot.initial); done.
Defined.

(** ** Theorems on the image *)

(** The image of a field given point by point: its limits, and every pixel
    as the value at a sample point. *)
Lemma density_image_field (f : field) (L dx dy : fval)
    (offset_x offset_y : option sq) :
  units.u_dim (f_unit f) = units.density_dim ->
  offset_pc offset_x = Ok dx -> offset_pc offset_y = Ok dy ->
  exists im,
    density_image f L offset_x offset_y = Ok im /\
    pyplot.im_extent im ≡
      (fadd (fdiv (fneg L) (Fin 2)) dx, fadd (fdiv L (Fin 2)) dx,
       fadd (fdiv (fneg L) (Fin 2)) dy, fadd (fdiv L (Fin 2)) dy) /\
    numpy.shape (pyplot.im_data im) = (201, 201)%nat /\
    pyplot.im_origin im = "lower" /\
    forall r c, (r < 201)%nat -> (c < 201)%nat ->
      exists p,
        numpy.get (pyplot.im_data im) r c =
          Some (log_pixel (density_factor (f_unit f)) (density_at f p)) /\
        p ≡ sample_point map_N L dx dy c r.
Proof.
  intros Hdim Hdx Hdy.
  pose proof (offset_pc_Ok_inv _ _ Hdx) as Hox.
  pose proof (offset_pc_Ok_inv _ _ Hdy) as Hoy.
  destruct (proj2 (sample_points_is_Ok map_N L offset_x offset_y)) as [s Hs]; [done|].
  destruct (extent_Ok L offset_x offset_y dx dy Hdx Hdy) as (e & He & Hee).
  destruct (sample_points_same_length map_N L _ _ ltac:(done) Hox Hoy s Hs)
    as [Hsame Hlen].
  eexists. split; [eapply density_image_Ok; [by apply make_map_field|done|done]|].
  split_and!; [done..|]. intros r c Hr Hc.
  destruct (make_map_field_get f map_N L _ _ _ _ s c r Hdx Hdy Hs) as (p & Hp & Hpe);
    [done..|].
  exists p. split; [|done]. cbn [pyplot.im_data units.number units.unit_of].
  rewrite image_get, Hp; [done|].
  unfold numpy.wf; cbn. by rewrite length_fmap, points_length.
Qed.

(** C4. For a field given point by point, in a unit of density, the pixel in
    row [r] and column [c] of the image is the decimal logarithm of
    [1.e-5] plus the density, in amu per cubic centimetre, at the sample
    point of the column index [c] along x and of the row index [r] along y:
    after the transposition rows run along y and columns along x. *)
Theorem image_pixels (f : field) (L dx dy : fval) (offset_x offset_y : option sq)
    (r c : nat) :
  units.u_dim (f_unit f) = units.density_dim ->
  offset_pc offset_x = Ok dx -> offset_pc offset_y = Ok dy ->
  (r < 201)%nat -> (c < 201)%nat ->
  exists im p,
    density_image f L offset_x offset_y = Ok im /\
    numpy.get (pyplot.im_data im) r c =
      Some (log_pixel (density_factor (f_unit f)) (density_at f p)) /\
    p ≡ sample_point map_N L dx dy c r.
Proof.
  intros Hdim Hdx Hdy Hr Hc.
  destruct (density_image_field f L dx dy _ _ Hdim Hdx Hdy) as (im & Him & _ & _ & _ & Hpix).
  destruct (Hpix r c Hr Hc) as (p & Hp & Hpe). by exists im, p.
Qed.

Lemma image_pixels_witness :
  exists im p,
    density_image (uniform (Fin 1) units.amu_per_cm3) (Fin 10) None None = Ok im /\
    numpy.get (pyplot.im_data im) 0 200 =
      Some (log_pixel (density_factor units.amu_per_cm3)
              (density_at (uniform (Fin 1) units.amu_per_cm3) p)) /\
    p ≡ sample_point map_N (Fin 10) (Fin 0) (Fin 0) 200 0.
Proof.
  apply (image_pixels (uniform (Fin 1) units.amu_per_cm3) (Fin 10) (Fin 0) (Fin 0)
           None None 0 200); [reflexivity|reflexivity|reflexivity|lia|lia].
Defined.

(** C19. No entry of the map is lost or moved twice on the way to the
    image: the image transposed back is the map with every density replaced
    by its pixel value. *)
Theorem image_transposed_back {S} `{FieldEvaluator S} (sph : S) `{!HydroLaws sph}
    (L : fval) (offset_x offset_y : option sq) :
  offset_ok offset_x -> offset_ok offset_y ->
  exists rho im,
    make_map sph map_N L offset_x offset_y = Ok rho /\
    density_image sph L offset_x offset_y = Ok im /\
    numpy.transpose (pyplot.im_data im) =
      numpy.amap (log_pixel (density_factor (units.unit_of rho))) (units.number rho).
Proof.
  intros Hox Hoy.
  destruct (make_map_lawful sph map_N L offset_x offset_y)
    as (s & st & _ & _ & Hdim & Hmap & Hlen); [done..|].
  destruct (proj2 (extent_is_Ok L offset_x offset_y)) as [e He]; [done|].
  eexists _, _. split; [exact Hmap|]. split; [by eapply density_image_Ok|].
  cbn [pyplot.im_data units.number units.unit_of].
  rewrite numpy.amap_transpose by exact Hlen.
  apply numpy.transpose_involutive, numpy.amap_wf. exact Hlen.
Qed.

Lemma image_transposed_back_witness :
  exists rho im,
    make_map (uniform (Fin 1) units.amu_per_cm3) map_N (Fin 10) None None = Ok rho /\
    density_image (uniform (Fin 1) units.amu_per_cm3) (Fin 10) None None = Ok im /\
    numpy.transpose (pyplot.im_data im) =
      numpy.amap (log_pixel (density_factor (units.unit_of rho))) (units.number rho).
Proof.
  apply (image_transposed_back (uniform (Fin 1) units.amu_per_cm3) (Fin 10) None None);
    exact I.
Defined.

(** Without rounding, the limits handed to [imshow] are the coordinates of
    the first and of the last sample, shifted by the offsets. In doubles
    this holds for integer sides ([PlotHydroFloat.limits64_span_samples]). *)
Theorem extent_spans_grid (l : Q) (offset_x offset_y : option sq) (dx dy : fval) :
  offset_pc offset_x = Ok dx -> offset_pc offset_y = Ok dy ->
  exists e,
    extent (Fin l) offset_x offset_y = Ok e /\
    e ≡ (fadd (grid_coord map_N (Fin l) 0) dx,
         fadd (grid_coord map_N (Fin l) map_N) dx,
         fadd (grid_coord map_N (Fin l) 0) dy,
         fadd (grid_coord map_N (Fin l) map_N) dy).
Proof.
  intros Hdx Hdy. destruct (extent_Ok (Fin l) _ _ _ _ Hdx Hdy) as (e & He & Hee).
  exists e. split; [done|]. rewrite Hee.
  rewrite grid_coord_first, grid_coord_last by done.
  cbn [fneg]. rewrite !fdiv_Fin by done.
  repeat split; simpl; f_equiv; apply Fin_equiv; field.
Qed.

Lemma extent_spans_grid_witness :
  exists e,
    extent (Fin 10) None None = Ok e /\
    e ≡ (fadd (grid_coord map_N (Fin 10) 0) (Fin 0),
         fadd (grid_coord map_N (Fin 10) map_N) (Fin 0),
         fadd (grid_coord map_N (Fin 10) 0) (Fin 0),
         fadd (grid_coord map_N (Fin 10) map_N) (Fin 0)).
Proof. apply (extent_spans_grid 10 None None (Fin 0) (Fin 0)); reflexivity. Defined.

(** An x offset shifts both x limits of the image by its value in
    parsec and leaves the y limits as they are. *)
Theorem extent_shifts_with_offset (L : fval) (o : sq) (offset_y : option sq) (d : fval) :
  units.value_in o units.parsec = Ok d -> offset_ok offset_y ->
  exists xmin xmax ymin ymax,
    extent L None offset_y = Ok (xmin, xmax, ymin, ymax) /\
    extent L (Some o) offset_y = Ok (fadd xmin d, fadd xmax d, ymin, ymax).
Proof.
  intros Hd Hoy. unfold extent.
  destruct (proj2 (shift_limits_is_Ok offset_y (fdiv (fneg L) (Fin 2)) (fdiv L (Fin 2))) Hoy)
    as [[ymin ymax] Hy].
  cbn [shift_limits]. rewrite Hd, Hy. by eexists _, _, _, _.
Qed.

Lemma extent_shifts_with_offset_witness :
  exists xmin xmax ymin ymax,
    extent (Fin 8) None None = Ok (xmin, xmax, ymin, ymax) /\
    extent (Fin 8) (Some (units.Quantity (Fin 2) units.parsec)) None =
      Ok (fadd xmin (fmul (Fin 2) (Fin (units.u_factor units.parsec / units.u_factor units.parsec))),
          fadd xmax (fmul (Fin 2) (Fin (units.u_factor units.parsec / units.u_factor units.parsec))),
          ymin, ymax).
Proof.
  apply (extent_shifts_with_offset (Fin 8) (units.Quantity (Fin 2) units.parsec) None);
    [reflexivity|exact I].
Defined.

(** C34. The renderer draws the 201 columns of the image as pixels of equal
    width between the limits, which are the first and the last sample: the
    centre of the pixel of column [c] is not at the coordinate of sample
    [c] but [l (100 - c) / 40200] away from it, nothing in the middle and
    half a pixel at the two edges. *)
Theorem pixel_centre_offset (l : Q) (c : nat) :
  fsub (pixel_centre (grid_coord map_N (Fin l) 0) (grid_coord map_N (Fin l) map_N)
          201 c)
       (grid_coord map_N (Fin l) (Z.of_nat c)) ≡
    Fin (l * (100 - inject_Z (Z.of_nat c)) / 40200).
Proof.
  unfold pixel_centre. rewrite !grid_coord_Fin by done.
  unfold of_int. cbn [fsub fadd fneg fmul]. rewrite fdiv_Fin by done.
  cbn [fsub fadd fneg fmul]. apply Fin_equiv.
  change (inject_Z map_N) with 200. change (inject_Z (Z.of_nat 201)) with 201.
  change (inject_Z 0) with 0. field.
Qed.

(** C12. Where the densities are finite and not negative, in a unit of
    density with a positive factor, the image is defined at every pixel: the
    logarithm is taken of a number that is at least [1.e-5], never of zero
    or of a negative number. *)
Theorem log_density_floor (rho : units.quantity (numpy.array2 fval)) :
  units.u_dim (units.unit_of rho) = units.density_dim ->
  units.unit_ok (units.unit_of rho) ->
  Forall (fun v => exists q, v = Fin q /\ 0 <= q) (numpy.data (units.number rho)) ->
  exists img,
    log_density rho = Ok img /\
    numpy.shape img = numpy.shape (units.number rho) /\
    Forall (fun p => exists x, p = LogOf x /\ 0.00001 <= x) (numpy.data img).
Proof.
  intros Hdim Hu Hpos. eexists. split; [by apply log_density_Ok|]. split; [done|].
  cbn [numpy.amap numpy.data]. apply Forall_fmap.
  eapply Forall_impl; [exact Hpos|]. intros v (q & -> & Hq).
  apply log_pixel_floor; [|done].
  unfold density_factor. pose proof units.unit_ok_amu_per_cm3.
  unfold units.unit_ok in *. by apply Qlt_shift_div_l; [|lra].
Qed.

Lemma log_density_floor_witness :
  exists img,
    log_density
      (units.Quantity (numpy.Array2 (1, 2)%nat [Fin 0; Fin 5]) units.amu_per_cm3)
      = Ok img /\
    numpy.shape img = (1, 2)%nat /\
    Forall (fun p => exists x, p = LogOf x /\ 0.00001 <= x) (numpy.data img).
Proof.
  apply (log_density_floor
    (units.Quantity (numpy.Array2 (1, 2)%nat [Fin 0; Fin 5]) units.amu_per_cm3));
    [reflexivity|by vm_compute|].
  repeat constructor; eexists; (split; [reflexivity|by vm_compute]).
Defined.

(** ** Theorems on the stars *)

(** The markers of stars given in parsec. *)
Lemma star_markers_parsec (l : list particles.particle) :
  l <> [] ->
  exists xs ys,
    star_markers (particles.in_MSun_parsec l) =
      Ok (Some (pyplot.Collection xs ys
                  (marker_sizes (particles.mass (particles.in_MSun_parsec l)))
                  "white" (Fin 0))) /\
    xs ≡ particles.p_pos_x <$> l /\ ys ≡ particles.p_pos_y <$> l.
Proof.
  intros Hl.
  destruct (star_markers_Ok (particles.in_MSun_parsec l)) as (xs & ys & Hx & Hy & Hm).
  { by apply bool_decide_eq_false_2. }
  exists xs, ys. split; [done|].
  split; apply Ok_equiv_inv; [rewrite <- Hx|rewrite <- Hy].
  - exact (units.value_in_own_unit
             (particles.x (particles.in_MSun_parsec l)) units.unit_ok_parsec).
  - exact (units.value_in_own_unit
             (particles.y (particles.in_MSun_parsec l)) units.unit_ok_parsec).
Qed.

(** C9. The markers of a set of stars with positions in parsec are at the
    positions of the stars: marker [i] has the x and the y of star [i]. The
    x coordinates are negated twice on the way and come out as they are. *)
Theorem stars_at_positions (l : list particles.particle) :
  l <> [] ->
  exists xs ys,
    star_markers (particles.in_MSun_parsec l) =
      Ok (Some (pyplot.Collection xs ys
                  (marker_sizes (particles.mass (particles.in_MSun_parsec l)))
                  "white" (Fin 0))) /\
    xs ≡ particles.p_pos_x <$> l /\ ys ≡ particles.p_pos_y <$> l.
Proof. apply star_markers_parsec. Qed.

Lemma stars_at_positions_witness :
  exists xs ys,
    star_markers particles.binary =
      Ok (Some (pyplot.Collection xs ys
                  (marker_sizes (particles.mass particles.binary))
                  "white" (Fin 0))) /\
    xs ≡ [Fin 2; Fin (-1)] /\ ys ≡ [Fin 3; Fin 0].
Proof.
  apply (stars_at_positions
    [particles.Particle (Fin 1) (Fin 2) (Fin 3);
     particles.Particle (Fin 3) (Fin (-1)) (Fin 0)]). done.
Defined.

(** Without rounding, a star whose mass is the mean mass of the collection
    gets a marker of size 3, whatever the unit of the masses. In doubles
    the size is within [2^-51] of 3
    ([PlotHydroFloat.marker_size64_mean_mass]). *)
Theorem mean_mass_marker_size (qs : list Q) (u : units.unit) (i : nat) (q : Q) :
  ~ Qsum qs == 0 ->
  qs !! i = Some q ->
  q == Qsum qs / inject_Z (Z.of_nat (length qs)) ->
  marker_sizes (units.Quantity (Fin <$> qs) u) !! i ≡ Some (Fin 3).
Proof.
  intros Hsum Hi Hq.
  assert (qs <> []) as Hne by (by intros ->).
  rewrite (marker_sizes_Fin qs u Hne Hsum), list_lookup_fmap, Hi. simpl.
  f_equiv. apply Fin_equiv. rewrite Hq. field.
  split; [|done]. apply inject_Z_nonzero. destruct qs; [done|cbn [length]; lia].
Qed.

Lemma mean_mass_marker_size_witness :
  marker_sizes (units.Quantity (Fin <$> [1; 2; 3]) units.MSun) !! 1%nat ≡ Some (Fin 3).
Proof.
  apply (mean_mass_marker_size [1; 2; 3] units.MSun 1 2);
    [by vm_compute|done|by vm_compute].
Defined.

(** The sizes of the markers of [n] stars add up to [3 n]. *)
Theorem marker_sizes_sum (qs : list Q) (u : units.unit) :
  qs <> [] -> ~ Qsum qs == 0 ->
  fsum (marker_sizes (units.Quantity (Fin <$> qs) u)) ≡
    Fin (3 * inject_Z (Z.of_nat (length qs))).
Proof.
  intros Hne Hsum. rewrite (marker_sizes_Fin qs u Hne Hsum).
  pose (g := fun q => 3 * q / (Qsum qs / inject_Z (Z.of_nat (length qs)))).
  transitivity (fsum (Fin <$> (g <$> qs))); [by rewrite <- list_fmap_compose|].
  rewrite fsum_Fin. apply Fin_equiv. subst g.
  pose proof (inject_length_pos qs Hne). pose proof (mean_nonzero qs Hne Hsum).
  rewrite (Qsum_ext _ (fun q => (3 / (Qsum qs / inject_Z (Z.of_nat (length qs)))) * q))
    by (intros q; field; split; [lra|done]).
  rewrite Qsum_scale. field. split; [lra|done].
Qed.

Lemma marker_sizes_sum_witness :
  fsum (marker_sizes (units.Quantity (Fin <$> [1; 2; 3]) units.MSun)) ≡
    Fin (3 * inject_Z (Z.of_nat (length [1; 2; 3]))).
Proof. apply (marker_sizes_sum [1; 2; 3] units.MSun); [done|by vm_compute]. Defined.

(** C28. When the masses add up to zero (stars without mass) the mean is
    zero and no marker has a finite size: each is an infinity or not a
    number. The function does not guard the division. *)
Theorem marker_sizes_zero_mean (qs : list Q) (u : units.unit) :
  qs <> [] -> Qsum qs == 0 ->
  Forall (fun s => is_finite s = false)
    (marker_sizes (units.Quantity (Fin <$> qs) u)).
Proof.
  intros Hne Hsum. unfold marker_sizes; cbn [units.number].
  pose proof (numpy.mean_Fin qs Hne) as Hmean. pose proof (inject_length_pos qs Hne).
  destruct (numpy.mean (Fin <$> qs)) as [m| | |]; try done.
  change (m == Qsum qs / inject_Z (Z.of_nat (length qs))) in Hmean.
  rewrite <- list_fmap_compose. apply Forall_fmap, Forall_true. intros q. simpl.
  apply fdiv_zero_not_finite. rewrite Hmean, Hsum. field. lra.
Qed.

Lemma marker_sizes_zero_mean_witness :
  Forall (fun s => is_finite s = false)
    (marker_sizes (units.Quantity (Fin <$> [0; 0]) units.MSun)).
Proof. apply (marker_sizes_zero_mean [0; 0] units.MSun); [done|by vm_compute]. Defined.
