(* ===== verification/PlotHydroFloat.v ===== *)
(** * PlotHydroFloat: the arithmetic of the composer in doubles

    [plot_hydro_and_stars] computes three things itself, in Python floats and
    numpy arrays of doubles: the limits [-L/2] and [L/2] with the offsets
    added (lines 53-62), the argument [1.e-5 + rho] of the logarithm
    (line 64) and the marker sizes [3.0*mass/mean] (line 78). This file
    gives each with its operations rounded as the machine rounds them, and
    proves how far the results are from those of [PlotHydro], where nothing
    rounds, and when the limits are the ends of the grid handed to the
    code. The values the libraries compute on the way (the offset and the
    density as numbers of a unit, the mean, the logarithm itself) are
    arguments here. *)

From Stdlib Require Import Qabs.
From S2P Require Import Prelude Floats Binary64 Doubles MakeMap MakeMapFloat.
From S2P Require Import SamplesFloat PlotHydro.

(** ** The composer's operations *)

(** [xmin = -L/2] and [xmax = L/2]; the same for y. *)
Definition lower_limit64 (L : fval) : fval := fdiv64 (fneg L) (Fin 2).
Definition upper_limit64 (L : fval) : fval := fdiv64 L (Fin 2).

(** [xmin += d; xmax += d] under [if offset is not None]: [d] is
    [offset.value_in(units.parsec)]. *)
Definition shift_limits64 (d : option fval) (lo hi : fval) : fval * fval :=
  match d with
  | Some d =>
      let lo := fadd64 lo d in
      let hi := fadd64 hi d in
      (lo, hi)
  | None => (lo, hi)
  end.

(** The limits of one axis. *)
Definition limits64 (L : fval) (d : option fval) : fval * fval :=
  shift_limits64 d (lower_limit64 L) (upper_limit64 L).

(** The literal [1.e-5]: the double nearest to it. *)
Definition floor64 : fval := round64 (1 # 100000).

(** [1.e-5 + v], the argument of the logarithm, for the density [v] in amu
    per cubic centimetre. *)
Definition log_arg64 (v : fval) : fval := fadd64 floor64 v.

(** The pixel: the logarithm of the argument computed in doubles. *)
Definition log_pixel64 (v : fval) : logval := flog10 (log_arg64 v).

(** [3.0*mass/mean] for one star. *)
Definition marker_size64 (m mean : fval) : fval := fdiv64 (fmul64 (Fin 3) m) mean.

(** The value of [floor64]: [5902958103587057 * 2^-69]. *)
Definition floor_q : Q := 5902958103587057 # 590295810358705651712.

(** ** The limits *)

(** Without an offset the limits are opposite numbers, whatever the side. *)
Lemma limits64_opposite (L : fval) : lower_limit64 L ≡ fneg (upper_limit64 L).
Proof. unfold lower_limit64, upper_limit64, fdiv64. by rewrite fdiv_fneg_l, fl_fneg. Qed.

Section limits.
Context (l : Q) (Hl : is_double l) (Hn : 2 * min_normal <= Qabs l).

(** Halving a double of the normal range does not round. *)
Lemma upper_limit64_exact : upper_limit64 (Fin l) ≡ Fin (l / 2).
Proof using Hl Hn. by apply fdiv64_half. Qed.

Lemma lower_limit64_exact : lower_limit64 (Fin l) ≡ Fin (- l / 2).
Proof using Hl Hn.
  rewrite limits64_opposite, upper_limit64_exact. apply Fin_equiv. field.
Qed.

(** The limits of an axis in doubles are the exact limits, rounded once
    when an offset is added. *)
Lemma limits64_rounded (d : option fval) :
  limits64 (Fin l) d ≡
    match d with
    | Some d => (fl (fadd (Fin (- l / 2)) d), fl (fadd (Fin (l / 2)) d))
    | None => (Fin (- l / 2), Fin (l / 2))
    end.
Proof using Hl Hn.
  unfold limits64, shift_limits64, fadd64.
  destruct d as [d|]; by rewrite lower_limit64_exact, upper_limit64_exact.
Qed.

End limits.

(** The limit carries no error, the first coordinate of the grid is rounded
    twice: for the side [0.007] the two differ in the last place. *)
Example grid_end_is_not_limit :
  let L := round64 (7 # 1000) in
  lower_limit64 L ≡ Fin (-8070450532247929 # 2305843009213693952) /\
  grid_coord64 200 L 0 ≡ Fin (-4035225266123965 # 1152921504606846976).
Proof. split; by vm_compute. Qed.

(** With an integer side the halves are computed without error, zero
    included. *)
Lemma limits64_integer (k : Z) :
  (Z.abs k < 2 ^ 53)%Z ->
  lower_limit64 (of_int64 k) ≡ Fin (inject_Z (- k) / 2) /\
  upper_limit64 (of_int64 k) ≡ Fin (inject_Z k / 2).
Proof.
  intros Hk. unfold lower_limit64, upper_limit64, fdiv64, of_int64.
  rewrite (round64_int k Hk). unfold of_int. cbn [fneg].
  rewrite !fdiv_Fin by done. cbn [fl].
  rewrite <- (round64_half k), <- (round64_half (- k)) by lia.
  split; [|done]. f_equiv. by rewrite inject_Z_opp.
Qed.

(** ** The floor of the logarithm *)

Lemma floor64_value : floor64 ≡ Fin floor_q.
Proof. by vm_compute. Qed.

Lemma floor_q_double : is_double floor_q.
Proof. apply (round64_is_double (1 # 100000)), floor64_value. Qed.

(** The double is a little above [10^-5]. *)
Lemma floor_q_above : 1 # 100000 < floor_q.
Proof. by vm_compute. Qed.

Lemma log_arg64_Fin (q : Q) : log_arg64 (Fin q) ≡ round64 (floor_q + q).
Proof. unfold log_arg64, fadd64. by rewrite floor64_value. Qed.

(** The argument of the logarithm is never below the floor, for a density
    that is not negative, finite or not. *)
Lemma log_arg64_floor (v : fval) : fle (Fin 0) v -> fle floor64 (log_arg64 v).
Proof.
  intros Hv. unfold log_arg64, fadd64. rewrite floor64_value.
  destruct v as [q| | |]; [|done..]. cbn [fadd fl]. cbn [fle] in Hv.
  apply fle_trans with (round64 floor_q); [|apply round64_mono; lra].
  pose proof floor_q_double as Hd. unfold is_double in Hd. rewrite Hd.
  apply Qle_refl.
Qed.

(** Next to the floor a density is lost: up to [2^-71] amu per cubic
    centimetre in size it does not change the argument. *)
Lemma log_arg64_absorbs (q : Q) :
  Qabs q <= pow2 (-71) -> log_arg64 (Fin q) ≡ floor64.
Proof.
  intros [Hlo Hhi]%Qabs_Qle_condition.
  rewrite log_arg64_Fin, floor64_value.
  assert (round64 (floor_q - pow2 (-71)) ≡ Fin floor_q) as Hl by (by vm_compute).
  assert (round64 (floor_q + pow2 (-71)) ≡ Fin floor_q) as Hh by (by vm_compute).
  apply fle_antisym.
  - rewrite <- Hh. apply round64_mono. lra.
  - rewrite <- Hl. apply round64_mono. lra.
Qed.

(** ** The marker sizes *)

Section marker.
Context (m mean : Q) (Hmean : 0 < mean).

Lemma marker_size64_Fin :
  marker_size64 (Fin m) (Fin mean) = fl (fdiv (round64 (3 * m)) (Fin mean)).
Proof using Type. reflexivity. Qed.

(** The size without rounding. *)
Lemma marker_size_Fin :
  fdiv (fmul (Fin 3) (Fin m)) (Fin mean) ≡ Fin (3 * m / mean).
Proof using Hmean. cbn [fmul]. rewrite fdiv_Fin by lra. done. Qed.

(** The multiplication and the division round once each. *)
Lemma marker_size64_two_roundings (y : Q) :
  min_normal <= Qabs (3 * m) -> 2 * min_normal <= Qabs (3 * m / mean) ->
  marker_size64 (Fin m) (Fin mean) ≡ Fin y ->
  Qabs (y - 3 * m / mean) <= two_roundings * Qabs (3 * m / mean).
Proof using Hmean.
  intros Ha Hx Hy. rewrite marker_size64_Fin in Hy.
  rewrite (quotient64_Fin_inv _ _ _ Hmean Hy). by apply second_rounding.
Qed.

End marker.

(** When three times the mass is a double the star of the mean mass gets
    the size 3 exactly. *)
Lemma marker_size64_three (m : Q) :
  0 < m -> is_double (3 * m) -> marker_size64 (Fin m) (Fin m) ≡ Fin 3.
Proof.
  intros Hm H3. unfold is_double in H3.
  rewrite marker_size64_Fin, H3, fdiv_Fin by lra.
  assert (3 * m / m == inject_Z 3) as -> by (change (inject_Z 3) with 3; field; lra).
  by rewrite fl_Fin, round64_int.
Qed.

(** It is not so for every mass: for the double [23.804083062918217] the
    product with 3 rounds up, and the size of the star of the mean mass is
    the double after 3. *)
Example mean_mass_marker_not_three :
  let m := 3350126862876713 # 140737488355328 in
  is_double m /\
  marker_size64 (Fin m) (Fin m) ≡ Fin (6755399441055745 # 2251799813685248).
Proof. split; by vm_compute. Qed.

(** The quotient of the star of the mean mass is within [3 u] of 3, and
    the doubles nearest to the ends of that interval are the neighbours of
    3. *)
Lemma three_neighbours :
  rnd (3 - 3 * u64) == 3 - pow2 (-51) /\ rnd (3 + 3 * u64) == 3 + pow2 (-51).
Proof. split; by vm_compute. Qed.

Lemma mean_mass_quotient (m : Q) :
  min_normal <= m -> 3 - 3 * u64 <= rnd (3 * m) / m <= 3 + 3 * u64.
Proof.
  intros Hm. pose proof min_normal_pos as Hp.
  assert (min_normal <= Qabs (3 * m)) as Hn by (rewrite Qabs_pos; lra).
  pose proof (rnd_error _ Hn) as He. rewrite (Qabs_pos (3 * m)) in He by lra.
  apply Qabs_Qle_condition in He as [Hlo Hhi].
  split; [apply Qle_shift_div_l|apply Qle_shift_div_r]; lra.
Qed.

(** ** The theorems of the composer in doubles *)

(** C8. The limits of the image and the samples, in doubles. For an integer
    side [L], as the default 10, and the grid of the plot, the limits
    handed to [imshow] are the first and the last coordinate handed to the
    code, with the offset added to each: the image is stretched from the
    first sample to the last. For other sides the two can differ in the
    last place ([grid_end_is_not_limit]). *)
Theorem limits64_span_samples (k : Z) (d : option fval) :
  (Z.abs k * map_N < 2 ^ 53)%Z ->
  limits64 (of_int64 k) d ≡
    (shift64 d (grid_coord64 map_N (of_int64 k) 0),
     shift64 d (grid_coord64 map_N (of_int64 k) map_N)).
Proof.
  intros Hk. assert (Z.abs k < 2 ^ 53)%Z as Hk' by (unfold map_N in Hk; lia).
  destruct (limits64_integer k Hk') as [Hlo Hhi].
  destruct (grid_coord64_ends map_N k ltac:(done) Hk) as [H0 HN].
  destruct d as [d|]; unfold limits64, shift_limits64, shift64; cbv beta iota zeta;
    (split; cbn [fst snd]; [by rewrite Hlo, H0|by rewrite Hhi, HN]).
Qed.

Lemma limits64_span_samples_witness :
  limits64 (of_int64 10) (Some (Fin (1 # 10))) ≡
    (shift64 (Some (Fin (1 # 10))) (grid_coord64 map_N (of_int64 10) 0),
     shift64 (Some (Fin (1 # 10))) (grid_coord64 map_N (of_int64 10) map_N)).
Proof. apply (limits64_span_samples 10 (Some (Fin (1 # 10)))). done. Defined.

(** C10. The marker of the star of the mean mass, in doubles. For a mass
    [m] between the smallest normal double and [2^1021] that is also the
    mean numpy computed, the size [3.0*m/m] is computed without overflow
    and is a double within [2^-51] of 3, the distance from 3 to the doubles
    next to it. It is 3 when three times the mass is a double. *)
Theorem marker_size64_mean_mass (m : Q) :
  min_normal <= m -> m <= pow2 1021 ->
  exists y,
    marker_size64 (Fin m) (Fin m) ≡ Fin y /\ Qabs (y - 3) <= pow2 (-51) /\
    (is_double (3 * m) -> y == 3).
Proof.
  intros Hlo Hhi. pose proof min_normal_pos as Hp. assert (0 < m) as Hm by lra.
  destruct (round64_bounded (3 * m) 1023) as (r & Hr & _); [done| |].
  { rewrite Qabs_pos, (pow2_succ 1022), (pow2_succ 1021) by lra. lra. }
  destruct (round64_Fin_inv _ _ Hr) as [-> _].
  destruct (mean_mass_quotient m Hlo) as [Hq1 Hq2].
  apply rnd_mono in Hq1, Hq2. destruct three_neighbours as [E1 E2].
  assert (pow2 (-51) <= 1) as Hu by (apply Qle_bool_iff; by vm_compute).
  pose proof (pow2_lt 2 emax ltac:(done)) as H4. change (pow2 2) with 4 in H4.
  set (y := rnd (rnd (3 * m) / m)) in *.
  assert (marker_size64 (Fin m) (Fin m) ≡ Fin y) as Hy.
  { rewrite marker_size64_Fin, Hr, fdiv_Fin, fl_Fin by lra.
    rewrite round64_finite; [done|]. apply Qabs_Qlt_condition. fold y. lra. }
  exists y. split_and!; [done|apply Qabs_Qle_condition; lra|].
  intros H3. rewrite (marker_size64_three m Hm H3) in Hy. symmetry. by apply Fin_equiv.
Qed.

Lemma marker_size64_mean_mass_witness :
  exists y,
    marker_size64 (Fin (3350126862876713 # 140737488355328))
                  (Fin (3350126862876713 # 140737488355328)) ≡ Fin y /\
    Qabs (y - 3) <= pow2 (-51) /\
    (is_double (3 * (3350126862876713 # 140737488355328)) -> y == 3).
Proof.
  apply (marker_size64_mean_mass (3350126862876713 # 140737488355328));
    apply Qle_bool_iff; by vm_compute.
Defined.


(** C31. The limits of an axis in doubles. For a side [l] that is a double
    of the normal range, [-L/2] and [L/2] are computed without error, so
    without an offset the limits are the exact ones; with an offset of [d]
    parsec each limit is the exact limit rounded once to the nearest
    double. *)
Theorem limits64_exact (l d : Q) :
  is_double l -> 2 * min_normal <= Qabs l ->
  limits64 (Fin l) None ≡ (Fin (- l / 2), Fin (l / 2)) /\
  limits64 (Fin l) (Some (Fin d)) ≡ (round64 (- l / 2 + d), round64 (l / 2 + d)).
Proof.
  intros Hl Hn.
  split; [exact (limits64_rounded l Hl Hn None)|exact (limits64_rounded l Hl Hn (Some (Fin d)))].
Qed.

Lemma limits64_exact_witness :
  limits64 (Fin 10) None ≡ (Fin (- 10 / 2), Fin (10 / 2)) /\
  limits64 (Fin 10) (Some (Fin (1 # 10))) ≡
    (round64 (- 10 / 2 + (1 # 10)), round64 (10 / 2 + (1 # 10))).
Proof.
  apply (limits64_exact 10 (1 # 10)); [by vm_compute|].
  apply Qle_bool_iff. by vm_compute.
Defined.

(** C23. The marker sizes in doubles. For a mass [m] and a mean [mean > 0]
    the size [3.0*m/mean] computed in doubles, when it is a double [y],
    differs from the exact size [x] by at most [(2 u + u^2) |x|] with
    [u = 2^-53], for [3 m] and [x] in the normal range: the multiplication
    and the division round once each. The star of the mean mass gets a size
    within that of 3, not always 3. *)
Theorem marker_size64_error (m mean x y : Q) :
  0 < mean -> min_normal <= Qabs (3 * m) ->
  fdiv (fmul (Fin 3) (Fin m)) (Fin mean) ≡ Fin x -> 2 * min_normal <= Qabs x ->
  marker_size64 (Fin m) (Fin mean) ≡ Fin y ->
  Qabs (y - x) <= two_roundings * Qabs x.
Proof.
  intros Hmean Ha Hx Hnorm Hy. rewrite (marker_size_Fin m mean Hmean) in Hx.
  change (3 * m / mean == x) in Hx. rewrite <- Hx. rewrite <- Hx in Hnorm.
  by apply marker_size64_two_roundings.
Qed.

Lemma marker_size64_error_witness :
  Qabs ((6755399441055745 # 2251799813685248) - 3) <= two_roundings * Qabs 3.
Proof.
  apply (marker_size64_error (3350126862876713 # 140737488355328)
           (3350126862876713 # 140737488355328));
    [done|apply Qle_bool_iff; by vm_compute|by vm_compute
    |apply Qle_bool_iff; by vm_compute|by vm_compute].
Defined.
