(* ===== verification/Binary64Hardware.v ===== *)
(** * Binary64Hardware: the rounding model against the doubles of the kernel

    The kernel of the proof assistant computes with the binary64 numbers of
    the machine. This file evaluates operations both ways, with [round64]
    on rationals and with the primitive doubles, and compares the results:
    ties, subnormal numbers, underflow and overflow, the grid of the
    plot ([N = 200]) computed as line 13 of [plotting_class.py] computes
    it, and the limits, the argument of the logarithm and the marker sizes
    of the composer. *)

From Stdlib Require Import Floats Uint63.
From S2P Require Import Prelude Floats Binary64 MakeMap MakeMapFloat PlotHydroFloat.

(** The value of a double given by its sign, its bits and its exponent. *)
Definition of_spec (s : spec_float) : fval :=
  match s with
  | S754_zero _ => Fin 0
  | S754_infinity false => PInf
  | S754_infinity true => NInf
  | S754_nan => NaN
  | S754_finite sg m e =>
      Fin ((if sg then -1 else 1) * inject_Z (Z.pos m) * pow2 e)
  end.

Definition of_prim (f : float) : fval := of_spec (Prim2SF f).

Example tenth : round64 (1 # 10) ≡ of_prim (1 / 10)%float.
Proof. vm_compute. reflexivity. Qed.

Example third : fdiv64 (of_int 1) (of_int 3) ≡ of_prim (1 / 3)%float.
Proof. vm_compute. reflexivity. Qed.

Example product : fmul64 (round64 (11 # 10)) (of_int 100) ≡ of_prim (11 / 10 * 100)%float.
Proof. vm_compute. reflexivity. Qed.

Example sum : fadd64 (round64 (1 # 10)) (round64 (2 # 10)) ≡ of_prim (1 / 10 + 2 / 10)%float.
Proof. vm_compute. reflexivity. Qed.

Example tie_to_even :
  fadd64 (of_int 9007199254740992) (of_int 1) ≡ of_prim (9007199254740992 + 1)%float.
Proof. vm_compute. reflexivity. Qed.

Example tie_to_even_up :
  fadd64 (of_int 9007199254740994) (of_int 1) ≡ of_prim (9007199254740994 + 1)%float.
Proof. vm_compute. reflexivity. Qed.

Example subnormal :
  fdiv64 (round64 (pow2 (-1070))) (of_int 3) ≡ of_prim (Z.ldexp 1 (-1070) / 3)%float.
Proof. vm_compute. reflexivity. Qed.

Example underflow_to_zero :
  fdiv64 (round64 (pow2 (-1074))) (of_int 2) ≡ of_prim (Z.ldexp 1 (-1074) / 2)%float.
Proof. vm_compute. reflexivity. Qed.

Example overflow :
  fmul64 (round64 (pow2 1023)) (of_int 2) ≡ of_prim (Z.ldexp 1 1023 * 2)%float.
Proof. vm_compute. reflexivity. Qed.

Example largest :
  fsub64 (round64 (pow2 1023)) (round64 (pow2 969)) ≡
    of_prim (Z.ldexp 1 1023 - Z.ldexp 1 969)%float.
Proof. vm_compute. reflexivity. Qed.

(** ** The grid of the plot *)

(** Line 13 on the doubles of the machine. *)
Definition grid_prim (N : Z) (L : float) (i : Z) : float :=
  (L * (of_uint63 (of_Z i) - of_uint63 (of_Z N) / 2) / of_uint63 (of_Z N))%float.

(** The model and the machine give the same coordinate at every index. *)
Definition agrees (N : Z) (l : Q) (L : float) : bool :=
  forallb
    (fun i => bool_decide (grid_coord64 N (round64 l) (Z.of_nat i) ≡
                           of_prim (grid_prim N L (Z.of_nat i))))
    (seq 0 (Z.to_nat N + 1)).

Example default_grid_agrees : agrees 200 10 10 = true.
Proof. by vm_compute. Qed.

Example tenth_grid_agrees : agrees 200 (1 # 10) (1 / 10) = true.
Proof. by vm_compute. Qed.

Example odd_grid_agrees : agrees 7 (1 # 3) (1 / 3) = true.
Proof. by vm_compute. Qed.

Example small_side_agrees : agrees 200 (7 # 1000) (7 / 1000) = true.
Proof. by vm_compute. Qed.

(** ** The arithmetic of the composer *)

(** [-L/2], [1.e-5 + v] and [3.0*m/mean] on the doubles of the machine. *)
Definition lower_limit_prim (L : float) : float := (- L / 2)%float.
Definition log_arg_prim (v : float) : float := (1 / 100000 + v)%float.
Definition marker_size_prim (m mean : float) : float := (3 * m / mean)%float.

(** The double [23.804083062918217]. *)
Definition a_mass : float := Z.ldexp (of_uint63 (of_Z 3350126862876713)) (-47).

Example floor_agrees : floor64 ≡ of_prim (1 / 100000)%float.
Proof. vm_compute. reflexivity. Qed.

Example limit_agrees :
  lower_limit64 (round64 (7 # 1000)) ≡ of_prim (lower_limit_prim (7 / 1000)).
Proof. vm_compute. reflexivity. Qed.

Example log_arg_agrees :
  log_arg64 (round64 (1 # 3)) ≡ of_prim (log_arg_prim (1 / 3)).
Proof. vm_compute. reflexivity. Qed.

Example absorbed_agrees :
  log_arg64 (round64 (pow2 (-71))) ≡ of_prim (log_arg_prim (Z.ldexp 1 (-71))) /\
  of_prim (log_arg_prim (Z.ldexp 1 (-71))) ≡ of_prim (1 / 100000)%float.
Proof. split; vm_compute; reflexivity. Qed.

Example marker_size_agrees :
  marker_size64 (of_prim a_mass) (of_prim a_mass) ≡
    of_prim (marker_size_prim a_mass a_mass) /\
  (marker_size_prim a_mass a_mass =? 3)%float = false.
Proof. split; [vm_compute; reflexivity|by vm_compute]. Qed.
