(* ===== verification/Raster.v ===== *)
(** * Raster: where the renderer puts pixels and markers

    The composer hands the renderer an image with an extent, markers with
    coordinates, and limits of the axes. What appears where is the
    renderer's: [imshow] tiles the extent with the pixels of the array, the
    row 0 at the bottom for [origin = "lower"]; [scatter] puts a marker at
    its coordinates; an axis shows its limits from the first to the last, so
    limits given in decreasing order reverse it. This file models that
    geometry on rationals, from the specification of the rendering backend,
    and proves the orientation contract of the composer: the transposition
    of the map, the two negations of the star positions and the reversed x
    limits together put the marker of a star on the pixel that shows the
    density sampled next to the star. *)

From Stdlib Require Import Qround Qabs.
From S2P Require Import Prelude Floats Arrays Units Hydro MakeMap Stars Pyplot.
From S2P Require Import PlotHydro.

(** ** Intervals of an axis *)

Record span : Type := Span {
  span_lo : Q;
  span_hi : Q;
}.

#[export] Instance span_elem_of : ElemOf Q span := fun x s =>
  span_lo s <= x <= span_hi s.

Definition width (s : span) : Q := span_hi s - span_lo s.

(** The width of one of [n] pixels that tile [e]. *)
Definition pixel_width (e : span) (n : nat) : Q := width e / inject_Z (Z.of_nat n).

(** [imshow] with the extent [e] along an axis of [n] pixels: what the pixel
    [c] covers. *)
Definition nth_pixel (e : span) (n c : nat) : span :=
  Span (span_lo e + inject_Z (Z.of_nat c) * pixel_width e n)
       (span_lo e + (inject_Z (Z.of_nat c) + 1) * pixel_width e n).

(** The pixel a coordinate falls into; the upper end of the extent belongs
    to the last pixel. *)
Definition pixel_at (e : span) (n : nat) (x : Q) : nat :=
  Z.to_nat (Z.min (Z.of_nat n - 1) (Qfloor ((x - span_lo e) / pixel_width e n))).

(** The point [c] of the [n + 1] points that divide [e] into [n] steps. *)
Definition nth_sample (e : span) (n c : nat) : Q :=
  span_lo e + inject_Z (Z.of_nat c) * pixel_width e n.

(** Where a coordinate appears along an axis with the limits [lim]: 0 at
    the first limit, 1 at the last. *)
Definition screen (lim : Q * Q) (x : Q) : Q := (x - lim.1) / (lim.2 - lim.1).

(** The side of the image along an axis: [L] wide about the offset [d]. *)
Definition side (l d : Q) : span := Span (- l / 2 + d) (l / 2 + d).

(** A sample point lies within [delta] of the position [(x, y)] parsec. *)
Definition near (p : point) (x y delta : Q) : Prop :=
  exists px py,
    p_x p ≡ units.Quantity (Fin px) units.parsec /\
    p_y p ≡ units.Quantity (Fin py) units.parsec /\
    Qabs (px - x) <= delta /\ Qabs (py - y) <= delta.

(** ** Pixels *)

Lemma Qfloor_div_bounds (a u : Q) :
  0 < u ->
  inject_Z (Qfloor (a / u)) * u <= a /\ a < (inject_Z (Qfloor (a / u)) + 1) * u.
Proof.
  intros Hu. pose proof (Qfloor_le (a / u)) as Hl. pose proof (Qlt_floor (a / u)) as Hh.
  rewrite inject_Z_plus in Hh. change (inject_Z 1) with 1 in Hh.
  assert (a == a / u * u) as Ha by (field; lra).
  set (f := inject_Z (Qfloor (a / u))) in *. set (t := a / u) in *.
  clearbody f t. rewrite Ha. nra.
Qed.

Section pixels.
Context (e : span) (n : nat) (He : 0 < width e) (Hn : (0 < n)%nat).

#[local] Abbreviation u := (pixel_width e n).
#[local] Abbreviation nq := (inject_Z (Z.of_nat n)).

Lemma nq_pos : 0 < nq.
Proof using Hn. apply inject_Z_pos. lia. Qed.

Lemma pixel_width_pos : 0 < u.
Proof using He Hn. apply Qlt_shift_div_l; [apply nq_pos|]. lra. Qed.

Lemma pixel_width_total : nq * u == width e.
Proof using Hn. unfold pixel_width. field. pose proof nq_pos. lra. Qed.

(** A coordinate of the extent falls into one of the [n] pixels, and the
    pixel covers it. *)
Lemma pixel_at_spec (x : Q) :
  x ∈ e -> (pixel_at e n x < n)%nat /\ x ∈ nth_pixel e n (pixel_at e n x).
Proof using He Hn.
  intros [Hlo Hhi]. pose proof pixel_width_pos as Hu.
  pose proof pixel_width_total as Hw. pose proof nq_pos as Hnq.
  destruct (Qfloor_div_bounds (x - span_lo e) u Hu) as [Hfl Hfh].
  unfold pixel_at. set (f := Qfloor ((x - span_lo e) / u)) in *.
  assert (0 <= f)%Z as Hf0.
  { apply Z.lt_succ_r. rewrite <- Z.add_1_r, Zlt_Qlt, inject_Z_plus.
    change (inject_Z 1) with 1. change (inject_Z 0) with 0.
    set (fq := inject_Z f) in *. set (w := pixel_width e n) in *.
    clearbody fq w. nra. }
  split; [lia|]. unfold nth_pixel, elem_of, span_elem_of; cbn [span_lo span_hi].
  rewrite Z2Nat.id by lia. unfold width in Hw.
  destruct (Z.min_spec (Z.of_nat n - 1) f) as [[Hlt ->]|[Hge ->]].
  - assert (inject_Z (Z.of_nat n - 1) == nq - 1) as ->.
    { unfold Z.sub. by rewrite inject_Z_plus. }
    assert (nq - 1 <= inject_Z f) as Hc.
    { change (nq - 1) with (nq + inject_Z (-1)).
      rewrite <- inject_Z_plus, <- Zle_Qle. lia. }
    set (fq := inject_Z f) in *. set (w := pixel_width e n) in *.
    set (m := inject_Z (Z.of_nat n)) in *. clearbody fq m w. split; nra.
  - set (fq := inject_Z f) in *. set (w := pixel_width e n) in *.
    clearbody fq w. split; lra.
Qed.

(** Two coordinates of one pixel are at most its width apart. *)
Lemma pixel_diameter (c : nat) (x y : Q) :
  x ∈ nth_pixel e n c -> y ∈ nth_pixel e n c -> Qabs (x - y) <= u.
Proof using Type.
  unfold elem_of, span_elem_of, nth_pixel; cbn [span_lo span_hi].
  intros [Hxl Hxh] [Hyl Hyh]. apply Qabs_Qle_condition.
  set (a := inject_Z (Z.of_nat c)) in *. set (w := pixel_width e n) in *.
  clearbody a w. split; lra.
Qed.

End pixels.

(** The sample [c] of [n] steps lies in the pixel [c] of [n + 1] pixels: at
    its lower end for the first, at its upper end for the last. *)
Lemma sample_in_pixel (e : span) (n c : nat) :
  0 < width e -> (0 < n)%nat -> (c <= n)%nat ->
  nth_sample e n c ∈ nth_pixel e (S n) c.
Proof.
  intros He Hn Hc.
  pose proof (pixel_width_pos e n He Hn) as Hd.
  pose proof (pixel_width_pos e (S n) He ltac:(lia)) as Hu.
  pose proof (pixel_width_total e n Hn) as Hdn.
  pose proof (pixel_width_total e (S n) ltac:(lia)) as Hun.
  rewrite Nat2Z.inj_succ, <- Z.add_1_r, inject_Z_plus in Hun.
  change (inject_Z 1) with 1 in Hun.
  assert (0 <= inject_Z (Z.of_nat c) <= inject_Z (Z.of_nat n)) as [Hc0 Hcn].
  { rewrite <- (Zle_Qle 0), <- Zle_Qle. lia. }
  assert (0 < inject_Z (Z.of_nat n)) as Hn0 by (apply inject_Z_pos; lia).
  unfold nth_sample, nth_pixel, elem_of, span_elem_of; cbn [span_lo span_hi].
  set (d := pixel_width e n) in *. set (u := pixel_width e (S n)) in *.
  set (cq := inject_Z (Z.of_nat c)) in *. set (nq := inject_Z (Z.of_nat n)) in *.
  set (w := width e) in *. clearbody d u cq nq w.
  assert (u <= d) by nra. assert (cq * (d - u) <= nq * (d - u)) by nra.
  split; nra.
Qed.

(** Every coordinate of the extent is within a pixel's width of the sample
    its pixel shows. *)
Lemma sample_near (e : span) (n : nat) (x : Q) :
  0 < width e -> (0 < n)%nat -> x ∈ e ->
  (pixel_at e (S n) x <= n)%nat /\
  Qabs (nth_sample e n (pixel_at e (S n) x) - x) <= pixel_width e (S n).
Proof.
  intros He Hn Hx.
  destruct (pixel_at_spec e (S n) He ltac:(lia) x Hx) as [Hc Hin].
  split; [lia|]. eapply pixel_diameter; [|done]. apply sample_in_pixel; [done..|lia].
Qed.

(** ** The axis *)

(** An axis with limits in decreasing order runs backwards: the larger
    coordinate is nearer to its first end. *)
Lemma screen_reversed (lo hi x y : Q) :
  lo < hi -> x < y -> screen (hi, lo) y < screen (hi, lo) x.
Proof.
  intros Hl Hxy. unfold screen; cbn [fst snd].
  assert (/ (lo - hi) < 0) as Hinv.
  { assert (/ (lo - hi) == - / (hi - lo)) as -> by (field; lra).
    assert (0 < / (hi - lo)) by (apply Qinv_lt_0_compat; lra). lra. }
  unfold Qdiv. set (k := / (lo - hi)) in *. clearbody k. nra.
Qed.

(** With limits in increasing order it runs forwards. *)
Lemma screen_forward (lo hi x y : Q) :
  lo < hi -> x < y -> screen (lo, hi) x < screen (lo, hi) y.
Proof.
  intros Hl Hxy. unfold screen; cbn [fst snd].
  assert (0 < / (hi - lo)) as Hinv by (apply Qinv_lt_0_compat; lra).
  unfold Qdiv. set (k := / (hi - lo)) in *. clearbody k. nra.
Qed.

(** Reversing the limits mirrors the axis. *)
Lemma screen_mirror (lo hi x : Q) :
  lo < hi -> screen (hi, lo) x == 1 - screen (lo, hi) x.
Proof. intros Hl. unfold screen; cbn [fst snd]. field. lra. Qed.

(** What lies between the limits is on the axis. *)
Lemma screen_within (s : span) (x : Q) :
  0 < width s -> x ∈ s -> 0 <= screen (span_hi s, span_lo s) x <= 1.
Proof.
  unfold width. intros Hw [Hlo Hhi]. rewrite screen_mirror by lra.
  unfold screen; cbn [fst snd].
  assert (0 < / (span_hi s - span_lo s)) as Hinv by (apply Qinv_lt_0_compat; lra).
  unfold Qdiv. assert ((span_hi s - span_lo s) * / (span_hi s - span_lo s) == 1) as Hone
    by (field; lra).
  set (k := / (span_hi s - span_lo s)) in *. set (a := span_lo s) in *.
  set (b := span_hi s) in *. clearbody k a b. split; nra.
Qed.

Lemma screen_ends (a b : Q) : ~ a == b -> screen (a, b) a == 0 /\ screen (a, b) b == 1.
Proof. intros Hab. unfold screen; cbn [fst snd]. split; field; lra. Qed.

(** ** Spans up to equality of rationals *)

#[export] Instance span_equiv : Equiv span := fun s t =>
  span_lo s == span_lo t /\ span_hi s == span_hi t.

#[export] Instance span_equivalence : Equivalence (≡@{span}).
Proof.
  split.
  - by intros s.
  - by intros s t [??].
  - intros s t v [H1 H2] [H3 H4]. split; [by rewrite H1|by rewrite H2].
Qed.

#[export] Instance pixel_width_proper : Proper ((≡) ==> (=) ==> Qeq) pixel_width.
Proof. intros s t [Hl Hh] n ? <-. unfold pixel_width, width. by rewrite Hl, Hh. Qed.

#[export] Instance pixel_at_proper : Proper ((≡) ==> (=) ==> Qeq ==> (=)) pixel_at.
Proof.
  intros s t Hst n ? <- x y Hxy. unfold pixel_at. do 2 f_equal.
  apply Qfloor_comp. rewrite (pixel_width_proper s t Hst n n eq_refl).
  destruct Hst as [-> _]. by rewrite Hxy.
Qed.

#[export] Instance span_elem_of_proper : Proper (Qeq ==> (≡) ==> iff) (∈@{span}).
Proof.
  intros x y Hxy s t [Hl Hh]. unfold elem_of, span_elem_of.
  by rewrite Hxy, Hl, Hh.
Qed.

#[export] Instance Qle_dec (a b : Q) : Decision (a <= b).
Proof. destruct (Qlt_le_dec b a); [right; lra|by left]. Defined.

#[export] Instance span_elem_of_dec (x : Q) (s : span) : Decision (x ∈ s).
Proof. unfold elem_of, span_elem_of. apply _. Defined.

(** ** The image on the axes *)

(** The limits of an image along x and along y, when all four are numbers. *)
Definition image_spans (im : pyplot.image) : option (span * span) :=
  match pyplot.im_extent im with
  | (Fin x0, Fin x1, Fin y0, Fin y1) => Some (Span x0 x1, Span y0 y1)
  | _ => None
  end.

(** The row of the array drawn in line [k] of pixels, counted from the lower
    limit of y: the row [k] itself for [origin = "lower"], the rows in the
    opposite order otherwise. *)
Definition row_shown (origin : string) (rows k : nat) : nat :=
  if bool_decide (origin = "lower") then k else (rows - 1 - k)%nat.

(** The entry of the array drawn over the point [(x, y)] of the axes: none
    outside the limits of the image. *)
Definition pixel_under (im : pyplot.image) (x y : Q) : option (nat * nat) :=
  '(ex, ey) ← image_spans im;
  let rows := numpy.nrows (pyplot.im_data im) in
  let cols := numpy.ncols (pyplot.im_data im) in
  if decide (x ∈ ex /\ y ∈ ey)
  then Some (row_shown (pyplot.im_origin im) rows (pixel_at ey rows y),
             pixel_at ex cols x)
  else None.

(** The limits of the image: [-L/2 + d] and [L/2 + d]. *)
Lemma limits_Fin (l d : Q) :
  fadd (fdiv (fneg (Fin l)) (Fin 2)) (Fin d) ≡ Fin (span_lo (side l d)) /\
  fadd (fdiv (Fin l) (Fin 2)) (Fin d) ≡ Fin (span_hi (side l d)).
Proof. cbn [fneg]. rewrite !fdiv_Fin by done. by split. Qed.

Lemma side_width (l d : Q) : width (side l d) == l.
Proof. unfold width, side; cbn [span_lo span_hi]. field. Qed.

Lemma side_pixel_width (l d : Q) (n : nat) :
  pixel_width (side l d) n == l / inject_Z (Z.of_nat n).
Proof. unfold pixel_width. by rewrite side_width. Qed.

(** An image whose limits are those of the composer has the two sides as
    its spans. *)
Lemma image_spans_side (im : pyplot.image) (l dx dy : Q) :
  pyplot.im_extent im ≡
    (fadd (fdiv (fneg (Fin l)) (Fin 2)) (Fin dx), fadd (fdiv (Fin l) (Fin 2)) (Fin dx),
     fadd (fdiv (fneg (Fin l)) (Fin 2)) (Fin dy), fadd (fdiv (Fin l) (Fin 2)) (Fin dy)) ->
  exists ex ey,
    image_spans im = Some (ex, ey) /\ ex ≡ side l dx /\ ey ≡ side l dy.
Proof.
  unfold image_spans. destruct (pyplot.im_extent im) as [[[x0 x1] y0] y1].
  intros [[[H0 H1] H2] H3]; cbn in H0, H1, H2, H3.
  destruct (limits_Fin l dx) as [Hlx Hhx]. destruct (limits_Fin l dy) as [Hly Hhy].
  rewrite Hlx in H0. rewrite Hhx in H1. rewrite Hly in H2. rewrite Hhy in H3.
  apply equiv_Fin_l in H0 as (a0 & -> & E0), H1 as (a1 & -> & E1),
    H2 as (b0 & -> & E2), H3 as (b1 & -> & E3).
  by eexists _, _.
Qed.

(** The entry drawn over a point within the limits of an image with the
    first row at the bottom. *)
Lemma pixel_under_lower (im : pyplot.image) (ex ey : span) (x y : Q) :
  image_spans im = Some (ex, ey) -> pyplot.im_origin im = "lower" ->
  x ∈ ex -> y ∈ ey ->
  pixel_under im x y =
    Some (pixel_at ey (numpy.nrows (pyplot.im_data im)) y,
          pixel_at ex (numpy.ncols (pyplot.im_data im)) x).
Proof.
  intros Hs Ho Hx Hy. unfold pixel_under. rewrite Hs, Ho. cbn.
  by rewrite decide_True.
Qed.

(** The centre the composer's model gives a pixel is the middle of what the
    pixel covers. *)
Lemma pixel_centre_middle (e : span) (n c : nat) :
  (0 < n)%nat ->
  pixel_centre (Fin (span_lo e)) (Fin (span_hi e)) n c ≡
    Fin ((span_lo (nth_pixel e n c) + span_hi (nth_pixel e n c)) / 2).
Proof.
  intros Hn. assert (0 < inject_Z (Z.of_nat n)) as Hq by (apply inject_Z_pos; lia).
  unfold pixel_centre, of_int. cbn [fsub fadd fneg].
  rewrite fdiv_Fin by lra. cbn [fmul fadd]. apply Fin_equiv.
  unfold nth_pixel, pixel_width, width; cbn [span_lo span_hi]. field. lra.
Qed.

(** ** The samples of the map on the axes *)

(** The coordinate of the index [c] of the grid, with the offset, is the
    point [c] of the 200 steps of the side. *)
Lemma grid_coord_sample (l d : Q) (c : nat) :
  fadd (grid_coord map_N (Fin l) (Z.of_nat c)) (Fin d) ≡
    Fin (nth_sample (side l d) 200 c).
Proof.
  rewrite grid_coord_Fin by done. apply Fin_equiv.
  unfold nth_sample. rewrite side_pixel_width. unfold map_N; cbn [side span_lo].
  change (inject_Z (Z.of_nat 200)) with (inject_Z 200). field.
Qed.

#[export] Instance near_proper : Proper ((≡) ==> Qeq ==> Qeq ==> Qeq ==> iff) near.
Proof.
  assert (forall p q x x' y y' e e', p ≡ q -> x == x' -> y == y' -> e == e' ->
    near p x y e -> near q x' y' e') as Himp.
  { intros p q x x' y y' e e' Hpq Hx Hy He (px & py & Hpx & Hpy & Hbx & Hby).
    exists px, py. destruct Hpq as (Hqx & Hqy & _).
    rewrite <- Hqx, <- Hqy, <- Hx, <- Hy, <- He. done. }
  intros p q Hpq x x' Hx y y' Hy e e' He.
  split; apply Himp; done.
Qed.

(** The sample shown by the pixel under a point of the image is within one
    pixel of that point, along x and along y. *)
Lemma sample_point_near (l dx dy x y : Q) :
  0 < l -> x ∈ side l dx -> y ∈ side l dy ->
  let c := pixel_at (side l dx) 201 x in
  let r := pixel_at (side l dy) 201 y in
  (r < 201)%nat /\ (c < 201)%nat /\
  near (sample_point map_N (Fin l) (Fin dx) (Fin dy) c r) x y (l / 201).
Proof.
  intros Hl Hx Hy c r.
  destruct (sample_near (side l dx) 200 x) as [Hc Hcx];
    [by rewrite side_width|lia|done|].
  destruct (sample_near (side l dy) 200 y) as [Hr Hry];
    [by rewrite side_width|lia|done|].
  rewrite side_pixel_width in Hcx, Hry.
  split; [subst r; lia|]. split; [subst c; lia|].
  exists (nth_sample (side l dx) 200 c), (nth_sample (side l dy) 200 r).
  split_and!; [| |done..]; (split; [done|]); cbn; apply grid_coord_sample.
Qed.

(** ** What the axes show *)

(** Where the marker [k] of the first collection of the axes is. *)
Definition marker_at (a : pyplot.axes) (k : nat) : option (Q * Q) :=
  coll ← head (pyplot.ax_collections a);
  match pyplot.sc_x coll !! k, pyplot.sc_y coll !! k with
  | Some (Fin x), Some (Fin y) => Some (x, y)
  | _, _ => None
  end.

(** The value of the first image of the axes at the point [(x, y)]. *)
Definition image_at (a : pyplot.axes) (x y : Q) : option logval :=
  im ← head (pyplot.ax_images a);
  '(r, c) ← pixel_under im x y;
  numpy.get (pyplot.im_data im) r c.

Lemma marker_at_Some (a : pyplot.axes) (coll : pyplot.collection) (k : nat) (x y : Q) :
  pyplot.ax_collections a = [coll] ->
  pyplot.sc_x coll !! k = Some (Fin x) -> pyplot.sc_y coll !! k = Some (Fin y) ->
  marker_at a k = Some (x, y).
Proof. intros Ha Hx Hy. unfold marker_at. rewrite Ha. cbn. by rewrite Hx, Hy. Qed.

Lemma image_at_Some (a : pyplot.axes) (im : pyplot.image) (x y : Q) (r c : nat) :
  pyplot.ax_images a = [im] -> pixel_under im x y = Some (r, c) ->
  image_at a x y = numpy.get (pyplot.im_data im) r c.
Proof. intros Ha Hp. unfold image_at. rewrite Ha. cbn. by rewrite Hp. Qed.

(** ** The orientation contract *)

(** The marker [k] of a list of coordinates that are those of the stars. *)
Lemma marker_lookup (xs : list fval) (g : particles.particle -> fval)
    (l : list particles.particle) (k : nat) (a : particles.particle) (q : Q) :
  xs ≡ g <$> l -> l !! k = Some a -> g a = Fin q ->
  exists m, xs !! k = Some (Fin m) /\ m == q.
Proof.
  intros Hxs Hk Hg. pose proof (list_lookup_proper k _ _ Hxs) as Hl.
  rewrite list_lookup_fmap, Hk in Hl. cbn in Hl. rewrite Hg in Hl.
  inversion Hl as [v ? Hv Hvk|]; subst.
  apply equiv_Fin_l in Hv as (m & -> & Hm). by exists m.
Qed.

(** The entry of the image of the composer drawn over a point within its
    limits, with the sample it shows. *)
Lemma image_under (f : field) (l dx dy : Q) (offset_x offset_y : option sq)
    (x y x' y' : Q) :
  units.u_dim (f_unit f) = units.density_dim -> 0 < l ->
  offset_pc offset_x = Ok (Fin dx) -> offset_pc offset_y = Ok (Fin dy) ->
  x ∈ side l dx -> y ∈ side l dy -> x' == x -> y' == y ->
  exists im r c p,
    density_image f (Fin l) offset_x offset_y = Ok im /\
    pixel_under im x' y' = Some (r, c) /\
    numpy.get (pyplot.im_data im) r c =
      Some (log_pixel (density_factor (f_unit f)) (density_at f p)) /\
    near p x y (l / 201).
Proof.
  intros Hdim Hl Hdx Hdy Hx Hy Ex Ey.
  destruct (density_image_field f (Fin l) _ _ _ _ Hdim Hdx Hdy)
    as (im & Him & Hext & Hshape & Horigin & Hpix).
  destruct (image_spans_side im l dx dy Hext) as (ex & ey & Hspans & Eex & Eey).
  destruct (sample_point_near l dx dy x y Hl Hx Hy) as (Hr & Hc & Hnear).
  destruct (Hpix _ _ Hr Hc) as (p & Hp & Hpe).
  eexists im, _, _, p. split_and!; [done| |done|by rewrite Hpe].
  rewrite (pixel_under_lower im ex ey) by (by rewrite ?Ex, ?Ey, ?Eex, ?Eey).
  unfold numpy.nrows, numpy.ncols. rewrite Hshape. cbn [fst snd].
  by rewrite Eex, Eey, Ex, Ey.
Qed.

(** On the axes of the scene the marker of a star is at the position of the
    star, within the limits of the image or not. *)
Lemma scene_marker `{FloatFormat} (time : sq) (f : field) (L : fval)
    (offset_x offset_y : option sq) (title : string) (im : pyplot.image)
    (stars : list particles.particle) (k : nat) (m : fval) (sx sy : Q) :
  density_image f L offset_x offset_y = Ok im ->
  stars !! k = Some (particles.Particle m (Fin sx) (Fin sy)) ->
  let a := (scene time f (particles.in_MSun_parsec stars) L
              offset_x offset_y title).1 in
  pyplot.ax_images a = [im] /\
  exists mx my, marker_at a k = Some (mx, my) /\ mx == sx /\ my == sy.
Proof.
  intros Him Hk a.
  destruct (star_markers_parsec stars) as (xs & ys & Hcoll & Hxs & Hys).
  { by intros ->. }
  destruct (marker_lookup xs _ _ k _ sx Hxs Hk eq_refl) as (mx & Hmx & Emx).
  destruct (marker_lookup ys _ _ k _ sy Hys Hk eq_refl) as (my & Hmy & Emy).
  destruct (scene_drawn time f _ L offset_x offset_y title im _ Him Hcoll)
    as [Hims Hcolls].
  split; [done|]. exists mx, my. split; [|done].
  by apply (marker_at_Some a _ k mx my Hcolls).
Qed.

(** The image of the composer has nothing under a point outside its
    limits. *)
Lemma image_outside (f : field) (l dx dy : Q) (offset_x offset_y : option sq)
    (x y x' y' : Q) :
  units.u_dim (f_unit f) = units.density_dim ->
  offset_pc offset_x = Ok (Fin dx) -> offset_pc offset_y = Ok (Fin dy) ->
  ~ (x ∈ side l dx /\ y ∈ side l dy) -> x' == x -> y' == y ->
  exists im,
    density_image f (Fin l) offset_x offset_y = Ok im /\ pixel_under im x' y' = None.
Proof.
  intros Hdim Hdx Hdy Hout Ex Ey.
  destruct (density_image_field f (Fin l) _ _ _ _ Hdim Hdx Hdy)
    as (im & Him & Hext & _).
  destruct (image_spans_side im l dx dy Hext) as (ex & ey & Hspans & Eex & Eey).
  exists im. split; [done|]. unfold pixel_under. rewrite Hspans. cbn.
  rewrite decide_False; [done|]. by rewrite Ex, Ey, Eex, Eey.
Qed.

(** The orientation contract of the composer. For a field given point
    by point, a side [l > 0] and a star [k] within the limits of the image,
    on the axes the function leaves the marker of the star is at the
    position of the star, and the image under the marker is the logarithm
    of the density sampled within one pixel, [l / 201] parsec along x and
    along y, of the star: the transposition of the map, the first row at
    the bottom and the two negations of x together keep the stars on the
    gas they sit in, whatever the title. *)
Theorem star_over_its_sample `{FloatFormat} (time : sq) (f : field) (l dx dy : Q)
    (offset_x offset_y : option sq) (title : string)
    (stars : list particles.particle) (k : nat) (m : fval) (sx sy : Q) :
  units.u_dim (f_unit f) = units.density_dim -> 0 < l ->
  offset_pc offset_x = Ok (Fin dx) -> offset_pc offset_y = Ok (Fin dy) ->
  stars !! k = Some (particles.Particle m (Fin sx) (Fin sy)) ->
  sx ∈ side l dx -> sy ∈ side l dy ->
  let a := (scene time f (particles.in_MSun_parsec stars) (Fin l)
              offset_x offset_y title).1 in
  exists mx my p,
    marker_at a k = Some (mx, my) /\ mx == sx /\ my == sy /\
    image_at a mx my =
      Some (log_pixel (density_factor (f_unit f)) (density_at f p)) /\
    near p sx sy (l / 201).
Proof.
  intros Hdim Hl Hdx Hdy Hk Hsx Hsy a.
  destruct (density_image_field f (Fin l) _ _ _ _ Hdim Hdx Hdy) as (im0 & Him0 & _).
  destruct (scene_marker time f (Fin l) offset_x offset_y title im0 stars k m sx sy
    Him0 Hk) as (Hims & mx & my & Hm & Emx & Emy).
  destruct (image_under f l dx dy _ _ sx sy mx my Hdim Hl Hdx Hdy Hsx Hsy Emx Emy)
    as (im & r & c & p & Him & Hunder & Hpix & Hnear).
  assert (im = im0) as -> by congruence.
  exists mx, my, p. split_and!; [done..| |done].
  by rewrite (image_at_Some a im0 mx my r c Hims Hunder).
Qed.

Lemma star_over_its_sample_witness :
  let a := (scene (H1 := fraction_str) (units.Quantity (Fin 1) units.Myr)
              (uniform (Fin 1) units.amu_per_cm3)
              (particles.in_MSun_parsec
                 [particles.Particle (Fin 1) (Fin 2) (Fin 3);
                  particles.Particle (Fin 3) (Fin (-1)) (Fin 0)])
              (Fin 10) None None "").1 in
  exists mx my p,
    marker_at a 0 = Some (mx, my) /\ mx == 2 /\ my == 3 /\
    image_at a mx my =
      Some (log_pixel (density_factor units.amu_per_cm3)
              (density_at (uniform (Fin 1) units.amu_per_cm3) p)) /\
    near p 2 3 (10 / 201).
Proof.
  apply (star_over_its_sample (H := fraction_str) (units.Quantity (Fin 1) units.Myr)
           (uniform (Fin 1) units.amu_per_cm3) 10 0 0 None None ""
           [particles.Particle (Fin 1) (Fin 2) (Fin 3);
            particles.Particle (Fin 3) (Fin (-1)) (Fin 0)] 0 (Fin 1) 2 3);
    try done; by vm_compute.
Defined.

(** C29. A star outside the limits of the image is scattered all the
    same, at its position, and has no pixel of the image under it. *)
Theorem star_outside_image `{FloatFormat} (time : sq) (f : field) (l dx dy : Q)
    (offset_x offset_y : option sq) (title : string)
    (stars : list particles.particle) (k : nat) (m : fval) (sx sy : Q) :
  units.u_dim (f_unit f) = units.density_dim ->
  offset_pc offset_x = Ok (Fin dx) -> offset_pc offset_y = Ok (Fin dy) ->
  stars !! k = Some (particles.Particle m (Fin sx) (Fin sy)) ->
  ~ (sx ∈ side l dx /\ sy ∈ side l dy) ->
  let a := (scene time f (particles.in_MSun_parsec stars) (Fin l)
              offset_x offset_y title).1 in
  exists mx my,
    marker_at a k = Some (mx, my) /\ mx == sx /\ my == sy /\
    image_at a mx my = None.
Proof.
  intros Hdim Hdx Hdy Hk Hout a.
  destruct (density_image_field f (Fin l) _ _ _ _ Hdim Hdx Hdy) as (im0 & Him0 & _).
  destruct (scene_marker time f (Fin l) offset_x offset_y title im0 stars k m sx sy
    Him0 Hk) as (Hims & mx & my & Hm & Emx & Emy).
  destruct (image_outside f l dx dy _ _ sx sy mx my Hdim Hdx Hdy Hout Emx Emy)
    as (im & Him & Hunder).
  assert (im = im0) as -> by congruence.
  exists mx, my. split_and!; [done..|].
  unfold image_at. subst a. rewrite Hims. cbn. by rewrite Hunder.
Qed.

Lemma star_outside_image_witness :
  let a := (scene (H1 := fraction_str) (units.Quantity (Fin 1) units.Myr)
              (uniform (Fin 1) units.amu_per_cm3)
              (particles.in_MSun_parsec [particles.Particle (Fin 1) (Fin 7) (Fin 3)])
              (Fin 10) None None "").1 in
  exists mx my,
    marker_at a 0 = Some (mx, my) /\ mx == 7 /\ my == 3 /\ image_at a mx my = None.
Proof.
  apply (star_outside_image (H := fraction_str) (units.Quantity (Fin 1) units.Myr)
           (uniform (Fin 1) units.amu_per_cm3) 10 0 0 None None ""
           [particles.Particle (Fin 1) (Fin 7) (Fin 3)] 0 (Fin 1) 7 3); try done.
  intros [[_ H] _]. revert H. by vm_compute.
Defined.

(** ** The direction of the axes *)

(** The limits of the axes of the scene: those of the image, x reversed. *)
Lemma scene_limits `{FloatFormat} (time : sq) (f : field) (L : fval)
    (offset_x offset_y : option sq) (title : string)
    (stars : particles.particle_set) (im : pyplot.image)
    (c : option pyplot.collection) :
  density_image f L offset_x offset_y = Ok im -> star_markers stars = Ok c ->
  let a := (scene time f stars L offset_x offset_y title).1 in
  let '(xmin, xmax, ymin, ymax) := pyplot.im_extent im in
  pyplot.ax_xlim a = Some (xmax, xmin) /\ pyplot.ax_ylim a = Some (ymin, ymax).
Proof.
  intros Him Hc. unfold scene. rewrite Him, Hc.
  destruct (plot_title time title); cbn [fst]; unfold drawn;
    by destruct (pyplot.im_extent im) as [[[? ?] ?] ?].
Qed.

(** C30. East is left. On the axes the composer leaves for a side
    [l > 0], the limits of x are given from the larger to the smaller, so
    of two points the one with the larger x is drawn nearer to the left
    end, image and markers alike; y runs upwards. The axes are mirrored as
    a whole: the registration of stars and gas does not depend on it. *)
Theorem east_is_left `{FloatFormat} (time : sq) (f : field) (l dx dy : Q)
    (offset_x offset_y : option sq) (title : string)
    (stars : list particles.particle) :
  units.u_dim (f_unit f) = units.density_dim -> 0 < l ->
  offset_pc offset_x = Ok (Fin dx) -> offset_pc offset_y = Ok (Fin dy) ->
  let a := (scene time f (particles.in_MSun_parsec stars) (Fin l)
              offset_x offset_y title).1 in
  exists left right bottom top,
    pyplot.ax_xlim a = Some (Fin left, Fin right) /\
    pyplot.ax_ylim a = Some (Fin bottom, Fin top) /\
    (forall x x', x < x' -> screen (left, right) x' < screen (left, right) x) /\
    (forall y y', y < y' -> screen (bottom, top) y < screen (bottom, top) y').
Proof.
  intros Hdim Hl Hdx Hdy a.
  destruct (density_image_field f (Fin l) _ _ _ _ Hdim Hdx Hdy)
    as (im & Him & Hext & _).
  destruct (star_markers_is_Ok (particles.in_MSun_parsec stars)) as [c Hc].
  pose proof (scene_limits time f (Fin l) offset_x offset_y title _ im c Him Hc) as Hlim.
  destruct (image_spans_side im l dx dy Hext) as (ex & ey & Hspans & [Exl Exh] & [Eyl Eyh]).
  unfold image_spans in Hspans. fold a in Hlim.
  destruct (pyplot.im_extent im) as [[[[x0| | |] [x1| | |]] [y0| | |]] [y1| | |]];
    try done.
  injection Hspans as <- <-. destruct Hlim as [Hx Hy].
  cbn [span_lo span_hi] in Exl, Exh, Eyl, Eyh.
  pose proof (side_width l dx) as Hwx. pose proof (side_width l dy) as Hwy.
  unfold width in Hwx, Hwy.
  exists x1, x0, y0, y1. split_and!; [done..| |].
  - intros x x' Hlt. apply screen_reversed; [lra|done].
  - intros y y' Hlt. apply screen_forward; [lra|done].
Qed.

Lemma east_is_left_witness :
  let a := (scene (H1 := fraction_str) (units.Quantity (Fin 1) units.Myr)
              (uniform (Fin 1) units.amu_per_cm3)
              (particles.in_MSun_parsec []) (Fin 10) None None "").1 in
  exists left right bottom top,
    pyplot.ax_xlim a = Some (Fin left, Fin right) /\
    pyplot.ax_ylim a = Some (Fin bottom, Fin top) /\
    (forall x x', x < x' -> screen (left, right) x' < screen (left, right) x) /\
    (forall y y', y < y' -> screen (bottom, top) y < screen (bottom, top) y').
Proof.
  apply (east_is_left (H := fraction_str) (units.Quantity (Fin 1) units.Myr)
           (uniform (Fin 1) units.amu_per_cm3) 10 0 0 None None "" []);
    try done; by vm_compute.
Defined.
