(* ===== verification/Session.v ===== *)
(** * Session: the calls the composer makes, and sessions of calls

    [plot_calls] is the composer of [plotting_class.py] as the list of the
    calls it makes on the backend, with the exception it ends with if it has
    one. The composer run from a backend is the replay of this list
    ([plot_runs_its_calls]), and the list is a path of the transition system
    of [PyplotSpec]: no call of it relies on a figure or an axes the backend
    would have to make by itself ([plot_calls_are_steps]).

    A session is what a driver does with the backend over time: calls of its
    own and calls of the composer, in any order, each from the state the one
    before left, whether that one returned or raised. [reachable] are the
    states of sessions; the invariant of the backend holds in all of them, a
    call of the composer opens one figure there, and a lawful call ends with
    every open figure displayed. After calls of the composer in a row the
    state is made of their scenes ([plots_session_state]): one figure per
    call, each with the axes its scene describes, and displayed are the
    figures that were open when the last call that returned ended. *)

From stdpp Require Import gmap.
From S2P Require Import Prelude Floats Arrays Units Hydro MakeMap Stars Pyplot.
From S2P Require Import PyplotSpec PlotHydro.

(** ** The calls of the composer *)

(** The call of [scatter] that draws the markers [c]. *)
Definition scatter_call (c : pyplot.collection) : call :=
  Cscatter (pyplot.sc_x c) (pyplot.sc_y c) (pyplot.sc_s c) (pyplot.sc_c c)
           (pyplot.sc_lw c).

(** The calls that frame the image between the limits [e]: the x axis from
    [xmax] down to [xmin]. *)
Definition frame_calls (e : fval * fval * fval * fval) : list call :=
  let '(xmin, xmax, ymin, ymax) := e in
  [Cxlim xmax xmin; Cylim ymin ymax; Cxlabel "x [pc]"; Cylabel "y [pc]"].

(** The result a list of calls ends with. *)
Definition ending (e : option exn) : result unit :=
  match e with
  | None => Ok tt
  | Some e => Raise e
  end.

(** The replay of a list of calls and its ending. *)
Definition replay (tr : list call * option exn) : pyplot.py unit :=
  exec_all tr.1;; pyplot.lift (ending tr.2).

(** The calls [plot_hydro_and_stars] makes, in the order it makes them, when
    [pyplot.figure] returns the number [fig]; the exception that ends them. *)
Definition plot_calls {S T} `{FieldEvaluator S} `{particles.StarCollection T}
    `{FloatFormat} (time : sq) (sph : S) (stars : T) (L : fval)
    (offset_x offset_y : option sq) (title : string) (fig : nat) :
    list call * option exn :=
  let opening := [Cfigure figsize; Cadd_subplot fig] in
  match density_image sph L offset_x offset_y with
  | Raise e => (opening, Some e)
  | Ok im =>
      let image :=
        opening ++ [Cimshow (fig, 0%nat) (pyplot.im_data im) (pyplot.im_extent im)
                            (pyplot.im_origin im)] in
      match star_markers stars with
      | Raise e => (image, Some e)
      | Ok c =>
          let framed :=
            image ++ (scatter_call <$> option_list c) ++
            frame_calls (pyplot.im_extent im) in
          match plot_title time title with
          | Raise e => (framed, Some e)
          | Ok t => (framed ++ [Ctitle t; Cshow], None)
          end
      end
  end.

(** ** Sessions *)

Section session.
Context {S T : Type} `{FieldEvaluator S} `{particles.StarCollection T} `{FloatFormat}.

(** The arguments of one call of the composer. *)
Record plot_args : Type := PlotArgs {
  arg_time : sq;
  arg_sph : S;
  arg_stars : T;
  arg_L : fval;
  arg_filename : option string;
  arg_offset_x : option sq;
  arg_offset_y : option sq;
  arg_title : string;
}.

Definition plot (a : plot_args) : pyplot.py unit :=
  plot_hydro_and_stars (arg_time a) (arg_sph a) (arg_stars a) (arg_L a)
    (arg_filename a) (arg_offset_x a) (arg_offset_y a) (arg_title a).

(** The scene of a call: the axes it leaves and the exception it ends
    with. *)
Definition plot_scene (a : plot_args) : pyplot.axes * option exn :=
  scene (arg_time a) (arg_sph a) (arg_stars a) (arg_L a)
        (arg_offset_x a) (arg_offset_y a) (arg_title a).

(** The number of the last figure displayed when the calls [l] are made in
    a row with [n] figures open: the figure of the last call that
    returned, if one did. *)
Fixpoint last_shown (n : nat) (l : list plot_args) : option nat :=
  match l with
  | [] => None
  | a :: l =>
      match last_shown (Datatypes.S n) l with
      | Some k => Some k
      | None =>
          match (plot_scene a).2 with None => Some (Datatypes.S n) | Some _ => None end
      end
  end.

(** What a driver does: a call on the backend or a call of the composer. *)
Inductive event : Type :=
  | Call (c : call)
  | Plot (a : plot_args).

Definition perform (e : event) : pyplot.py unit :=
  match e with
  | Call c => exec c
  | Plot a => plot a
  end.

(** The backend after an event, returned or raised. *)
Definition after (e : event) (b : pyplot.backend) : pyplot.backend :=
  (pyplot.run (perform e) b).2.

(** The states of sessions that start with no figure open. *)
Inductive reachable : pyplot.backend -> Prop :=
  | reachable_initial : reachable pyplot.initial
  | reachable_after b e : reachable b -> reachable (after e b).

(** The calls of [a] are lawful: its code and its stars keep the laws of
    their interfaces, its offsets are lengths, it has a title or its time is
    a time. *)
Record lawful (a : plot_args) : Prop := Lawful {
  lawful_sph : HydroLaws (arg_sph a);
  lawful_stars : particles.StarLaws (arg_stars a);
  lawful_offset_x : offset_ok (arg_offset_x a);
  lawful_offset_y : offset_ok (arg_offset_y a);
  lawful_title :
    arg_title a <> "" \/ units.u_dim (units.unit_of (arg_time a)) = units.time_dim;
}.

End session.

Arguments plot_args S T : clear implicits.
Arguments event S T : clear implicits.

(** ** The composer and its calls *)

Section calls.
Context {S T : Type} `{FieldEvaluator S} `{particles.StarCollection T} `{FloatFormat}.
Context (time : sq) (sph : S) (stars : T) (L : fval) (filename : option string).
Context (offset_x offset_y : option sq) (title : string) (b0 : pyplot.backend).

Let tr := plot_calls time sph stars L offset_x offset_y title (pyplot.next_num b0).
Let sc := scene time sph stars L offset_x offset_y title.

Lemma steps_frame a e t :
  steps (pyplot.single figsize a b0) (frame_calls e ++ [Ctitle t; Cshow])
    (pyplot.displayed (pyplot.single figsize
       (pyplot.set_title t (pyplot.set_ylabel "y [pc]" (pyplot.set_xlabel "x [pc]"
          (pyplot.set_ylim (e.1.2, e.2) (pyplot.set_xlim (e.1.1.2, e.1.1.1) a))))) b0)).
Proof.
  destruct e as [[[xmin xmax] ymin] ymax].
  repeat (eapply steps_current_single; [reflexivity|]).
  apply steps_one, step_show.
Qed.

Lemma steps_frame_raised a e :
  steps (pyplot.single figsize a b0) (frame_calls e)
    (pyplot.single figsize
       (pyplot.set_ylabel "y [pc]" (pyplot.set_xlabel "x [pc]"
          (pyplot.set_ylim (e.1.2, e.2) (pyplot.set_xlim (e.1.1.2, e.1.1.1) a)))) b0).
Proof.
  destruct e as [[[xmin xmax] ymin] ymax].
  repeat (eapply steps_current_single; [reflexivity|]). constructor.
Qed.

Lemma steps_scatter a c :
  steps (pyplot.single figsize a b0) (scatter_call <$> option_list c)
    (pyplot.single figsize (from_option pyplot.add_collection id c a) b0).
Proof.
  destruct c as [[x y s c lw]|]; [|constructor].
  by eapply steps_current_single; [|constructor].
Qed.

Lemma steps_image im :
  steps b0 [Cfigure figsize; Cadd_subplot (pyplot.next_num b0);
            Cimshow (pyplot.next_num b0, 0%nat) (pyplot.im_data im)
              (pyplot.im_extent im) (pyplot.im_origin im)]
    (pyplot.single figsize (imaged im) b0).
Proof.
  apply (steps_app _ [_; _] _ [_] _ (steps_open _ _)), steps_one.
  destruct im as [d e o]. apply step_imshow_single.
Qed.

(** The calls of the composer are a path from [b0] to the state its scene
    describes. *)
Lemma plot_calls_path : steps b0 tr.1 (outcome sc b0).2 /\ ending tr.2 = (outcome sc b0).1.
Proof.
  subst tr sc. unfold plot_calls, scene, outcome.
  destruct (density_image _ _ _ _) as [im|e]; [|split; [apply steps_open|done]].
  destruct (star_markers stars) as [c|e]; [|split; [apply steps_image|done]].
  destruct (plot_title time title) as [t|e]; cbn [fst snd]; (split; [|done]).
  - rewrite <- !(assoc_L (++)). apply (steps_app _ [_; _; _] _ _ _ (steps_image im)).
    eapply steps_app; [apply steps_scatter|].
    destruct im as [d [[[xmin xmax] ymin] ymax] o], c; apply steps_frame.
  - rewrite <- !(assoc_L (++)). apply (steps_app _ [_; _; _] _ _ _ (steps_image im)).
    eapply steps_app; [apply steps_scatter|].
    destruct im as [d [[[xmin xmax] ymin] ymax] o], c; apply steps_frame_raised.
Qed.

End calls.

(** C16. The composer is the replay of its calls: run from any backend,
    [plot_hydro_and_stars] ends with the result and in the state in which
    the list [plot_calls] of its calls ends when the calls are made one
    after the other from that backend, the number of the new figure being
    the one [pyplot.figure] returns there. *)
Theorem plot_runs_its_calls {S T} `{FieldEvaluator S} `{particles.StarCollection T}
    `{FloatFormat} (time : sq) (sph : S) (stars : T) (L : fval)
    (filename : option string) (offset_x offset_y : option sq) (title : string)
    (b0 : pyplot.backend) :
  pyplot.run
    (plot_hydro_and_stars time sph stars L filename offset_x offset_y title) b0 =
  pyplot.run
    (replay (plot_calls time sph stars L offset_x offset_y title (pyplot.next_num b0)))
    b0.
Proof.
  destruct (plot_calls_path time sph stars L offset_x offset_y title b0) as [Hp He].
  unfold replay. rewrite (pyplot.run_bind_Ok _ _ _ _ _ (steps_exec_all _ _ _ Hp)).
  rewrite plot_run. cbn [pyplot.run pyplot.lift]. rewrite He. by destruct (outcome _ _).
Qed.

(** C40. Every call of the composer finds what it acts on: the list of its
    calls is a path of the transition system of the backend, in which the
    calls on the current axes are steps only when a current figure with an
    axes exists. The path leads from the backend the composer starts in to
    the one it ends in, so the backend never has to make a figure or an axes
    on behalf of [scatter], [xlim], [ylim], the labels or the title. *)
Theorem plot_calls_are_steps {S T} `{FieldEvaluator S} `{particles.StarCollection T}
    `{FloatFormat} (time : sq) (sph : S) (stars : T) (L : fval)
    (filename : option string) (offset_x offset_y : option sq) (title : string)
    (b0 : pyplot.backend) :
  steps b0
    (plot_calls time sph stars L offset_x offset_y title (pyplot.next_num b0)).1
    (pyplot.run
       (plot_hydro_and_stars time sph stars L filename offset_x offset_y title) b0).2.
Proof. rewrite plot_run. apply plot_calls_path. Qed.

(** ** Invariants of sessions *)

Section sessions.
Context {S T : Type} `{FieldEvaluator S} `{particles.StarCollection T} `{FloatFormat}.
Implicit Types (a : plot_args S T) (e : event S T) (b : pyplot.backend).

(** The state the composer ends in is a new figure with one axes, displayed
    or not. *)
Lemma after_plot a b :
  exists ax, after (Plot a) b = pyplot.single figsize ax b \/
             after (Plot a) b = pyplot.displayed (pyplot.single figsize ax b).
Proof.
  unfold after, perform, plot. rewrite plot_run. unfold outcome.
  destruct (scene _ _ _ _ _ _ _) as [ax [e|]]; exists ax; auto.
Qed.

Lemma plot_preserves a : preserves backend_ok (plot a).
Proof.
  intros b Hb. destruct (after_plot a b) as [ax Hax]. unfold after, perform in Hax.
  destruct (pyplot.run (plot a) b) as [[[]|e] b']; cbn [snd] in Hax;
    destruct Hax as [->| ->]; auto using backend_ok_single, backend_ok_displayed.
Qed.

Lemma perform_preserves e : preserves backend_ok (perform e).
Proof. destruct e; [apply exec_preserves|apply plot_preserves]. Qed.

Lemma after_ok e b : backend_ok b -> backend_ok (after e b).
Proof.
  intros Hb. pose proof (perform_preserves e b Hb) as He. unfold after.
  by destruct (pyplot.run (perform e) b) as [[[]|x] b'].
Qed.

Lemma reachable_ok b : reachable b -> backend_ok b.
Proof. induction 1; [apply backend_ok_initial|by apply after_ok]. Qed.

Lemma figs_after_plot a b :
  dom (pyplot.figs (after (Plot a) b)) = dom (pyplot.figs b) ∪ {[pyplot.next_num b]} /\
  pyplot.current (after (Plot a) b) = Some (pyplot.next_num b).
Proof.
  destruct (after_plot a b) as [ax [-> | ->]];
    cbn [pyplot.figs pyplot.current pyplot.displayed pyplot.single];
    rewrite dom_insert_L; (split; [set_solver|done]).
Qed.

(** Calls of the composer in a row. *)
Definition plots (l : list (plot_args S T)) (b : pyplot.backend) : pyplot.backend :=
  foldl (fun b a => after (Plot a) b) b l.

Lemma plots_reachable l b : reachable b -> reachable (plots l b).
Proof.
  revert b. induction l as [|a l IH]; intros b Hb; [done|].
  apply IH. by constructor.
Qed.

(** After [k] calls in a row [k] more figures are open, whatever the calls
    returned. *)
Lemma plots_size l b :
  reachable b -> size (pyplot.figs (plots l b)) = (size (pyplot.figs b) + length l)%nat.
Proof.
  revert b. induction l as [|a l IH]; intros b Hb; cbn [plots foldl length]; [lia|].
  fold (plots l (after (Plot a) b)). rewrite IH by by constructor.
  destruct (figs_after_plot a b) as [Hdom _].
  rewrite <- !size_dom, Hdom, size_union, size_singleton
    by (apply disjoint_singleton_r, not_elem_of_dom, pyplot.next_num_fresh).
  lia.
Qed.

(** ** The state of a session of plots *)

Lemma after_plot_scene a b : after (Plot a) b = (outcome (plot_scene a) b).2.
Proof. unfold after, perform, plot, plot_scene. by rewrite plot_run. Qed.

(** One call: the new figure holds the axes of the scene. *)
Lemma figs_after_plot_scene a b :
  backend_ok b ->
  pyplot.figs (after (Plot a) b) =
    <[Datatypes.S (size (pyplot.figs b)) := pyplot.Figure figsize [(plot_scene a).1]]>
      (pyplot.figs b).
Proof.
  intros Hb. rewrite after_plot_scene, <- (next_num_size b Hb). unfold outcome.
  by destruct (plot_scene a).2.
Qed.

Lemma size_after_plot a b :
  backend_ok b ->
  size (pyplot.figs (after (Plot a) b)) = Datatypes.S (size (pyplot.figs b)).
Proof.
  intros Hb. rewrite figs_after_plot_scene, map_size_insert_None; [done| |done].
  rewrite <- (next_num_size b Hb). apply pyplot.next_num_fresh.
Qed.

(** One call: when it returns, every open figure is displayed; when it
    raises, none is that was not. *)
Lemma shown_after_plot a b :
  backend_ok b ->
  pyplot.shown (after (Plot a) b) =
    match (plot_scene a).2 with
    | None => set_seq 1 (Datatypes.S (size (pyplot.figs b)))
    | Some _ => pyplot.shown b
    end.
Proof.
  intros Hb. rewrite after_plot_scene. unfold outcome.
  destruct (plot_scene a).2; [done|]. cbn [snd].
  rewrite pyplot.shown_displayed_single, (next_num_size b Hb).
  destruct (proj1 (backend_ok_check b) Hb) as (Hdom & _ & Hshown).
  rewrite set_seq_S_end_union_L, <- Hdom. set_solver.
Qed.

(** A lawful call returns. *)
Lemma lawful_returns a : lawful a -> (plot_scene a).2 = None.
Proof.
  intros [Hsph Hstars Hox Hoy Ht]. unfold plot_scene, scene.
  destruct (density_image_lawful (arg_sph a) (arg_L a) _ _ Hox Hoy) as (im & -> & _).
  destruct (star_markers_is_Ok (arg_stars a)) as [c ->].
  by destruct (plot_title_is_Ok (arg_time a) (arg_title a) Ht) as [t ->].
Qed.

(** When the last call returns, its figure is the last one displayed. *)
Lemma last_shown_last n l a :
  (plot_scene a).2 = None ->
  last_shown n (l ++ [a]) = Some (Datatypes.S (n + length l)).
Proof.
  intros Ha. revert n. induction l as [|a' l IH]; intros n; cbn [last_shown app length].
  - by rewrite Ha, Nat.add_0_r.
  - by rewrite IH, Nat.add_succ_r.
Qed.

Lemma plots_cons a l b : plots (a :: l) b = plots l (after (Plot a) b).
Proof. done. Qed.

Lemma plots_snoc l a b : plots (l ++ [a]) b = after (Plot a) (plots l b).
Proof. unfold plots. by rewrite foldl_app. Qed.

Lemma plots_ok l b : backend_ok b -> backend_ok (plots l b).
Proof. revert b. induction l as [|a l IH]; intros b Hb; [done|]. by apply IH, after_ok. Qed.

(** The figures that were open stay as they were. *)
Lemma plots_old l b k :
  backend_ok b -> (k <= size (pyplot.figs b))%nat ->
  pyplot.figs (plots l b) !! k = pyplot.figs b !! k.
Proof.
  revert b. induction l as [|a l IH]; intros b Hb Hk; [done|].
  rewrite plots_cons, IH; [|by apply after_ok|rewrite size_after_plot by done; lia].
  rewrite figs_after_plot_scene by done. apply lookup_insert_ne. lia.
Qed.

(** The figure of the call number [i] holds the axes of its scene. *)
Lemma plots_new l b i a :
  backend_ok b -> l !! i = Some a ->
  pyplot.figs (plots l b) !! Datatypes.S (size (pyplot.figs b) + i) =
    Some (pyplot.Figure figsize [(plot_scene a).1]).
Proof.
  revert b i. induction l as [|a' l IH]; intros b i Hb Hi; [done|].
  rewrite plots_cons. destruct i as [|i]; simplify_eq/=.
  - rewrite plots_old; [|by apply after_ok|rewrite size_after_plot by done; lia].
    by rewrite figs_after_plot_scene, Nat.add_0_r, lookup_insert_eq.
  - rewrite <- Nat.add_succ_comm, <- (size_after_plot a' b Hb).
    apply IH; [by apply after_ok|done].
Qed.

(** The figures displayed are those open when the last call returned. *)
Lemma plots_shown l b :
  backend_ok b ->
  pyplot.shown (plots l b) =
    from_option (set_seq 1) (pyplot.shown b) (last_shown (size (pyplot.figs b)) l).
Proof.
  revert b. induction l as [|a l IH]; intros b Hb; [done|].
  rewrite plots_cons, IH, size_after_plot by (done || by apply after_ok).
  cbn [last_shown]. destruct (last_shown _ l); [done|].
  rewrite shown_after_plot by done. by destruct (plot_scene a).2.
Qed.

(** The figure of the last call is the current one. *)
Lemma plots_current l b :
  reachable b -> l <> [] ->
  pyplot.current (plots l b) = Some (size (pyplot.figs b) + length l)%nat.
Proof.
  intros Hb Hl. destruct l as [|a l _] using rev_ind; [done|].
  rewrite plots_snoc, length_app, Nat.add_1_r, Nat.add_succ_r.
  destruct (figs_after_plot a (plots l b)) as [_ ->].
  rewrite next_num_size by by apply plots_ok, reachable_ok.
  by rewrite plots_size.
Qed.

End sessions.

(** C21. The state of a session is made of the scenes of its calls. When a
    driver, in a state with [n] figures open, calls the composer with the
    arguments [l] one after the other, returned or raised, it finds
    afterwards: one more figure for each call; the figures that were open
    as they were; in the figure [n + i + 1] one axes, the one the scene of
    the call number [i] describes; the figure of the last call as the
    current one; and as the figures displayed those that were open when
    the last call that returned ended, a figure made by a call that raised
    before it among them, none made after it. *)
Theorem plots_session_state {S T} `{FieldEvaluator S} `{particles.StarCollection T}
    `{FloatFormat} (l : list (plot_args S T)) (b : pyplot.backend) :
  reachable (S := S) (T := T) b ->
  let n := size (pyplot.figs b) in
  let b' := plots l b in
  size (pyplot.figs b') = (n + length l)%nat /\
  (forall k, (k <= n)%nat -> pyplot.figs b' !! k = pyplot.figs b !! k) /\
  (forall i a, l !! i = Some a ->
     pyplot.figs b' !! Datatypes.S (n + i) =
       Some (pyplot.Figure figsize [(plot_scene a).1])) /\
  (l <> [] -> pyplot.current b' = Some (n + length l)%nat) /\
  pyplot.shown b' = from_option (set_seq 1) (pyplot.shown b) (last_shown n l).
Proof.
  intros Hb n b'. pose proof (reachable_ok b Hb) as Hok. subst n b'.
  split_and!; [by apply plots_size| | |by apply plots_current|by apply plots_shown].
  - intros k Hk. by apply plots_old.
  - intros i a Hi. by apply plots_new.
Qed.

(** C33. A call of the composer opens one figure: in any state of a
    session with [n] figures open, after the call, returned or raised, the
    open figures are those that were open and the figure [n + 1], which is
    the current figure. The figures of a session add up: the code that
    would close the figure is commented out (line 95). *)
Theorem plot_opens_one_figure {S T} `{FieldEvaluator S} `{particles.StarCollection T}
    `{FloatFormat} (a : plot_args S T) (b : pyplot.backend) :
  reachable (S := S) (T := T) b ->
  let n := size (pyplot.figs b) in
  let b' := after (Plot a) b in
  dom (pyplot.figs b') = dom (pyplot.figs b) ∪ {[Datatypes.S n]} /\
  size (pyplot.figs b') = Datatypes.S n /\
  pyplot.current b' = Some (Datatypes.S n).
Proof.
  intros Hb n b'. subst n b'.
  destruct (figs_after_plot a b) as [Hdom Hcur].
  pose proof (plots_size [a] b Hb) as Hsize. cbn [plots foldl length] in Hsize.
  rewrite <- (next_num_size b) by by apply reachable_ok.
  split_and!; [done| |done]. rewrite next_num_size by by apply reachable_ok. lia.
Qed.

(** C27. A lawful call of the composer gets every open figure displayed: in
    any state of a session, when the code and the stars keep the laws of
    their interfaces, the offsets are lengths and there is a title or the
    time is a time, the call returns, and in the state it returns in the
    figures displayed are the open figures, the new one among them. *)
Theorem plot_displays_open_figures {S T} `{FieldEvaluator S}
    `{particles.StarCollection T} `{FloatFormat} (a : plot_args S T)
    (b : pyplot.backend) :
  reachable (S := S) (T := T) b -> lawful a ->
  exists b',
    pyplot.run (plot a) b = (Ok tt, b') /\
    pyplot.shown b' = dom (pyplot.figs b') /\
    pyplot.next_num b ∈ pyplot.shown b'.
Proof.
  intros Hb%reachable_ok [Hsph Hstars Hox Hoy Ht].
  destruct (star_markers_is_Ok (arg_stars a)) as [c Hc].
  destruct (plot_title_is_Ok (arg_time a) (arg_title a) Ht) as [t Htt].
  destruct (plot_run_lawful (arg_time a) (arg_sph a) (arg_stars a) (arg_L a)
    (arg_filename a) _ _ (arg_title a) b Hox Hoy c Hc) as (im & _ & _ & Hrun).
  rewrite Htt in Hrun. eexists. split; [exact Hrun|].
  rewrite pyplot.shown_displayed_single, pyplot.figs_displayed.
  unfold pyplot.single; cbn [pyplot.figs]. rewrite dom_insert_L.
  generalize (ok_shown b Hb).
  generalize (pyplot.shown b) (dom (pyplot.figs b)) (pyplot.next_num b).
  clear. set_solver.
Qed.

(** ** A session *)

(** A uniform cloud with a binary, plotted at one million years, and the
    same with an offset that is a velocity. *)
Definition cloud : plot_args field particles.particle_set :=
  PlotArgs (units.Quantity (Fin 1) units.Myr) (uniform (Fin 1) units.amu_per_cm3)
    particles.binary (Fin 10) None None None "".
Definition bad_cloud : plot_args field particles.particle_set :=
  PlotArgs (units.Quantity (Fin 1) units.Myr) (uniform (Fin 1) units.amu_per_cm3)
    particles.binary (Fin 10) None (Some (units.Quantity (Fin 1) units.kms)) None "".

(** The state after a call that raised and a call of [xlim]. *)
Definition two_events : pyplot.backend :=
  after (S := field) (H1 := fraction_str) (Call (Cxlim (Fin 0) (Fin 1)))
    (after (S := field) (H1 := fraction_str) (Plot bad_cloud) pyplot.initial).

Lemma two_events_reachable : reachable (S := field) (H1 := fraction_str) two_events.
Proof. do 2 apply reachable_after. apply reachable_initial. Qed.

Lemma cloud_lawful : lawful cloud.
Proof. split; [apply _..|exact I|exact I|by right]. Qed.

Lemma plots_session_state_witness :
  let l := [bad_cloud; cloud] in
  let n := size (pyplot.figs two_events) in
  let b' := plots (H1 := fraction_str) l two_events in
  size (pyplot.figs b') = (n + length l)%nat /\
  (forall k, (k <= n)%nat -> pyplot.figs b' !! k = pyplot.figs two_events !! k) /\
  (forall i a, l !! i = Some a ->
     pyplot.figs b' !! S (n + i) =
       Some (pyplot.Figure figsize [(plot_scene (H1 := fraction_str) a).1])) /\
  (l <> [] -> pyplot.current b' = Some (n + length l)%nat) /\
  pyplot.shown b' =
    from_option (set_seq 1) (pyplot.shown two_events)
                (last_shown (H1 := fraction_str) n l).
Proof.
  apply (plots_session_state (S := field) (H1 := fraction_str) [bad_cloud; cloud]),
    two_events_reachable.
Defined.

(** In that session the second call returns: the three figures are
    displayed, the two left by calls that raised among them. *)
Example session_all_shown :
  last_shown (H1 := fraction_str) 1 [bad_cloud; cloud] = Some 3%nat.
Proof. apply (last_shown_last 1 [bad_cloud] cloud), lawful_returns, cloud_lawful. Qed.

Lemma plot_opens_one_figure_witness :
  let n := size (pyplot.figs two_events) in
  let b' := after (S := field) (H1 := fraction_str) (Plot cloud) two_events in
  dom (pyplot.figs b') = dom (pyplot.figs two_events) ∪ {[S n]} /\
  size (pyplot.figs b') = S n /\
  pyplot.current b' = Some (S n).
Proof. apply (plot_opens_one_figure (S := field) (H1 := fraction_str)), two_events_reachable. Defined.

Lemma plot_displays_open_figures_witness :
  exists b',
    pyplot.run (plot (S := field) (H1 := fraction_str) cloud) two_events = (Ok tt, b') /\
    pyplot.shown b' = dom (pyplot.figs b') /\
    pyplot.next_num two_events ∈ pyplot.shown b'.
Proof.
  apply (plot_displays_open_figures (S := field) (H1 := fraction_str));
    [apply two_events_reachable|apply cloud_lawful].
Defined.
