(* ===== verification/EndToEnd.v ===== *)
(** * EndToEnd: what a session leaves on the screen

    The components together: a driver has put the backend through any
    session ([Session]); it calls the composer ([PlotHydro]) on a field
    ([Hydro]) and a set of stars ([Stars]); the composer samples the field
    ([MakeMap]) and hands image, markers and limits to the backend
    ([Pyplot]), which draws them ([Raster]). The theorems of this file are
    about the axes of the figure that is current when the call has ended,
    returned or raised. *)

From stdpp Require Import gmap.
From S2P Require Import Prelude Floats Arrays Units Hydro MakeMap Stars Pyplot.
From S2P Require Import PyplotSpec PlotHydro Raster Session.

(** The first axes of the current figure. *)
Definition current_axes (b : pyplot.backend) : option pyplot.axes :=
  n ← pyplot.current b;
  fig ← pyplot.figs b !! n;
  head (pyplot.fig_axes fig).

Section after_plot.
Context {S T : Type} `{FieldEvaluator S} `{particles.StarCollection T} `{FloatFormat}.
Implicit Types (a : plot_args S T) (b : pyplot.backend).

(** After a call of the composer the current axes are those of its scene,
    whether it returned or raised. *)
Lemma current_axes_after_plot a b :
  current_axes (after (Plot a) b) =
    Some (scene (arg_time a) (arg_sph a) (arg_stars a) (arg_L a)
            (arg_offset_x a) (arg_offset_y a) (arg_title a)).1.
Proof.
  unfold after, perform, plot. rewrite plot_run. unfold outcome.
  destruct (scene _ _ _ _ _ _ _) as [ax [e|]]; unfold current_axes; cbn;
    by rewrite lookup_insert_eq.
Qed.

(** The file name does not matter: the code that would use it is commented
    out. *)
Lemma plot_ignores_filename a (filename : option string) b :
  pyplot.run (plot a) b =
  pyplot.run
    (plot (PlotArgs (arg_time a) (arg_sph a) (arg_stars a) (arg_L a) filename
             (arg_offset_x a) (arg_offset_y a) (arg_title a))) b.
Proof. unfold plot. by rewrite !plot_run. Qed.

(** In a session the new figure has the next number. *)
Lemma current_after_plot a b :
  reachable b ->
  pyplot.current (after (Plot a) b) = Some (Datatypes.S (size (pyplot.figs b))).
Proof.
  intros Hb. destruct (figs_after_plot a b) as [_ ->].
  by rewrite (next_num_size b (reachable_ok b Hb)).
Qed.

End after_plot.

(** C35. Stars over gas, at the end of any session. Whatever a driver did
    to the backend before, figures left by calls that raised included, a
    call of the composer on a field given point by point and on stars in
    parsec makes current a new figure, numbered one more than the figures
    open, on whose axes the marker of every star within the limits is at
    the position of the star, over the entry of the image that shows the
    density sampled within one pixel ([L/201] parsec along x and along y)
    of the star. It holds for any title and any time, also when the call
    raises on the time after drawing. *)
Theorem session_shows_stars_over_gas `{FloatFormat} (time : sq) (f : field)
    (l dx dy : Q) (filename : option string) (offset_x offset_y : option sq)
    (title : string) (stars : list particles.particle) (k : nat) (m : fval)
    (sx sy : Q) (b : pyplot.backend) :
  reachable (S := field) (T := particles.particle_set) b ->
  units.u_dim (f_unit f) = units.density_dim -> 0 < l ->
  offset_pc offset_x = Ok (Fin dx) -> offset_pc offset_y = Ok (Fin dy) ->
  stars !! k = Some (particles.Particle m (Fin sx) (Fin sy)) ->
  sx ∈ side l dx -> sy ∈ side l dy ->
  let b' := after (Plot (PlotArgs time f (particles.in_MSun_parsec stars) (Fin l)
                           filename offset_x offset_y title)) b in
  pyplot.current b' = Some (Datatypes.S (size (pyplot.figs b))) /\
  backend_ok b' /\
  exists a mx my p,
    current_axes b' = Some a /\
    marker_at a k = Some (mx, my) /\ mx == sx /\ my == sy /\
    image_at a mx my =
      Some (log_pixel (density_factor (f_unit f)) (density_at f p)) /\
    near p sx sy (l / 201).
Proof.
  intros Hb Hdim Hl Hdx Hdy Hk Hsx Hsy b'.
  split; [by apply current_after_plot|]. split.
  { apply after_ok. exact (reachable_ok b Hb). }
  destruct (star_over_its_sample time f l dx dy offset_x offset_y title stars k m
    sx sy Hdim Hl Hdx Hdy Hk Hsx Hsy) as (mx & my & p & Hm & Emx & Emy & Him & Hp).
  eexists _, mx, my, p. split; [apply current_axes_after_plot|done].
Qed.

Lemma session_shows_stars_over_gas_witness :
  let b' := after (S := field) (H1 := fraction_str)
              (Plot (PlotArgs (units.Quantity (Fin 1) units.kms)
                       (uniform (Fin 1) units.amu_per_cm3)
                       (particles.in_MSun_parsec
                          [particles.Particle (Fin 1) (Fin 2) (Fin 3);
                           particles.Particle (Fin 3) (Fin (-1)) (Fin 0)])
                       (Fin 10) None None None "")) two_events in
  pyplot.current b' = Some (Datatypes.S (size (pyplot.figs two_events))) /\
  backend_ok b' /\
  exists a mx my p,
    current_axes b' = Some a /\
    marker_at a 0 = Some (mx, my) /\ mx == 2 /\ my == 3 /\
    image_at a mx my =
      Some (log_pixel (density_factor units.amu_per_cm3)
              (density_at (uniform (Fin 1) units.amu_per_cm3) p)) /\
    near p 2 3 (10 / 201).
Proof.
  apply (session_shows_stars_over_gas (H := fraction_str)
           (units.Quantity (Fin 1) units.kms) (uniform (Fin 1) units.amu_per_cm3)
           10 0 0 None None None ""
           [particles.Particle (Fin 1) (Fin 2) (Fin 3);
            particles.Particle (Fin 3) (Fin (-1)) (Fin 0)] 0 (Fin 1) 2 3 two_events);
    [apply two_events_reachable|done|done|done|done|done|by vm_compute|by vm_compute].
Defined.
