(* ===== verification/LogScale.v ===== *)
(** * LogScale: the value of a pixel as a real number

    [Floats] keeps the logarithm of a positive rational symbolic
    ([LogOf q]). This file gives it its meaning, the real number
    [ln q / ln 10], and proves what the floor of [1.e-5] gives the image:
    no pixel is below [-5], without rounding and with the argument of the
    logarithm computed in doubles, and a denser sample is never darker. *)

From Stdlib Require Import Reals Qreals Lra.
From S2P Require Import Prelude Floats Binary64 PlotHydro PlotHydroFloat.

(** The decimal logarithm. *)
Definition log10R (x : R) : R := (ln x / ln 10)%R.

(** The real number a [logval] stands for, if it is one. *)
Definition real_of_log (l : logval) : option R :=
  match l with
  | LogOf q => Some (log10R (Q2R q))
  | _ => None
  end.

Lemma ln_10_pos : (0 < ln 10)%R.
Proof. rewrite <- ln_1. apply ln_increasing; Lra.lra. Qed.

Lemma log10R_le (x y : R) : (0 < x)%R -> (x <= y)%R -> (log10R x <= log10R y)%R.
Proof.
  intros Hx [Hlt| ->]; [|apply Rle_refl]. unfold log10R.
  apply Rmult_le_compat_r; [left; apply Rinv_0_lt_compat, ln_10_pos|].
  left. by apply ln_increasing.
Qed.

Lemma log10R_lt (x y : R) : (0 < x)%R -> (x < y)%R -> (log10R x < log10R y)%R.
Proof.
  intros Hx Hlt. unfold log10R.
  apply Rmult_lt_compat_r; [apply Rinv_0_lt_compat, ln_10_pos|].
  by apply ln_increasing.
Qed.

Lemma log10R_floor : log10R (Q2R 0.00001) = (-5)%R.
Proof.
  unfold log10R. replace (Q2R 0.00001) with (/ 10 ^ 5)%R
    by (unfold Q2R; simpl; Lra.lra).
  rewrite ln_Rinv by (apply pow_lt; Lra.lra). rewrite ln_pow by Lra.lra.
  pose proof ln_10_pos. simpl. field. Lra.lra.
Qed.

Lemma Q2R_pos (q : Q) : 0 < q -> (0 < Q2R q)%R.
Proof. intros Hq. rewrite <- RMicromega.Q2R_0. by apply Qlt_Rlt. Qed.

(** The argument of the logarithm of a pixel. *)
Lemma log_pixel_LogOf (k q : Q) :
  0 < k -> 0 <= q -> log_pixel k (Fin q) = LogOf (0.00001 + q * k).
Proof.
  intros Hk Hq. unfold log_pixel. cbn [fmul fadd]. apply flog10_pos. Lqa.nra.
Qed.

(** As a real number a pixel of a finite density that is not negative
    is at least [-5], the logarithm of the floor. *)
Theorem pixel_at_least_minus_five (k q : Q) :
  0 < k -> 0 <= q ->
  exists r, real_of_log (log_pixel k (Fin q)) = Some r /\ (-5 <= r)%R.
Proof.
  intros Hk Hq. rewrite log_pixel_LogOf by done. eexists. split; [done|].
  rewrite <- log10R_floor. apply log10R_le; [by apply Q2R_pos|].
  apply Qle_Rle. Lqa.nra.
Qed.

Lemma pixel_at_least_minus_five_witness :
  exists r, real_of_log (log_pixel 1 (Fin 0)) = Some r /\ (-5 <= r)%R.
Proof. apply (pixel_at_least_minus_five 1 0); by vm_compute. Defined.

(** The image keeps the order of the densities: of two finite
    densities that are not negative the larger one gets the larger pixel
    value, or the same. *)
Theorem pixel_monotone (k p q : Q) :
  0 < k -> 0 <= p -> p <= q ->
  exists r s,
    real_of_log (log_pixel k (Fin p)) = Some r /\
    real_of_log (log_pixel k (Fin q)) = Some s /\ (r <= s)%R.
Proof.
  intros Hk Hp Hpq. rewrite !log_pixel_LogOf by (try done; Lqa.lra).
  eexists _, _. split_and!; [done..|].
  apply log10R_le; [apply Q2R_pos; Lqa.nra|]. apply Qle_Rle. Lqa.nra.
Qed.

Lemma pixel_monotone_witness :
  exists r s,
    real_of_log (log_pixel 1 (Fin 1)) = Some r /\
    real_of_log (log_pixel 1 (Fin 100)) = Some s /\ (r <= s)%R.
Proof. apply (pixel_monotone 1 1 100); by vm_compute. Defined.

(** ** The pixel with its argument computed in doubles *)

(** C38. In doubles no pixel is at or below [-5]: for a density [v] in amu
    per cubic centimetre that is not negative, the argument [1.e-5 + v]
    computed in doubles, when it did not overflow, is at least the double
    nearest to [1.e-5], which is above [10^-5]; its logarithm is a real
    number above [-5]. *)
Theorem pixel64_above_minus_five (v : fval) :
  fle (Fin 0) v -> is_finite (log_arg64 v) = true ->
  exists r, real_of_log (log_pixel64 v) = Some r /\ (-5 < r)%R.
Proof.
  intros Hv Hfin. pose proof (log_arg64_floor v Hv) as Hfl.
  rewrite floor64_value in Hfl. unfold log_pixel64.
  destruct (log_arg64 v) as [y| | |]; try done.
  cbn [fle] in Hfl. pose proof floor_q_above as Hq.
  rewrite flog10_pos by Lqa.lra. eexists. split; [done|].
  rewrite <- log10R_floor. apply log10R_lt; [by apply Q2R_pos|].
  apply Qlt_Rlt. Lqa.lra.
Qed.

Lemma pixel64_above_minus_five_witness :
  exists r, real_of_log (log_pixel64 (Fin 1)) = Some r /\ (-5 < r)%R.
Proof. apply (pixel64_above_minus_five (Fin 1)); by vm_compute. Defined.
